(** * CATNESEMU: a shallow embedding of the NES emulator cores

    The repository holds several successive variants of one Python NES
    emulator.  This development embeds the functions of the variants the
    specification was written from:

    - [EMUNES5]   : [src/EMUNES5.23.251.0A.py]  (ROM loader, cartridge, bus,
                    the complete 6502 core, the PPU);
    - [MonikaNES] : [src/MonikaNES.py]          (bus, CPU reset / ADC /
                    branch, the PPU);
    - [CATNES5]   : [src/CATNES5.23.251.0AA.py] (ROM loader and cartridge);
    - [GIGA]      : [src/ChatGPTPRO5.23.25EMUAINES.py] (iNES header, loader).

    Python integers are unbounded, so every register is a [Z] and the masks
    the source applies ([& 0xFF], [& 0xFFFF], ...) are written out exactly
    where the source has them.  An object that is mutated in place is a
    field of the machine state; a method is a computation in a state and
    exception monad. *)

From Stdlib Require Import Bool String ZArith List Lia.
From Stdlib Require Import Strings.Byte.
Import ListNotations.
Open Scope Z_scope.

(** ** Python exceptions and results *)

Inductive PyExc : Type :=
| IndexError
| ValueError
| AttributeError
| KeyError
| ZeroDivisionError.

Inductive Result (A : Type) : Type :=
| Ok (a : A)
| Raise (e : PyExc).
Arguments Ok {A} a.
Arguments Raise {A} e.

Definition is_ok {A} (r : Result A) : bool :=
  match r with Ok _ => true | Raise _ => false end.

(** ** The state and exception monad of a method call *)

Definition M (S A : Type) : Type := S -> Result (A * S).

Definition ret {S A} (a : A) : M S A := fun s => Ok (a, s).

Definition bind {S A B} (c : M S A) (k : A -> M S B) : M S B :=
  fun s => match c s with
           | Ok (a, s') => k a s'
           | Raise e => Raise e
           end.

Definition raise {S A} (e : PyExc) : M S A := fun _ => Raise e.

Definition get {S} : M S S := fun s => Ok (s, s).

Definition gets {S A} (f : S -> A) : M S A := fun s => Ok (f s, s).

Definition modify {S} (f : S -> S) : M S unit := fun s => Ok (tt, f s).

Definition lift {S A} (r : Result A) : M S A :=
  fun s => match r with Ok a => Ok (a, s) | Raise e => Raise e end.

Definition when_ {S} (b : bool) (c : M S unit) : M S unit :=
  if b then c else ret tt.

Declare Scope py_scope.
Delimit Scope py_scope with py.
Notation "x <- c ;; k" := (bind c (fun x => k))
  (at level 61, c at next level, right associativity) : py_scope.
Notation "c ;; k" := (bind c (fun _ => k))
  (at level 61, right associativity) : py_scope.
Open Scope py_scope.

(** The state a computation ends in, when it returns. *)
Definition exec {S A} (c : M S A) (s : S) : option S :=
  match c s with Ok (_, s') => Some s' | Raise _ => None end.

(** The value a computation returns. *)
Definition eval {S A} (c : M S A) (s : S) : option A :=
  match c s with Ok (a, _) => Some a | Raise _ => None end.

(** [c] run [n] times in sequence (a [for _ in range(n)] loop around a
    call). *)
Fixpoint repeat_m {S} (n : nat) (c : M S unit) : M S unit :=
  match n with
  | O => ret tt
  | Datatypes.S n' => c ;; repeat_m n' c
  end.

(** ** Python integers, truth values and sequences *)

(** Truth value of an integer in a condition. *)
Definition truthy (z : Z) : bool := negb (z =? 0).

(** [lo <= z <= hi] as Python's chained comparison. *)
Definition between (lo z hi : Z) : bool := (lo <=? z) && (z <=? hi).

(** An index into a sequence of length [n]: negative indices count from
    the end, anything else out of range is an [IndexError]. *)
Definition norm_index (n : nat) (i : Z) : Result nat :=
  let j := if i <? 0 then i + Z.of_nat n else i in
  if (0 <=? j) && (j <? Z.of_nat n) then Ok (Z.to_nat j) else Raise IndexError.

Fixpoint list_update {A} (l : list A) (n : nat) (v : A) : list A :=
  match l, n with
  | [], _ => []
  | _ :: tl, O => v :: tl
  | hd :: tl, Datatypes.S n' => hd :: list_update tl n' v
  end.

(** [l[i]] *)
Definition py_getitem {A} (l : list A) (i : Z) : Result A :=
  match norm_index (length l) i with
  | Ok j => match nth_error l j with
            | Some v => Ok v
            | None => Raise IndexError
            end
  | Raise e => Raise e
  end.

(** [l[i] = v] on a list. *)
Definition py_setitem {A} (l : list A) (i : Z) (v : A) : Result (list A) :=
  match norm_index (length l) i with
  | Ok j => Ok (list_update l j v)
  | Raise e => Raise e
  end.

(** [b[i] = v] on a [bytearray]: the value must be in [range(256)]. *)
Definition bytearray_setitem (l : list Z) (i v : Z) : Result (list Z) :=
  if between 0 v 255 then py_setitem l i v else Raise ValueError.

(** [l[lo:hi]] for non-negative bounds: the slice is clamped to the
    sequence, it never fails. *)
Definition py_slice {A} (l : list A) (lo hi : Z) : list A :=
  firstn (Z.to_nat (hi - lo)) (skipn (Z.to_nat lo) l).

(** [bytearray(n)] *)
Definition bytearray (n : Z) : list Z := repeat 0 (Z.to_nat n).

(** The integer value of one element of a [bytes] object. *)
Definition byte_val (b : byte) : Z := Z.of_N (Byte.to_N b).

Definition bytes_eqb (x y : list byte) : bool :=
  if list_eq_dec Byte.byte_eq_dec x y then true else false.

(** [b"NES\x1A"] *)
Definition NES_MAGIC : list byte := [x4e; x45; x53; x1a].

(** [a >> n]: a negative shift count is a [ValueError]. *)
Definition py_rshift (a n : Z) : Result Z :=
  if n <? 0 then Raise ValueError else Ok (Z.shiftr a n).

(** ** Names of the 6502 addressing modes and operations

    The instruction tables of the cores hold bound methods; the embedding
    holds these names instead, and each core maps a name to its method. *)

Inductive AddrMode : Type :=
| mIMP | mACC | mIMM | mZP0 | mZPX | mZPY | mREL
| mABS | mABX | mABY | mIND | mIZX | mIZY.

Inductive Operation : Type :=
| oADC | oAND | oASL | oBCC | oBCS | oBEQ | oBIT | oBMI | oBNE | oBPL
| oBRK | oBVC | oBVS | oCLC | oCLD | oCLI | oCLV | oCMP | oCPX | oCPY
| oDEC | oDEX | oDEY | oEOR | oINC | oINX | oINY | oJMP | oJSR | oLDA
| oLDX | oLDY | oLSR | oNOP | oORA | oPHA | oPHP | oPLA | oPLP | oROL
| oROR | oRTI | oRTS | oSBC | oSEC | oSED | oSEI | oSTA | oSTX | oSTY
| oTAX | oTAY | oTSX | oTXA | oTXS | oTYA.

Definition AddrMode_eqb (m1 m2 : AddrMode) : bool :=
  match m1, m2 with
  | mIMP, mIMP | mACC, mACC | mIMM, mIMM | mZP0, mZP0 | mZPX, mZPX
  | mZPY, mZPY | mREL, mREL | mABS, mABS | mABX, mABX | mABY, mABY
  | mIND, mIND | mIZX, mIZX | mIZY, mIZY => true
  | _, _ => false
  end.

(** * The [EMUNES5.23.251.0A.py] variant *)

Module EMUNES5.

Definition NES_WIDTH : Z := 256.
Definition NES_HEIGHT : Z := 240.

(** ** ROM loader *)

Record NESRom : Type := mkNESRom {
  data : list byte;
  header : list byte;
  prg_rom_size : Z;
  chr_rom_size : Z;
  mapper : Z;
  mirror_mode : Z;
  battery_backed : bool;
  trainer_present : bool;
  prg_rom_start : Z;
  prg_rom : list byte;
  chr_rom_start : Z;
  chr_rom : list byte;
  chr_ram : option (list Z)
}.

Definition set_chr_ram (v' : option (list Z)) (r : NESRom) : NESRom :=
  mkNESRom r.(data) r.(header) r.(prg_rom_size) r.(chr_rom_size) r.(mapper)
           r.(mirror_mode) r.(battery_backed) r.(trainer_present)
           r.(prg_rom_start) r.(prg_rom) r.(chr_rom_start) r.(chr_rom) v'.

(** [header[i]] as an integer. *)
Definition hdr (h : list byte) (i : Z) : Result Z :=
  match py_getitem h i with
  | Ok b => Ok (byte_val b)
  | Raise e => Raise e
  end.

(** [NESRom.__init__]; the final [print] only writes to the console. *)
Definition NESRom_init (data : list byte) : Result NESRom :=
  let header := py_slice data 0 16 in
  if negb (bytes_eqb (py_slice header 0 4) NES_MAGIC) then Raise ValueError
  else
    match hdr header 4, hdr header 5, hdr header 7, hdr header 6 with
    | Ok h4, Ok h5, Ok h7, Ok h6 =>
        let prg_rom_size := h4 * 16384 in
        let chr_rom_size := h5 * 8192 in
        let mapper := Z.lor (Z.shiftr (Z.land h7 0xF0) 4) (Z.land h6 0xF0) in
        let mirror_mode := Z.land h6 0x01 in
        let battery_backed := negb (Z.land h6 0x02 =? 0) in
        let trainer_present := negb (Z.land h6 0x04 =? 0) in
        let prg_rom_start := if trainer_present then 16 + 512 else 16 in
        let prg_rom := py_slice data prg_rom_start (prg_rom_start + prg_rom_size) in
        let chr_rom_start := prg_rom_start + prg_rom_size in
        let chr_rom := py_slice data chr_rom_start (chr_rom_start + chr_rom_size) in
        let chr_ram := if chr_rom_size =? 0 then Some (bytearray 8192) else None in
        Ok (mkNESRom data header prg_rom_size chr_rom_size mapper mirror_mode
                     battery_backed trainer_present prg_rom_start prg_rom
                     chr_rom_start chr_rom chr_ram)
    | Raise e, _, _, _ => Raise e
    | _, Raise e, _, _ => Raise e
    | _, _, Raise e, _ => Raise e
    | _, _, _, Raise e => Raise e
    end.

Definition rom_byte (l : list byte) (i : Z) : Result Z :=
  match py_getitem l i with
  | Ok b => Ok (byte_val b)
  | Raise e => Raise e
  end.

Definition read_prg (r : NESRom) (addr : Z) : Result Z :=
  if r.(mapper) =? 0 then
    if r.(prg_rom_size) =? 16384 then rom_byte r.(prg_rom) (Z.land addr 0x3FFF)
    else rom_byte r.(prg_rom) (Z.land addr 0x7FFF)
  else Ok 0.

Definition write_prg (r : NESRom) (addr data : Z) : Result NESRom := Ok r.

(** Subscripting [None] is a [TypeError]; it is folded into
    [AttributeError] here (both are "used [None] as an object"). *)
Definition read_chr (r : NESRom) (addr : Z) : Result Z :=
  if r.(chr_rom_size) >? 0 then
    rom_byte r.(chr_rom) (Z.land addr (r.(chr_rom_size) - 1))
  else
    match r.(chr_ram) with
    | Some ram => py_getitem ram (Z.land addr 0x1FFF)
    | None => Raise AttributeError
    end.

Definition write_chr (r : NESRom) (addr data : Z) : Result NESRom :=
  match r.(chr_ram) with
  | Some ram =>
      match bytearray_setitem ram (Z.land addr 0x1FFF) data with
      | Ok ram' => Ok (set_chr_ram (Some ram') r)
      | Raise e => Raise e
      end
  | None => Ok r
  end.

(** ** Cartridge *)

Record Cartridge : Type := mkCartridge { rom : NESRom }.

Definition Cartridge_init (r : NESRom) : Cartridge := mkCartridge r.

(** The methods return [None] (here: Rocq's [None]) for an address the
    cartridge does not decode. *)
Definition cart_cpu_read (c : Cartridge) (addr : Z) : Result (option Z) :=
  if between 0x8000 addr 0xFFFF then
    match read_prg c.(rom) (addr - 0x8000) with
    | Ok d => Ok (Some d)
    | Raise e => Raise e
    end
  else Ok None.

Definition cart_cpu_write (c : Cartridge) (addr data : Z) : Result (bool * Cartridge) :=
  if between 0x8000 addr 0xFFFF then
    match write_prg c.(rom) (addr - 0x8000) data with
    | Ok r => Ok (true, mkCartridge r)
    | Raise e => Raise e
    end
  else Ok (false, c).

Definition cart_ppu_read (c : Cartridge) (addr : Z) : Result (option Z) :=
  if between 0x0000 addr 0x1FFF then
    match read_chr c.(rom) addr with
    | Ok d => Ok (Some d)
    | Raise e => Raise e
    end
  else Ok None.

Definition cart_ppu_write (c : Cartridge) (addr data : Z) : Result (bool * Cartridge) :=
  if between 0x0000 addr 0x1FFF then
    match write_chr c.(rom) addr data with
    | Ok r => Ok (true, mkCartridge r)
    | Raise e => Raise e
    end
  else Ok (false, c).

(** ** Machine state *)

Module Cpu.
(** Fields of [CPU6502.__init__] (the lookup table is the constant [lookup] below). *)
Record state : Type := mk {
  a : Z;
  x : Z;
  y : Z;
  stkp : Z;
  pc : Z;
  status : Z;
  fetched : Z;
  addr_abs : Z;
  addr_rel : Z;
  opcode : Z;
  cycles : Z;
  dma_page : Z;
  dma_addr : Z;
  dma_data : Z;
  dma_transfer : bool;
  dma_dummy : bool
}.
Definition set_a (v' : Z) (s : state) : state :=
  mk v' (s.(x)) (s.(y)) (s.(stkp)) (s.(pc)) (s.(status)) (s.(fetched)) (s.(addr_abs)) (s.(addr_rel)) (s.(opcode)) (s.(cycles)) (s.(dma_page)) (s.(dma_addr)) (s.(dma_data)) (s.(dma_transfer)) (s.(dma_dummy)).
Definition set_x (v' : Z) (s : state) : state :=
  mk (s.(a)) v' (s.(y)) (s.(stkp)) (s.(pc)) (s.(status)) (s.(fetched)) (s.(addr_abs)) (s.(addr_rel)) (s.(opcode)) (s.(cycles)) (s.(dma_page)) (s.(dma_addr)) (s.(dma_data)) (s.(dma_transfer)) (s.(dma_dummy)).
Definition set_y (v' : Z) (s : state) : state :=
  mk (s.(a)) (s.(x)) v' (s.(stkp)) (s.(pc)) (s.(status)) (s.(fetched)) (s.(addr_abs)) (s.(addr_rel)) (s.(opcode)) (s.(cycles)) (s.(dma_page)) (s.(dma_addr)) (s.(dma_data)) (s.(dma_transfer)) (s.(dma_dummy)).
Definition set_stkp (v' : Z) (s : state) : state :=
  mk (s.(a)) (s.(x)) (s.(y)) v' (s.(pc)) (s.(status)) (s.(fetched)) (s.(addr_abs)) (s.(addr_rel)) (s.(opcode)) (s.(cycles)) (s.(dma_page)) (s.(dma_addr)) (s.(dma_data)) (s.(dma_transfer)) (s.(dma_dummy)).
Definition set_pc (v' : Z) (s : state) : state :=
  mk (s.(a)) (s.(x)) (s.(y)) (s.(stkp)) v' (s.(status)) (s.(fetched)) (s.(addr_abs)) (s.(addr_rel)) (s.(opcode)) (s.(cycles)) (s.(dma_page)) (s.(dma_addr)) (s.(dma_data)) (s.(dma_transfer)) (s.(dma_dummy)).
Definition set_status (v' : Z) (s : state) : state :=
  mk (s.(a)) (s.(x)) (s.(y)) (s.(stkp)) (s.(pc)) v' (s.(fetched)) (s.(addr_abs)) (s.(addr_rel)) (s.(opcode)) (s.(cycles)) (s.(dma_page)) (s.(dma_addr)) (s.(dma_data)) (s.(dma_transfer)) (s.(dma_dummy)).
Definition set_fetched (v' : Z) (s : state) : state :=
  mk (s.(a)) (s.(x)) (s.(y)) (s.(stkp)) (s.(pc)) (s.(status)) v' (s.(addr_abs)) (s.(addr_rel)) (s.(opcode)) (s.(cycles)) (s.(dma_page)) (s.(dma_addr)) (s.(dma_data)) (s.(dma_transfer)) (s.(dma_dummy)).
Definition set_addr_abs (v' : Z) (s : state) : state :=
  mk (s.(a)) (s.(x)) (s.(y)) (s.(stkp)) (s.(pc)) (s.(status)) (s.(fetched)) v' (s.(addr_rel)) (s.(opcode)) (s.(cycles)) (s.(dma_page)) (s.(dma_addr)) (s.(dma_data)) (s.(dma_transfer)) (s.(dma_dummy)).
Definition set_addr_rel (v' : Z) (s : state) : state :=
  mk (s.(a)) (s.(x)) (s.(y)) (s.(stkp)) (s.(pc)) (s.(status)) (s.(fetched)) (s.(addr_abs)) v' (s.(opcode)) (s.(cycles)) (s.(dma_page)) (s.(dma_addr)) (s.(dma_data)) (s.(dma_transfer)) (s.(dma_dummy)).
Definition set_opcode (v' : Z) (s : state) : state :=
  mk (s.(a)) (s.(x)) (s.(y)) (s.(stkp)) (s.(pc)) (s.(status)) (s.(fetched)) (s.(addr_abs)) (s.(addr_rel)) v' (s.(cycles)) (s.(dma_page)) (s.(dma_addr)) (s.(dma_data)) (s.(dma_transfer)) (s.(dma_dummy)).
Definition set_cycles (v' : Z) (s : state) : state :=
  mk (s.(a)) (s.(x)) (s.(y)) (s.(stkp)) (s.(pc)) (s.(status)) (s.(fetched)) (s.(addr_abs)) (s.(addr_rel)) (s.(opcode)) v' (s.(dma_page)) (s.(dma_addr)) (s.(dma_data)) (s.(dma_transfer)) (s.(dma_dummy)).
Definition set_dma_page (v' : Z) (s : state) : state :=
  mk (s.(a)) (s.(x)) (s.(y)) (s.(stkp)) (s.(pc)) (s.(status)) (s.(fetched)) (s.(addr_abs)) (s.(addr_rel)) (s.(opcode)) (s.(cycles)) v' (s.(dma_addr)) (s.(dma_data)) (s.(dma_transfer)) (s.(dma_dummy)).
Definition set_dma_addr (v' : Z) (s : state) : state :=
  mk (s.(a)) (s.(x)) (s.(y)) (s.(stkp)) (s.(pc)) (s.(status)) (s.(fetched)) (s.(addr_abs)) (s.(addr_rel)) (s.(opcode)) (s.(cycles)) (s.(dma_page)) v' (s.(dma_data)) (s.(dma_transfer)) (s.(dma_dummy)).
Definition set_dma_data (v' : Z) (s : state) : state :=
  mk (s.(a)) (s.(x)) (s.(y)) (s.(stkp)) (s.(pc)) (s.(status)) (s.(fetched)) (s.(addr_abs)) (s.(addr_rel)) (s.(opcode)) (s.(cycles)) (s.(dma_page)) (s.(dma_addr)) v' (s.(dma_transfer)) (s.(dma_dummy)).
Definition set_dma_transfer (v' : bool) (s : state) : state :=
  mk (s.(a)) (s.(x)) (s.(y)) (s.(stkp)) (s.(pc)) (s.(status)) (s.(fetched)) (s.(addr_abs)) (s.(addr_rel)) (s.(opcode)) (s.(cycles)) (s.(dma_page)) (s.(dma_addr)) (s.(dma_data)) v' (s.(dma_dummy)).
Definition set_dma_dummy (v' : bool) (s : state) : state :=
  mk (s.(a)) (s.(x)) (s.(y)) (s.(stkp)) (s.(pc)) (s.(status)) (s.(fetched)) (s.(addr_abs)) (s.(addr_rel)) (s.(opcode)) (s.(cycles)) (s.(dma_page)) (s.(dma_addr)) (s.(dma_data)) (s.(dma_transfer)) v'.
End Cpu.

Module Ppu.
(** Fields of [PPU2C02.__init__]; the colour table [palette] is a constant. *)
Record state : Type := mk {
  ppuctrl : Z;
  ppumask : Z;
  ppustatus : Z;
  oamaddr : Z;
  v : Z;
  t : Z;
  x : Z;
  w : Z;
  f : Z;
  ppudata_buffer : Z;
  vram : list Z;
  palette_ram : list Z;
  oam : list Z;
  scanline : Z;
  cycle : Z;
  frame_complete : bool;
  bg_next_tile_id : Z;
  bg_next_tile_attrib : Z;
  bg_next_tile_lsb : Z;
  bg_next_tile_msb : Z;
  bg_shifter_pattern_lo : Z;
  bg_shifter_pattern_hi : Z;
  bg_shifter_attrib_lo : Z;
  bg_shifter_attrib_hi : Z;
  screen : list (list Z)
}.
Definition set_ppuctrl (v' : Z) (s : state) : state :=
  mk v' (s.(ppumask)) (s.(ppustatus)) (s.(oamaddr)) (s.(v)) (s.(t)) (s.(x)) (s.(w)) (s.(f)) (s.(ppudata_buffer)) (s.(vram)) (s.(palette_ram)) (s.(oam)) (s.(scanline)) (s.(cycle)) (s.(frame_complete)) (s.(bg_next_tile_id)) (s.(bg_next_tile_attrib)) (s.(bg_next_tile_lsb)) (s.(bg_next_tile_msb)) (s.(bg_shifter_pattern_lo)) (s.(bg_shifter_pattern_hi)) (s.(bg_shifter_attrib_lo)) (s.(bg_shifter_attrib_hi)) (s.(screen)).
Definition set_ppumask (v' : Z) (s : state) : state :=
  mk (s.(ppuctrl)) v' (s.(ppustatus)) (s.(oamaddr)) (s.(v)) (s.(t)) (s.(x)) (s.(w)) (s.(f)) (s.(ppudata_buffer)) (s.(vram)) (s.(palette_ram)) (s.(oam)) (s.(scanline)) (s.(cycle)) (s.(frame_complete)) (s.(bg_next_tile_id)) (s.(bg_next_tile_attrib)) (s.(bg_next_tile_lsb)) (s.(bg_next_tile_msb)) (s.(bg_shifter_pattern_lo)) (s.(bg_shifter_pattern_hi)) (s.(bg_shifter_attrib_lo)) (s.(bg_shifter_attrib_hi)) (s.(screen)).
Definition set_ppustatus (v' : Z) (s : state) : state :=
  mk (s.(ppuctrl)) (s.(ppumask)) v' (s.(oamaddr)) (s.(v)) (s.(t)) (s.(x)) (s.(w)) (s.(f)) (s.(ppudata_buffer)) (s.(vram)) (s.(palette_ram)) (s.(oam)) (s.(scanline)) (s.(cycle)) (s.(frame_complete)) (s.(bg_next_tile_id)) (s.(bg_next_tile_attrib)) (s.(bg_next_tile_lsb)) (s.(bg_next_tile_msb)) (s.(bg_shifter_pattern_lo)) (s.(bg_shifter_pattern_hi)) (s.(bg_shifter_attrib_lo)) (s.(bg_shifter_attrib_hi)) (s.(screen)).
Definition set_oamaddr (v' : Z) (s : state) : state :=
  mk (s.(ppuctrl)) (s.(ppumask)) (s.(ppustatus)) v' (s.(v)) (s.(t)) (s.(x)) (s.(w)) (s.(f)) (s.(ppudata_buffer)) (s.(vram)) (s.(palette_ram)) (s.(oam)) (s.(scanline)) (s.(cycle)) (s.(frame_complete)) (s.(bg_next_tile_id)) (s.(bg_next_tile_attrib)) (s.(bg_next_tile_lsb)) (s.(bg_next_tile_msb)) (s.(bg_shifter_pattern_lo)) (s.(bg_shifter_pattern_hi)) (s.(bg_shifter_attrib_lo)) (s.(bg_shifter_attrib_hi)) (s.(screen)).
Definition set_v (v' : Z) (s : state) : state :=
  mk (s.(ppuctrl)) (s.(ppumask)) (s.(ppustatus)) (s.(oamaddr)) v' (s.(t)) (s.(x)) (s.(w)) (s.(f)) (s.(ppudata_buffer)) (s.(vram)) (s.(palette_ram)) (s.(oam)) (s.(scanline)) (s.(cycle)) (s.(frame_complete)) (s.(bg_next_tile_id)) (s.(bg_next_tile_attrib)) (s.(bg_next_tile_lsb)) (s.(bg_next_tile_msb)) (s.(bg_shifter_pattern_lo)) (s.(bg_shifter_pattern_hi)) (s.(bg_shifter_attrib_lo)) (s.(bg_shifter_attrib_hi)) (s.(screen)).
Definition set_t (v' : Z) (s : state) : state :=
  mk (s.(ppuctrl)) (s.(ppumask)) (s.(ppustatus)) (s.(oamaddr)) (s.(v)) v' (s.(x)) (s.(w)) (s.(f)) (s.(ppudata_buffer)) (s.(vram)) (s.(palette_ram)) (s.(oam)) (s.(scanline)) (s.(cycle)) (s.(frame_complete)) (s.(bg_next_tile_id)) (s.(bg_next_tile_attrib)) (s.(bg_next_tile_lsb)) (s.(bg_next_tile_msb)) (s.(bg_shifter_pattern_lo)) (s.(bg_shifter_pattern_hi)) (s.(bg_shifter_attrib_lo)) (s.(bg_shifter_attrib_hi)) (s.(screen)).
Definition set_x (v' : Z) (s : state) : state :=
  mk (s.(ppuctrl)) (s.(ppumask)) (s.(ppustatus)) (s.(oamaddr)) (s.(v)) (s.(t)) v' (s.(w)) (s.(f)) (s.(ppudata_buffer)) (s.(vram)) (s.(palette_ram)) (s.(oam)) (s.(scanline)) (s.(cycle)) (s.(frame_complete)) (s.(bg_next_tile_id)) (s.(bg_next_tile_attrib)) (s.(bg_next_tile_lsb)) (s.(bg_next_tile_msb)) (s.(bg_shifter_pattern_lo)) (s.(bg_shifter_pattern_hi)) (s.(bg_shifter_attrib_lo)) (s.(bg_shifter_attrib_hi)) (s.(screen)).
Definition set_w (v' : Z) (s : state) : state :=
  mk (s.(ppuctrl)) (s.(ppumask)) (s.(ppustatus)) (s.(oamaddr)) (s.(v)) (s.(t)) (s.(x)) v' (s.(f)) (s.(ppudata_buffer)) (s.(vram)) (s.(palette_ram)) (s.(oam)) (s.(scanline)) (s.(cycle)) (s.(frame_complete)) (s.(bg_next_tile_id)) (s.(bg_next_tile_attrib)) (s.(bg_next_tile_lsb)) (s.(bg_next_tile_msb)) (s.(bg_shifter_pattern_lo)) (s.(bg_shifter_pattern_hi)) (s.(bg_shifter_attrib_lo)) (s.(bg_shifter_attrib_hi)) (s.(screen)).
Definition set_f (v' : Z) (s : state) : state :=
  mk (s.(ppuctrl)) (s.(ppumask)) (s.(ppustatus)) (s.(oamaddr)) (s.(v)) (s.(t)) (s.(x)) (s.(w)) v' (s.(ppudata_buffer)) (s.(vram)) (s.(palette_ram)) (s.(oam)) (s.(scanline)) (s.(cycle)) (s.(frame_complete)) (s.(bg_next_tile_id)) (s.(bg_next_tile_attrib)) (s.(bg_next_tile_lsb)) (s.(bg_next_tile_msb)) (s.(bg_shifter_pattern_lo)) (s.(bg_shifter_pattern_hi)) (s.(bg_shifter_attrib_lo)) (s.(bg_shifter_attrib_hi)) (s.(screen)).
Definition set_ppudata_buffer (v' : Z) (s : state) : state :=
  mk (s.(ppuctrl)) (s.(ppumask)) (s.(ppustatus)) (s.(oamaddr)) (s.(v)) (s.(t)) (s.(x)) (s.(w)) (s.(f)) v' (s.(vram)) (s.(palette_ram)) (s.(oam)) (s.(scanline)) (s.(cycle)) (s.(frame_complete)) (s.(bg_next_tile_id)) (s.(bg_next_tile_attrib)) (s.(bg_next_tile_lsb)) (s.(bg_next_tile_msb)) (s.(bg_shifter_pattern_lo)) (s.(bg_shifter_pattern_hi)) (s.(bg_shifter_attrib_lo)) (s.(bg_shifter_attrib_hi)) (s.(screen)).
Definition set_vram (v' : list Z) (s : state) : state :=
  mk (s.(ppuctrl)) (s.(ppumask)) (s.(ppustatus)) (s.(oamaddr)) (s.(v)) (s.(t)) (s.(x)) (s.(w)) (s.(f)) (s.(ppudata_buffer)) v' (s.(palette_ram)) (s.(oam)) (s.(scanline)) (s.(cycle)) (s.(frame_complete)) (s.(bg_next_tile_id)) (s.(bg_next_tile_attrib)) (s.(bg_next_tile_lsb)) (s.(bg_next_tile_msb)) (s.(bg_shifter_pattern_lo)) (s.(bg_shifter_pattern_hi)) (s.(bg_shifter_attrib_lo)) (s.(bg_shifter_attrib_hi)) (s.(screen)).
Definition set_palette_ram (v' : list Z) (s : state) : state :=
  mk (s.(ppuctrl)) (s.(ppumask)) (s.(ppustatus)) (s.(oamaddr)) (s.(v)) (s.(t)) (s.(x)) (s.(w)) (s.(f)) (s.(ppudata_buffer)) (s.(vram)) v' (s.(oam)) (s.(scanline)) (s.(cycle)) (s.(frame_complete)) (s.(bg_next_tile_id)) (s.(bg_next_tile_attrib)) (s.(bg_next_tile_lsb)) (s.(bg_next_tile_msb)) (s.(bg_shifter_pattern_lo)) (s.(bg_shifter_pattern_hi)) (s.(bg_shifter_attrib_lo)) (s.(bg_shifter_attrib_hi)) (s.(screen)).
Definition set_oam (v' : list Z) (s : state) : state :=
  mk (s.(ppuctrl)) (s.(ppumask)) (s.(ppustatus)) (s.(oamaddr)) (s.(v)) (s.(t)) (s.(x)) (s.(w)) (s.(f)) (s.(ppudata_buffer)) (s.(vram)) (s.(palette_ram)) v' (s.(scanline)) (s.(cycle)) (s.(frame_complete)) (s.(bg_next_tile_id)) (s.(bg_next_tile_attrib)) (s.(bg_next_tile_lsb)) (s.(bg_next_tile_msb)) (s.(bg_shifter_pattern_lo)) (s.(bg_shifter_pattern_hi)) (s.(bg_shifter_attrib_lo)) (s.(bg_shifter_attrib_hi)) (s.(screen)).
Definition set_scanline (v' : Z) (s : state) : state :=
  mk (s.(ppuctrl)) (s.(ppumask)) (s.(ppustatus)) (s.(oamaddr)) (s.(v)) (s.(t)) (s.(x)) (s.(w)) (s.(f)) (s.(ppudata_buffer)) (s.(vram)) (s.(palette_ram)) (s.(oam)) v' (s.(cycle)) (s.(frame_complete)) (s.(bg_next_tile_id)) (s.(bg_next_tile_attrib)) (s.(bg_next_tile_lsb)) (s.(bg_next_tile_msb)) (s.(bg_shifter_pattern_lo)) (s.(bg_shifter_pattern_hi)) (s.(bg_shifter_attrib_lo)) (s.(bg_shifter_attrib_hi)) (s.(screen)).
Definition set_cycle (v' : Z) (s : state) : state :=
  mk (s.(ppuctrl)) (s.(ppumask)) (s.(ppustatus)) (s.(oamaddr)) (s.(v)) (s.(t)) (s.(x)) (s.(w)) (s.(f)) (s.(ppudata_buffer)) (s.(vram)) (s.(palette_ram)) (s.(oam)) (s.(scanline)) v' (s.(frame_complete)) (s.(bg_next_tile_id)) (s.(bg_next_tile_attrib)) (s.(bg_next_tile_lsb)) (s.(bg_next_tile_msb)) (s.(bg_shifter_pattern_lo)) (s.(bg_shifter_pattern_hi)) (s.(bg_shifter_attrib_lo)) (s.(bg_shifter_attrib_hi)) (s.(screen)).
Definition set_frame_complete (v' : bool) (s : state) : state :=
  mk (s.(ppuctrl)) (s.(ppumask)) (s.(ppustatus)) (s.(oamaddr)) (s.(v)) (s.(t)) (s.(x)) (s.(w)) (s.(f)) (s.(ppudata_buffer)) (s.(vram)) (s.(palette_ram)) (s.(oam)) (s.(scanline)) (s.(cycle)) v' (s.(bg_next_tile_id)) (s.(bg_next_tile_attrib)) (s.(bg_next_tile_lsb)) (s.(bg_next_tile_msb)) (s.(bg_shifter_pattern_lo)) (s.(bg_shifter_pattern_hi)) (s.(bg_shifter_attrib_lo)) (s.(bg_shifter_attrib_hi)) (s.(screen)).
Definition set_bg_next_tile_id (v' : Z) (s : state) : state :=
  mk (s.(ppuctrl)) (s.(ppumask)) (s.(ppustatus)) (s.(oamaddr)) (s.(v)) (s.(t)) (s.(x)) (s.(w)) (s.(f)) (s.(ppudata_buffer)) (s.(vram)) (s.(palette_ram)) (s.(oam)) (s.(scanline)) (s.(cycle)) (s.(frame_complete)) v' (s.(bg_next_tile_attrib)) (s.(bg_next_tile_lsb)) (s.(bg_next_tile_msb)) (s.(bg_shifter_pattern_lo)) (s.(bg_shifter_pattern_hi)) (s.(bg_shifter_attrib_lo)) (s.(bg_shifter_attrib_hi)) (s.(screen)).
Definition set_bg_next_tile_attrib (v' : Z) (s : state) : state :=
  mk (s.(ppuctrl)) (s.(ppumask)) (s.(ppustatus)) (s.(oamaddr)) (s.(v)) (s.(t)) (s.(x)) (s.(w)) (s.(f)) (s.(ppudata_buffer)) (s.(vram)) (s.(palette_ram)) (s.(oam)) (s.(scanline)) (s.(cycle)) (s.(frame_complete)) (s.(bg_next_tile_id)) v' (s.(bg_next_tile_lsb)) (s.(bg_next_tile_msb)) (s.(bg_shifter_pattern_lo)) (s.(bg_shifter_pattern_hi)) (s.(bg_shifter_attrib_lo)) (s.(bg_shifter_attrib_hi)) (s.(screen)).
Definition set_bg_next_tile_lsb (v' : Z) (s : state) : state :=
  mk (s.(ppuctrl)) (s.(ppumask)) (s.(ppustatus)) (s.(oamaddr)) (s.(v)) (s.(t)) (s.(x)) (s.(w)) (s.(f)) (s.(ppudata_buffer)) (s.(vram)) (s.(palette_ram)) (s.(oam)) (s.(scanline)) (s.(cycle)) (s.(frame_complete)) (s.(bg_next_tile_id)) (s.(bg_next_tile_attrib)) v' (s.(bg_next_tile_msb)) (s.(bg_shifter_pattern_lo)) (s.(bg_shifter_pattern_hi)) (s.(bg_shifter_attrib_lo)) (s.(bg_shifter_attrib_hi)) (s.(screen)).
Definition set_bg_next_tile_msb (v' : Z) (s : state) : state :=
  mk (s.(ppuctrl)) (s.(ppumask)) (s.(ppustatus)) (s.(oamaddr)) (s.(v)) (s.(t)) (s.(x)) (s.(w)) (s.(f)) (s.(ppudata_buffer)) (s.(vram)) (s.(palette_ram)) (s.(oam)) (s.(scanline)) (s.(cycle)) (s.(frame_complete)) (s.(bg_next_tile_id)) (s.(bg_next_tile_attrib)) (s.(bg_next_tile_lsb)) v' (s.(bg_shifter_pattern_lo)) (s.(bg_shifter_pattern_hi)) (s.(bg_shifter_attrib_lo)) (s.(bg_shifter_attrib_hi)) (s.(screen)).
Definition set_bg_shifter_pattern_lo (v' : Z) (s : state) : state :=
  mk (s.(ppuctrl)) (s.(ppumask)) (s.(ppustatus)) (s.(oamaddr)) (s.(v)) (s.(t)) (s.(x)) (s.(w)) (s.(f)) (s.(ppudata_buffer)) (s.(vram)) (s.(palette_ram)) (s.(oam)) (s.(scanline)) (s.(cycle)) (s.(frame_complete)) (s.(bg_next_tile_id)) (s.(bg_next_tile_attrib)) (s.(bg_next_tile_lsb)) (s.(bg_next_tile_msb)) v' (s.(bg_shifter_pattern_hi)) (s.(bg_shifter_attrib_lo)) (s.(bg_shifter_attrib_hi)) (s.(screen)).
Definition set_bg_shifter_pattern_hi (v' : Z) (s : state) : state :=
  mk (s.(ppuctrl)) (s.(ppumask)) (s.(ppustatus)) (s.(oamaddr)) (s.(v)) (s.(t)) (s.(x)) (s.(w)) (s.(f)) (s.(ppudata_buffer)) (s.(vram)) (s.(palette_ram)) (s.(oam)) (s.(scanline)) (s.(cycle)) (s.(frame_complete)) (s.(bg_next_tile_id)) (s.(bg_next_tile_attrib)) (s.(bg_next_tile_lsb)) (s.(bg_next_tile_msb)) (s.(bg_shifter_pattern_lo)) v' (s.(bg_shifter_attrib_lo)) (s.(bg_shifter_attrib_hi)) (s.(screen)).
Definition set_bg_shifter_attrib_lo (v' : Z) (s : state) : state :=
  mk (s.(ppuctrl)) (s.(ppumask)) (s.(ppustatus)) (s.(oamaddr)) (s.(v)) (s.(t)) (s.(x)) (s.(w)) (s.(f)) (s.(ppudata_buffer)) (s.(vram)) (s.(palette_ram)) (s.(oam)) (s.(scanline)) (s.(cycle)) (s.(frame_complete)) (s.(bg_next_tile_id)) (s.(bg_next_tile_attrib)) (s.(bg_next_tile_lsb)) (s.(bg_next_tile_msb)) (s.(bg_shifter_pattern_lo)) (s.(bg_shifter_pattern_hi)) v' (s.(bg_shifter_attrib_hi)) (s.(screen)).
Definition set_bg_shifter_attrib_hi (v' : Z) (s : state) : state :=
  mk (s.(ppuctrl)) (s.(ppumask)) (s.(ppustatus)) (s.(oamaddr)) (s.(v)) (s.(t)) (s.(x)) (s.(w)) (s.(f)) (s.(ppudata_buffer)) (s.(vram)) (s.(palette_ram)) (s.(oam)) (s.(scanline)) (s.(cycle)) (s.(frame_complete)) (s.(bg_next_tile_id)) (s.(bg_next_tile_attrib)) (s.(bg_next_tile_lsb)) (s.(bg_next_tile_msb)) (s.(bg_shifter_pattern_lo)) (s.(bg_shifter_pattern_hi)) (s.(bg_shifter_attrib_lo)) v' (s.(screen)).
Definition set_screen (v' : list (list Z)) (s : state) : state :=
  mk (s.(ppuctrl)) (s.(ppumask)) (s.(ppustatus)) (s.(oamaddr)) (s.(v)) (s.(t)) (s.(x)) (s.(w)) (s.(f)) (s.(ppudata_buffer)) (s.(vram)) (s.(palette_ram)) (s.(oam)) (s.(scanline)) (s.(cycle)) (s.(frame_complete)) (s.(bg_next_tile_id)) (s.(bg_next_tile_attrib)) (s.(bg_next_tile_lsb)) (s.(bg_next_tile_msb)) (s.(bg_shifter_pattern_lo)) (s.(bg_shifter_pattern_hi)) (s.(bg_shifter_attrib_lo)) (s.(bg_shifter_attrib_hi)) v'.
End Ppu.

Module Bus.
(** Fields of [Bus.__init__], with the CPU and the PPU connected as [MonikaEmulatorApp.__init__] does; [cart] is [None] until a cartridge is inserted. *)
Record state : Type := mk {
  cpu : Cpu.state;
  ppu : Ppu.state;
  cart : option Cartridge;
  cpu_ram : list Z;
  system_clock_counter : Z;
  controller1_state : Z;
  controller1_shift : Z
}.
Definition set_cpu (v' : Cpu.state) (s : state) : state :=
  mk v' (s.(ppu)) (s.(cart)) (s.(cpu_ram)) (s.(system_clock_counter)) (s.(controller1_state)) (s.(controller1_shift)).
Definition set_ppu (v' : Ppu.state) (s : state) : state :=
  mk (s.(cpu)) v' (s.(cart)) (s.(cpu_ram)) (s.(system_clock_counter)) (s.(controller1_state)) (s.(controller1_shift)).
Definition set_cart (v' : option Cartridge) (s : state) : state :=
  mk (s.(cpu)) (s.(ppu)) v' (s.(cpu_ram)) (s.(system_clock_counter)) (s.(controller1_state)) (s.(controller1_shift)).
Definition set_cpu_ram (v' : list Z) (s : state) : state :=
  mk (s.(cpu)) (s.(ppu)) (s.(cart)) v' (s.(system_clock_counter)) (s.(controller1_state)) (s.(controller1_shift)).
Definition set_system_clock_counter (v' : Z) (s : state) : state :=
  mk (s.(cpu)) (s.(ppu)) (s.(cart)) (s.(cpu_ram)) v' (s.(controller1_state)) (s.(controller1_shift)).
Definition set_controller1_state (v' : Z) (s : state) : state :=
  mk (s.(cpu)) (s.(ppu)) (s.(cart)) (s.(cpu_ram)) (s.(system_clock_counter)) v' (s.(controller1_shift)).
Definition set_controller1_shift (v' : Z) (s : state) : state :=
  mk (s.(cpu)) (s.(ppu)) (s.(cart)) (s.(cpu_ram)) (s.(system_clock_counter)) (s.(controller1_state)) v'.
End Bus.

Definition Py (A : Type) : Type := M Bus.state A.

Definition cpu_get {A} (f : Cpu.state -> A) : Py A :=
  gets (fun b => f (Bus.cpu b)).
Definition cpu_upd (f : Cpu.state -> Cpu.state) : Py unit :=
  modify (fun b => Bus.set_cpu (f (Bus.cpu b)) b).
Definition ppu_get {A} (f : Ppu.state -> A) : Py A :=
  gets (fun b => f (Bus.ppu b)).
Definition ppu_upd (f : Ppu.state -> Ppu.state) : Py unit :=
  modify (fun b => Bus.set_ppu (f (Bus.ppu b)) b).

(** ** Bus: the PPU address space *)

(** The palette index behind a PPU address in 0x3F00-0x3FFF: the four
    sprite backdrop entries mirror the background ones. *)
Definition palette_index (addr : Z) : Z :=
  let palette_addr := Z.land addr 0x1F in
  if palette_addr =? 0x10 then 0x00
  else if palette_addr =? 0x14 then 0x04
  else if palette_addr =? 0x18 then 0x08
  else if palette_addr =? 0x1C then 0x0C
  else palette_addr.

(** The nametable index behind a PPU address in 0x2000-0x3EFF, by the
    cartridge's mirroring mode; without a cartridge [self.cart.rom] fails. *)
Definition mirror_addr (addr : Z) : Py Z :=
  c <- gets Bus.cart ;;
  match c with
  | None => raise AttributeError
  | Some c =>
      if c.(rom).(mirror_mode) =? 0
      then ret (Z.lor (Z.shiftr (Z.land addr 0x0800) 1) (Z.land addr 0x03FF))
      else ret (Z.land addr 0x07FF)
  end.

(** [self.cart and self.cart.ppu_write(addr, data)] *)
Definition cart_handles_ppu_write (addr data : Z) : Py bool :=
  c <- gets Bus.cart ;;
  match c with
  | None => ret false
  | Some c =>
      r <- lift (cart_ppu_write c addr data) ;;
      modify (Bus.set_cart (Some (snd r))) ;;
      ret (fst r)
  end.

Definition bus_ppu_write (addr data : Z) : Py unit :=
  let addr := Z.land addr 0x3FFF in
  handled <- cart_handles_ppu_write addr data ;;
  if handled then ret tt
  else if between 0x2000 addr 0x3EFF then
    ma <- mirror_addr addr ;;
    vram <- ppu_get Ppu.vram ;;
    vram' <- lift (bytearray_setitem vram ma data) ;;
    ppu_upd (Ppu.set_vram vram')
  else if between 0x3F00 addr 0x3FFF then
    pal <- ppu_get Ppu.palette_ram ;;
    pal' <- lift (bytearray_setitem pal (palette_index addr) (Z.land data 0x3F)) ;;
    ppu_upd (Ppu.set_palette_ram pal')
  else ret tt.

Definition bus_ppu_read (addr : Z) : Py Z :=
  let addr := Z.land addr 0x3FFF in
  c <- gets Bus.cart ;;
  cart_data <- match c with
               | None => ret None
               | Some c => lift (cart_ppu_read c addr)
               end ;;
  match cart_data with
  | Some d => ret d
  | None =>
      if between 0x2000 addr 0x3EFF then
        ma <- mirror_addr addr ;;
        vram <- ppu_get Ppu.vram ;;
        lift (py_getitem vram ma)
      else if between 0x3F00 addr 0x3FFF then
        pal <- ppu_get Ppu.palette_ram ;;
        d <- lift (py_getitem pal (palette_index addr)) ;;
        ret (Z.land d 0x3F)
      else ret 0x00
  end.

(** ** PPU: the register ports *)

(** [self.v += 32 if (self.ppuctrl & 0x04) else 1; self.v &= 0x3FFF] *)
Definition increment_v : Py unit :=
  ctrl <- ppu_get Ppu.ppuctrl ;;
  v <- ppu_get Ppu.v ;;
  let v1 := v + (if truthy (Z.land ctrl 0x04) then 32 else 1) in
  ppu_upd (Ppu.set_v (Z.land v1 0x3FFF)).

Definition ppu_cpu_read (addr : Z) : Py Z :=
  if addr =? 0x2002 then
    st <- ppu_get Ppu.ppustatus ;;
    buf <- ppu_get Ppu.ppudata_buffer ;;
    let data := Z.lor (Z.land st 0xE0) (Z.land buf 0x1F) in
    ppu_upd (Ppu.set_ppustatus (Z.land st (Z.lnot 0x80))) ;;
    ppu_upd (Ppu.set_w 0) ;;
    ret data
  else if addr =? 0x2004 then
    oam <- ppu_get Ppu.oam ;;
    oamaddr <- ppu_get Ppu.oamaddr ;;
    lift (py_getitem oam oamaddr)
  else if addr =? 0x2007 then
    data <- ppu_get Ppu.ppudata_buffer ;;
    v <- ppu_get Ppu.v ;;
    fresh <- bus_ppu_read v ;;
    ppu_upd (Ppu.set_ppudata_buffer fresh) ;;
    let data := if v >=? 0x3F00 then fresh else data in
    increment_v ;;
    ret data
  else ret 0x00.

Definition ppu_cpu_write (addr data : Z) : Py unit :=
  if addr =? 0x2000 then
    ppu_upd (Ppu.set_ppuctrl data) ;;
    t <- ppu_get Ppu.t ;;
    ppu_upd (Ppu.set_t (Z.lor (Z.land t 0xF3FF) (Z.shiftl (Z.land data 0x03) 10)))
  else if addr =? 0x2001 then
    ppu_upd (Ppu.set_ppumask data)
  else if addr =? 0x2003 then
    ppu_upd (Ppu.set_oamaddr data)
  else if addr =? 0x2004 then
    oam <- ppu_get Ppu.oam ;;
    oamaddr <- ppu_get Ppu.oamaddr ;;
    oam' <- lift (bytearray_setitem oam oamaddr data) ;;
    ppu_upd (Ppu.set_oam oam') ;;
    ppu_upd (Ppu.set_oamaddr (Z.land (oamaddr + 1) 0xFF))
  else if addr =? 0x2005 then
    w <- ppu_get Ppu.w ;;
    t <- ppu_get Ppu.t ;;
    if w =? 0 then
      ppu_upd (Ppu.set_t (Z.lor (Z.land t 0xFFE0) (Z.shiftr data 3))) ;;
      ppu_upd (Ppu.set_x (Z.land data 0x07)) ;;
      ppu_upd (Ppu.set_w 1)
    else
      let t1 := Z.lor (Z.land t 0x8FFF) (Z.shiftl (Z.land data 0x07) 12) in
      let t2 := Z.lor (Z.land t1 0xFC1F) (Z.shiftl (Z.land data 0xF8) 2) in
      ppu_upd (Ppu.set_t t2) ;;
      ppu_upd (Ppu.set_w 0)
  else if addr =? 0x2006 then
    w <- ppu_get Ppu.w ;;
    t <- ppu_get Ppu.t ;;
    if w =? 0 then
      ppu_upd (Ppu.set_t (Z.lor (Z.land t 0x80FF) (Z.shiftl (Z.land data 0x3F) 8))) ;;
      ppu_upd (Ppu.set_w 1)
    else
      let t1 := Z.lor (Z.land t 0xFF00) data in
      ppu_upd (Ppu.set_t t1) ;;
      ppu_upd (Ppu.set_v t1) ;;
      ppu_upd (Ppu.set_w 0)
  else if addr =? 0x2007 then
    v <- ppu_get Ppu.v ;;
    bus_ppu_write v data ;;
    increment_v
  else ret tt.

(** ** Bus: the CPU address space *)

(** [self.cart and self.cart.cpu_write(addr, data)] *)
Definition cart_handles_cpu_write (addr data : Z) : Py bool :=
  c <- gets Bus.cart ;;
  match c with
  | None => ret false
  | Some c =>
      r <- lift (cart_cpu_write c addr data) ;;
      modify (Bus.set_cart (Some (snd r))) ;;
      ret (fst r)
  end.

Definition bus_cpu_write (addr data : Z) : Py unit :=
  let addr := Z.land addr 0xFFFF in
  handled <- cart_handles_cpu_write addr data ;;
  if handled then ret tt
  else if between 0x0000 addr 0x1FFF then
    ram <- gets Bus.cpu_ram ;;
    ram' <- lift (bytearray_setitem ram (Z.land addr 0x07FF) data) ;;
    modify (Bus.set_cpu_ram ram')
  else if between 0x2000 addr 0x3FFF then
    ppu_cpu_write (Z.land addr 0x2007) data
  else if addr =? 0x4014 then
    cpu_upd (Cpu.set_dma_page data) ;;
    cpu_upd (Cpu.set_dma_addr 0x00) ;;
    cpu_upd (Cpu.set_dma_transfer true) ;;
    cpu_upd (Cpu.set_dma_dummy true)
  else if addr =? 0x4016 then
    if truthy (Z.land data 0x01) then
      st <- gets Bus.controller1_state ;;
      modify (Bus.set_controller1_shift st)
    else ret tt
  else ret tt.

Definition bus_cpu_read (addr : Z) : Py Z :=
  let addr := Z.land addr 0xFFFF in
  c <- gets Bus.cart ;;
  cart_data <- match c with
               | None => ret None
               | Some c => lift (cart_cpu_read c addr)
               end ;;
  match cart_data with
  | Some d => ret d
  | None =>
      if between 0x0000 addr 0x1FFF then
        ram <- gets Bus.cpu_ram ;;
        lift (py_getitem ram (Z.land addr 0x07FF))
      else if between 0x2000 addr 0x3FFF then
        ppu_cpu_read (Z.land addr 0x2007)
      else if addr =? 0x4016 then
        sh <- gets Bus.controller1_shift ;;
        modify (Bus.set_controller1_shift (Z.shiftr sh 1)) ;;
        ret (Z.lor 0x40 (Z.land sh 0x01))
      else ret 0x00
  end.

(** ** CPU: helpers *)

Definition FLAG_C : Z := 0x01.
Definition FLAG_Z : Z := 0x02.
Definition FLAG_I : Z := 0x04.
Definition FLAG_D : Z := 0x08.
Definition FLAG_B : Z := 0x10.
Definition FLAG_U : Z := 0x20.
Definition FLAG_V : Z := 0x40.
Definition FLAG_N : Z := 0x80.

Definition read (addr : Z) : Py Z := bus_cpu_read addr.
Definition write (addr data : Z) : Py unit := bus_cpu_write addr data.

Definition flag_of (status flag : Z) : bool := negb (Z.land status flag =? 0).

Definition get_flag (flag : Z) : Py bool :=
  st <- cpu_get Cpu.status ;;
  ret (flag_of st flag).

Definition with_flag (status flag : Z) (value : bool) : Z :=
  if value then Z.lor status flag else Z.land status (Z.lnot flag).

Definition set_flag (flag : Z) (value : bool) : Py unit :=
  st <- cpu_get Cpu.status ;;
  cpu_upd (Cpu.set_status (with_flag st flag value)).

(** [set_flag(Z, r == 0); set_flag(N, r & 0x80)] *)
Definition set_zn (r : Z) : Py unit :=
  set_flag FLAG_Z (r =? 0) ;;
  set_flag FLAG_N (truthy (Z.land r 0x80)).

Definition reset : Py unit :=
  cpu_upd (Cpu.set_a 0x00) ;;
  cpu_upd (Cpu.set_x 0x00) ;;
  cpu_upd (Cpu.set_y 0x00) ;;
  cpu_upd (Cpu.set_stkp 0xFD) ;;
  cpu_upd (Cpu.set_status 0x24) ;;
  lo <- read 0xFFFC ;;
  hi <- read 0xFFFD ;;
  cpu_upd (Cpu.set_pc (Z.lor (Z.shiftl hi 8) lo)) ;;
  cpu_upd (Cpu.set_addr_rel 0x00) ;;
  cpu_upd (Cpu.set_addr_abs 0x0000) ;;
  cpu_upd (Cpu.set_fetched 0x00) ;;
  cpu_upd (Cpu.set_cycles 8).

Definition push (data : Z) : Py unit :=
  sp <- cpu_get Cpu.stkp ;;
  write (0x0100 + sp) data ;;
  cpu_upd (Cpu.set_stkp (Z.land (sp - 1) 0xFF)).

Definition pop : Py Z :=
  sp <- cpu_get Cpu.stkp ;;
  let sp' := Z.land (sp + 1) 0xFF in
  cpu_upd (Cpu.set_stkp sp') ;;
  read (0x0100 + sp').

Definition push_word (data : Z) : Py unit :=
  push (Z.land (Z.shiftr data 8) 0xFF) ;;
  push (Z.land data 0xFF).

Definition pop_word : Py Z :=
  lo <- pop ;;
  hi <- pop ;;
  ret (Z.lor (Z.shiftl hi 8) lo).

(** [self.pc = self.read(v) | (self.read(v + 1) << 8)] *)
Definition load_vector (v : Z) : Py unit :=
  lo <- read v ;;
  hi <- read (v + 1) ;;
  cpu_upd (Cpu.set_pc (Z.lor lo (Z.shiftl hi 8))).

Definition interrupt_request : Py unit :=
  i <- get_flag FLAG_I ;;
  if negb i then
    pc <- cpu_get Cpu.pc ;;
    push_word pc ;;
    st <- cpu_get Cpu.status ;;
    push (Z.land st (Z.lnot FLAG_B)) ;;
    set_flag FLAG_I true ;;
    load_vector 0xFFFE ;;
    cpu_upd (Cpu.set_cycles 7)
  else ret tt.

Definition non_maskable_interrupt : Py unit :=
  pc <- cpu_get Cpu.pc ;;
  push_word pc ;;
  st <- cpu_get Cpu.status ;;
  push (Z.land st (Z.lnot FLAG_B)) ;;
  set_flag FLAG_I true ;;
  load_vector 0xFFFA ;;
  cpu_upd (Cpu.set_cycles 8).

(** ** CPU: the instruction table *)

Definition Entry : Type := (AddrMode * Operation * Z)%type.

(** The dictionary [instructions] of [_init_lookup_table]. *)
Definition instructions (opcode : Z) : option Entry :=
  match opcode with
  | 0x00 => Some (mIMP, oBRK, 7) | 0x01 => Some (mIZX, oORA, 6) | 0x05 => Some (mZP0, oORA, 3)
  | 0x06 => Some (mZP0, oASL, 5) | 0x08 => Some (mIMP, oPHP, 3) | 0x09 => Some (mIMM, oORA, 2)
  | 0x0A => Some (mACC, oASL, 2) | 0x0D => Some (mABS, oORA, 4) | 0x0E => Some (mABS, oASL, 6)

  | 0x10 => Some (mREL, oBPL, 2) | 0x11 => Some (mIZY, oORA, 5) | 0x15 => Some (mZPX, oORA, 4)
  | 0x16 => Some (mZPX, oASL, 6) | 0x18 => Some (mIMP, oCLC, 2) | 0x19 => Some (mABY, oORA, 4)
  | 0x1D => Some (mABX, oORA, 4) | 0x1E => Some (mABX, oASL, 7)

  | 0x20 => Some (mABS, oJSR, 6) | 0x21 => Some (mIZX, oAND, 6) | 0x24 => Some (mZP0, oBIT, 3)
  | 0x25 => Some (mZP0, oAND, 3) | 0x26 => Some (mZP0, oROL, 5) | 0x28 => Some (mIMP, oPLP, 4)
  | 0x29 => Some (mIMM, oAND, 2) | 0x2A => Some (mACC, oROL, 2) | 0x2C => Some (mABS, oBIT, 4)
  | 0x2D => Some (mABS, oAND, 4) | 0x2E => Some (mABS, oROL, 6)

  | 0x30 => Some (mREL, oBMI, 2) | 0x31 => Some (mIZY, oAND, 5) | 0x35 => Some (mZPX, oAND, 4)
  | 0x36 => Some (mZPX, oROL, 6) | 0x38 => Some (mIMP, oSEC, 2) | 0x39 => Some (mABY, oAND, 4)
  | 0x3D => Some (mABX, oAND, 4) | 0x3E => Some (mABX, oROL, 7)

  | 0x40 => Some (mIMP, oRTI, 6) | 0x41 => Some (mIZX, oEOR, 6) | 0x45 => Some (mZP0, oEOR, 3)
  | 0x46 => Some (mZP0, oLSR, 5) | 0x48 => Some (mIMP, oPHA, 3) | 0x49 => Some (mIMM, oEOR, 2)
  | 0x4A => Some (mACC, oLSR, 2) | 0x4C => Some (mABS, oJMP, 3) | 0x4D => Some (mABS, oEOR, 4)
  | 0x4E => Some (mABS, oLSR, 6)

  | 0x50 => Some (mREL, oBVC, 2) | 0x51 => Some (mIZY, oEOR, 5) | 0x55 => Some (mZPX, oEOR, 4)
  | 0x56 => Some (mZPX, oLSR, 6) | 0x58 => Some (mIMP, oCLI, 2) | 0x59 => Some (mABY, oEOR, 4)
  | 0x5D => Some (mABX, oEOR, 4) | 0x5E => Some (mABX, oLSR, 7)

  | 0x60 => Some (mIMP, oRTS, 6) | 0x61 => Some (mIZX, oADC, 6) | 0x65 => Some (mZP0, oADC, 3)
  | 0x66 => Some (mZP0, oROR, 5) | 0x68 => Some (mIMP, oPLA, 4) | 0x69 => Some (mIMM, oADC, 2)
  | 0x6A => Some (mACC, oROR, 2) | 0x6C => Some (mIND, oJMP, 5) | 0x6D => Some (mABS, oADC, 4)
  | 0x6E => Some (mABS, oROR, 6)

  | 0x70 => Some (mREL, oBVS, 2) | 0x71 => Some (mIZY, oADC, 5) | 0x75 => Some (mZPX, oADC, 4)
  | 0x76 => Some (mZPX, oROR, 6) | 0x78 => Some (mIMP, oSEI, 2) | 0x79 => Some (mABY, oADC, 4)
  | 0x7D => Some (mABX, oADC, 4) | 0x7E => Some (mABX, oROR, 7)

  | 0x81 => Some (mIZX, oSTA, 6) | 0x84 => Some (mZP0, oSTY, 3) | 0x85 => Some (mZP0, oSTA, 3)
  | 0x86 => Some (mZP0, oSTX, 3) | 0x88 => Some (mIMP, oDEY, 2) | 0x8A => Some (mIMP, oTXA, 2)
  | 0x8C => Some (mABS, oSTY, 4) | 0x8D => Some (mABS, oSTA, 4) | 0x8E => Some (mABS, oSTX, 4)

  | 0x90 => Some (mREL, oBCC, 2) | 0x91 => Some (mIZY, oSTA, 6) | 0x94 => Some (mZPX, oSTY, 4)
  | 0x95 => Some (mZPX, oSTA, 4) | 0x96 => Some (mZPY, oSTX, 4) | 0x98 => Some (mIMP, oTYA, 2)
  | 0x99 => Some (mABY, oSTA, 5) | 0x9A => Some (mIMP, oTXS, 2) | 0x9D => Some (mABX, oSTA, 5)

  | 0xA0 => Some (mIMM, oLDY, 2) | 0xA1 => Some (mIZX, oLDA, 6) | 0xA2 => Some (mIMM, oLDX, 2)
  | 0xA4 => Some (mZP0, oLDY, 3) | 0xA5 => Some (mZP0, oLDA, 3) | 0xA6 => Some (mZP0, oLDX, 3)
  | 0xA8 => Some (mIMP, oTAY, 2) | 0xA9 => Some (mIMM, oLDA, 2) | 0xAA => Some (mIMP, oTAX, 2)
  | 0xAC => Some (mABS, oLDY, 4) | 0xAD => Some (mABS, oLDA, 4) | 0xAE => Some (mABS, oLDX, 4)

  | 0xB0 => Some (mREL, oBCS, 2) | 0xB1 => Some (mIZY, oLDA, 5) | 0xB4 => Some (mZPX, oLDY, 4)
  | 0xB5 => Some (mZPX, oLDA, 4) | 0xB6 => Some (mZPY, oLDX, 4) | 0xB8 => Some (mIMP, oCLV, 2)
  | 0xB9 => Some (mABY, oLDA, 4) | 0xBA => Some (mIMP, oTSX, 2) | 0xBC => Some (mABX, oLDY, 4)
  | 0xBD => Some (mABX, oLDA, 4) | 0xBE => Some (mABY, oLDX, 4)

  | 0xC0 => Some (mIMM, oCPY, 2) | 0xC1 => Some (mIZX, oCMP, 6) | 0xC4 => Some (mZP0, oCPY, 3)
  | 0xC5 => Some (mZP0, oCMP, 3) | 0xC6 => Some (mZP0, oDEC, 5) | 0xC8 => Some (mIMP, oINY, 2)
  | 0xC9 => Some (mIMM, oCMP, 2) | 0xCA => Some (mIMP, oDEX, 2) | 0xCC => Some (mABS, oCPY, 4)
  | 0xCD => Some (mABS, oCMP, 4) | 0xCE => Some (mABS, oDEC, 6)

  | 0xD0 => Some (mREL, oBNE, 2) | 0xD1 => Some (mIZY, oCMP, 5) | 0xD5 => Some (mZPX, oCMP, 4)
  | 0xD6 => Some (mZPX, oDEC, 6) | 0xD8 => Some (mIMP, oCLD, 2) | 0xD9 => Some (mABY, oCMP, 4)
  | 0xDD => Some (mABX, oCMP, 4) | 0xDE => Some (mABX, oDEC, 7)

  | 0xE0 => Some (mIMM, oCPX, 2) | 0xE1 => Some (mIZX, oSBC, 6) | 0xE4 => Some (mZP0, oCPX, 3)
  | 0xE5 => Some (mZP0, oSBC, 3) | 0xE6 => Some (mZP0, oINC, 5) | 0xE8 => Some (mIMP, oINX, 2)
  | 0xE9 => Some (mIMM, oSBC, 2) | 0xEA => Some (mIMP, oNOP, 2) | 0xEC => Some (mABS, oCPX, 4)
  | 0xED => Some (mABS, oSBC, 4) | 0xEE => Some (mABS, oINC, 6)

  | 0xF0 => Some (mREL, oBEQ, 2) | 0xF1 => Some (mIZY, oSBC, 5) | 0xF5 => Some (mZPX, oSBC, 4)
  | 0xF6 => Some (mZPX, oINC, 6) | 0xF8 => Some (mIMP, oSED, 2) | 0xF9 => Some (mABY, oSBC, 4)
  | 0xFD => Some (mABX, oSBC, 4) | 0xFE => Some (mABX, oINC, 7)
  | _ => None
  end.

(** [self.lookup]: 256 slots, the ones [instructions] leaves empty filled
    with a 2-cycle implied NOP. *)
Definition lookup : list Entry :=
  map (fun i => match instructions (Z.of_nat i) with
                | Some e => e
                | None => (mIMP, oNOP, 2)
                end) (seq 0 256).

(** [self.lookup[self.opcode][0]] *)
Definition opcode_mode : Py AddrMode :=
  op <- cpu_get Cpu.opcode ;;
  e <- lift (py_getitem lookup op) ;;
  ret (fst (fst e)).

(** ** CPU: addressing modes *)

(** [self.pc += 1] (no mask here, unlike the opcode fetch of [clock]). *)
Definition inc_pc : Py unit :=
  pc <- cpu_get Cpu.pc ;;
  cpu_upd (Cpu.set_pc (pc + 1)).

(** [v = self.read(self.pc); self.pc += 1] *)
Definition read_pc_inc : Py Z :=
  pc <- cpu_get Cpu.pc ;;
  d <- read pc ;;
  inc_pc ;;
  ret d.

Definition IMP : Py Z := ret 0.
Definition ACC : Py Z := ret 0.

Definition IMM : Py Z :=
  pc <- cpu_get Cpu.pc ;;
  cpu_upd (Cpu.set_addr_abs pc) ;;
  inc_pc ;;
  ret 0.

Definition ZP0 : Py Z :=
  d <- read_pc_inc ;;
  cpu_upd (Cpu.set_addr_abs d) ;;
  ret 0.

Definition ZPX : Py Z :=
  pc <- cpu_get Cpu.pc ;;
  d <- read pc ;;
  x <- cpu_get Cpu.x ;;
  cpu_upd (Cpu.set_addr_abs (Z.land (d + x) 0xFF)) ;;
  inc_pc ;;
  ret 0.

Definition ZPY : Py Z :=
  pc <- cpu_get Cpu.pc ;;
  d <- read pc ;;
  y <- cpu_get Cpu.y ;;
  cpu_upd (Cpu.set_addr_abs (Z.land (d + y) 0xFF)) ;;
  inc_pc ;;
  ret 0.

Definition REL : Py Z :=
  d <- read_pc_inc ;;
  cpu_upd (Cpu.set_addr_rel (if truthy (Z.land d 0x80) then Z.lor d 0xFF00 else d)) ;;
  ret 0.

Definition ABS : Py Z :=
  lo <- read_pc_inc ;;
  hi <- read_pc_inc ;;
  cpu_upd (Cpu.set_addr_abs (Z.lor (Z.shiftl hi 8) lo)) ;;
  ret 0.

(** Shared tail of [ABX], [ABY] and [IZY]: index, then the page test. *)
Definition indexed (lo hi idx : Z) : Py Z :=
  let addr_abs := Z.lor (Z.shiftl hi 8) lo + idx in
  cpu_upd (Cpu.set_addr_abs addr_abs) ;;
  if negb (Z.land addr_abs 0xFF00 =? Z.shiftl hi 8) then ret 1 else ret 0.

Definition ABX : Py Z :=
  lo <- read_pc_inc ;;
  hi <- read_pc_inc ;;
  x <- cpu_get Cpu.x ;;
  indexed lo hi x.

Definition ABY : Py Z :=
  lo <- read_pc_inc ;;
  hi <- read_pc_inc ;;
  y <- cpu_get Cpu.y ;;
  indexed lo hi y.

Definition IND : Py Z :=
  ptr_lo <- read_pc_inc ;;
  ptr_hi <- read_pc_inc ;;
  let ptr := Z.lor (Z.shiftl ptr_hi 8) ptr_lo in
  (if ptr_lo =? 0xFF then
     hi <- read (Z.land ptr 0xFF00) ;;
     lo <- read ptr ;;
     cpu_upd (Cpu.set_addr_abs (Z.lor (Z.shiftl hi 8) lo))
   else
     hi <- read (ptr + 1) ;;
     lo <- read ptr ;;
     cpu_upd (Cpu.set_addr_abs (Z.lor (Z.shiftl hi 8) lo))) ;;
  ret 0.

Definition IZX : Py Z :=
  t <- read_pc_inc ;;
  x <- cpu_get Cpu.x ;;
  lo <- read (Z.land (t + x) 0xFF) ;;
  hi <- read (Z.land (t + x + 1) 0xFF) ;;
  cpu_upd (Cpu.set_addr_abs (Z.lor (Z.shiftl hi 8) lo)) ;;
  ret 0.

Definition IZY : Py Z :=
  t <- read_pc_inc ;;
  lo <- read (Z.land t 0xFF) ;;
  hi <- read (Z.land (t + 1) 0xFF) ;;
  y <- cpu_get Cpu.y ;;
  indexed lo hi y.

Definition run_addr_mode (m : AddrMode) : Py Z :=
  match m with
  | mIMP => IMP | mACC => ACC | mIMM => IMM | mZP0 => ZP0 | mZPX => ZPX
  | mZPY => ZPY | mREL => REL | mABS => ABS | mABX => ABX | mABY => ABY
  | mIND => IND | mIZX => IZX | mIZY => IZY
  end.

Definition fetch : Py Z :=
  m <- opcode_mode ;;
  (if negb (AddrMode_eqb m mIMP || AddrMode_eqb m mACC) then
     addr <- cpu_get Cpu.addr_abs ;;
     d <- read addr ;;
     cpu_upd (Cpu.set_fetched d)
   else
     a <- cpu_get Cpu.a ;;
     cpu_upd (Cpu.set_fetched a)) ;;
  cpu_get Cpu.fetched.

(** ** CPU: operations *)

Definition carry_in : Py Z :=
  c <- get_flag FLAG_C ;;
  ret (if c then 1 else 0).

Definition ADC : Py Z :=
  fetch ;;
  a <- cpu_get Cpu.a ;;
  fetched <- cpu_get Cpu.fetched ;;
  c <- carry_in ;;
  let temp := a + fetched + c in
  set_flag FLAG_C (temp >? 255) ;;
  set_flag FLAG_Z (Z.land temp 0xFF =? 0) ;;
  set_flag FLAG_V
    (negb (Z.land (Z.land (Z.lnot (Z.lxor a fetched)) (Z.lxor a temp)) 0x80 =? 0)) ;;
  set_flag FLAG_N (truthy (Z.land temp 0x80)) ;;
  cpu_upd (Cpu.set_a (Z.land temp 0xFF)) ;;
  ret 1.

Definition AND : Py Z :=
  fetch ;;
  a <- cpu_get Cpu.a ;;
  fetched <- cpu_get Cpu.fetched ;;
  let a' := Z.land a fetched in
  cpu_upd (Cpu.set_a a') ;;
  set_zn a' ;;
  ret 1.

Definition is_acc : Py bool :=
  m <- opcode_mode ;;
  ret (AddrMode_eqb m mACC).

Definition ASL : Py Z :=
  acc <- is_acc ;;
  (if acc then
     a <- cpu_get Cpu.a ;;
     set_flag FLAG_C (truthy (Z.land a 0x80)) ;;
     let a' := Z.land (Z.shiftl a 1) 0xFF in
     cpu_upd (Cpu.set_a a') ;;
     set_zn a'
   else
     fetch ;;
     fetched <- cpu_get Cpu.fetched ;;
     set_flag FLAG_C (truthy (Z.land fetched 0x80)) ;;
     let temp := Z.land (Z.shiftl fetched 1) 0xFF in
     addr <- cpu_get Cpu.addr_abs ;;
     write addr temp ;;
     set_zn temp) ;;
  ret 0.

Definition _branch (condition : bool) : Py Z :=
  (if condition then
     cy <- cpu_get Cpu.cycles ;;
     cpu_upd (Cpu.set_cycles (cy + 1)) ;;
     pc <- cpu_get Cpu.pc ;;
     rel <- cpu_get Cpu.addr_rel ;;
     let addr_abs := pc + rel in
     cpu_upd (Cpu.set_addr_abs addr_abs) ;;
     (if negb (Z.land addr_abs 0xFF00 =? Z.land pc 0xFF00) then
        cy <- cpu_get Cpu.cycles ;;
        cpu_upd (Cpu.set_cycles (cy + 1))
      else ret tt) ;;
     cpu_upd (Cpu.set_pc addr_abs)
   else ret tt) ;;
  ret 0.

Definition BCC : Py Z := c <- get_flag FLAG_C ;; _branch (negb c).
Definition BCS : Py Z := c <- get_flag FLAG_C ;; _branch c.
Definition BEQ : Py Z := z <- get_flag FLAG_Z ;; _branch z.
Definition BMI : Py Z := n <- get_flag FLAG_N ;; _branch n.
Definition BNE : Py Z := z <- get_flag FLAG_Z ;; _branch (negb z).
Definition BPL : Py Z := n <- get_flag FLAG_N ;; _branch (negb n).
Definition BVC : Py Z := v <- get_flag FLAG_V ;; _branch (negb v).
Definition BVS : Py Z := v <- get_flag FLAG_V ;; _branch v.

Definition BIT : Py Z :=
  fetch ;;
  a <- cpu_get Cpu.a ;;
  fetched <- cpu_get Cpu.fetched ;;
  let temp := Z.land a fetched in
  set_flag FLAG_Z (temp =? 0) ;;
  set_flag FLAG_N (truthy (Z.land fetched 0x80)) ;;
  set_flag FLAG_V (truthy (Z.land fetched 0x40)) ;;
  ret 0.

Definition BRK : Py Z :=
  inc_pc ;;
  pc <- cpu_get Cpu.pc ;;
  push_word pc ;;
  st <- cpu_get Cpu.status ;;
  push (Z.lor (Z.lor st FLAG_B) FLAG_U) ;;
  set_flag FLAG_I true ;;
  load_vector 0xFFFE ;;
  ret 0.

Definition CLC : Py Z := set_flag FLAG_C false ;; ret 0.
Definition CLD : Py Z := set_flag FLAG_D false ;; ret 0.
Definition CLI : Py Z := set_flag FLAG_I false ;; ret 0.
Definition CLV : Py Z := set_flag FLAG_V false ;; ret 0.

(** Shared body of [CMP], [CPX] and [CPY] on register value [r]. *)
Definition compare (r : Z) : Py unit :=
  fetched <- cpu_get Cpu.fetched ;;
  let temp := r - fetched in
  set_flag FLAG_C (r >=? fetched) ;;
  set_flag FLAG_Z (Z.land temp 0xFF =? 0) ;;
  set_flag FLAG_N (truthy (Z.land temp 0x80)).

Definition CMP : Py Z := fetch ;; a <- cpu_get Cpu.a ;; compare a ;; ret 1.
Definition CPX : Py Z := fetch ;; x <- cpu_get Cpu.x ;; compare x ;; ret 0.
Definition CPY : Py Z := fetch ;; y <- cpu_get Cpu.y ;; compare y ;; ret 0.

Definition DEC : Py Z :=
  fetch ;;
  fetched <- cpu_get Cpu.fetched ;;
  let temp := Z.land (fetched - 1) 0xFF in
  addr <- cpu_get Cpu.addr_abs ;;
  write addr temp ;;
  set_zn temp ;;
  ret 0.

Definition DEX : Py Z :=
  x <- cpu_get Cpu.x ;;
  let x' := Z.land (x - 1) 0xFF in
  cpu_upd (Cpu.set_x x') ;; set_zn x' ;; ret 0.

Definition DEY : Py Z :=
  y <- cpu_get Cpu.y ;;
  let y' := Z.land (y - 1) 0xFF in
  cpu_upd (Cpu.set_y y') ;; set_zn y' ;; ret 0.

Definition EOR : Py Z :=
  fetch ;;
  a <- cpu_get Cpu.a ;;
  fetched <- cpu_get Cpu.fetched ;;
  let a' := Z.lxor a fetched in
  cpu_upd (Cpu.set_a a') ;;
  set_zn a' ;;
  ret 1.

Definition INC : Py Z :=
  fetch ;;
  fetched <- cpu_get Cpu.fetched ;;
  let temp := Z.land (fetched + 1) 0xFF in
  addr <- cpu_get Cpu.addr_abs ;;
  write addr temp ;;
  set_zn temp ;;
  ret 0.

Definition INX : Py Z :=
  x <- cpu_get Cpu.x ;;
  let x' := Z.land (x + 1) 0xFF in
  cpu_upd (Cpu.set_x x') ;; set_zn x' ;; ret 0.

Definition INY : Py Z :=
  y <- cpu_get Cpu.y ;;
  let y' := Z.land (y + 1) 0xFF in
  cpu_upd (Cpu.set_y y') ;; set_zn y' ;; ret 0.

Definition JMP : Py Z :=
  addr <- cpu_get Cpu.addr_abs ;;
  cpu_upd (Cpu.set_pc addr) ;;
  ret 0.

Definition JSR : Py Z :=
  pc <- cpu_get Cpu.pc ;;
  push_word (pc - 1) ;;
  addr <- cpu_get Cpu.addr_abs ;;
  cpu_upd (Cpu.set_pc addr) ;;
  ret 0.

Definition LDA : Py Z :=
  fetch ;;
  fetched <- cpu_get Cpu.fetched ;;
  cpu_upd (Cpu.set_a fetched) ;; set_zn fetched ;; ret 1.

Definition LDX : Py Z :=
  fetch ;;
  fetched <- cpu_get Cpu.fetched ;;
  cpu_upd (Cpu.set_x fetched) ;; set_zn fetched ;; ret 1.

Definition LDY : Py Z :=
  fetch ;;
  fetched <- cpu_get Cpu.fetched ;;
  cpu_upd (Cpu.set_y fetched) ;; set_zn fetched ;; ret 1.

Definition LSR : Py Z :=
  acc <- is_acc ;;
  (if acc then
     a <- cpu_get Cpu.a ;;
     set_flag FLAG_C (truthy (Z.land a 0x01)) ;;
     let a' := Z.shiftr a 1 in
     cpu_upd (Cpu.set_a a') ;;
     set_flag FLAG_Z (a' =? 0) ;;
     set_flag FLAG_N false
   else
     fetch ;;
     fetched <- cpu_get Cpu.fetched ;;
     set_flag FLAG_C (truthy (Z.land fetched 0x01)) ;;
     let temp := Z.shiftr fetched 1 in
     addr <- cpu_get Cpu.addr_abs ;;
     write addr temp ;;
     set_flag FLAG_Z (temp =? 0) ;;
     set_flag FLAG_N false) ;;
  ret 0.

Definition NOP : Py Z := ret 0.

Definition ORA : Py Z :=
  fetch ;;
  a <- cpu_get Cpu.a ;;
  fetched <- cpu_get Cpu.fetched ;;
  let a' := Z.lor a fetched in
  cpu_upd (Cpu.set_a a') ;;
  set_zn a' ;;
  ret 1.

Definition PHA : Py Z := a <- cpu_get Cpu.a ;; push a ;; ret 0.

Definition PHP : Py Z :=
  st <- cpu_get Cpu.status ;;
  push (Z.lor (Z.lor st FLAG_B) FLAG_U) ;;
  ret 0.

Definition PLA : Py Z :=
  d <- pop ;;
  cpu_upd (Cpu.set_a d) ;; set_zn d ;; ret 0.

Definition PLP : Py Z :=
  d <- pop ;;
  cpu_upd (Cpu.set_status d) ;;
  set_flag FLAG_U true ;;
  set_flag FLAG_B false ;;
  ret 0.

Definition ROL : Py Z :=
  acc <- is_acc ;;
  (if acc then
     a <- cpu_get Cpu.a ;;
     c <- carry_in ;;
     let temp := Z.lor (Z.shiftl a 1) c in
     set_flag FLAG_C (truthy (Z.land temp 0x100)) ;;
     let a' := Z.land temp 0xFF in
     cpu_upd (Cpu.set_a a') ;;
     set_zn a'
   else
     fetch ;;
     fetched <- cpu_get Cpu.fetched ;;
     c <- carry_in ;;
     let temp := Z.lor (Z.shiftl fetched 1) c in
     set_flag FLAG_C (truthy (Z.land temp 0x100)) ;;
     let temp' := Z.land temp 0xFF in
     addr <- cpu_get Cpu.addr_abs ;;
     write addr temp' ;;
     set_zn temp') ;;
  ret 0.

Definition carry_bit8 : Py Z :=
  c <- get_flag FLAG_C ;;
  ret (if c then 0x100 else 0).

Definition ROR : Py Z :=
  acc <- is_acc ;;
  (if acc then
     a <- cpu_get Cpu.a ;;
     c <- carry_bit8 ;;
     let temp := Z.lor a c in
     set_flag FLAG_C (truthy (Z.land temp 0x01)) ;;
     let a' := Z.shiftr temp 1 in
     cpu_upd (Cpu.set_a a') ;;
     set_zn a'
   else
     fetch ;;
     fetched <- cpu_get Cpu.fetched ;;
     c <- carry_bit8 ;;
     let temp := Z.lor fetched c in
     set_flag FLAG_C (truthy (Z.land temp 0x01)) ;;
     let temp' := Z.shiftr temp 1 in
     addr <- cpu_get Cpu.addr_abs ;;
     write addr temp' ;;
     set_zn temp') ;;
  ret 0.

Definition RTI : Py Z :=
  d <- pop ;;
  cpu_upd (Cpu.set_status d) ;;
  set_flag FLAG_U true ;;
  set_flag FLAG_B false ;;
  w <- pop_word ;;
  cpu_upd (Cpu.set_pc w) ;;
  ret 0.

Definition RTS : Py Z :=
  w <- pop_word ;;
  cpu_upd (Cpu.set_pc (w + 1)) ;;
  ret 0.

Definition SBC : Py Z :=
  fetch ;;
  a <- cpu_get Cpu.a ;;
  fetched <- cpu_get Cpu.fetched ;;
  let value := Z.lxor fetched 0xFF in
  c <- carry_in ;;
  let temp := a + value + c in
  set_flag FLAG_C (temp >? 255) ;;
  set_flag FLAG_Z (Z.land temp 0xFF =? 0) ;;
  set_flag FLAG_V
    (negb (Z.land (Z.land (Z.lxor temp a) (Z.lxor temp value)) 0x80 =? 0)) ;;
  set_flag FLAG_N (truthy (Z.land temp 0x80)) ;;
  cpu_upd (Cpu.set_a (Z.land temp 0xFF)) ;;
  ret 1.

Definition SEC : Py Z := set_flag FLAG_C true ;; ret 0.
Definition SED : Py Z := set_flag FLAG_D true ;; ret 0.
Definition SEI : Py Z := set_flag FLAG_I true ;; ret 0.

Definition STA : Py Z :=
  addr <- cpu_get Cpu.addr_abs ;; a <- cpu_get Cpu.a ;; write addr a ;; ret 0.
Definition STX : Py Z :=
  addr <- cpu_get Cpu.addr_abs ;; x <- cpu_get Cpu.x ;; write addr x ;; ret 0.
Definition STY : Py Z :=
  addr <- cpu_get Cpu.addr_abs ;; y <- cpu_get Cpu.y ;; write addr y ;; ret 0.

Definition TAX : Py Z :=
  a <- cpu_get Cpu.a ;; cpu_upd (Cpu.set_x a) ;; set_zn a ;; ret 0.
Definition TAY : Py Z :=
  a <- cpu_get Cpu.a ;; cpu_upd (Cpu.set_y a) ;; set_zn a ;; ret 0.
Definition TSX : Py Z :=
  sp <- cpu_get Cpu.stkp ;; cpu_upd (Cpu.set_x sp) ;; set_zn sp ;; ret 0.
Definition TXA : Py Z :=
  x <- cpu_get Cpu.x ;; cpu_upd (Cpu.set_a x) ;; set_zn x ;; ret 0.
Definition TXS : Py Z :=
  x <- cpu_get Cpu.x ;; cpu_upd (Cpu.set_stkp x) ;; ret 0.
Definition TYA : Py Z :=
  y <- cpu_get Cpu.y ;; cpu_upd (Cpu.set_a y) ;; set_zn y ;; ret 0.

Definition run_operation (o : Operation) : Py Z :=
  match o with
  | oADC => ADC | oAND => AND | oASL => ASL | oBCC => BCC | oBCS => BCS
  | oBEQ => BEQ | oBIT => BIT | oBMI => BMI | oBNE => BNE | oBPL => BPL
  | oBRK => BRK | oBVC => BVC | oBVS => BVS | oCLC => CLC | oCLD => CLD
  | oCLI => CLI | oCLV => CLV | oCMP => CMP | oCPX => CPX | oCPY => CPY
  | oDEC => DEC | oDEX => DEX | oDEY => DEY | oEOR => EOR | oINC => INC
  | oINX => INX | oINY => INY | oJMP => JMP | oJSR => JSR | oLDA => LDA
  | oLDX => LDX | oLDY => LDY | oLSR => LSR | oNOP => NOP | oORA => ORA
  | oPHA => PHA | oPHP => PHP | oPLA => PLA | oPLP => PLP | oROL => ROL
  | oROR => ROR | oRTI => RTI | oRTS => RTS | oSBC => SBC | oSEC => SEC
  | oSED => SED | oSEI => SEI | oSTA => STA | oSTX => STX | oSTY => STY
  | oTAX => TAX | oTAY => TAY | oTSX => TSX | oTXA => TXA | oTXS => TXS
  | oTYA => TYA
  end.

(** ** CPU: one clock cycle *)

(** The body of [if self.cycles == 0:] in [clock]: fetch, decode, execute. *)
Definition execute_instruction : Py unit :=
  pc <- cpu_get Cpu.pc ;;
  op <- read pc ;;
  cpu_upd (Cpu.set_opcode op) ;;
  cpu_upd (Cpu.set_pc (Z.land (pc + 1) 0xFFFF)) ;;
  e <- lift (py_getitem lookup op) ;;
  let '(addr_mode, operation, cycles) := e in
  cpu_upd (Cpu.set_cycles cycles) ;;
  additional_cycle1 <- run_addr_mode addr_mode ;;
  additional_cycle2 <- run_operation operation ;;
  cy <- cpu_get Cpu.cycles ;;
  cpu_upd (Cpu.set_cycles (cy + Z.land additional_cycle1 additional_cycle2)).

Definition cpu_clock : Py unit :=
  cy <- cpu_get Cpu.cycles ;;
  (if cy =? 0 then execute_instruction else ret tt) ;;
  cy <- cpu_get Cpu.cycles ;;
  cpu_upd (Cpu.set_cycles (cy - 1)).

(** ** PPU: rendering and timing *)

(** [self.palette], the NTSC colour table. *)
Definition palette : list Z :=
  [ 0x666666; 0x002A88; 0x1412A7; 0x3B00A4; 0x5C007E; 0x6E0040; 0x6C0600; 0x561D00;
    0x333500; 0x0B4800; 0x005200; 0x004F08; 0x00404D; 0x000000; 0x000000; 0x000000;
    0xADADAD; 0x155FD9; 0x4240FF; 0x7527FE; 0xA01ACC; 0xB71E7B; 0xB53120; 0x994E00;
    0x6B6D00; 0x388700; 0x0C9300; 0x008F32; 0x007C8D; 0x000000; 0x000000; 0x000000;
    0xFFFEFF; 0x64B0FF; 0x9290FF; 0xC676FF; 0xF36AFF; 0xFE6ECC; 0xFE8170; 0xEA9E22;
    0xBCBE00; 0x88D800; 0x5CE430; 0x45E082; 0x48CDDE; 0x4F4F4F; 0x000000; 0x000000;
    0xFFFEFF; 0xC0DFFF; 0xD3D2FF; 0xE8C8FF; 0xFBC2FF; 0xFEC4EA; 0xFECCC5; 0xF7D8A5;
    0xE4E594; 0xCFEF96; 0xBDF4AB; 0xB3F3CC; 0xB5EBF2; 0xB8B8B8; 0x000000; 0x000000 ].

(** [PPU2C02.__init__] *)
Definition PPU2C02_init : Ppu.state :=
  Ppu.mk 0x00 0x00 0x00 0x00
         0x0000 0x0000 0x00 0x00 0x00
         0x00
         (bytearray 2048) (bytearray 32) (bytearray 256)
         0 0 false
         0x00 0x00 0x00 0x00 0x0000 0x0000 0x0000 0x0000
         (repeat (repeat 0 (Z.to_nat NES_WIDTH)) (Z.to_nat NES_HEIGHT)).

(** [self.ppumask & 0x18] as a condition. *)
Definition rendering_enabled : Py bool :=
  mask <- ppu_get Ppu.ppumask ;;
  ret (truthy (Z.land mask 0x18)).

Definition increment_scroll_x : Py unit :=
  en <- rendering_enabled ;;
  if en then
    v <- ppu_get Ppu.v ;;
    if Z.land v 0x001F =? 31 then
      let v1 := Z.land v (Z.lnot 0x001F) in
      ppu_upd (Ppu.set_v (Z.lxor v1 0x0400))
    else ppu_upd (Ppu.set_v (v + 1))
  else ret tt.

Definition increment_scroll_y : Py unit :=
  en <- rendering_enabled ;;
  if en then
    v <- ppu_get Ppu.v ;;
    if negb (Z.land v 0x7000 =? 0x7000) then ppu_upd (Ppu.set_v (v + 0x1000))
    else
      let v1 := Z.land v (Z.lnot 0x7000) in
      let y := Z.shiftr (Z.land v1 0x03E0) 5 in
      let '(y', v2) :=
        if y =? 29 then (0, Z.lxor v1 0x0800)
        else if y =? 31 then (0, v1)
        else (y + 1, v1) in
      ppu_upd (Ppu.set_v (Z.lor (Z.land v2 (Z.lnot 0x03E0)) (Z.shiftl y' 5)))
  else ret tt.

Definition transfer_address_x : Py unit :=
  en <- rendering_enabled ;;
  if en then
    v <- ppu_get Ppu.v ;;
    t <- ppu_get Ppu.t ;;
    ppu_upd (Ppu.set_v (Z.lor (Z.land v (Z.lnot 0x041F)) (Z.land t 0x041F)))
  else ret tt.

Definition transfer_address_y : Py unit :=
  en <- rendering_enabled ;;
  if en then
    v <- ppu_get Ppu.v ;;
    t <- ppu_get Ppu.t ;;
    ppu_upd (Ppu.set_v (Z.lor (Z.land v (Z.lnot 0x7BE0)) (Z.land t 0x7BE0)))
  else ret tt.

Definition load_background_shifters : Py unit :=
  p <- gets Bus.ppu ;;
  ppu_upd (Ppu.set_bg_shifter_pattern_lo
             (Z.lor (Z.land p.(Ppu.bg_shifter_pattern_lo) 0xFF00) p.(Ppu.bg_next_tile_lsb))) ;;
  ppu_upd (Ppu.set_bg_shifter_pattern_hi
             (Z.lor (Z.land p.(Ppu.bg_shifter_pattern_hi) 0xFF00) p.(Ppu.bg_next_tile_msb))) ;;
  ppu_upd (Ppu.set_bg_shifter_attrib_lo
             (Z.lor (Z.land p.(Ppu.bg_shifter_attrib_lo) 0xFF00)
                    (if truthy (Z.land p.(Ppu.bg_next_tile_attrib) 1) then 0xFF else 0))) ;;
  ppu_upd (Ppu.set_bg_shifter_attrib_hi
             (Z.lor (Z.land p.(Ppu.bg_shifter_attrib_hi) 0xFF00)
                    (if truthy (Z.land p.(Ppu.bg_next_tile_attrib) 2) then 0xFF else 0))).

Definition update_shifters : Py unit :=
  mask <- ppu_get Ppu.ppumask ;;
  if truthy (Z.land mask 0x08) then
    p <- gets Bus.ppu ;;
    ppu_upd (Ppu.set_bg_shifter_pattern_lo (Z.shiftl p.(Ppu.bg_shifter_pattern_lo) 1)) ;;
    ppu_upd (Ppu.set_bg_shifter_pattern_hi (Z.shiftl p.(Ppu.bg_shifter_pattern_hi) 1)) ;;
    ppu_upd (Ppu.set_bg_shifter_attrib_lo (Z.shiftl p.(Ppu.bg_shifter_attrib_lo) 1)) ;;
    ppu_upd (Ppu.set_bg_shifter_attrib_hi (Z.shiftl p.(Ppu.bg_shifter_attrib_hi) 1))
  else ret tt.

(** [bg_pattern_addr] of the pattern fetches ([plane] is 0 or 8). *)
Definition bg_pattern_addr (ctrl tile_id v plane : Z) : Z :=
  Z.shiftl (Z.land ctrl 0x10) 8 + Z.shiftl tile_id 4 + Z.land (Z.shiftr v 12) 0x07 + plane.

(** The fetch pipeline, [if 2 <= self.cycle <= 257 or 321 <= self.cycle <= 336:]. *)
Definition fetch_background : Py unit :=
  update_shifters ;;
  cycle <- ppu_get Ppu.cycle ;;
  let cycle_phase := (cycle - 1) mod 8 in
  if cycle_phase =? 0 then
    load_background_shifters ;;
    v <- ppu_get Ppu.v ;;
    d <- bus_ppu_read (Z.lor 0x2000 (Z.land v 0x0FFF)) ;;
    ppu_upd (Ppu.set_bg_next_tile_id d)
  else if cycle_phase =? 2 then
    v <- ppu_get Ppu.v ;;
    let attr_addr :=
      Z.lor (Z.lor (Z.lor 0x23C0 (Z.land v 0x0C00)) (Z.land (Z.shiftr v 4) 0x38))
            (Z.land (Z.shiftr v 2) 0x07) in
    attr_byte <- bus_ppu_read attr_addr ;;
    v <- ppu_get Ppu.v ;;
    let a1 := if truthy (Z.land v 0x0040) then Z.shiftr attr_byte 4 else attr_byte in
    let a2 := if truthy (Z.land v 0x0002) then Z.shiftr a1 2 else a1 in
    ppu_upd (Ppu.set_bg_next_tile_attrib (Z.land a2 0x03))
  else if cycle_phase =? 4 then
    p <- gets Bus.ppu ;;
    d <- bus_ppu_read (bg_pattern_addr p.(Ppu.ppuctrl) p.(Ppu.bg_next_tile_id) p.(Ppu.v) 0) ;;
    ppu_upd (Ppu.set_bg_next_tile_lsb d)
  else if cycle_phase =? 6 then
    p <- gets Bus.ppu ;;
    d <- bus_ppu_read (bg_pattern_addr p.(Ppu.ppuctrl) p.(Ppu.bg_next_tile_id) p.(Ppu.v) 8) ;;
    ppu_upd (Ppu.set_bg_next_tile_msb d)
  else if cycle_phase =? 7 then increment_scroll_x
  else ret tt.

(** [(s & bit_mux) > 0] as the integer 0 or 1. *)
Definition mux_bit (s bit_mux : Z) : Z := if Z.land s bit_mux >? 0 then 1 else 0.

(** The pixel output, [if 1 <= self.cycle <= 256:]. *)
Definition render_pixel : Py unit :=
  p <- gets Bus.ppu ;;
  sel <- (if truthy (Z.land p.(Ppu.ppumask) 0x08) then
            bit_mux <- lift (py_rshift 0x8000 p.(Ppu.x)) ;;
            let p0_pixel := mux_bit p.(Ppu.bg_shifter_pattern_lo) bit_mux in
            let p1_pixel := mux_bit p.(Ppu.bg_shifter_pattern_hi) bit_mux in
            let bg_pal0 := mux_bit p.(Ppu.bg_shifter_attrib_lo) bit_mux in
            let bg_pal1 := mux_bit p.(Ppu.bg_shifter_attrib_hi) bit_mux in
            ret (Z.lor (Z.shiftl p1_pixel 1) p0_pixel, Z.lor (Z.shiftl bg_pal1 1) bg_pal0)
          else ret (0x00, 0x00)) ;;
  let '(bg_pixel, bg_palette) := sel in
  let palette_addr := 0x3F00 + Z.shiftl bg_palette 2 + bg_pixel in
  d <- bus_ppu_read palette_addr ;;
  let color := Z.land d 0x3F in
  rgb <- lift (py_getitem palette color) ;;
  screen <- ppu_get Ppu.screen ;;
  scanline <- ppu_get Ppu.scanline ;;
  cycle <- ppu_get Ppu.cycle ;;
  row <- lift (py_getitem screen scanline) ;;
  row' <- lift (py_setitem row (cycle - 1) rgb) ;;
  screen' <- lift (py_setitem screen scanline row') ;;
  ppu_upd (Ppu.set_screen screen').

Definition visible_scanline : Py unit :=
  scanline <- ppu_get Ppu.scanline ;;
  cycle <- ppu_get Ppu.cycle ;;
  (if (scanline =? 0) && (cycle =? 0) then ppu_upd (Ppu.set_cycle 1) else ret tt) ;;
  cycle <- ppu_get Ppu.cycle ;;
  (if between 2 cycle 257 || between 321 cycle 336 then fetch_background else ret tt) ;;
  (if cycle =? 256 then increment_scroll_y else ret tt) ;;
  (if cycle =? 257 then load_background_shifters ;; transfer_address_x else ret tt) ;;
  (if (cycle =? 338) || (cycle =? 340) then
     v <- ppu_get Ppu.v ;;
     d <- bus_ppu_read (Z.lor 0x2000 (Z.land v 0x0FFF)) ;;
     ppu_upd (Ppu.set_bg_next_tile_id d)
   else ret tt) ;;
  (if between 1 cycle 256 then render_pixel else ret tt).

Definition vblank_scanlines : Py unit :=
  scanline <- ppu_get Ppu.scanline ;;
  cycle <- ppu_get Ppu.cycle ;;
  if (scanline =? 241) && (cycle =? 1) then
    st <- ppu_get Ppu.ppustatus ;;
    ppu_upd (Ppu.set_ppustatus (Z.lor st 0x80)) ;;
    ctrl <- ppu_get Ppu.ppuctrl ;;
    if truthy (Z.land ctrl 0x80) then non_maskable_interrupt else ret tt
  else ret tt.

Definition prerender_scanline : Py unit :=
  cycle <- ppu_get Ppu.cycle ;;
  (if cycle =? 1 then
     st <- ppu_get Ppu.ppustatus ;;
     ppu_upd (Ppu.set_ppustatus (Z.land st (Z.lnot 0xE0)))
   else ret tt) ;;
  (if between 280 cycle 304 then transfer_address_y else ret tt) ;;
  f <- ppu_get Ppu.f ;;
  (if (cycle =? 339) && truthy f then ppu_upd (Ppu.set_cycle 340) else ret tt).

(** The sprite-zero-hit placeholder of [clock]. *)
Definition sprite_zero_hit : Py unit :=
  mask <- ppu_get Ppu.ppumask ;;
  scanline <- ppu_get Ppu.scanline ;;
  cycle <- ppu_get Ppu.cycle ;;
  if truthy (Z.land mask 0x18) && (scanline <? 240) then
    oam <- ppu_get Ppu.oam ;;
    oam0 <- lift (py_getitem oam 0) ;;
    if (oam0 <=? scanline) && (scanline <? oam0 + 8) then
      oam3 <- lift (py_getitem oam 3) ;;
      if (oam3 <=? cycle - 1) && (cycle - 1 <? oam3 + 8) then
        if Z.land mask 0x18 =? 0x18 then
          if negb ((Z.land mask 0x06 =? 0) && (cycle <? 9)) then
            st <- ppu_get Ppu.ppustatus ;;
            ppu_upd (Ppu.set_ppustatus (Z.lor st 0x40))
          else ret tt
        else ret tt
      else ret tt
    else ret tt
  else ret tt.

(** [# Advance counters] *)
Definition advance_counters : Py unit :=
  cycle <- ppu_get Ppu.cycle ;;
  ppu_upd (Ppu.set_cycle (cycle + 1)) ;;
  if cycle + 1 >? 340 then
    ppu_upd (Ppu.set_cycle 0) ;;
    scanline <- ppu_get Ppu.scanline ;;
    ppu_upd (Ppu.set_scanline (scanline + 1)) ;;
    if scanline + 1 >? 261 then
      ppu_upd (Ppu.set_scanline 0) ;;
      ppu_upd (Ppu.set_frame_complete true) ;;
      f <- ppu_get Ppu.f ;;
      ppu_upd (Ppu.set_f (Z.lxor f 1))
    else ret tt
  else ret tt.

Definition ppu_clock : Py unit :=
  scanline <- ppu_get Ppu.scanline ;;
  (if between 0 scanline 239 then visible_scanline
   else if scanline =? 240 then ret tt
   else if between 241 scanline 260 then vblank_scanlines
   else if scanline =? 261 then prerender_scanline
   else ret tt) ;;
  sprite_zero_hit ;;
  advance_counters.

(** ** Bus: the system clock *)

(** The OAM DMA branch of [Bus.clock]. *)
Definition dma_step : Py unit :=
  counter <- gets Bus.system_clock_counter ;;
  dummy <- cpu_get Cpu.dma_dummy ;;
  if dummy then
    if counter mod 2 =? 1 then cpu_upd (Cpu.set_dma_dummy false) else ret tt
  else
    if counter mod 2 =? 0 then
      page <- cpu_get Cpu.dma_page ;;
      addr <- cpu_get Cpu.dma_addr ;;
      d <- bus_cpu_read (Z.lor (Z.shiftl page 8) addr) ;;
      cpu_upd (Cpu.set_dma_data d)
    else
      oam <- ppu_get Ppu.oam ;;
      addr <- cpu_get Cpu.dma_addr ;;
      d <- cpu_get Cpu.dma_data ;;
      oam' <- lift (bytearray_setitem oam addr d) ;;
      ppu_upd (Ppu.set_oam oam') ;;
      cpu_upd (Cpu.set_dma_addr (addr + 1)) ;;
      if addr + 1 =? 0 then
        cpu_upd (Cpu.set_dma_transfer false) ;;
        cpu_upd (Cpu.set_dma_dummy true)
      else ret tt.

Definition bus_clock : Py unit :=
  ppu_clock ;;
  counter <- gets Bus.system_clock_counter ;;
  (if counter mod 3 =? 0 then
     dma <- cpu_get Cpu.dma_transfer ;;
     if dma then dma_step else cpu_clock
   else ret tt) ;;
  modify (Bus.set_system_clock_counter (counter + 1)).

(** ** Construction, as the host application does it *)

(** [CPU6502.__init__] *)
Definition CPU6502_init : Cpu.state :=
  Cpu.mk 0x00 0x00 0x00 0xFD 0x0000 0x24
         0x00 0x0000 0x00 0x00 0
         0x00 0x00 0x00 false true.

(** [Bus()] with [connect_cpu(CPU6502())] and [connect_ppu(PPU2C02())]. *)
Definition Bus_init : Bus.state :=
  Bus.mk CPU6502_init PPU2C02_init None (bytearray 2048) 0 0x00 0x00.

Definition insert_cartridge (c : Cartridge) : Py unit :=
  modify (Bus.set_cart (Some c)).

(** [MonikaEmulatorApp.reset]: [self.cpu.reset(); self.ppu.__init__()]. *)
Definition app_reset : Py unit :=
  reset ;;
  modify (Bus.set_ppu PPU2C02_init).

End EMUNES5.

(** * The [MonikaNES.py] variant *)

Module MonikaNES.

Definition NES_WIDTH : Z := 256.
Definition NES_HEIGHT : Z := 240.

(** ** ROM loader *)

(** [chr_ram] exists only when [chr_rom] is empty. *)
Record NESRom : Type := mkNESRom {
  data : list byte;
  header : list byte;
  prg_rom_size : Z;
  chr_rom_size : Z;
  mapper : Z;
  mirror_mode : Z;
  prg_rom_start : Z;
  prg_rom : list byte;
  chr_rom : list byte;
  chr_ram : option (list Z)
}.

Definition set_chr_ram (v' : option (list Z)) (r : NESRom) : NESRom :=
  mkNESRom r.(data) r.(header) r.(prg_rom_size) r.(chr_rom_size) r.(mapper)
           r.(mirror_mode) r.(prg_rom_start) r.(prg_rom) r.(chr_rom) v'.

Definition rom_byte (l : list byte) (i : Z) : Result Z :=
  match py_getitem l i with
  | Ok b => Ok (byte_val b)
  | Raise e => Raise e
  end.

(** [NESRom.__init__]: this variant does not look at the magic bytes. *)
Definition NESRom_init (data : list byte) : Result NESRom :=
  let header := py_slice data 0 16 in
  match rom_byte header 4, rom_byte header 5, rom_byte header 7, rom_byte header 6 with
  | Ok h4, Ok h5, Ok h7, Ok h6 =>
      let prg_rom_size := h4 * 16384 in
      let chr_rom_size := h5 * 8192 in
      let mapper := Z.lor (Z.shiftl (Z.shiftr h7 4) 4) (Z.shiftr h6 4) in
      let mirror_mode := Z.land h6 0x01 in
      let prg_rom_start := if truthy (Z.land h6 0x04) then 16 + 512 else 16 in
      let prg_rom := py_slice data prg_rom_start (prg_rom_start + prg_rom_size) in
      let chr_rom := py_slice data (prg_rom_start + prg_rom_size)
                              (prg_rom_start + prg_rom_size + chr_rom_size) in
      let chr_ram := match chr_rom with [] => Some (bytearray 8192) | _ => None end in
      Ok (mkNESRom data header prg_rom_size chr_rom_size mapper mirror_mode
                   prg_rom_start prg_rom chr_rom chr_ram)
  | Raise e, _, _, _ => Raise e
  | _, Raise e, _, _ => Raise e
  | _, _, Raise e, _ => Raise e
  | _, _, _, Raise e => Raise e
  end.

Definition read_prg (r : NESRom) (addr : Z) : Result Z :=
  if r.(prg_rom_size) =? 16384 then rom_byte r.(prg_rom) (addr mod 16384)
  else if r.(prg_rom_size) =? 32768 then rom_byte r.(prg_rom) (addr mod 32768)
  else Ok 0.

Definition read_chr (r : NESRom) (addr : Z) : Result Z :=
  if r.(chr_rom_size) >? 0 then rom_byte r.(chr_rom) addr
  else
    match r.(chr_ram) with
    | Some ram => py_getitem ram addr
    | None => Raise AttributeError
    end.

Definition write_chr (r : NESRom) (addr data : Z) : Result NESRom :=
  if r.(chr_rom_size) =? 0 then
    match r.(chr_ram) with
    | Some ram =>
        match bytearray_setitem ram addr data with
        | Ok ram' => Ok (set_chr_ram (Some ram') r)
        | Raise e => Raise e
        end
    | None => Raise AttributeError
    end
  else Ok r.

(** ** Cartridge: every method of this variant returns a number or nothing,
    never the "not handled" [None] its callers test for. *)

Record Cartridge : Type := mkCartridge { rom : NESRom }.

Definition cart_cpu_read (c : Cartridge) (addr : Z) : Result Z :=
  if between 0x6000 addr 0x7FFF then Ok 0
  else if between 0x8000 addr 0xFFFF then read_prg c.(rom) (addr - 0x8000)
  else Ok 0.

(** [cpu_write] only calls [write_prg], which is [pass]. *)
Definition cart_cpu_write (c : Cartridge) (addr data : Z) : Result Cartridge := Ok c.

Definition cart_ppu_read (c : Cartridge) (addr : Z) : Result Z :=
  if between 0x0000 addr 0x1FFF then read_chr c.(rom) addr else Ok 0.

Definition cart_ppu_write (c : Cartridge) (addr data : Z) : Result Cartridge :=
  if between 0x0000 addr 0x1FFF then
    match write_chr c.(rom) addr data with
    | Ok r => Ok (mkCartridge r)
    | Raise e => Raise e
    end
  else Ok c.

(** ** Machine state *)

Module Cpu.
(** Fields of [CPU6502.__init__]. *)
Record state : Type := mk {
  a : Z;
  x : Z;
  y : Z;
  stkp : Z;
  pc : Z;
  status : Z;
  fetched : Z;
  addr_abs : Z;
  addr_rel : Z;
  opcode : Z;
  cycles : Z;
  dma_page : Z;
  dma_addr : Z;
  dma_data : Z;
  dma_transfer : bool;
  dma_dummy : bool;
  illegal_opcodes : list (Z * Z)
}.
Definition set_a (v' : Z) (s : state) : state :=
  mk v' (s.(x)) (s.(y)) (s.(stkp)) (s.(pc)) (s.(status)) (s.(fetched)) (s.(addr_abs)) (s.(addr_rel)) (s.(opcode)) (s.(cycles)) (s.(dma_page)) (s.(dma_addr)) (s.(dma_data)) (s.(dma_transfer)) (s.(dma_dummy)) (s.(illegal_opcodes)).
Definition set_x (v' : Z) (s : state) : state :=
  mk (s.(a)) v' (s.(y)) (s.(stkp)) (s.(pc)) (s.(status)) (s.(fetched)) (s.(addr_abs)) (s.(addr_rel)) (s.(opcode)) (s.(cycles)) (s.(dma_page)) (s.(dma_addr)) (s.(dma_data)) (s.(dma_transfer)) (s.(dma_dummy)) (s.(illegal_opcodes)).
Definition set_y (v' : Z) (s : state) : state :=
  mk (s.(a)) (s.(x)) v' (s.(stkp)) (s.(pc)) (s.(status)) (s.(fetched)) (s.(addr_abs)) (s.(addr_rel)) (s.(opcode)) (s.(cycles)) (s.(dma_page)) (s.(dma_addr)) (s.(dma_data)) (s.(dma_transfer)) (s.(dma_dummy)) (s.(illegal_opcodes)).
Definition set_stkp (v' : Z) (s : state) : state :=
  mk (s.(a)) (s.(x)) (s.(y)) v' (s.(pc)) (s.(status)) (s.(fetched)) (s.(addr_abs)) (s.(addr_rel)) (s.(opcode)) (s.(cycles)) (s.(dma_page)) (s.(dma_addr)) (s.(dma_data)) (s.(dma_transfer)) (s.(dma_dummy)) (s.(illegal_opcodes)).
Definition set_pc (v' : Z) (s : state) : state :=
  mk (s.(a)) (s.(x)) (s.(y)) (s.(stkp)) v' (s.(status)) (s.(fetched)) (s.(addr_abs)) (s.(addr_rel)) (s.(opcode)) (s.(cycles)) (s.(dma_page)) (s.(dma_addr)) (s.(dma_data)) (s.(dma_transfer)) (s.(dma_dummy)) (s.(illegal_opcodes)).
Definition set_status (v' : Z) (s : state) : state :=
  mk (s.(a)) (s.(x)) (s.(y)) (s.(stkp)) (s.(pc)) v' (s.(fetched)) (s.(addr_abs)) (s.(addr_rel)) (s.(opcode)) (s.(cycles)) (s.(dma_page)) (s.(dma_addr)) (s.(dma_data)) (s.(dma_transfer)) (s.(dma_dummy)) (s.(illegal_opcodes)).
Definition set_fetched (v' : Z) (s : state) : state :=
  mk (s.(a)) (s.(x)) (s.(y)) (s.(stkp)) (s.(pc)) (s.(status)) v' (s.(addr_abs)) (s.(addr_rel)) (s.(opcode)) (s.(cycles)) (s.(dma_page)) (s.(dma_addr)) (s.(dma_data)) (s.(dma_transfer)) (s.(dma_dummy)) (s.(illegal_opcodes)).
Definition set_addr_abs (v' : Z) (s : state) : state :=
  mk (s.(a)) (s.(x)) (s.(y)) (s.(stkp)) (s.(pc)) (s.(status)) (s.(fetched)) v' (s.(addr_rel)) (s.(opcode)) (s.(cycles)) (s.(dma_page)) (s.(dma_addr)) (s.(dma_data)) (s.(dma_transfer)) (s.(dma_dummy)) (s.(illegal_opcodes)).
Definition set_addr_rel (v' : Z) (s : state) : state :=
  mk (s.(a)) (s.(x)) (s.(y)) (s.(stkp)) (s.(pc)) (s.(status)) (s.(fetched)) (s.(addr_abs)) v' (s.(opcode)) (s.(cycles)) (s.(dma_page)) (s.(dma_addr)) (s.(dma_data)) (s.(dma_transfer)) (s.(dma_dummy)) (s.(illegal_opcodes)).
Definition set_opcode (v' : Z) (s : state) : state :=
  mk (s.(a)) (s.(x)) (s.(y)) (s.(stkp)) (s.(pc)) (s.(status)) (s.(fetched)) (s.(addr_abs)) (s.(addr_rel)) v' (s.(cycles)) (s.(dma_page)) (s.(dma_addr)) (s.(dma_data)) (s.(dma_transfer)) (s.(dma_dummy)) (s.(illegal_opcodes)).
Definition set_cycles (v' : Z) (s : state) : state :=
  mk (s.(a)) (s.(x)) (s.(y)) (s.(stkp)) (s.(pc)) (s.(status)) (s.(fetched)) (s.(addr_abs)) (s.(addr_rel)) (s.(opcode)) v' (s.(dma_page)) (s.(dma_addr)) (s.(dma_data)) (s.(dma_transfer)) (s.(dma_dummy)) (s.(illegal_opcodes)).
Definition set_dma_page (v' : Z) (s : state) : state :=
  mk (s.(a)) (s.(x)) (s.(y)) (s.(stkp)) (s.(pc)) (s.(status)) (s.(fetched)) (s.(addr_abs)) (s.(addr_rel)) (s.(opcode)) (s.(cycles)) v' (s.(dma_addr)) (s.(dma_data)) (s.(dma_transfer)) (s.(dma_dummy)) (s.(illegal_opcodes)).
Definition set_dma_addr (v' : Z) (s : state) : state :=
  mk (s.(a)) (s.(x)) (s.(y)) (s.(stkp)) (s.(pc)) (s.(status)) (s.(fetched)) (s.(addr_abs)) (s.(addr_rel)) (s.(opcode)) (s.(cycles)) (s.(dma_page)) v' (s.(dma_data)) (s.(dma_transfer)) (s.(dma_dummy)) (s.(illegal_opcodes)).
Definition set_dma_data (v' : Z) (s : state) : state :=
  mk (s.(a)) (s.(x)) (s.(y)) (s.(stkp)) (s.(pc)) (s.(status)) (s.(fetched)) (s.(addr_abs)) (s.(addr_rel)) (s.(opcode)) (s.(cycles)) (s.(dma_page)) (s.(dma_addr)) v' (s.(dma_transfer)) (s.(dma_dummy)) (s.(illegal_opcodes)).
Definition set_dma_transfer (v' : bool) (s : state) : state :=
  mk (s.(a)) (s.(x)) (s.(y)) (s.(stkp)) (s.(pc)) (s.(status)) (s.(fetched)) (s.(addr_abs)) (s.(addr_rel)) (s.(opcode)) (s.(cycles)) (s.(dma_page)) (s.(dma_addr)) (s.(dma_data)) v' (s.(dma_dummy)) (s.(illegal_opcodes)).
Definition set_dma_dummy (v' : bool) (s : state) : state :=
  mk (s.(a)) (s.(x)) (s.(y)) (s.(stkp)) (s.(pc)) (s.(status)) (s.(fetched)) (s.(addr_abs)) (s.(addr_rel)) (s.(opcode)) (s.(cycles)) (s.(dma_page)) (s.(dma_addr)) (s.(dma_data)) (s.(dma_transfer)) v' (s.(illegal_opcodes)).
Definition set_illegal_opcodes (v' : list (Z * Z)) (s : state) : state :=
  mk (s.(a)) (s.(x)) (s.(y)) (s.(stkp)) (s.(pc)) (s.(status)) (s.(fetched)) (s.(addr_abs)) (s.(addr_rel)) (s.(opcode)) (s.(cycles)) (s.(dma_page)) (s.(dma_addr)) (s.(dma_data)) (s.(dma_transfer)) (s.(dma_dummy)) v'.
End Cpu.

Module Ppu.
(** Fields of [PPU2C02.__init__]; the colour table [palette] is a constant. *)
Record state : Type := mk {
  PPUCTRL : Z;
  PPUMASK : Z;
  PPUSTATUS : Z;
  OAMADDR : Z;
  OAMDATA : Z;
  PPUSCROLL : Z;
  PPUADDR : Z;
  PPUDATA : Z;
  vram_addr : Z;
  temp_vram_addr : Z;
  fine_x : Z;
  address_latch : Z;
  buffer_data : Z;
  oam : list Z;
  oam_addr : Z;
  oam_data : Z;
  vram : list Z;
  palette_ram : list Z;
  scanline : Z;
  cycle : Z;
  frame_complete : bool;
  nmi_triggered : bool;
  pixel_buffer : list (list string)
}.
Definition set_PPUCTRL (v' : Z) (s : state) : state :=
  mk v' (s.(PPUMASK)) (s.(PPUSTATUS)) (s.(OAMADDR)) (s.(OAMDATA)) (s.(PPUSCROLL)) (s.(PPUADDR)) (s.(PPUDATA)) (s.(vram_addr)) (s.(temp_vram_addr)) (s.(fine_x)) (s.(address_latch)) (s.(buffer_data)) (s.(oam)) (s.(oam_addr)) (s.(oam_data)) (s.(vram)) (s.(palette_ram)) (s.(scanline)) (s.(cycle)) (s.(frame_complete)) (s.(nmi_triggered)) (s.(pixel_buffer)).
Definition set_PPUMASK (v' : Z) (s : state) : state :=
  mk (s.(PPUCTRL)) v' (s.(PPUSTATUS)) (s.(OAMADDR)) (s.(OAMDATA)) (s.(PPUSCROLL)) (s.(PPUADDR)) (s.(PPUDATA)) (s.(vram_addr)) (s.(temp_vram_addr)) (s.(fine_x)) (s.(address_latch)) (s.(buffer_data)) (s.(oam)) (s.(oam_addr)) (s.(oam_data)) (s.(vram)) (s.(palette_ram)) (s.(scanline)) (s.(cycle)) (s.(frame_complete)) (s.(nmi_triggered)) (s.(pixel_buffer)).
Definition set_PPUSTATUS (v' : Z) (s : state) : state :=
  mk (s.(PPUCTRL)) (s.(PPUMASK)) v' (s.(OAMADDR)) (s.(OAMDATA)) (s.(PPUSCROLL)) (s.(PPUADDR)) (s.(PPUDATA)) (s.(vram_addr)) (s.(temp_vram_addr)) (s.(fine_x)) (s.(address_latch)) (s.(buffer_data)) (s.(oam)) (s.(oam_addr)) (s.(oam_data)) (s.(vram)) (s.(palette_ram)) (s.(scanline)) (s.(cycle)) (s.(frame_complete)) (s.(nmi_triggered)) (s.(pixel_buffer)).
Definition set_OAMADDR (v' : Z) (s : state) : state :=
  mk (s.(PPUCTRL)) (s.(PPUMASK)) (s.(PPUSTATUS)) v' (s.(OAMDATA)) (s.(PPUSCROLL)) (s.(PPUADDR)) (s.(PPUDATA)) (s.(vram_addr)) (s.(temp_vram_addr)) (s.(fine_x)) (s.(address_latch)) (s.(buffer_data)) (s.(oam)) (s.(oam_addr)) (s.(oam_data)) (s.(vram)) (s.(palette_ram)) (s.(scanline)) (s.(cycle)) (s.(frame_complete)) (s.(nmi_triggered)) (s.(pixel_buffer)).
Definition set_OAMDATA (v' : Z) (s : state) : state :=
  mk (s.(PPUCTRL)) (s.(PPUMASK)) (s.(PPUSTATUS)) (s.(OAMADDR)) v' (s.(PPUSCROLL)) (s.(PPUADDR)) (s.(PPUDATA)) (s.(vram_addr)) (s.(temp_vram_addr)) (s.(fine_x)) (s.(address_latch)) (s.(buffer_data)) (s.(oam)) (s.(oam_addr)) (s.(oam_data)) (s.(vram)) (s.(palette_ram)) (s.(scanline)) (s.(cycle)) (s.(frame_complete)) (s.(nmi_triggered)) (s.(pixel_buffer)).
Definition set_PPUSCROLL (v' : Z) (s : state) : state :=
  mk (s.(PPUCTRL)) (s.(PPUMASK)) (s.(PPUSTATUS)) (s.(OAMADDR)) (s.(OAMDATA)) v' (s.(PPUADDR)) (s.(PPUDATA)) (s.(vram_addr)) (s.(temp_vram_addr)) (s.(fine_x)) (s.(address_latch)) (s.(buffer_data)) (s.(oam)) (s.(oam_addr)) (s.(oam_data)) (s.(vram)) (s.(palette_ram)) (s.(scanline)) (s.(cycle)) (s.(frame_complete)) (s.(nmi_triggered)) (s.(pixel_buffer)).
Definition set_PPUADDR (v' : Z) (s : state) : state :=
  mk (s.(PPUCTRL)) (s.(PPUMASK)) (s.(PPUSTATUS)) (s.(OAMADDR)) (s.(OAMDATA)) (s.(PPUSCROLL)) v' (s.(PPUDATA)) (s.(vram_addr)) (s.(temp_vram_addr)) (s.(fine_x)) (s.(address_latch)) (s.(buffer_data)) (s.(oam)) (s.(oam_addr)) (s.(oam_data)) (s.(vram)) (s.(palette_ram)) (s.(scanline)) (s.(cycle)) (s.(frame_complete)) (s.(nmi_triggered)) (s.(pixel_buffer)).
Definition set_PPUDATA (v' : Z) (s : state) : state :=
  mk (s.(PPUCTRL)) (s.(PPUMASK)) (s.(PPUSTATUS)) (s.(OAMADDR)) (s.(OAMDATA)) (s.(PPUSCROLL)) (s.(PPUADDR)) v' (s.(vram_addr)) (s.(temp_vram_addr)) (s.(fine_x)) (s.(address_latch)) (s.(buffer_data)) (s.(oam)) (s.(oam_addr)) (s.(oam_data)) (s.(vram)) (s.(palette_ram)) (s.(scanline)) (s.(cycle)) (s.(frame_complete)) (s.(nmi_triggered)) (s.(pixel_buffer)).
Definition set_vram_addr (v' : Z) (s : state) : state :=
  mk (s.(PPUCTRL)) (s.(PPUMASK)) (s.(PPUSTATUS)) (s.(OAMADDR)) (s.(OAMDATA)) (s.(PPUSCROLL)) (s.(PPUADDR)) (s.(PPUDATA)) v' (s.(temp_vram_addr)) (s.(fine_x)) (s.(address_latch)) (s.(buffer_data)) (s.(oam)) (s.(oam_addr)) (s.(oam_data)) (s.(vram)) (s.(palette_ram)) (s.(scanline)) (s.(cycle)) (s.(frame_complete)) (s.(nmi_triggered)) (s.(pixel_buffer)).
Definition set_temp_vram_addr (v' : Z) (s : state) : state :=
  mk (s.(PPUCTRL)) (s.(PPUMASK)) (s.(PPUSTATUS)) (s.(OAMADDR)) (s.(OAMDATA)) (s.(PPUSCROLL)) (s.(PPUADDR)) (s.(PPUDATA)) (s.(vram_addr)) v' (s.(fine_x)) (s.(address_latch)) (s.(buffer_data)) (s.(oam)) (s.(oam_addr)) (s.(oam_data)) (s.(vram)) (s.(palette_ram)) (s.(scanline)) (s.(cycle)) (s.(frame_complete)) (s.(nmi_triggered)) (s.(pixel_buffer)).
Definition set_fine_x (v' : Z) (s : state) : state :=
  mk (s.(PPUCTRL)) (s.(PPUMASK)) (s.(PPUSTATUS)) (s.(OAMADDR)) (s.(OAMDATA)) (s.(PPUSCROLL)) (s.(PPUADDR)) (s.(PPUDATA)) (s.(vram_addr)) (s.(temp_vram_addr)) v' (s.(address_latch)) (s.(buffer_data)) (s.(oam)) (s.(oam_addr)) (s.(oam_data)) (s.(vram)) (s.(palette_ram)) (s.(scanline)) (s.(cycle)) (s.(frame_complete)) (s.(nmi_triggered)) (s.(pixel_buffer)).
Definition set_address_latch (v' : Z) (s : state) : state :=
  mk (s.(PPUCTRL)) (s.(PPUMASK)) (s.(PPUSTATUS)) (s.(OAMADDR)) (s.(OAMDATA)) (s.(PPUSCROLL)) (s.(PPUADDR)) (s.(PPUDATA)) (s.(vram_addr)) (s.(temp_vram_addr)) (s.(fine_x)) v' (s.(buffer_data)) (s.(oam)) (s.(oam_addr)) (s.(oam_data)) (s.(vram)) (s.(palette_ram)) (s.(scanline)) (s.(cycle)) (s.(frame_complete)) (s.(nmi_triggered)) (s.(pixel_buffer)).
Definition set_buffer_data (v' : Z) (s : state) : state :=
  mk (s.(PPUCTRL)) (s.(PPUMASK)) (s.(PPUSTATUS)) (s.(OAMADDR)) (s.(OAMDATA)) (s.(PPUSCROLL)) (s.(PPUADDR)) (s.(PPUDATA)) (s.(vram_addr)) (s.(temp_vram_addr)) (s.(fine_x)) (s.(address_latch)) v' (s.(oam)) (s.(oam_addr)) (s.(oam_data)) (s.(vram)) (s.(palette_ram)) (s.(scanline)) (s.(cycle)) (s.(frame_complete)) (s.(nmi_triggered)) (s.(pixel_buffer)).
Definition set_oam (v' : list Z) (s : state) : state :=
  mk (s.(PPUCTRL)) (s.(PPUMASK)) (s.(PPUSTATUS)) (s.(OAMADDR)) (s.(OAMDATA)) (s.(PPUSCROLL)) (s.(PPUADDR)) (s.(PPUDATA)) (s.(vram_addr)) (s.(temp_vram_addr)) (s.(fine_x)) (s.(address_latch)) (s.(buffer_data)) v' (s.(oam_addr)) (s.(oam_data)) (s.(vram)) (s.(palette_ram)) (s.(scanline)) (s.(cycle)) (s.(frame_complete)) (s.(nmi_triggered)) (s.(pixel_buffer)).
Definition set_oam_addr (v' : Z) (s : state) : state :=
  mk (s.(PPUCTRL)) (s.(PPUMASK)) (s.(PPUSTATUS)) (s.(OAMADDR)) (s.(OAMDATA)) (s.(PPUSCROLL)) (s.(PPUADDR)) (s.(PPUDATA)) (s.(vram_addr)) (s.(temp_vram_addr)) (s.(fine_x)) (s.(address_latch)) (s.(buffer_data)) (s.(oam)) v' (s.(oam_data)) (s.(vram)) (s.(palette_ram)) (s.(scanline)) (s.(cycle)) (s.(frame_complete)) (s.(nmi_triggered)) (s.(pixel_buffer)).
Definition set_oam_data (v' : Z) (s : state) : state :=
  mk (s.(PPUCTRL)) (s.(PPUMASK)) (s.(PPUSTATUS)) (s.(OAMADDR)) (s.(OAMDATA)) (s.(PPUSCROLL)) (s.(PPUADDR)) (s.(PPUDATA)) (s.(vram_addr)) (s.(temp_vram_addr)) (s.(fine_x)) (s.(address_latch)) (s.(buffer_data)) (s.(oam)) (s.(oam_addr)) v' (s.(vram)) (s.(palette_ram)) (s.(scanline)) (s.(cycle)) (s.(frame_complete)) (s.(nmi_triggered)) (s.(pixel_buffer)).
Definition set_vram (v' : list Z) (s : state) : state :=
  mk (s.(PPUCTRL)) (s.(PPUMASK)) (s.(PPUSTATUS)) (s.(OAMADDR)) (s.(OAMDATA)) (s.(PPUSCROLL)) (s.(PPUADDR)) (s.(PPUDATA)) (s.(vram_addr)) (s.(temp_vram_addr)) (s.(fine_x)) (s.(address_latch)) (s.(buffer_data)) (s.(oam)) (s.(oam_addr)) (s.(oam_data)) v' (s.(palette_ram)) (s.(scanline)) (s.(cycle)) (s.(frame_complete)) (s.(nmi_triggered)) (s.(pixel_buffer)).
Definition set_palette_ram (v' : list Z) (s : state) : state :=
  mk (s.(PPUCTRL)) (s.(PPUMASK)) (s.(PPUSTATUS)) (s.(OAMADDR)) (s.(OAMDATA)) (s.(PPUSCROLL)) (s.(PPUADDR)) (s.(PPUDATA)) (s.(vram_addr)) (s.(temp_vram_addr)) (s.(fine_x)) (s.(address_latch)) (s.(buffer_data)) (s.(oam)) (s.(oam_addr)) (s.(oam_data)) (s.(vram)) v' (s.(scanline)) (s.(cycle)) (s.(frame_complete)) (s.(nmi_triggered)) (s.(pixel_buffer)).
Definition set_scanline (v' : Z) (s : state) : state :=
  mk (s.(PPUCTRL)) (s.(PPUMASK)) (s.(PPUSTATUS)) (s.(OAMADDR)) (s.(OAMDATA)) (s.(PPUSCROLL)) (s.(PPUADDR)) (s.(PPUDATA)) (s.(vram_addr)) (s.(temp_vram_addr)) (s.(fine_x)) (s.(address_latch)) (s.(buffer_data)) (s.(oam)) (s.(oam_addr)) (s.(oam_data)) (s.(vram)) (s.(palette_ram)) v' (s.(cycle)) (s.(frame_complete)) (s.(nmi_triggered)) (s.(pixel_buffer)).
Definition set_cycle (v' : Z) (s : state) : state :=
  mk (s.(PPUCTRL)) (s.(PPUMASK)) (s.(PPUSTATUS)) (s.(OAMADDR)) (s.(OAMDATA)) (s.(PPUSCROLL)) (s.(PPUADDR)) (s.(PPUDATA)) (s.(vram_addr)) (s.(temp_vram_addr)) (s.(fine_x)) (s.(address_latch)) (s.(buffer_data)) (s.(oam)) (s.(oam_addr)) (s.(oam_data)) (s.(vram)) (s.(palette_ram)) (s.(scanline)) v' (s.(frame_complete)) (s.(nmi_triggered)) (s.(pixel_buffer)).
Definition set_frame_complete (v' : bool) (s : state) : state :=
  mk (s.(PPUCTRL)) (s.(PPUMASK)) (s.(PPUSTATUS)) (s.(OAMADDR)) (s.(OAMDATA)) (s.(PPUSCROLL)) (s.(PPUADDR)) (s.(PPUDATA)) (s.(vram_addr)) (s.(temp_vram_addr)) (s.(fine_x)) (s.(address_latch)) (s.(buffer_data)) (s.(oam)) (s.(oam_addr)) (s.(oam_data)) (s.(vram)) (s.(palette_ram)) (s.(scanline)) (s.(cycle)) v' (s.(nmi_triggered)) (s.(pixel_buffer)).
Definition set_nmi_triggered (v' : bool) (s : state) : state :=
  mk (s.(PPUCTRL)) (s.(PPUMASK)) (s.(PPUSTATUS)) (s.(OAMADDR)) (s.(OAMDATA)) (s.(PPUSCROLL)) (s.(PPUADDR)) (s.(PPUDATA)) (s.(vram_addr)) (s.(temp_vram_addr)) (s.(fine_x)) (s.(address_latch)) (s.(buffer_data)) (s.(oam)) (s.(oam_addr)) (s.(oam_data)) (s.(vram)) (s.(palette_ram)) (s.(scanline)) (s.(cycle)) (s.(frame_complete)) v' (s.(pixel_buffer)).
Definition set_pixel_buffer (v' : list (list string)) (s : state) : state :=
  mk (s.(PPUCTRL)) (s.(PPUMASK)) (s.(PPUSTATUS)) (s.(OAMADDR)) (s.(OAMDATA)) (s.(PPUSCROLL)) (s.(PPUADDR)) (s.(PPUDATA)) (s.(vram_addr)) (s.(temp_vram_addr)) (s.(fine_x)) (s.(address_latch)) (s.(buffer_data)) (s.(oam)) (s.(oam_addr)) (s.(oam_data)) (s.(vram)) (s.(palette_ram)) (s.(scanline)) (s.(cycle)) (s.(frame_complete)) (s.(nmi_triggered)) v'.
End Ppu.

Module Bus.
(** Fields of [Bus.__init__], with the CPU and the PPU connected as [MonikaEmulatorApp.__init__] does; [cart] is [None] until a cartridge is inserted. *)
Record state : Type := mk {
  cpu : Cpu.state;
  ppu : Ppu.state;
  cart : option Cartridge;
  cpu_ram : list Z;
  system_clock_counter : Z
}.
Definition set_cpu (v' : Cpu.state) (s : state) : state :=
  mk v' (s.(ppu)) (s.(cart)) (s.(cpu_ram)) (s.(system_clock_counter)).
Definition set_ppu (v' : Ppu.state) (s : state) : state :=
  mk (s.(cpu)) v' (s.(cart)) (s.(cpu_ram)) (s.(system_clock_counter)).
Definition set_cart (v' : option Cartridge) (s : state) : state :=
  mk (s.(cpu)) (s.(ppu)) v' (s.(cpu_ram)) (s.(system_clock_counter)).
Definition set_cpu_ram (v' : list Z) (s : state) : state :=
  mk (s.(cpu)) (s.(ppu)) (s.(cart)) v' (s.(system_clock_counter)).
Definition set_system_clock_counter (v' : Z) (s : state) : state :=
  mk (s.(cpu)) (s.(ppu)) (s.(cart)) (s.(cpu_ram)) v'.
End Bus.

Definition Py (A : Type) : Type := M Bus.state A.

Definition cpu_get {A} (f : Cpu.state -> A) : Py A :=
  gets (fun b => f (Bus.cpu b)).
Definition cpu_upd (f : Cpu.state -> Cpu.state) : Py unit :=
  modify (fun b => Bus.set_cpu (f (Bus.cpu b)) b).
Definition ppu_get {A} (f : Ppu.state -> A) : Py A :=
  gets (fun b => f (Bus.ppu b)).
Definition ppu_upd (f : Ppu.state -> Ppu.state) : Py unit :=
  modify (fun b => Bus.set_ppu (f (Bus.ppu b)) b).

(** ** Bus: the PPU address space *)

(** Every fourth palette entry is folded onto entry 0 by this variant. *)
Definition palette_index (addr : Z) : Z :=
  let actual_addr := Z.land addr 0x1F in
  if (actual_addr =? 0x04) || (actual_addr =? 0x08) || (actual_addr =? 0x0C)
     || (actual_addr =? 0x10) || (actual_addr =? 0x14) || (actual_addr =? 0x18)
     || (actual_addr =? 0x1C)
  then 0x00 else actual_addr.

(** [cart.ppu_write] returns nothing, so the bus always goes on to its own
    decoding. *)
Definition bus_ppu_write (addr data : Z) : Py unit :=
  c <- gets Bus.cart ;;
  match c with
  | None => ret tt
  | Some c =>
      c' <- lift (cart_ppu_write c addr data) ;;
      modify (Bus.set_cart (Some c'))
  end ;;
  if between 0x2000 addr 0x3EFF then
    vram <- ppu_get Ppu.vram ;;
    vram' <- lift (bytearray_setitem vram (Z.land addr 0x0FFF) data) ;;
    ppu_upd (Ppu.set_vram vram')
  else if between 0x3F00 addr 0x3FFF then
    pal <- ppu_get Ppu.palette_ram ;;
    pal' <- lift (bytearray_setitem pal (palette_index addr) (Z.land data 0x3F)) ;;
    ppu_upd (Ppu.set_palette_ram pal')
  else ret tt.

Definition bus_ppu_read (addr : Z) : Py Z :=
  c <- gets Bus.cart ;;
  data <- match c with
          | None => ret 0x00
          | Some c => lift (cart_ppu_read c addr)
          end ;;
  if between 0x2000 addr 0x3EFF then
    vram <- ppu_get Ppu.vram ;;
    lift (py_getitem vram (Z.land addr 0x0FFF))
  else if between 0x3F00 addr 0x3FFF then
    pal <- ppu_get Ppu.palette_ram ;;
    d <- lift (py_getitem pal (palette_index addr)) ;;
    ret (Z.land d 0x3F)
  else ret data.

(** ** PPU: the register ports *)

Definition increment_vram_addr : Py unit :=
  ctrl <- ppu_get Ppu.PPUCTRL ;;
  v <- ppu_get Ppu.vram_addr ;;
  if truthy (Z.land (Z.shiftr ctrl 2) 1)
  then ppu_upd (Ppu.set_vram_addr (Z.land (v + 32) 0x3FFF))
  else ppu_upd (Ppu.set_vram_addr (Z.land (v + 1) 0x3FFF)).

Definition ppu_cpu_write (addr data : Z) : Py unit :=
  if addr =? 0x2000 then
    ppu_upd (Ppu.set_PPUCTRL data) ;;
    t <- ppu_get Ppu.temp_vram_addr ;;
    ppu_upd (Ppu.set_temp_vram_addr
               (Z.lor (Z.land t 0xF3FF) (Z.shiftl (Z.land data 0x03) 10)))
  else if addr =? 0x2001 then
    ppu_upd (Ppu.set_PPUMASK data)
  else if addr =? 0x2003 then
    ppu_upd (Ppu.set_OAMADDR data)
  else if addr =? 0x2004 then
    oam <- ppu_get Ppu.oam ;;
    oamaddr <- ppu_get Ppu.OAMADDR ;;
    oam' <- lift (bytearray_setitem oam oamaddr data) ;;
    ppu_upd (Ppu.set_oam oam') ;;
    ppu_upd (Ppu.set_OAMADDR (Z.land (oamaddr + 1) 0xFF))
  else if addr =? 0x2005 then
    latch <- ppu_get Ppu.address_latch ;;
    t <- ppu_get Ppu.temp_vram_addr ;;
    if latch =? 0 then
      ppu_upd (Ppu.set_fine_x (Z.land data 0x07)) ;;
      ppu_upd (Ppu.set_temp_vram_addr
                 (Z.lor (Z.land t 0xFFE0) (Z.land (Z.shiftr data 3) 0x1F))) ;;
      ppu_upd (Ppu.set_address_latch 1)
    else
      let t1 := Z.lor (Z.land t 0x8FFF) (Z.shiftl (Z.land data 0x07) 12) in
      let t2 := Z.lor (Z.land t1 0xFC1F) (Z.shiftl (Z.land (Z.shiftr data 3) 0x1F) 5) in
      ppu_upd (Ppu.set_temp_vram_addr t2) ;;
      ppu_upd (Ppu.set_address_latch 0)
  else if addr =? 0x2006 then
    latch <- ppu_get Ppu.address_latch ;;
    t <- ppu_get Ppu.temp_vram_addr ;;
    if latch =? 0 then
      ppu_upd (Ppu.set_temp_vram_addr
                 (Z.lor (Z.land t 0x00FF) (Z.shiftl (Z.land data 0x3F) 8))) ;;
      ppu_upd (Ppu.set_address_latch 1)
    else
      let t1 := Z.lor (Z.land t 0xFF00) data in
      ppu_upd (Ppu.set_temp_vram_addr t1) ;;
      ppu_upd (Ppu.set_vram_addr t1) ;;
      ppu_upd (Ppu.set_address_latch 0)
  else if addr =? 0x2007 then
    v <- ppu_get Ppu.vram_addr ;;
    bus_ppu_write v data ;;
    increment_vram_addr
  else ret tt.

Definition ppu_cpu_read (addr : Z) : Py Z :=
  if addr =? 0x2002 then
    st <- ppu_get Ppu.PPUSTATUS ;;
    buf <- ppu_get Ppu.buffer_data ;;
    let data := Z.lor (Z.land st 0xE0) (Z.land buf 0x1F) in
    ppu_upd (Ppu.set_PPUSTATUS (Z.land st 0x7F)) ;;
    ppu_upd (Ppu.set_address_latch 0) ;;
    ppu_upd (Ppu.set_nmi_triggered false) ;;
    ret data
  else if addr =? 0x2004 then
    oam <- ppu_get Ppu.oam ;;
    oamaddr <- ppu_get Ppu.OAMADDR ;;
    lift (py_getitem oam oamaddr)
  else if addr =? 0x2007 then
    v <- ppu_get Ppu.vram_addr ;;
    data <- (if Z.land v 0x3F00 =? 0x3F00 then
               data <- bus_ppu_read v ;;
               buf <- (if v >=? 0x3000 then bus_ppu_read (v - 0x1000) else ret 0x00) ;;
               ppu_upd (Ppu.set_buffer_data buf) ;;
               ret data
             else
               data <- ppu_get Ppu.buffer_data ;;
               buf <- bus_ppu_read v ;;
               ppu_upd (Ppu.set_buffer_data buf) ;;
               ret data) ;;
    increment_vram_addr ;;
    ret data
  else ret 0x00.

(** ** Bus: the CPU address space *)

(** [cart.cpu_write] returns nothing (and changes nothing), so the bus
    always goes on; the address is not masked in this variant. *)
Definition bus_cpu_write (addr data : Z) : Py unit :=
  c <- gets Bus.cart ;;
  match c with
  | None => ret tt
  | Some c =>
      c' <- lift (cart_cpu_write c addr data) ;;
      modify (Bus.set_cart (Some c'))
  end ;;
  if between 0x0000 addr 0x1FFF then
    ram <- gets Bus.cpu_ram ;;
    ram' <- lift (bytearray_setitem ram (Z.land addr 0x07FF) data) ;;
    modify (Bus.set_cpu_ram ram')
  else if between 0x2000 addr 0x3FFF then
    ppu_cpu_write (Z.land addr 0x2007) data
  else ret tt.

Definition bus_cpu_read (addr : Z) : Py Z :=
  c <- gets Bus.cart ;;
  data <- match c with
          | None => ret 0x00
          | Some c => lift (cart_cpu_read c addr)
          end ;;
  if between 0x0000 addr 0x1FFF then
    ram <- gets Bus.cpu_ram ;;
    lift (py_getitem ram (Z.land addr 0x07FF))
  else if between 0x2000 addr 0x3FFF then
    ppu_cpu_read (Z.land addr 0x2007)
  else ret data.

(** ** CPU: the parts of the core the properties below are about *)

Definition FLAG_C : Z := Z.shiftl 1 0.
Definition FLAG_Z : Z := Z.shiftl 1 1.
Definition FLAG_I : Z := Z.shiftl 1 2.
Definition FLAG_D : Z := Z.shiftl 1 3.
Definition FLAG_B : Z := Z.shiftl 1 4.
Definition FLAG_U : Z := Z.shiftl 1 5.
Definition FLAG_V : Z := Z.shiftl 1 6.
Definition FLAG_N : Z := Z.shiftl 1 7.

Definition Entry : Type := (AddrMode * Operation * Z)%type.

(** [self.lookup], a list of [(opcode, mode, operation, cycles)]. *)
Definition lookup : list (Z * Entry) :=
  [
    (0xEA, (mIMP, oNOP, 2)); (0xA9, (mIMM, oLDA, 2)); (0xA5, (mZP0, oLDA, 3));
    (0xB5, (mZPX, oLDA, 4)); (0xAD, (mABS, oLDA, 4)); (0xBD, (mABX, oLDA, 4));
    (0xB9, (mABY, oLDA, 4)); (0xA1, (mIZX, oLDA, 6)); (0xB1, (mIZY, oLDA, 5));
    (0x85, (mZP0, oSTA, 3)); (0x95, (mZPX, oSTA, 4)); (0x8D, (mABS, oSTA, 4));
    (0x9D, (mABX, oSTA, 5)); (0x99, (mABY, oSTA, 5)); (0x81, (mIZX, oSTA, 6));
    (0x91, (mIZY, oSTA, 6)); (0x4C, (mABS, oJMP, 3)); (0x6C, (mIND, oJMP, 5));
    (0x20, (mABS, oJSR, 6)); (0x60, (mIMP, oRTS, 6)); (0xAA, (mIMP, oTAX, 2));
    (0x8A, (mIMP, oTXA, 2)); (0xA8, (mIMP, oTAY, 2)); (0x98, (mIMP, oTYA, 2));
    (0xBA, (mIMP, oTSX, 2)); (0x9A, (mIMP, oTXS, 2)); (0xE8, (mIMP, oINX, 2));
    (0xCA, (mIMP, oDEX, 2)); (0xC8, (mIMP, oINY, 2)); (0x88, (mIMP, oDEY, 2));
    (0xC9, (mIMM, oCMP, 2)); (0xC5, (mZP0, oCMP, 3)); (0xD5, (mZPX, oCMP, 4));
    (0xCD, (mABS, oCMP, 4)); (0xDD, (mABX, oCMP, 4)); (0xD9, (mABY, oCMP, 4));
    (0xC1, (mIZX, oCMP, 6)); (0xD1, (mIZY, oCMP, 5)); (0xE0, (mIMM, oCPX, 2));
    (0xE4, (mZP0, oCPX, 3)); (0xEC, (mABS, oCPX, 4)); (0xC0, (mIMM, oCPY, 2));
    (0xC4, (mZP0, oCPY, 3)); (0xCC, (mABS, oCPY, 4)); (0x29, (mIMM, oAND, 2));
    (0x25, (mZP0, oAND, 3)); (0x35, (mZPX, oAND, 4)); (0x2D, (mABS, oAND, 4));
    (0x3D, (mABX, oAND, 4)); (0x39, (mABY, oAND, 4)); (0x21, (mIZX, oAND, 6));
    (0x31, (mIZY, oAND, 5)); (0x09, (mIMM, oORA, 2)); (0x05, (mZP0, oORA, 3));
    (0x15, (mZPX, oORA, 4)); (0x0D, (mABS, oORA, 4)); (0x1D, (mABX, oORA, 4));
    (0x19, (mABY, oORA, 4)); (0x01, (mIZX, oORA, 6)); (0x11, (mIZY, oORA, 5));
    (0x49, (mIMM, oEOR, 2)); (0x45, (mZP0, oEOR, 3)); (0x55, (mZPX, oEOR, 4));
    (0x4D, (mABS, oEOR, 4)); (0x5D, (mABX, oEOR, 4)); (0x59, (mABY, oEOR, 4));
    (0x41, (mIZX, oEOR, 6)); (0x51, (mIZY, oEOR, 5)); (0x69, (mIMM, oADC, 2));
    (0x65, (mZP0, oADC, 3)); (0x75, (mZPX, oADC, 4)); (0x6D, (mABS, oADC, 4));
    (0x7D, (mABX, oADC, 4)); (0x79, (mABY, oADC, 4)); (0x61, (mIZX, oADC, 6));
    (0x71, (mIZY, oADC, 5)); (0xE9, (mIMM, oSBC, 2)); (0xE5, (mZP0, oSBC, 3));
    (0xF5, (mZPX, oSBC, 4)); (0xED, (mABS, oSBC, 4)); (0xFD, (mABX, oSBC, 4));
    (0xF9, (mABY, oSBC, 4)); (0xE1, (mIZX, oSBC, 6)); (0xF1, (mIZY, oSBC, 5));
    (0x0A, (mACC, oASL, 2)); (0x06, (mZP0, oASL, 5)); (0x16, (mZPX, oASL, 6));
    (0x0E, (mABS, oASL, 6)); (0x1E, (mABX, oASL, 7)); (0x4A, (mACC, oLSR, 2));
    (0x46, (mZP0, oLSR, 5)); (0x56, (mZPX, oLSR, 6)); (0x4E, (mABS, oLSR, 6));
    (0x5E, (mABX, oLSR, 7)); (0x2A, (mACC, oROL, 2)); (0x26, (mZP0, oROL, 5));
    (0x36, (mZPX, oROL, 6)); (0x2E, (mABS, oROL, 6)); (0x3E, (mABX, oROL, 7));
    (0x6A, (mACC, oROR, 2)); (0x66, (mZP0, oROR, 5)); (0x76, (mZPX, oROR, 6));
    (0x6E, (mABS, oROR, 6)); (0x7E, (mABX, oROR, 7)); (0x24, (mZP0, oBIT, 3));
    (0x2C, (mABS, oBIT, 4)); (0x10, (mREL, oBPL, 2)); (0x30, (mREL, oBMI, 2));
    (0x50, (mREL, oBVC, 2)); (0x70, (mREL, oBVS, 2)); (0x90, (mREL, oBCC, 2));
    (0xB0, (mREL, oBCS, 2)); (0xD0, (mREL, oBNE, 2)); (0xF0, (mREL, oBEQ, 2));
    (0x00, (mIMP, oBRK, 7)); (0x40, (mIMP, oRTI, 6)); (0x48, (mIMP, oPHA, 3));
    (0x68, (mIMP, oPLA, 4)); (0x08, (mIMP, oPHP, 3)); (0x28, (mIMP, oPLP, 4));
    (0x18, (mIMP, oCLC, 2)); (0x38, (mIMP, oSEC, 2)); (0x58, (mIMP, oCLI, 2));
    (0x78, (mIMP, oSEI, 2)); (0xB8, (mIMP, oCLV, 2)); (0xD8, (mIMP, oCLD, 2));
    (0xF8, (mIMP, oSED, 2))
  ].

(** [self.lookup_dict[opcode]]: the dictionary built from [lookup] (a later
    entry would replace an earlier one); a missing key is a [KeyError]. *)
Definition lookup_dict (opcode : Z) : Result Entry :=
  match find (fun e => fst e =? opcode) (rev lookup) with
  | Some e => Ok (snd e)
  | None => Raise KeyError
  end.

Definition read (addr : Z) : Py Z := bus_cpu_read addr.
Definition write (addr data : Z) : Py unit := bus_cpu_write addr data.

(** [get_flag] returns the integer 1 or 0. *)
Definition get_flag (flag : Z) : Py Z :=
  st <- cpu_get Cpu.status ;;
  ret (if Z.land st flag >? 0 then 1 else 0).

Definition with_flag (status flag : Z) (value : bool) : Z :=
  if value then Z.lor status flag else Z.land status (Z.lnot flag).

Definition set_flag (flag : Z) (value : bool) : Py unit :=
  st <- cpu_get Cpu.status ;;
  cpu_upd (Cpu.set_status (with_flag st flag value)).

(** The final [print] only writes to the console. *)
Definition reset : Py unit :=
  cpu_upd (Cpu.set_addr_abs 0xFFFC) ;;
  addr <- cpu_get Cpu.addr_abs ;;
  lo <- read addr ;;
  addr <- cpu_get Cpu.addr_abs ;;
  hi <- read (addr + 1) ;;
  cpu_upd (Cpu.set_pc (Z.lor (Z.shiftl hi 8) lo)) ;;
  cpu_upd (Cpu.set_a 0x00) ;;
  cpu_upd (Cpu.set_x 0x00) ;;
  cpu_upd (Cpu.set_y 0x00) ;;
  cpu_upd (Cpu.set_stkp 0xFD) ;;
  cpu_upd (Cpu.set_status (Z.lor (Z.lor 0x00 FLAG_U) FLAG_I)) ;;
  cpu_upd (Cpu.set_addr_rel 0x0000) ;;
  cpu_upd (Cpu.set_addr_abs 0x0000) ;;
  cpu_upd (Cpu.set_fetched 0x00) ;;
  cpu_upd (Cpu.set_cycles 8) ;;
  cpu_upd (Cpu.set_illegal_opcodes []).

(** [self.write(0x0100 + self.stkp, v); self.stkp -= 1] (no mask on the
    stack pointer in this variant). *)
Definition push (v : Z) : Py unit :=
  sp <- cpu_get Cpu.stkp ;;
  write (0x0100 + sp) v ;;
  cpu_upd (Cpu.set_stkp (sp - 1)).

Definition non_maskable_interrupt : Py unit :=
  pc <- cpu_get Cpu.pc ;;
  push (Z.land (Z.shiftr pc 8) 0x00FF) ;;
  push (Z.land pc 0x00FF) ;;
  set_flag FLAG_B false ;;
  set_flag FLAG_U true ;;
  set_flag FLAG_I true ;;
  st <- cpu_get Cpu.status ;;
  push st ;;
  cpu_upd (Cpu.set_addr_abs 0xFFFA) ;;
  addr <- cpu_get Cpu.addr_abs ;;
  lo <- read addr ;;
  addr <- cpu_get Cpu.addr_abs ;;
  hi <- read (addr + 1) ;;
  cpu_upd (Cpu.set_pc (Z.lor (Z.shiftl hi 8) lo)) ;;
  cpu_upd (Cpu.set_cycles 8).

(** [fetch] looks the mode up under [self.opcode], a field that [clock]
    never assigns (it keeps the opcode in a local variable). *)
Definition fetch : Py Z :=
  op <- cpu_get Cpu.opcode ;;
  e <- lift (lookup_dict op) ;;
  let m := fst (fst e) in
  (if negb (AddrMode_eqb m mIMP || AddrMode_eqb m mACC) then
     addr <- cpu_get Cpu.addr_abs ;;
     d <- read addr ;;
     cpu_upd (Cpu.set_fetched d)
   else ret tt) ;;
  cpu_get Cpu.fetched.

Definition ADC : Py Z :=
  fetch ;;
  a <- cpu_get Cpu.a ;;
  fetched <- cpu_get Cpu.fetched ;;
  c <- get_flag FLAG_C ;;
  let temp := a + fetched + c in
  set_flag FLAG_C (temp >? 255) ;;
  set_flag FLAG_Z (Z.land temp 0x00FF =? 0x00) ;;
  set_flag FLAG_V
    (negb (Z.land (Z.land (Z.lxor a temp) (Z.lxor fetched temp)) 0x80 =? 0)) ;;
  set_flag FLAG_N (Z.land temp 0x80 >? 0) ;;
  cpu_upd (Cpu.set_a (Z.land temp 0x00FF)) ;;
  ret 1.

Definition branch (condition : bool) : Py Z :=
  (if condition then
     cy <- cpu_get Cpu.cycles ;;
     cpu_upd (Cpu.set_cycles (cy + 1)) ;;
     pc <- cpu_get Cpu.pc ;;
     rel <- cpu_get Cpu.addr_rel ;;
     let addr_abs := pc + rel in
     cpu_upd (Cpu.set_addr_abs addr_abs) ;;
     (if negb (Z.land addr_abs 0xFF00 =? Z.land pc 0xFF00) then
        cy <- cpu_get Cpu.cycles ;;
        cpu_upd (Cpu.set_cycles (cy + 2))
      else ret tt) ;;
     cpu_upd (Cpu.set_pc addr_abs)
   else ret tt) ;;
  ret 0.

Definition BPL : Py Z := n <- get_flag FLAG_N ;; branch (n =? 0).
Definition BMI : Py Z := n <- get_flag FLAG_N ;; branch (n =? 1).
Definition BVC : Py Z := v <- get_flag FLAG_V ;; branch (v =? 0).
Definition BVS : Py Z := v <- get_flag FLAG_V ;; branch (v =? 1).
Definition BCC : Py Z := c <- get_flag FLAG_C ;; branch (c =? 0).
Definition BCS : Py Z := c <- get_flag FLAG_C ;; branch (c =? 1).
Definition BNE : Py Z := z <- get_flag FLAG_Z ;; branch (z =? 0).
Definition BEQ : Py Z := z <- get_flag FLAG_Z ;; branch (z =? 1).

(** ** PPU: rendering and timing *)

(** [self.palette], RGB strings. *)
Definition palette : list string :=
  [ "#666666"; "#002A88"; "#1412A7"; "#3B00A4"; "#5F0083"; "#73005A"; "#730014"; "#630000";
    "#400000"; "#0A0200"; "#000000"; "#000000"; "#000000"; "#000000"; "#000000"; "#000000";
    "#B4B4B4"; "#0051EE"; "#2420EA"; "#5F00E4"; "#9400B3"; "#B7007E"; "#B5002D"; "#A00000";
    "#7C0000"; "#4A0400"; "#000000"; "#000000"; "#000000"; "#000000"; "#000000"; "#000000";
    "#FFFFFF"; "#0093FF"; "#4581FF"; "#8200FF"; "#BF00EA"; "#E400B4"; "#E7005B"; "#CE1000";
    "#943600"; "#545200"; "#000000"; "#000000"; "#000000"; "#000000"; "#000000"; "#000000";
    "#FFFFFF"; "#3ECEFF"; "#887EFF"; "#C76EFF"; "#FF6ECC"; "#FF6EB4"; "#FF7664"; "#FF8832";
    "#FF9A05"; "#EAC200"; "#000000"; "#000000"; "#000000"; "#000000"; "#000000"; "#000000" ]%string.

(** [PPU2C02.__init__] *)
Definition PPU2C02_init : Ppu.state :=
  Ppu.mk 0x00 0x00 0x00 0x00 0x00 0x00 0x00 0x00
         0x0000 0x0000 0 0 0x00
         (bytearray 256) 0x00 0x00
         (bytearray 4096) (bytearray 32)
         0 0 false false
         (repeat (repeat "#000000"%string (Z.to_nat NES_WIDTH)) (Z.to_nat NES_HEIGHT)).

Definition get_color_from_palette_ram (palette_ram_index : Z) : Result string :=
  py_getitem palette (palette_ram_index mod 64).

(** [(r >> n) & 1] as a condition. *)
Definition bit_set (r n : Z) : bool := truthy (Z.land (Z.shiftr r n) 1).

Definition increment_h : Py unit :=
  v <- ppu_get Ppu.vram_addr ;;
  if Z.land v 0x001F =? 0x1F then
    let v1 := Z.land v (Z.lnot 0x001F) in
    ppu_upd (Ppu.set_vram_addr (Z.lxor v1 0x0400))
  else ppu_upd (Ppu.set_vram_addr (v + 1)).

Definition increment_v : Py unit :=
  v <- ppu_get Ppu.vram_addr ;;
  if negb (Z.land v 0x7000 =? 0x7000) then ppu_upd (Ppu.set_vram_addr (v + 0x1000))
  else
    let v1 := Z.land v (Z.lnot 0x7000) in
    let coarse_y := Z.shiftr (Z.land v1 0x03E0) 5 in
    let '(coarse_y', v2) :=
      if coarse_y =? 29 then (0, Z.lxor v1 0x0800)
      else if coarse_y =? 31 then (0, v1)
      else (coarse_y + 1, v1) in
    ppu_upd (Ppu.set_vram_addr (Z.lor (Z.land v2 (Z.lnot 0x03E0)) (Z.shiftl coarse_y' 5))).

Definition transfer_x : Py unit :=
  v <- ppu_get Ppu.vram_addr ;;
  t <- ppu_get Ppu.temp_vram_addr ;;
  let v1 := Z.lor (Z.land v 0xFFE0) (Z.land t 0x001F) in
  let v2 := Z.lor (Z.land v1 0xF3FF) (Z.land t 0x0400) in
  ppu_upd (Ppu.set_vram_addr v2).

Definition transfer_y : Py unit :=
  v <- ppu_get Ppu.vram_addr ;;
  t <- ppu_get Ppu.temp_vram_addr ;;
  let v1 := Z.lor (Z.land v 0x8FFF) (Z.land t 0x7000) in
  let v2 := Z.lor (Z.land v1 0xFC1F) (Z.land t 0x03E0) in
  let v3 := Z.lor (Z.land v2 0xFBFF) (Z.land t 0x0800) in
  ppu_upd (Ppu.set_vram_addr v3).

(** [(self.PPUMASK >> 3) & 1 or (self.PPUMASK >> 4) & 1] *)
Definition rendering_enabled : Py bool :=
  mask <- ppu_get Ppu.PPUMASK ;;
  ret (bit_set mask 3 || bit_set mask 4).

(** [self.pixel_buffer[self.scanline][self.cycle - 1] = colour] *)
Definition put_pixel (colour : string) : Py unit :=
  buf <- ppu_get Ppu.pixel_buffer ;;
  scanline <- ppu_get Ppu.scanline ;;
  cycle <- ppu_get Ppu.cycle ;;
  row <- lift (py_getitem buf scanline) ;;
  row' <- lift (py_setitem row (cycle - 1) colour) ;;
  buf' <- lift (py_setitem buf scanline row') ;;
  ppu_upd (Ppu.set_pixel_buffer buf').

(** [(plane1 >> (7 - px)) & 1) << 1 | ((plane0 >> (7 - px)) & 1] *)
Definition plane_bits (plane0_byte plane1_byte px : Z) : Result Z :=
  match py_rshift plane0_byte (7 - px), py_rshift plane1_byte (7 - px) with
  | Ok s0, Ok s1 => Ok (Z.lor (Z.shiftl (Z.land s1 1) 1) (Z.land s0 1))
  | Raise e, _ => Raise e
  | _, Raise e => Raise e
  end.

(** Background pixel, [if self.cycle >= 1 and self.cycle <= 256:].  The
    palette id only exists when background rendering is enabled. *)
Definition render_background : Py unit :=
  p <- gets Bus.ppu ;;
  sel <- (if bit_set p.(Ppu.PPUMASK) 3 then
            let v := p.(Ppu.vram_addr) in
            tile_id <- bus_ppu_read (Z.lor 0x2000 (Z.land v 0x0FFF)) ;;
            let attr_addr :=
              Z.lor (Z.lor (Z.lor 0x23C0 (Z.land v 0x0C00)) (Z.land (Z.shiftr v 4) 0x38))
                    (Z.land (Z.shiftr v 2) 0x07) in
            attr_byte <- bus_ppu_read attr_addr ;;
            let palette_select_shift :=
              Z.lor (Z.shiftl (Z.land (Z.shiftr v 4) 0x01) 1) (Z.land (Z.shiftr v 1) 0x01) in
            sh <- lift (py_rshift attr_byte palette_select_shift) ;;
            let bg_palette_id := Z.land sh 0x03 in
            let pattern_table_base := if bit_set p.(Ppu.PPUCTRL) 4 then 0x1000 else 0x0000 in
            let tile_row := Z.land (Z.shiftr v 12) 0x07 in
            plane0_byte <- bus_ppu_read (pattern_table_base + tile_id * 16 + tile_row) ;;
            plane1_byte <- bus_ppu_read (pattern_table_base + tile_id * 16 + tile_row + 8) ;;
            let pixel_x_in_tile := (p.(Ppu.cycle) - 1 + p.(Ppu.fine_x)) mod 8 in
            idx <- lift (plane_bits plane0_byte plane1_byte pixel_x_in_tile) ;;
            ret (bg_palette_id, idx)
          else ret (0, 0x00)) ;;
  let '(bg_palette_id, bg_pixel_color_idx) := sel in
  final_bg_color_index <-
    (if bg_pixel_color_idx =? 0 then bus_ppu_read 0x3F00
     else bus_ppu_read (0x3F00 + bg_palette_id * 4 + bg_pixel_color_idx)) ;;
  colour <- lift (get_color_from_palette_ram final_bg_color_index) ;;
  put_pixel colour.

(** The body of [for i in range(0, 256, 4):]; the sprite-zero test at its
    end only reaches a [pass]. *)
Definition render_sprite (i : Z) : Py unit :=
  p <- gets Bus.ppu ;;
  let oam := p.(Ppu.oam) in
  let scanline := p.(Ppu.scanline) in
  let cycle := p.(Ppu.cycle) in
  sprite_y <- lift (py_getitem oam i) ;;
  sprite_tile_id <- lift (py_getitem oam (i + 1)) ;;
  sprite_attributes <- lift (py_getitem oam (i + 2)) ;;
  sprite_x <- lift (py_getitem oam (i + 3)) ;;
  let sprite_height := if bit_set p.(Ppu.PPUCTRL) 5 then 16 else 8 in
  if (sprite_y <=? scanline) && (scanline <? sprite_y + sprite_height) then
    if (sprite_x <=? cycle - 1) && (cycle - 1 <? sprite_x + 8) then
      let py0 := scanline - sprite_y in
      let px0 := (cycle - 1) - sprite_x in
      let py1 := if bit_set sprite_attributes 7 then (sprite_height - 1) - py0 else py0 in
      let px := if bit_set sprite_attributes 6 then (8 - 1) - px0 else px0 in
      let '(pattern_table_base, tile, py) :=
        if sprite_height =? 8 then
          (if bit_set p.(Ppu.PPUCTRL) 3 then 0x1000 else 0x0000, sprite_tile_id, py1)
        else
          let base := if truthy (Z.land sprite_tile_id 0x01) then 0x1000 else 0x0000 in
          let tile := Z.land sprite_tile_id 0xFE in
          if py1 >=? 8 then (base, tile + 1, py1 - 8) else (base, tile, py1) in
      plane0_byte <- bus_ppu_read (pattern_table_base + tile * 16 + py) ;;
      plane1_byte <- bus_ppu_read (pattern_table_base + tile * 16 + py + 8) ;;
      sprite_pixel_color_idx <- lift (plane_bits plane0_byte plane1_byte px) ;;
      if negb (sprite_pixel_color_idx =? 0) then
        let sprite_palette_id := Z.land sprite_attributes 0x03 + 4 in
        final_sprite_color_index <-
          bus_ppu_read (0x3F00 + sprite_palette_id * 4 + sprite_pixel_color_idx) ;;
        colour <- lift (get_color_from_palette_ram final_sprite_color_index) ;;
        put_pixel colour
      else ret tt
    else ret tt
  else ret tt.

Fixpoint for_each {S A} (l : list A) (body : A -> M S unit) : M S unit :=
  match l with
  | [] => ret tt
  | a :: l' => body a ;; for_each l' body
  end.

(** [range(0, 256, 4)] *)
Definition sprite_indices : list Z := map (fun k => 4 * Z.of_nat k) (seq 0 64).

Definition visible_scanline : Py unit :=
  cycle <- ppu_get Ppu.cycle ;;
  (if (cycle >=? 1) && (cycle <=? 256) then render_background else ret tt) ;;
  mask <- ppu_get Ppu.PPUMASK ;;
  (if bit_set mask 4 then for_each sprite_indices render_sprite else ret tt) ;;
  en <- rendering_enabled ;;
  if cycle =? 256 then (if en then increment_h else ret tt)
  else if cycle =? 257 then (if en then transfer_x else ret tt)
  else ret tt.

Definition vblank_start : Py unit :=
  st <- ppu_get Ppu.PPUSTATUS ;;
  ppu_upd (Ppu.set_PPUSTATUS (Z.lor st 0x80)) ;;
  ctrl <- ppu_get Ppu.PPUCTRL ;;
  if bit_set ctrl 7 then
    trig <- ppu_get Ppu.nmi_triggered ;;
    if negb trig then
      non_maskable_interrupt ;;
      ppu_upd (Ppu.set_nmi_triggered true)
    else ret tt
  else ret tt.

Definition prerender_scanline : Py unit :=
  cycle <- ppu_get Ppu.cycle ;;
  (if cycle =? 1 then
     st <- ppu_get Ppu.PPUSTATUS ;;
     let st1 := Z.land st (Z.lnot 0x80) in
     let st2 := Z.land st1 (Z.lnot 0x40) in
     let st3 := Z.land st2 (Z.lnot 0x20) in
     ppu_upd (Ppu.set_PPUSTATUS st3) ;;
     ppu_upd (Ppu.set_nmi_triggered false)
   else ret tt) ;;
  en <- rendering_enabled ;;
  (if cycle =? 257 then (if en then transfer_x else ret tt)
   else if (cycle >=? 280) && (cycle <=? 304) then (if en then transfer_y else ret tt)
   else ret tt) ;;
  (if cycle =? 256 then (if en then increment_v else ret tt) else ret tt).

(** [# Update cycle and scanline] *)
Definition advance_counters : Py unit :=
  cycle <- ppu_get Ppu.cycle ;;
  ppu_upd (Ppu.set_cycle (cycle + 1)) ;;
  if cycle + 1 >? 340 then
    ppu_upd (Ppu.set_cycle 0) ;;
    scanline <- ppu_get Ppu.scanline ;;
    ppu_upd (Ppu.set_scanline (scanline + 1)) ;;
    if scanline + 1 >? 261 then
      ppu_upd (Ppu.set_scanline 0) ;;
      ppu_upd (Ppu.set_frame_complete true)
    else ret tt
  else ret tt.

Definition ppu_clock : Py unit :=
  scanline <- ppu_get Ppu.scanline ;;
  cycle <- ppu_get Ppu.cycle ;;
  (if (scanline >=? 0) && (scanline <=? 239) then visible_scanline
   else if (scanline =? 241) && (cycle =? 1) then vblank_start
   else if scanline =? 261 then prerender_scanline
   else ret tt) ;;
  advance_counters.

(** ** Construction, as the host application does it *)

(** [CPU6502.__init__] *)
Definition CPU6502_init : Cpu.state :=
  Cpu.mk 0x00 0x00 0x00 0xFD 0x0000 0x00
         0x00 0x0000 0x0000 0x00 0
         0x00 0x00 0x00 false true [].

(** [Bus()] with [connect_cpu(CPU6502())] and [connect_ppu(PPU2C02())]. *)
Definition Bus_init : Bus.state :=
  Bus.mk CPU6502_init PPU2C02_init None (bytearray 2048) 0.

End MonikaNES.

(** * The [CATNES5.23.251.0AA.py] variant: ROM loader and cartridge *)

Module CATNES5.

(** What the constructors print that matters below. *)
Inductive Console : Type :=
| UnsupportedMapperWarning (mapper_id : Z).

Record NESRom : Type := mkNESRom {
  filepath : string;
  prg_rom : list Z;
  chr_rom : list Z;
  mapper_id : Z;
  mirroring : Z;
  has_battery : Z;
  valid : bool;
  error_message : string
}.

Definition set_mapper_id (v' : Z) (r : NESRom) : NESRom :=
  mkNESRom r.(filepath) r.(prg_rom) r.(chr_rom) v' r.(mirroring)
           r.(has_battery) r.(valid) r.(error_message).

(** The fields as the first lines of [NESRom.__init__] set them. *)
Definition NESRom_blank (filepath : string) : NESRom :=
  mkNESRom filepath [] [] 0 0 0 false EmptyString.

Definition set_error (msg : string) (r : NESRom) : NESRom :=
  mkNESRom r.(filepath) r.(prg_rom) r.(chr_rom) r.(mapper_id) r.(mirroring)
           r.(has_battery) r.(valid) msg.

(** [bytearray(f.read(n))] at offset [pos] of the file. *)
Definition read_at (file : list byte) (pos n : Z) : list Z :=
  map byte_val (py_slice file pos (pos + n)).

Definition hdr (h : list byte) (i : Z) : Result Z :=
  match py_getitem h i with
  | Ok b => Ok (byte_val b)
  | Raise e => Raise e
  end.

(** [NESRom.__init__] on a file whose content is [file] ([None]: the file
    does not exist).  Every exception is caught and turned into
    [error_message]; the constructor itself always returns. *)
Definition NESRom_init (filepath : string) (file : option (list byte)) : NESRom :=
  let r := NESRom_blank filepath in
  match file with
  | None => set_error "Oh noes! File not found! Did it run away? ;_;" r
  | Some file =>
      let header := py_slice file 0 16 in
      if negb (bytes_eqb (py_slice header 0 4) NES_MAGIC) then
        set_error "This doesn't look like a NES ROM, sweetie! Invalid header! Nya~!" r
      else
        match hdr header 4, hdr header 5, hdr header 6, hdr header 7 with
        | Ok prg_rom_banks, Ok chr_rom_banks, Ok flags6, Ok flags7 =>
            let mapper_id := Z.lor (Z.shiftr flags6 4) (Z.land flags7 0xF0) in
            let mirroring := Z.land flags6 0x01 in
            let has_battery := Z.land (Z.shiftr flags6 1) 0x01 in
            let has_trainer := Z.land (Z.shiftr flags6 2) 0x01 in
            let pos := if truthy has_trainer then 16 + 512 else 16 in
            let prg_rom_size := prg_rom_banks * 16384 in
            let prg_rom := read_at file pos prg_rom_size in
            let chr_rom :=
              if chr_rom_banks =? 0 then bytearray 8192
              else read_at file (pos + prg_rom_size) (chr_rom_banks * 8192) in
            mkNESRom filepath prg_rom chr_rom mapper_id mirroring has_battery true EmptyString
        | _, _, _, _ =>
            set_error "Something went a little oopsie loading the ROM: index out of range, teehee!" r
        end
  end.

Record Cartridge : Type := mkCartridge {
  rom : NESRom;
  prg_ram : list Z;
  prg_banks : Z;
  chr_banks : Z
}.

(** [Cartridge.__init__]: a mapper id other than 0 prints a warning and
    construction goes on.  The result type leaves room for an exception so
    that "construction fails" can be stated; none is ever raised. *)
Definition Cartridge_init (r : NESRom) : Result (list Console * Cartridge) :=
  let out := if negb (r.(mapper_id) =? 0)
             then [UnsupportedMapperWarning r.(mapper_id)] else [] in
  Ok (out,
      mkCartridge r (bytearray 8192)
                  (Z.of_nat (length r.(prg_rom)) / 16384)
                  (Z.of_nat (length r.(chr_rom)) / 8192)).

(** The NROM address decoding of [Cartridge.cpu_read]. *)
Definition cart_cpu_read (c : Cartridge) (addr : Z) : Result Z :=
  if between 0x6000 addr 0x7FFF then py_getitem c.(prg_ram) (addr - 0x6000)
  else if between 0x8000 addr 0xFFFF then
    if c.(prg_banks) =? 1
    then py_getitem c.(rom).(prg_rom) (Z.land (addr - 0x8000) 0x3FFF)
    else py_getitem c.(rom).(prg_rom) (addr - 0x8000)
  else Ok 0.

(** [load_rom_action], up to the cartridge: an invalid ROM is refused with
    a [ValueError], a valid one gets its cartridge whatever its mapper. *)
Definition load_rom_action (filepath : string) (file : option (list byte))
  : Result (list Console * Cartridge) :=
  let r := NESRom_init filepath file in
  if negb r.(valid) then Raise ValueError else Cartridge_init r.

End CATNES5.

(** * The [ChatGPTPRO5.23.25EMUAINES.py] variant: header and loader *)

Module GIGA.

Definition INES_HEADER_SIZE : Z := 16.
Definition PRG_PAGE : Z := 16 * 1024.
Definition CHR_PAGE : Z := 8 * 1024.
Definition TRAINER_SIZE : Z := 512.

Definition I_FLAG : Z := Z.shiftl 1 2.
Definition U_FLAG : Z := Z.shiftl 1 5.

Record INESHeader : Type := mkINESHeader {
  prg_pages : Z;
  chr_pages : Z;
  trainer : bool;
  prg_size : Z;
  chr_size : Z
}.

Definition hdr_byte (h : list byte) (i : Z) : Result Z :=
  match py_getitem h i with
  | Ok b => Ok (byte_val b)
  | Raise e => Raise e
  end.

(** [INESHeader.__init__] *)
Definition INESHeader_init (hdr : list byte) : Result INESHeader :=
  if (Z.of_nat (length hdr) <? INES_HEADER_SIZE)
     || negb (bytes_eqb (py_slice hdr 0 4) NES_MAGIC)
  then Raise ValueError
  else
    match hdr_byte hdr 4, hdr_byte hdr 5, hdr_byte hdr 6 with
    | Ok h4, Ok h5, Ok h6 =>
        Ok (mkINESHeader h4 h5 (truthy (Z.land h6 0x04)) (h4 * PRG_PAGE) (h5 * CHR_PAGE))
    | Raise e, _, _ => Raise e
    | _, Raise e, _ => Raise e
    | _, _, Raise e => Raise e
    end.

(** [Bus]: PRG bytes, 2 KB of RAM, and the CHR bytes its PPU stub keeps. *)
Record Bus : Type := mkBus {
  prg : list byte;
  ram : list Z;
  chr : list byte
}.

Definition Bus_init (prg chr_ : list byte) : Bus := mkBus prg (bytearray 0x0800) chr_.

(** [x % n]: a zero modulus is a [ZeroDivisionError]. *)
Definition py_mod (x n : Z) : Result Z :=
  if n =? 0 then Raise ZeroDivisionError else Ok (x mod n).

Definition bus_read (b : Bus) (addr : Z) : Result Z :=
  let addr := Z.land addr 0xFFFF in
  if addr <? 0x2000 then py_getitem b.(ram) (Z.land addr 0x07FF)
  else if addr >=? 0x8000 then
    match py_mod (addr - 0x8000) (Z.of_nat (length b.(prg))) with
    | Ok i => match py_getitem b.(prg) i with
              | Ok v => Ok (byte_val v)
              | Raise e => Raise e
              end
    | Raise e => Raise e
    end
  else Ok 0.

Record CPU6502 : Type := mkCPU {
  pc : Z; sp : Z; a : Z; x : Z; y : Z; status : Z; cycles : Z
}.

Definition CPU6502_init : CPU6502 := mkCPU 0 0xFD 0 0 0 (Z.lor U_FLAG I_FLAG) 0.

(** [CPU6502.reset] *)
Definition reset (b : Bus) (c : CPU6502) : Result CPU6502 :=
  match bus_read b 0xFFFC with
  | Ok lo =>
      match bus_read b 0xFFFD with
      | Ok hi => Ok (mkCPU (Z.lor (Z.shiftl hi 8) lo) c.(sp) c.(a) c.(x) c.(y) c.(status) 7)
      | Raise e => Raise e
      end
  | Raise e => Raise e
  end.

(** The session fields [_load_rom] assigns. *)
Record Session : Type := mkSession {
  bus : option Bus;
  cpu : option CPU6502
}.

(** [EMUNESApp._load_rom] on the bytes [data] of the chosen file.  The
    [try] block catches every exception (and shows it in a dialog), so the
    method returns the session it leaves behind together with the caught
    exception, if any.  [self.bus] and [self.cpu] are assigned before
    [reset] is called. *)
Definition _load_rom (data : list byte) (s : Session) : Session * option PyExc :=
  match INESHeader_init (py_slice data 0 INES_HEADER_SIZE) with
  | Raise e => (s, Some e)
  | Ok hdr =>
      let offset := INES_HEADER_SIZE + (if hdr.(trainer) then TRAINER_SIZE else 0) in
      let prg := py_slice data offset (offset + hdr.(prg_size)) in
      let offset := offset + hdr.(prg_size) in
      let chr_ := py_slice data offset (offset + hdr.(chr_size)) in
      let b := Bus_init prg chr_ in
      let c := CPU6502_init in
      match reset b c with
      | Ok c' => (mkSession (Some b) (Some c'), None)
      | Raise e => (mkSession (Some b) (Some c), Some e)
      end
  end.

End GIGA.

(** * Facts about the Python sequence operations *)

Section PySequences.
Context {A : Type}.
Implicit Types (l : list A) (i : Z) (n : nat).

Lemma norm_index_inrange n i :
  0 <= i < Z.of_nat n -> norm_index n i = Ok (Z.to_nat i).
Proof.
  intros H. unfold norm_index.
  destruct (Z.ltb_spec i 0); [lia|].
  destruct (Z.leb_spec 0 i); [|lia].
  destruct (Z.ltb_spec i (Z.of_nat n)); [reflexivity|lia].
Qed.

Lemma norm_index_bound n i j : norm_index n i = Ok j -> (j < n)%nat.
Proof.
  unfold norm_index. intros H.
  destruct (Z.ltb_spec i 0);
    match type of H with
    | (if ?c then _ else _) = _ => destruct c eqn:E; [|discriminate]
    end;
    apply andb_true_iff in E; destruct E as [E1 E2];
    apply Z.leb_le in E1; apply Z.ltb_lt in E2;
    inversion H; subst; lia.
Qed.

Lemma length_list_update l n (v : A) : length (list_update l n v) = length l.
Proof.
  revert n; induction l as [|hd tl IH]; intros [|n]; simpl; auto.
Qed.

Lemma nth_error_list_update_eq l n (v : A) :
  (n < length l)%nat -> nth_error (list_update l n v) n = Some v.
Proof.
  revert n; induction l as [|hd tl IH]; intros [|n] H; simpl in *; try lia; auto.
  apply IH. lia.
Qed.

Lemma nth_error_list_update_neq l n k (v : A) :
  n <> k -> nth_error (list_update l n v) k = nth_error l k.
Proof.
  revert n k; induction l as [|hd tl IH]; intros [|n] [|k] H; simpl; auto.
  congruence.
Qed.

Lemma Forall_list_update (P : A -> Prop) l n (v : A) :
  Forall P l -> P v -> Forall P (list_update l n v).
Proof.
  intros Hl Hv. revert n.
  induction Hl as [|hd tl Hh Ht IH]; intros [|n]; simpl; auto.
Qed.

Lemma py_getitem_inrange l i :
  0 <= i < Z.of_nat (length l) ->
  exists v, py_getitem l i = Ok v /\ nth_error l (Z.to_nat i) = Some v.
Proof.
  intros H. unfold py_getitem. rewrite norm_index_inrange by assumption.
  destruct (nth_error l (Z.to_nat i)) as [v|] eqn:E.
  - exists v. auto.
  - apply nth_error_None in E. lia.
Qed.

Lemma py_setitem_inrange l i (v : A) :
  0 <= i < Z.of_nat (length l) ->
  py_setitem l i v = Ok (list_update l (Z.to_nat i) v).
Proof.
  intros H. unfold py_setitem. now rewrite norm_index_inrange.
Qed.

Lemma py_setitem_length l i (v : A) l' :
  py_setitem l i v = Ok l' -> length l' = length l.
Proof.
  unfold py_setitem. destruct (norm_index (length l) i); [|discriminate].
  intros H; inversion H. apply length_list_update.
Qed.

Lemma py_setitem_Forall (P : A -> Prop) l i (v : A) l' :
  py_setitem l i v = Ok l' -> Forall P l -> P v -> Forall P l'.
Proof.
  unfold py_setitem. destruct (norm_index (length l) i); [|discriminate].
  intros H; inversion H. apply Forall_list_update.
Qed.

(** A slice never holds more than what the sequence has after [lo]. *)
Lemma py_slice_length l lo hi :
  0 <= lo ->
  Z.of_nat (length (py_slice l lo hi))
  = Z.min (Z.max 0 (hi - lo)) (Z.max 0 (Z.of_nat (length l) - lo)).
Proof.
  intros Hlo. unfold py_slice. rewrite length_firstn, length_skipn. lia.
Qed.

(** Every element of a slice is the element of the sequence at the
    same offset: slicing reads inside the sequence only. *)
Lemma py_slice_nth l lo hi k (b : A) :
  nth_error (py_slice l lo hi) k = Some b ->
  nth_error l (Z.to_nat lo + k) = Some b.
Proof.
  unfold py_slice. intros H.
  assert (Hk : (k < Z.to_nat (hi - lo))%nat).
  { assert (Hs : nth_error (firstn (Z.to_nat (hi - lo)) (skipn (Z.to_nat lo) l)) k <> None) by congruence.
    apply nth_error_Some in Hs. rewrite length_firstn in Hs. lia. }
  rewrite nth_error_firstn in H.
  destruct (Nat.ltb_spec k (Z.to_nat (hi - lo))); [|lia].
  now rewrite nth_error_skipn in H.
Qed.

Lemma py_slice_prefix_prefix l (n k : Z) :
  0 <= k <= n -> py_slice (py_slice l 0 n) 0 k = py_slice l 0 k.
Proof.
  intros H. unfold py_slice. rewrite !Z.sub_0_r. change (Z.to_nat 0) with 0%nat.
  rewrite !skipn_O. rewrite firstn_firstn. f_equal. lia.
Qed.

Lemma py_slice_full_prefix l n :
  (n <= length l)%nat -> length (py_slice l 0 (Z.of_nat n)) = n.
Proof.
  intros H. unfold py_slice. simpl. rewrite length_firstn. lia.
Qed.
End PySequences.

Lemma bytearray_setitem_ok (l : list Z) (i v : Z) :
  0 <= v <= 255 -> 0 <= i < Z.of_nat (length l) ->
  bytearray_setitem l i v = Ok (list_update l (Z.to_nat i) v).
Proof.
  intros Hv Hi. unfold bytearray_setitem, between.
  destruct (Z.leb_spec 0 v); [|lia]. destruct (Z.leb_spec v 255); [|lia].
  simpl. now apply py_setitem_inrange.
Qed.

Lemma bytearray_setitem_inv (l : list Z) (i v : Z) l' :
  bytearray_setitem l i v = Ok l' ->
  0 <= v <= 255 /\ py_setitem l i v = Ok l'.
Proof.
  unfold bytearray_setitem, between. intros H.
  destruct (Z.leb_spec 0 v); simpl in H; [|discriminate].
  destruct (Z.leb_spec v 255); simpl in H; [|discriminate].
  split; [lia|assumption].
Qed.

Lemma length_bytearray (n : Z) : length (bytearray n) = Z.to_nat n.
Proof. apply repeat_length. Qed.

Lemma land_ones_bound (d n : Z) : 0 <= n -> 0 <= Z.land d (Z.ones n) < 2 ^ n.
Proof.
  intros Hn. rewrite Z.land_ones by assumption. apply Z.mod_pos_bound. lia.
Qed.

(** What [data & 0x3F] can be. *)
Lemma land_0x3F_bound (d : Z) : 0 <= Z.land d 0x3F < 0x40.
Proof. change 0x3F with (Z.ones 6). apply (land_ones_bound d 6). lia. Qed.

(** * Cartridge construction and unsupported mappers (CATNES5) *)

Module CartridgeFacts.
Import CATNES5.

(** A 16 KB PRG / 8 KB CHR image whose header declares mapper 1; the PRG
    is filled with NOP (0xEA). *)
Definition mapper1_image : list byte :=
  [x4e; x45; x53; x1a; x01; x01; x10; x00; x00; x00; x00; x00; x00; x00; x00; x00]
  ++ repeat xea (Z.to_nat 16384) ++ repeat x00 (Z.to_nat 8192).

Definition mapper1_rom : NESRom := NESRom_init "mmc1.nes" (Some mapper1_image).

(** "Construction fails", as the specification has it. *)
Definition construction_fails (r : NESRom) : Prop :=
  exists e, Cartridge_init r = Raise e.

(** C1, counterexample.  A valid image with mapper id 1 gets its cartridge:
    construction returns (with the warning on the console) and the
    cartridge then answers CPU reads by the NROM decoding. *)
Lemma unsupported_mapper_is_accepted :
  mapper_id mapper1_rom = 1 /\ valid mapper1_rom = true /\
  ~ construction_fails mapper1_rom /\
  match load_rom_action "mmc1.nes" (Some mapper1_image) with
  | Ok (out, cart) =>
      out = [UnsupportedMapperWarning 1] /\
      cart_cpu_read cart 0x8000 = Ok 0xEA /\
      cart_cpu_read cart 0xC000 = Ok 0xEA
  | Raise _ => False
  end.
Proof.
  split; [vm_compute; reflexivity|].
  split; [vm_compute; reflexivity|].
  split.
  - intros [e H]. unfold Cartridge_init in H. discriminate.
  - vm_compute. repeat split; reflexivity.
Qed.

(** C1, as amended.  For every ROM image, whatever its mapper id,
    [Cartridge.__init__] returns: it builds the NROM cartridge (8 KB of
    PRG-RAM, bank counts from the PRG and CHR lengths), prints a warning
    exactly when the id is not 0, and the cartridge it builds answers every
    CPU read as the cartridge of the same image with mapper id 0 does. *)
Theorem Cartridge_init_falls_back_to_NROM (r : NESRom) :
  Cartridge_init r
  = Ok (if mapper_id r =? 0 then [] else [UnsupportedMapperWarning (mapper_id r)],
        mkCartridge r (bytearray 8192)
                    (Z.of_nat (length (prg_rom r)) / 16384)
                    (Z.of_nat (length (chr_rom r)) / 8192))
  /\ forall addr,
       match Cartridge_init r, Cartridge_init (set_mapper_id 0 r) with
       | Ok (_, c), Ok (_, c0) => cart_cpu_read c addr = cart_cpu_read c0 addr
       | _, _ => False
       end.
Proof.
  split.
  - unfold Cartridge_init. now destruct (mapper_id r =? 0).
  - intros addr. unfold Cartridge_init, cart_cpu_read. simpl. reflexivity.
Qed.

End CartridgeFacts.

(** * Loading short or truncated images (EMUNES5, GIGA) *)

Module LoaderFacts.

(** Ten bytes: the magic, one PRG page and one CHR page declared, and
    nothing after header byte 9. *)
Definition ten_bytes : list byte :=
  [x4e; x45; x53; x1a; x01; x01; x00; x00; x00; x00].

(** C2, counterexample.  [NESRom.__init__] accepts the ten-byte file: a ROM
    object is constructed, declaring 16 KB of PRG and 8 KB of CHR and
    holding none. *)
Lemma ten_byte_file_is_loaded :
  match EMUNES5.NESRom_init ten_bytes with
  | Ok r =>
      EMUNES5.prg_rom_size r = 16384 /\ EMUNES5.prg_rom r = [] /\
      EMUNES5.chr_rom_size r = 8192 /\ EMUNES5.chr_rom r = []
  | Raise _ => False
  end.
Proof. vm_compute. repeat split; reflexivity. Qed.

Lemma hdr_byte_inrange (h : list byte) (i : Z) :
  0 <= i < Z.of_nat (length h) -> exists v, EMUNES5.hdr h i = Ok v /\ 0 <= v < 256.
Proof.
  intros H. unfold EMUNES5.hdr.
  destruct (py_getitem_inrange h i H) as [b [-> _]].
  exists (byte_val b). split; [reflexivity|].
  unfold byte_val. pose proof (Byte.to_N_bounded b). lia.
Qed.

Lemma bytes_eqb_refl (x : list byte) : bytes_eqb x x = true.
Proof. unfold bytes_eqb. destruct (list_eq_dec byte_eq_dec x x); congruence. Qed.

(** C2, as amended.  A buffer that holds a whole 16-byte header with the
    right magic is loaded whatever sizes it declares: [NESRom.__init__]
    returns a ROM whose PRG and CHR regions are the declared ranges clamped
    to the bytes the buffer has (so shorter than declared when the buffer
    is truncated), and each of their bytes is the buffer's byte at that
    offset: nothing past the end is read.  The header parser of the GIGA
    variant refuses any header shorter than 16 bytes with a [ValueError],
    and its loader then leaves the session as it was. *)
Theorem truncated_image_is_clamped_not_refused :
  (forall data : list byte,
      16 <= Z.of_nat (length data) ->
      py_slice data 0 4 = NES_MAGIC ->
      exists r,
        EMUNES5.NESRom_init data = Ok r /\
        0 <= EMUNES5.prg_rom_size r /\ 0 <= EMUNES5.chr_rom_size r /\
        16 <= EMUNES5.prg_rom_start r /\
        Z.of_nat (length (EMUNES5.prg_rom r))
        = Z.min (EMUNES5.prg_rom_size r)
                (Z.max 0 (Z.of_nat (length data) - EMUNES5.prg_rom_start r)) /\
        Z.of_nat (length (EMUNES5.chr_rom r))
        = Z.min (EMUNES5.chr_rom_size r)
                (Z.max 0 (Z.of_nat (length data) - EMUNES5.chr_rom_start r)) /\
        (forall k b, nth_error (EMUNES5.prg_rom r) k = Some b ->
                     nth_error data (Z.to_nat (EMUNES5.prg_rom_start r) + k) = Some b) /\
        (forall k b, nth_error (EMUNES5.chr_rom r) k = Some b ->
                     nth_error data (Z.to_nat (EMUNES5.chr_rom_start r) + k) = Some b))
  /\ (forall hdr : list byte,
         Z.of_nat (length hdr) < 16 -> GIGA.INESHeader_init hdr = Raise ValueError)
  /\ (forall (data : list byte) (s : GIGA.Session),
         Z.of_nat (length data) < 16 -> GIGA._load_rom data s = (s, Some ValueError)).
Proof.
  split; [|split].
  - intros data Hlen Hmagic.
    assert (Hh : length (py_slice data 0 16) = 16%nat).
    { apply (py_slice_full_prefix data 16). lia. }
    unfold EMUNES5.NESRom_init.
    assert (Hm : py_slice (py_slice data 0 16) 0 4 = NES_MAGIC).
    { rewrite <- Hmagic. apply py_slice_prefix_prefix. lia. }
    rewrite Hm, bytes_eqb_refl. simpl negb. cbv iota.
    destruct (hdr_byte_inrange (py_slice data 0 16) 4) as [h4 [E4 B4]]; [lia|].
    destruct (hdr_byte_inrange (py_slice data 0 16) 5) as [h5 [E5 B5]]; [lia|].
    destruct (hdr_byte_inrange (py_slice data 0 16) 7) as [h7 [E7 B7]]; [lia|].
    destruct (hdr_byte_inrange (py_slice data 0 16) 6) as [h6 [E6 B6]]; [lia|].
    rewrite E4, E5, E7, E6.
    eexists. split; [reflexivity|]. cbn [EMUNES5.prg_rom_size EMUNES5.chr_rom_size
      EMUNES5.prg_rom_start EMUNES5.chr_rom_start EMUNES5.prg_rom EMUNES5.chr_rom].
    set (start := if negb (Z.land h6 4 =? 0) then 16 + 512 else 16).
    assert (Hs : 16 <= start) by (subst start; destruct (negb _); lia).
    repeat split; try lia.
    + rewrite py_slice_length by lia. lia.
    + rewrite py_slice_length by lia. lia.
    + intros k b. apply py_slice_nth.
    + intros k b. apply py_slice_nth.
  - intros hdr Hlen. unfold GIGA.INESHeader_init, GIGA.INES_HEADER_SIZE.
    destruct (Z.ltb_spec (Z.of_nat (length hdr)) 16); [reflexivity|lia].
  - intros data s Hlen. unfold GIGA._load_rom, GIGA.INESHeader_init, GIGA.INES_HEADER_SIZE.
    assert (Hl : Z.of_nat (length (py_slice data 0 16)) < 16).
    { rewrite py_slice_length by lia. lia. }
    destruct (Z.ltb_spec (Z.of_nat (length (py_slice data 0 16))) 16); [reflexivity|lia].
Qed.

(** A 16-byte header that declares one PRG page, followed by two bytes. *)
Definition short_image : list byte :=
  [x4e; x45; x53; x1a; x01; x00; x00; x00; x00; x00; x00; x00; x00; x00; x00; x00;
   xa9; x42].

Lemma truncated_image_is_clamped_witness :
  16 <= Z.of_nat (length short_image) /\
  py_slice short_image 0 4 = NES_MAGIC /\
  (exists r,
      EMUNES5.NESRom_init short_image = Ok r /\
      0 <= EMUNES5.prg_rom_size r /\ 0 <= EMUNES5.chr_rom_size r /\
      16 <= EMUNES5.prg_rom_start r /\
      Z.of_nat (length (EMUNES5.prg_rom r))
      = Z.min (EMUNES5.prg_rom_size r)
              (Z.max 0 (Z.of_nat (length short_image) - EMUNES5.prg_rom_start r)) /\
      Z.of_nat (length (EMUNES5.chr_rom r))
      = Z.min (EMUNES5.chr_rom_size r)
              (Z.max 0 (Z.of_nat (length short_image) - EMUNES5.chr_rom_start r)) /\
      (forall k b, nth_error (EMUNES5.prg_rom r) k = Some b ->
                   nth_error short_image (Z.to_nat (EMUNES5.prg_rom_start r) + k) = Some b) /\
      (forall k b, nth_error (EMUNES5.chr_rom r) k = Some b ->
                   nth_error short_image (Z.to_nat (EMUNES5.chr_rom_start r) + k) = Some b)) /\
  Z.of_nat (length LoaderFacts.ten_bytes) < 16 /\
  GIGA.INESHeader_init LoaderFacts.ten_bytes = Raise ValueError.
Proof.
  assert (H1 : 16 <= Z.of_nat (length short_image)) by (simpl; lia).
  assert (H2 : py_slice short_image 0 4 = NES_MAGIC) by reflexivity.
  assert (H3 : Z.of_nat (length ten_bytes) < 16) by (simpl; lia).
  split; [exact H1|]. split; [exact H2|].
  split; [exact (proj1 truncated_image_is_clamped_not_refused short_image H1 H2)|].
  split; [exact H3|].
  exact (proj1 (proj2 truncated_image_is_clamped_not_refused) ten_bytes H3).
Defined.

(** The GIGA loader on a truncated image with a whole header: the session
    is built on the two PRG bytes the file has, mirrored over the whole
    PRG window. *)
Lemma giga_loads_truncated_image :
  match GIGA._load_rom short_image (GIGA.mkSession None None) with
  | (GIGA.mkSession (Some b) (Some c), None) =>
      GIGA.prg b = [xa9; x42] /\ GIGA.bus_read b 0x8000 = Ok 0xA9 /\ GIGA.cycles c = 7
  | _ => False
  end.
Proof. vm_compute. repeat split; reflexivity. Qed.

End LoaderFacts.

(** * Reasoning about method calls *)

Section MethodCalls.
Context {S : Type}.

Lemma bind_ok {A B} (c : M S A) (k : A -> M S B) s b s' :
  bind c k s = Ok (b, s') ->
  exists a s1, c s = Ok (a, s1) /\ k a s1 = Ok (b, s').
Proof.
  unfold bind. destruct (c s) as [[a s1]|e]; [|discriminate].
  intros H. now exists a, s1.
Qed.

Lemma bind_eq {A B} (c : M S A) (k : A -> M S B) s a s1 :
  c s = Ok (a, s1) -> bind c k s = k a s1.
Proof. unfold bind. now intros ->. Qed.

(** [c] keeps the invariant [I] whenever it returns. *)
Definition preserves {A} (I : S -> Prop) (c : M S A) : Prop :=
  forall s a s', I s -> c s = Ok (a, s') -> I s'.

Variable I : S -> Prop.

Lemma preserves_ret {A} (a : A) : preserves I (ret a).
Proof. intros s a' s' H E. inversion E. now subst. Qed.

Lemma preserves_raise {A} e : preserves I (@raise S A e).
Proof. intros s a s' _ E. discriminate. Qed.

Lemma preserves_gets {A} (f : S -> A) : preserves I (gets f).
Proof. intros s a s' H E. inversion E. now subst. Qed.

Lemma preserves_lift {A} (r : Result A) : preserves I (lift r).
Proof. intros s a s' H E. unfold lift in E. destruct r; inversion E. now subst. Qed.

Lemma preserves_modify (f : S -> S) :
  (forall s, I s -> I (f s)) -> preserves I (modify f).
Proof. intros Hf s a s' H E. inversion E. subst. now apply Hf. Qed.

Lemma preserves_bind {A B} (c : M S A) (k : A -> M S B) :
  preserves I c -> (forall a, preserves I (k a)) -> preserves I (bind c k).
Proof.
  intros Hc Hk s b s' H E.
  destruct (bind_ok _ _ _ _ _ E) as [a [s1 [E1 E2]]].
  eapply Hk; [|exact E2]. eapply Hc; eauto.
Qed.

Lemma preserves_repeat_m n (c : M S unit) :
  preserves I c -> preserves I (repeat_m n c).
Proof.
  intros Hc. induction n as [|n IH]; simpl.
  - apply preserves_ret.
  - apply preserves_bind; auto.
Qed.

(** [c] does the same before or after the state change [f], which it
    neither sees nor undoes. *)
Definition commutes {A} (f : S -> S) (c : M S A) : Prop :=
  forall s, c (f s) = match c s with
                      | Ok (a, s') => Ok (a, f s')
                      | Raise e => Raise e
                      end.

Variable f : S -> S.

Lemma commutes_ret {A} (a : A) : commutes f (ret a).
Proof. now intros s. Qed.

Lemma commutes_raise {A} e : commutes f (@raise S A e).
Proof. now intros s. Qed.

Lemma commutes_lift {A} (r : Result A) : commutes f (lift r).
Proof. intros s. unfold lift. now destruct r. Qed.

Lemma commutes_gets {A} (g : S -> A) :
  (forall s, g (f s) = g s) -> commutes f (gets g).
Proof. intros H s. unfold gets. now rewrite H. Qed.

Lemma commutes_modify (g : S -> S) :
  (forall s, g (f s) = f (g s)) -> commutes f (modify g).
Proof. intros H s. unfold modify. now rewrite H. Qed.

Lemma commutes_bind {A B} (c : M S A) (k : A -> M S B) :
  commutes f c -> (forall a, commutes f (k a)) -> commutes f (bind c k).
Proof.
  intros Hc Hk s. unfold bind. rewrite Hc.
  destruct (c s) as [[a s1]|e]; [apply Hk|reflexivity].
Qed.
End MethodCalls.

(** One structural step of a [preserves] proof: [known] closes the calls
    that already have a lemma, [leaf] the field updates. *)
Ltac preserves_step known leaf :=
  first
    [ known
    | apply preserves_ret
    | apply preserves_raise
    | apply preserves_gets
    | apply preserves_lift
    | apply preserves_modify; leaf
    | apply preserves_bind; [|intro]
    | progress cbv beta zeta
    | match goal with
      | |- preserves _ (if ?b then _ else _) => destruct b
      | |- preserves _ (match ?x with _ => _ end) => destruct x
      end ].

Ltac commutes_step known :=
  first
    [ known
    | apply commutes_ret
    | apply commutes_raise
    | apply commutes_lift
    | apply commutes_gets; intro; reflexivity
    | apply commutes_modify; intro; reflexivity
    | apply commutes_bind; [|intro]
    | progress cbv beta zeta
    | match goal with
      | |- commutes _ (if ?b then _ else _) => destruct b
      | |- commutes _ (match ?x with _ => _ end) => destruct x
      end ].

Ltac head_of c :=
  match c with
  | ?h _ => head_of h
  | _ => c
  end.

(** Last resort of a structural proof: open the definition of the call. *)
Ltac unfold_call :=
  match goal with
  | |- preserves _ ?c => let h := head_of c in unfold h
  | |- commutes _ ?c => let h := head_of c in unfold h
  end.

(** Taking a successful run apart, call by call. *)
Ltac minv :=
  repeat
    match goal with
    | H : bind _ _ _ = Ok _ |- _ =>
        let a := fresh "a" in let s := fresh "s" in let E := fresh "E" in
        apply bind_ok in H; destruct H as (a & s & E & H)
    | H : ret _ _ = Ok _ |- _ => unfold ret in H; inversion H; subst; clear H
    | H : gets _ _ = Ok _ |- _ => unfold gets in H; inversion H; subst; clear H
    | H : modify _ _ = Ok _ |- _ => unfold modify in H; inversion H; subst; clear H
    | H : raise _ _ = Ok _ |- _ => discriminate H
    | H : lift ?r _ = Ok _ |- _ =>
        let E := fresh "E" in
        unfold lift in H; destruct r eqn:E; [|discriminate H];
        inversion H; subst; clear H
    | H : (if ?b then _ else _) _ = Ok _ |- _ => let E := fresh "E" in destruct b eqn:E
    | H : (match ?x with _ => _ end) _ = Ok _ |- _ => let E := fresh "E" in destruct x eqn:E
    | H : (let (_, _) := ?x in _) _ = Ok _ |- _ => let E := fresh "E" in destruct x eqn:E
    end.

(** * The palette RAM invariant (EMUNES5) *)

Module PaletteFacts.
Import EMUNES5.

(** Thirty-two entries, each below 0x40. *)
Definition palette_ok (m : Bus.state) : Prop :=
  length (Ppu.palette_ram (Bus.ppu m)) = 32%nat /\
  Forall (fun e => 0 <= e < 0x40) (Ppu.palette_ram (Bus.ppu m)).

Create HintDb pal discriminated.

Ltac pal_leaf := let s := fresh "s" in let H := fresh "H" in intros s H; exact H.
Ltac pal_known := solve [auto with pal].
Ltac pal := repeat preserves_step pal_known pal_leaf.
Ltac pal_deep := repeat first [preserves_step pal_known pal_leaf | unfold_call].

Lemma bus_ppu_read_pal addr : preserves palette_ok (bus_ppu_read addr).
Proof. unfold bus_ppu_read. pal_deep. Qed.
#[local] Hint Resolve bus_ppu_read_pal : pal.

Lemma cart_handles_ppu_write_pal addr data :
  preserves palette_ok (cart_handles_ppu_write addr data).
Proof. unfold cart_handles_ppu_write. pal_deep. Qed.
#[local] Hint Resolve cart_handles_ppu_write_pal : pal.

Lemma mirror_addr_pal addr : preserves palette_ok (mirror_addr addr).
Proof. unfold mirror_addr. pal_deep. Qed.
#[local] Hint Resolve mirror_addr_pal : pal.

(** The one place that stores into the palette RAM: the stored value is
    [data & 0x3F]. *)
Lemma palette_store_pal addr data :
  preserves palette_ok
    (pal <- ppu_get Ppu.palette_ram ;;
     pal' <- lift (bytearray_setitem pal (palette_index addr) (Z.land data 0x3F)) ;;
     ppu_upd (Ppu.set_palette_ram pal')).
Proof.
  intros s a s' [Hlen Hall] E. unfold ppu_get, ppu_upd in E. minv.
  match goal with
  | H : bytearray_setitem _ _ _ = Ok _ |- _ =>
      apply bytearray_setitem_inv in H; destruct H as [_ Hset]
  end.
  split; cbn.
  - rewrite (py_setitem_length _ _ _ _ Hset). exact Hlen.
  - apply (py_setitem_Forall _ _ _ _ _ Hset Hall). apply land_0x3F_bound.
Qed.
#[local] Hint Resolve palette_store_pal : pal.

Lemma bus_ppu_write_pal addr data : preserves palette_ok (bus_ppu_write addr data).
Proof. unfold bus_ppu_write. pal. Qed.
#[local] Hint Resolve bus_ppu_write_pal : pal.

Lemma ppu_cpu_read_pal addr : preserves palette_ok (ppu_cpu_read addr).
Proof. unfold ppu_cpu_read. pal_deep. Qed.
#[local] Hint Resolve ppu_cpu_read_pal : pal.

Lemma ppu_cpu_write_pal addr data : preserves palette_ok (ppu_cpu_write addr data).
Proof. unfold ppu_cpu_write. pal_deep. Qed.
#[local] Hint Resolve ppu_cpu_write_pal : pal.

Lemma bus_cpu_read_pal addr : preserves palette_ok (bus_cpu_read addr).
Proof. unfold bus_cpu_read. pal_deep. Qed.

Lemma bus_cpu_write_pal addr data : preserves palette_ok (bus_cpu_write addr data).
Proof. unfold bus_cpu_write. pal_deep. Qed.
#[local] Hint Resolve bus_cpu_read_pal bus_cpu_write_pal : pal.

Lemma read_pal addr : preserves palette_ok (read addr).
Proof. apply bus_cpu_read_pal. Qed.

Lemma write_pal addr data : preserves palette_ok (write addr data).
Proof. apply bus_cpu_write_pal. Qed.
#[local] Hint Resolve read_pal write_pal : pal.

Lemma set_flag_pal flag value : preserves palette_ok (set_flag flag value).
Proof. unfold set_flag. pal_deep. Qed.

Lemma get_flag_pal flag : preserves palette_ok (get_flag flag).
Proof. unfold get_flag. pal_deep. Qed.
#[local] Hint Resolve set_flag_pal get_flag_pal : pal.

Lemma push_pal data : preserves palette_ok (push data).
Proof. unfold push. pal_deep. Qed.

Lemma pop_pal : preserves palette_ok pop.
Proof. unfold pop. pal_deep. Qed.
#[local] Hint Resolve push_pal pop_pal : pal.

Lemma fetch_pal : preserves palette_ok fetch.
Proof. unfold fetch. pal_deep. Qed.

Lemma read_pc_inc_pal : preserves palette_ok read_pc_inc.
Proof. unfold read_pc_inc. pal_deep. Qed.

Lemma load_vector_pal v : preserves palette_ok (load_vector v).
Proof. unfold load_vector. pal_deep. Qed.
#[local] Hint Resolve fetch_pal read_pc_inc_pal load_vector_pal : pal.

Lemma reset_pal : preserves palette_ok reset.
Proof. unfold reset. pal_deep. Qed.

Lemma interrupt_request_pal : preserves palette_ok interrupt_request.
Proof. unfold interrupt_request. pal_deep. Qed.

Lemma non_maskable_interrupt_pal : preserves palette_ok non_maskable_interrupt.
Proof. unfold non_maskable_interrupt. pal_deep. Qed.
#[local] Hint Resolve reset_pal interrupt_request_pal non_maskable_interrupt_pal : pal.

Lemma run_addr_mode_pal m : preserves palette_ok (run_addr_mode m).
Proof. destruct m; cbn [run_addr_mode]; pal_deep. Qed.

Lemma run_operation_pal o : preserves palette_ok (run_operation o).
Proof. destruct o; cbn [run_operation]; pal_deep. Qed.
#[local] Hint Resolve run_addr_mode_pal run_operation_pal : pal.

Lemma cpu_clock_pal : preserves palette_ok cpu_clock.
Proof. unfold cpu_clock, execute_instruction. pal_deep. Qed.
#[local] Hint Resolve cpu_clock_pal : pal.

Lemma ppu_clock_pal : preserves palette_ok ppu_clock.
Proof. unfold ppu_clock. pal_deep. Qed.
#[local] Hint Resolve ppu_clock_pal : pal.

Lemma bus_clock_pal : preserves palette_ok bus_clock.
Proof. unfold bus_clock. pal_deep. Qed.

(** ** Reachable states

    A state is reachable when a host gets to it from the freshly built
    machine by calling methods of the bus, the CPU and the PPU (with any
    arguments), by inserting a cartridge, by its own reset and by clearing
    the frame flag, which is all the host application ever does to the
    core. *)

Inductive HostCall : Type :=
| Call_insert_cartridge (c : Cartridge)
| Call_app_reset
| Call_clear_frame_complete
| Call_bus_clock
| Call_bus_cpu_read (addr : Z)
| Call_bus_cpu_write (addr data : Z)
| Call_bus_ppu_read (addr : Z)
| Call_bus_ppu_write (addr data : Z)
| Call_cpu_reset
| Call_cpu_clock
| Call_cpu_interrupt_request
| Call_cpu_non_maskable_interrupt
| Call_ppu_clock
| Call_ppu_cpu_read (addr : Z)
| Call_ppu_cpu_write (addr data : Z).

Definition run_call (c : HostCall) : Py unit :=
  match c with
  | Call_insert_cartridge c => insert_cartridge c
  | Call_app_reset => app_reset
  | Call_clear_frame_complete => ppu_upd (Ppu.set_frame_complete false)
  | Call_bus_clock => bus_clock
  | Call_bus_cpu_read addr => bus_cpu_read addr ;; ret tt
  | Call_bus_cpu_write addr data => bus_cpu_write addr data
  | Call_bus_ppu_read addr => bus_ppu_read addr ;; ret tt
  | Call_bus_ppu_write addr data => bus_ppu_write addr data
  | Call_cpu_reset => reset
  | Call_cpu_clock => cpu_clock
  | Call_cpu_interrupt_request => interrupt_request
  | Call_cpu_non_maskable_interrupt => non_maskable_interrupt
  | Call_ppu_clock => ppu_clock
  | Call_ppu_cpu_read addr => ppu_cpu_read addr ;; ret tt
  | Call_ppu_cpu_write addr data => ppu_cpu_write addr data
  end.

Inductive reachable : Bus.state -> Prop :=
| reachable_init : reachable Bus_init
| reachable_call (m m' : Bus.state) (c : HostCall) :
    reachable m -> exec (run_call c) m = Some m' -> reachable m'.

Lemma palette_ok_init : palette_ok Bus_init.
Proof.
  split.
  - reflexivity.
  - cbn. apply Forall_forall. intros e He. apply repeat_spec in He. subst. lia.
Qed.

Lemma app_reset_pal : preserves palette_ok app_reset.
Proof.
  unfold app_reset. apply preserves_bind; [apply reset_pal|intros _].
  apply preserves_modify. intros s _. split.
  - reflexivity.
  - cbn. apply Forall_forall. intros e He. apply repeat_spec in He. subst. lia.
Qed.

Lemma run_call_pal (c : HostCall) : preserves palette_ok (run_call c).
Proof.
  destruct c; cbn [run_call];
    try (first [apply app_reset_pal | apply bus_clock_pal]);
    unfold insert_cartridge; pal.
Qed.

(** C10.  The palette RAM starts as 32 zero bytes, the store of a bus PPU
    write in 0x3F00-0x3FFF keeps every entry below 0x40 (the byte is masked
    with 0x3F), and so in every reachable state the palette RAM has 32
    entries, each strictly less than 0x40. *)
Theorem palette_entries_below_0x40 (m : Bus.state) :
  reachable m ->
  Ppu.palette_ram (Bus.ppu Bus_init) = repeat 0 32 /\
  length (Ppu.palette_ram (Bus.ppu m)) = 32%nat /\
  forall i e, nth_error (Ppu.palette_ram (Bus.ppu m)) i = Some e -> 0 <= e < 0x40.
Proof.
  intros Hr. split; [reflexivity|].
  assert (Hok : palette_ok m).
  { induction Hr as [|m m' c Hr IH E].
    - apply palette_ok_init.
    - unfold exec in E. destruct (run_call c m) as [[u s]|e] eqn:Ec; [|discriminate].
      inversion E; subst. eapply run_call_pal; eauto. }
  destruct Hok as [Hlen Hall]. split; [exact Hlen|].
  intros i e Hi. apply nth_error_In in Hi.
  rewrite Forall_forall in Hall. now apply Hall.
Qed.

(** A reachable state that has stored into the palette: the CPU side wrote
    0x3F, 0x00 to PPUADDR and then 0xFF to PPUDATA. *)
Definition palette_written : Bus.state :=
  match exec (bus_cpu_write 0x2006 0x3F ;; bus_cpu_write 0x2006 0x00 ;;
              bus_cpu_write 0x2007 0xFF) Bus_init with
  | Some m => m
  | None => Bus_init
  end.

Lemma palette_written_reachable : reachable palette_written.
Proof.
  apply (reachable_call
           (match exec (bus_cpu_write 0x2006 0x3F ;; bus_cpu_write 0x2006 0x00) Bus_init with
            | Some m => m | None => Bus_init end)
           _ (Call_bus_cpu_write 0x2007 0xFF)).
  - apply (reachable_call
             (match exec (bus_cpu_write 0x2006 0x3F) Bus_init with
              | Some m => m | None => Bus_init end)
             _ (Call_bus_cpu_write 0x2006 0x00)).
    + apply (reachable_call Bus_init _ (Call_bus_cpu_write 0x2006 0x3F)).
      * apply reachable_init.
      * vm_compute. reflexivity.
    + vm_compute. reflexivity.
  - vm_compute. reflexivity.
Defined.

Lemma palette_entries_below_0x40_witness :
  reachable palette_written /\
  Ppu.palette_ram (Bus.ppu Bus_init) = repeat 0 32 /\
  length (Ppu.palette_ram (Bus.ppu palette_written)) = 32%nat /\
  forall i e, nth_error (Ppu.palette_ram (Bus.ppu palette_written)) i = Some e ->
              0 <= e < 0x40.
Proof.
  split.
  - exact palette_written_reachable.
  - exact (palette_entries_below_0x40 palette_written palette_written_reachable).
Defined.

Example palette_written_entry0 :
  nth_error (Ppu.palette_ram (Bus.ppu palette_written)) 0 = Some 0x3F.
Proof. vm_compute. reflexivity. Qed.

End PaletteFacts.

(** * Palette mirroring (EMUNES5) *)

Module PaletteMirrorFacts.
Import EMUNES5.

(** The entry the specification pairs with entry [i]: 0x10, 0x14, 0x18 and
    0x1C go with 0x00, 0x04, 0x08 and 0x0C; any other entry stands alone. *)
Definition alias_of (i : Z) : Z :=
  if (i =? 0x10) || (i =? 0x14) || (i =? 0x18) || (i =? 0x1C) then i - 0x10
  else if (i =? 0x00) || (i =? 0x04) || (i =? 0x08) || (i =? 0x0C) then i + 0x10
  else i.

Definition same_entry (i j : Z) : bool := (j =? i) || (j =? alias_of i).

Lemma forall_below (P : Z -> bool) (n : nat) :
  forallb P (map Z.of_nat (seq 0 n)) = true ->
  forall i, 0 <= i < Z.of_nat n -> P i = true.
Proof.
  intros H i Hi. rewrite forallb_forall in H. apply H.
  apply in_map_iff. exists (Z.to_nat i). split; [lia|].
  apply in_seq. lia.
Qed.

Lemma land_3FFF_small (a : Z) : 0 <= a < 0x4000 -> Z.land a 0x3FFF = a.
Proof.
  intros H. change 0x3FFF with (Z.ones 14). rewrite Z.land_ones by lia.
  apply Z.mod_small. exact H.
Qed.

Lemma palette_index_bound (addr : Z) : 0 <= palette_index addr < 32.
Proof.
  unfold palette_index.
  assert (H : 0 <= Z.land addr 0x1F < 32).
  { change 0x1F with (Z.ones 5). apply (land_ones_bound addr 5). lia. }
  repeat match goal with |- context [?a =? ?b] => destruct (Z.eqb_spec a b) end; lia.
Qed.

Lemma palette_index_same_entry (i j : Z) :
  0 <= i < 32 -> 0 <= j < 32 ->
  (palette_index (0x3F00 + i) =? palette_index (0x3F00 + j)) = same_entry i j.
Proof.
  intros Hi Hj.
  pose (P := fun i =>
    forallb (fun j => Bool.eqb (palette_index (0x3F00 + i) =? palette_index (0x3F00 + j))
                               (same_entry i j))
            (map Z.of_nat (seq 0 32))).
  assert (HP : P i = true).
  { apply (forall_below P 32); [vm_compute; reflexivity|exact Hi]. }
  unfold P in HP.
  pose proof (forall_below _ 32 HP j Hj) as H. cbv beta in H.
  now apply Bool.eqb_prop in H.
Qed.

Lemma set_cart_same (m : Bus.state) : Bus.set_cart (Bus.cart m) m = m.
Proof. now destruct m. Qed.

(** A cartridge does not decode PPU addresses from 0x2000 up. *)
Lemma cart_handles_ppu_write_high (m : Bus.state) (addr data : Z) :
  0x2000 <= addr -> cart_handles_ppu_write addr data m = Ok (false, m).
Proof.
  intros H. unfold cart_handles_ppu_write, bind, gets.
  destruct (Bus.cart m) as [c|] eqn:Ec; [|reflexivity].
  unfold cart_ppu_write, between.
  destruct (Z.leb_spec addr 0x1FFF); [lia|]. rewrite andb_false_r.
  cbn. rewrite <- Ec. now rewrite set_cart_same.
Qed.

Lemma cart_ppu_read_high (c : Cartridge) (addr : Z) :
  0x2000 <= addr -> cart_ppu_read c addr = Ok None.
Proof.
  intros H. unfold cart_ppu_read, between.
  destruct (Z.leb_spec addr 0x1FFF); [lia|]. now rewrite andb_false_r.
Qed.

(** The state after the palette store of a PPU write. *)
Definition palette_stored (m : Bus.state) (k v : Z) : Bus.state :=
  Bus.set_ppu
    (Ppu.set_palette_ram
       (list_update (Ppu.palette_ram (Bus.ppu m)) (Z.to_nat k) v) (Bus.ppu m)) m.

Lemma between_true (lo z hi : Z) : lo <= z <= hi -> between lo z hi = true.
Proof.
  intros H. unfold between. apply andb_true_iff. split; apply Z.leb_le; lia.
Qed.

Lemma between_false (lo z hi : Z) : z < lo \/ hi < z -> between lo z hi = false.
Proof.
  intros H. unfold between. apply andb_false_iff.
  destruct H; [left|right]; apply Z.leb_gt; lia.
Qed.

Lemma bus_ppu_write_palette (m : Bus.state) (addr data : Z) :
  0x3F00 <= addr <= 0x3FFF ->
  length (Ppu.palette_ram (Bus.ppu m)) = 32%nat ->
  bus_ppu_write addr data m
  = Ok (tt, palette_stored m (palette_index addr) (Z.land data 0x3F)).
Proof.
  intros Ha Hlen. unfold bus_ppu_write.
  rewrite land_3FFF_small by lia.
  rewrite (bind_eq _ _ _ _ _ (cart_handles_ppu_write_high m addr data ltac:(lia))).
  cbv iota. rewrite between_false by lia. rewrite between_true by lia.
  unfold ppu_get, ppu_upd, bind, gets, lift, modify.
  pose proof (palette_index_bound addr) as Hb.
  pose proof (land_0x3F_bound data) as Hd.
  rewrite bytearray_setitem_ok by (rewrite ?Hlen; lia).
  reflexivity.
Qed.

Lemma bus_ppu_read_palette (m : Bus.state) (addr : Z) :
  0x3F00 <= addr <= 0x3FFF ->
  length (Ppu.palette_ram (Bus.ppu m)) = 32%nat ->
  exists e,
    nth_error (Ppu.palette_ram (Bus.ppu m)) (Z.to_nat (palette_index addr)) = Some e /\
    bus_ppu_read addr m = Ok (Z.land e 0x3F, m).
Proof.
  intros Ha Hlen. unfold bus_ppu_read.
  rewrite land_3FFF_small by lia.
  pose proof (palette_index_bound addr) as Hb.
  destruct (py_getitem_inrange (Ppu.palette_ram (Bus.ppu m)) (palette_index addr))
    as [e [Eg En]]; [rewrite Hlen; lia|].
  exists e. split; [exact En|].
  unfold bind, gets, ppu_get.
  destruct (Bus.cart m) as [c|].
  - unfold lift at 1. rewrite cart_ppu_read_high by lia.
    rewrite between_false by lia. rewrite between_true by lia.
    unfold lift, gets. now rewrite Eg.
  - unfold ret at 1. rewrite between_false by lia. rewrite between_true by lia.
    unfold lift, gets. now rewrite Eg.
Qed.

(** The EMUNES5 palette.  The palette RAM has 32 entries.  A write of [d]
    through palette address 0x3F00+i is seen (as [d & 0x3F], the six bits
    an entry holds) by a read through 0x3F00+j exactly when [j] is [i] or
    the entry paired with [i] (0x10, 0x14, 0x18, 0x1C with 0x00, 0x04,
    0x08, 0x0C); a read through any other entry returns what it returned
    before the write. *)
Theorem palette_aliases (m : Bus.state) (i j d : Z) :
  length (Ppu.palette_ram (Bus.ppu m)) = 32%nat ->
  0 <= i < 32 -> 0 <= j < 32 ->
  exists m' before,
    bus_ppu_read (0x3F00 + j) m = Ok (before, m) /\
    bus_ppu_write (0x3F00 + i) d m = Ok (tt, m') /\
    length (Ppu.palette_ram (Bus.ppu m')) = 32%nat /\
    bus_ppu_read (0x3F00 + j) m'
    = Ok (if same_entry i j then Z.land d 0x3F else before, m').
Proof.
  intros Hlen Hi Hj.
  destruct (bus_ppu_read_palette m (0x3F00 + j) ltac:(lia) Hlen) as [e [En Er]].
  exists (palette_stored m (palette_index (0x3F00 + i)) (Z.land d 0x3F)), (Z.land e 0x3F).
  split; [exact Er|].
  split; [apply bus_ppu_write_palette; [lia|exact Hlen]|].
  assert (Hlen' : length (Ppu.palette_ram (Bus.ppu
            (palette_stored m (palette_index (0x3F00 + i)) (Z.land d 0x3F)))) = 32%nat).
  { cbn. now rewrite length_list_update. }
  split; [exact Hlen'|].
  destruct (bus_ppu_read_palette _ (0x3F00 + j) ltac:(lia) Hlen') as [e' [En' Er']].
  rewrite Er'. f_equal. f_equal.
  unfold palette_stored in En'.
  cbn [Bus.ppu Bus.set_ppu Ppu.palette_ram Ppu.set_palette_ram] in En'.
  pose proof (palette_index_bound (0x3F00 + i)) as Bi.
  pose proof (palette_index_bound (0x3F00 + j)) as Bj.
  rewrite <- (palette_index_same_entry i j Hi Hj).
  destruct (Z.eqb_spec (palette_index (0x3F00 + i)) (palette_index (0x3F00 + j))) as [E|E].
  - rewrite E in En'. rewrite nth_error_list_update_eq in En' by (rewrite Hlen; lia).
    inversion En'. rewrite <- Z.land_assoc. now rewrite Z.land_diag.
  - rewrite nth_error_list_update_neq in En' by lia.
    congruence.
Qed.

Lemma palette_aliases_witness :
  length (Ppu.palette_ram (Bus.ppu Bus_init)) = 32%nat /\
  0 <= 0x14 < 32 /\ 0 <= 0x04 < 32 /\
  exists m' before,
    bus_ppu_read (0x3F00 + 0x04) Bus_init = Ok (before, Bus_init) /\
    bus_ppu_write (0x3F00 + 0x14) 0x2A Bus_init = Ok (tt, m') /\
    length (Ppu.palette_ram (Bus.ppu m')) = 32%nat /\
    bus_ppu_read (0x3F00 + 0x04) m'
    = Ok (if same_entry 0x14 0x04 then Z.land 0x2A 0x3F else before, m').
Proof.
  assert (H0 : length (Ppu.palette_ram (Bus.ppu Bus_init)) = 32%nat) by reflexivity.
  assert (H1 : 0 <= 0x14 < 32) by lia.
  assert (H2 : 0 <= 0x04 < 32) by lia.
  split; [exact H0|]. split; [exact H1|]. split; [exact H2|].
  exact (palette_aliases Bus_init 0x14 0x04 0x2A H0 H1 H2).
Defined.

(** The four pairs of the claim, and an entry outside them. *)
Example alias_pairs :
  same_entry 0x10 0x00 = true /\ same_entry 0x00 0x10 = true /\
  same_entry 0x14 0x04 = true /\ same_entry 0x04 0x14 = true /\
  same_entry 0x18 0x08 = true /\ same_entry 0x08 0x18 = true /\
  same_entry 0x1C 0x0C = true /\ same_entry 0x0C 0x1C = true /\
  same_entry 0x04 0x00 = false /\ same_entry 0x01 0x11 = false.
Proof. vm_compute. repeat split; reflexivity. Qed.

End PaletteMirrorFacts.

(** * The CPU and the bus (EMUNES5) *)

Module CpuFacts.
Import EMUNES5.

Ltac commutes_deep := repeat first [commutes_step fail | unfold_call].

(** A bus read neither looks at the CPU registers nor changes them. *)
Lemma bus_cpu_read_commutes (c : Cpu.state) (addr : Z) :
  commutes (Bus.set_cpu c) (bus_cpu_read addr).
Proof. unfold bus_cpu_read. commutes_deep. Qed.

Lemma bus_cpu_read_set_cpu (c : Cpu.state) (addr : Z) (m : Bus.state) :
  bus_cpu_read addr (Bus.set_cpu c m)
  = match bus_cpu_read addr m with
    | Ok (d, m') => Ok (d, Bus.set_cpu c m')
    | Raise e => Raise e
    end.
Proof. apply bus_cpu_read_commutes. Qed.

Ltac keep_leaf := let s := fresh "s" in let H := fresh "H" in intros s H; exact H.
Ltac keep_deep := repeat first [preserves_step fail keep_leaf | unfold_call].

Lemma bus_cpu_read_keeps_cpu (c : Cpu.state) (addr : Z) :
  preserves (fun m => Bus.cpu m = c) (bus_cpu_read addr).
Proof. unfold bus_cpu_read. keep_deep. Qed.

Lemma read_cpu (addr d : Z) (m m' : Bus.state) :
  read addr m = Ok (d, m') -> Bus.cpu m' = Bus.cpu m.
Proof.
  intros H. exact (bus_cpu_read_keeps_cpu (Bus.cpu m) addr m d m' eq_refl H).
Qed.

(** ** Stepping through a method symbolically *)

Lemma cpu_upd_bind {B} (g : Cpu.state -> Cpu.state) (k : unit -> Py B) (m : Bus.state) :
  bind (cpu_upd g) k m = k tt (Bus.set_cpu (g (Bus.cpu m)) m).
Proof. reflexivity. Qed.

Lemma cpu_get_bind {A B} (p : Cpu.state -> A) (k : A -> Py B) (m : Bus.state) :
  bind (cpu_get p) k m = k (p (Bus.cpu m)) m.
Proof. reflexivity. Qed.

Lemma ret_bind {A B} (a : A) (k : A -> Py B) (m : Bus.state) :
  bind (ret a) k m = k a m.
Proof. reflexivity. Qed.

Lemma bind_bind {A B C} (c : Py A) (k1 : A -> Py B) (k2 : B -> Py C) (m : Bus.state) :
  bind (bind c k1) k2 m = bind c (fun a => bind (k1 a) k2) m.
Proof. unfold bind. now destruct (c m) as [[a s]|e]. Qed.

Lemma cpu_set_cpu (c : Cpu.state) (m : Bus.state) : Bus.cpu (Bus.set_cpu c m) = c.
Proof. reflexivity. Qed.

Lemma set_cpu_set_cpu (c c' : Cpu.state) (m : Bus.state) :
  Bus.set_cpu c (Bus.set_cpu c' m) = Bus.set_cpu c m.
Proof. reflexivity. Qed.

(** A read on a state whose CPU registers were just replaced. *)
Lemma read_bind_set_cpu {B} (addr d : Z) (k : Z -> Py B) (c : Cpu.state)
      (m m' : Bus.state) :
  read addr m = Ok (d, m') ->
  bind (read addr) k (Bus.set_cpu c m) = k d (Bus.set_cpu c m').
Proof.
  intros H. unfold bind, read in *. rewrite bus_cpu_read_set_cpu. now rewrite H.
Qed.

Lemma set_cpu_cpu (m : Bus.state) : Bus.set_cpu (Bus.cpu m) m = m.
Proof. now destruct m. Qed.

Lemma read_bind {B} (addr d : Z) (k : Z -> Py B) (m m' : Bus.state) :
  read addr m = Ok (d, m') -> bind (read addr) k m = k d m'.
Proof. intros H. unfold bind. now rewrite H. Qed.

(** ** Status flags as bits *)

Lemma land_pow2 (st k : Z) :
  0 <= k -> Z.land st (2 ^ k) = if Z.testbit st k then 2 ^ k else 0.
Proof.
  intros Hk. apply Z.bits_inj'. intros n Hn.
  rewrite Z.land_spec, Z.pow2_bits_eqb by assumption.
  destruct (Z.eqb_spec k n) as [->|Hne].
  - destruct (Z.testbit st n) eqn:E; simpl.
    + now rewrite Z.pow2_bits_true.
    + now rewrite Z.bits_0.
  - rewrite andb_false_r.
    destruct (Z.testbit st k).
    + rewrite Z.pow2_bits_false; auto.
    + now rewrite Z.bits_0.
Qed.

Lemma flag_of_testbit (st k : Z) : 0 <= k -> flag_of st (2 ^ k) = Z.testbit st k.
Proof.
  intros Hk. unfold flag_of. rewrite land_pow2 by assumption.
  destruct (Z.testbit st k); simpl.
  - destruct (Z.eqb_spec (2 ^ k) 0); [|reflexivity].
    pose proof (Z.pow_pos_nonneg 2 k). lia.
  - reflexivity.
Qed.

Lemma flag_of_with_flag (st i j : Z) (v : bool) :
  0 <= i -> 0 <= j ->
  flag_of (with_flag st (2 ^ i) v) (2 ^ j)
  = if i =? j then v else flag_of st (2 ^ j).
Proof.
  intros Hi Hj. rewrite !flag_of_testbit by assumption.
  unfold with_flag. destruct v.
  - rewrite Z.lor_spec, Z.pow2_bits_eqb by assumption.
    destruct (Z.eqb_spec i j); [apply orb_true_r|apply orb_false_r].
  - rewrite Z.land_spec, Z.lnot_spec, Z.pow2_bits_eqb by assumption.
    destruct (Z.eqb_spec i j); [apply andb_false_r|apply andb_true_r].
Qed.

(** ** Reads above the I/O area *)

(** What the bus returns from 0x4017 up: the cartridge's byte, or 0 when no
    cartridge decodes the address. *)
Definition cart_byte (m : Bus.state) (addr : Z) : Result Z :=
  match Bus.cart m with
  | None => Ok 0
  | Some c =>
      match cart_cpu_read c addr with
      | Ok (Some d) => Ok d
      | Ok None => Ok 0
      | Raise e => Raise e
      end
  end.

Lemma land_FFFF_small (a : Z) : 0 <= a < 0x10000 -> Z.land a 0xFFFF = a.
Proof.
  intros H. change 0xFFFF with (Z.ones 16). rewrite Z.land_ones by lia.
  now apply Z.mod_small.
Qed.

Lemma bus_cpu_read_high (m : Bus.state) (addr : Z) :
  0x4017 <= addr <= 0xFFFF -> bus_cpu_read addr m = lift (cart_byte m addr) m.
Proof.
  intros H. unfold bus_cpu_read, cart_byte. rewrite land_FFFF_small by lia.
  unfold bind, gets, lift.
  assert (E1 : between 0 addr 0x1FFF = false)
    by (apply PaletteMirrorFacts.between_false; lia).
  assert (E2 : between 0x2000 addr 0x3FFF = false)
    by (apply PaletteMirrorFacts.between_false; lia).
  assert (E3 : (addr =? 0x4016) = false) by (apply Z.eqb_neq; lia).
  destruct (Bus.cart m) as [c|].
  - destruct (cart_cpu_read c addr) as [[d|]|e]; try reflexivity.
    now rewrite E1, E2, E3.
  - unfold ret at 1. now rewrite E1, E2, E3.
Qed.

Lemma read_high_inv (m : Bus.state) (addr d : Z) :
  0x4017 <= addr <= 0xFFFF ->
  eval (read addr) m = Some d -> forall c, read addr (Bus.set_cpu c m) = Ok (d, Bus.set_cpu c m).
Proof.
  intros Ha H c. unfold eval, read in *.
  rewrite bus_cpu_read_set_cpu. rewrite bus_cpu_read_high in * by assumption.
  unfold lift in *. destruct (cart_byte m addr); [|discriminate].
  now inversion H.
Qed.

Lemma read_high_pure (m : Bus.state) (addr d : Z) :
  0x4017 <= addr <= 0xFFFF -> eval (read addr) m = Some d -> read addr m = Ok (d, m).
Proof.
  intros Ha H. pose proof (read_high_inv m addr d Ha H (Bus.cpu m)) as E.
  now rewrite set_cpu_cpu in E.
Qed.

Ltac cpu_steps :=
  repeat first
    [ rewrite cpu_upd_bind | rewrite cpu_get_bind | rewrite ret_bind | rewrite bind_bind
    | rewrite cpu_set_cpu | rewrite set_cpu_set_cpu ].

(** * The operand fetch *)

Lemma read_keeps (I : Cpu.state -> Prop) (addr : Z) :
  preserves (fun m => I (Bus.cpu m)) (read addr).
Proof.
  intros s d s' H E. now rewrite (read_cpu _ _ _ _ E).
Qed.

(** [fetch] returns the operand and leaves it in [fetched]; the
    accumulator and the status register are untouched. *)
Lemma fetch_spec (m m1 : Bus.state) (d : Z) :
  fetch m = Ok (d, m1) ->
  Cpu.fetched (Bus.cpu m1) = d /\
  Cpu.a (Bus.cpu m1) = Cpu.a (Bus.cpu m) /\
  Cpu.status (Bus.cpu m1) = Cpu.status (Bus.cpu m).
Proof.
  intros H. split.
  - unfold fetch in H. apply bind_ok in H. destruct H as (m0 & s0 & _ & H).
    apply bind_ok in H. destruct H as (u & s1 & _ & H).
    unfold cpu_get, gets in H. now inversion H.
  - assert (P : preserves
                  (fun s => Cpu.a (Bus.cpu s) = Cpu.a (Bus.cpu m) /\
                            Cpu.status (Bus.cpu s) = Cpu.status (Bus.cpu m)) fetch).
    { unfold fetch, opcode_mode.
      repeat first
        [ apply (read_keeps (fun c => Cpu.a c = Cpu.a (Bus.cpu m) /\
                                      Cpu.status c = Cpu.status (Bus.cpu m)))
        | preserves_step fail keep_leaf ]. }
    exact (P m d m1 (conj eq_refl eq_refl) H).
Qed.

Ltac flag_bits :=
  change FLAG_C with (2 ^ 0) in *; change FLAG_Z with (2 ^ 1) in *;
  change FLAG_I with (2 ^ 2) in *; change FLAG_D with (2 ^ 3) in *;
  change FLAG_B with (2 ^ 4) in *; change FLAG_U with (2 ^ 5) in *;
  change FLAG_V with (2 ^ 6) in *; change FLAG_N with (2 ^ 7) in *.

(** * Branches (EMUNES5) *)

Ltac cpu_proj :=
  cbn [Bus.cpu Bus.set_cpu Cpu.a Cpu.x Cpu.y Cpu.stkp Cpu.pc Cpu.status Cpu.fetched
       Cpu.addr_abs Cpu.addr_rel Cpu.opcode Cpu.cycles Cpu.dma_page Cpu.dma_addr
       Cpu.dma_data Cpu.dma_transfer Cpu.dma_dummy Cpu.set_a Cpu.set_x Cpu.set_y
       Cpu.set_stkp Cpu.set_pc Cpu.set_status Cpu.set_fetched Cpu.set_addr_abs
       Cpu.set_addr_rel Cpu.set_opcode Cpu.set_cycles Cpu.set_dma_page
       Cpu.set_dma_addr Cpu.set_dma_data Cpu.set_dma_transfer Cpu.set_dma_dummy].

(** The 256-byte page of an address of the 64 KB space. *)
Definition page (addr : Z) : Z := (addr mod 65536) / 256.

Lemma testbit_0xFF00 (n : Z) :
  0 <= n -> Z.testbit 0xFF00 n = (8 <=? n) && (n <? 16).
Proof.
  intros Hn. change 0xFF00 with (Z.shiftl (Z.ones 8) 8).
  rewrite Z.shiftl_spec by assumption.
  destruct (Z.leb_spec 8 n); simpl.
  - destruct (Z.ltb_spec n 16).
    + apply Z.ones_spec_low. lia.
    + apply Z.ones_spec_high. lia.
  - apply Z.testbit_neg_r. lia.
Qed.

Lemma land_0xFF00_page (addr : Z) : Z.land addr 0xFF00 = page addr * 256.
Proof.
  unfold page. apply Z.bits_inj'. intros n Hn.
  rewrite Z.land_spec, testbit_0xFF00 by assumption.
  change 256 with (2 ^ 8). change 65536 with (2 ^ 16).
  rewrite <- Z.shiftl_mul_pow2 by lia. rewrite <- Z.shiftr_div_pow2 by lia.
  rewrite Z.shiftl_spec by assumption.
  destruct (Z.leb_spec 8 n) as [H8|H8].
  - rewrite Z.shiftr_spec by lia.
    replace (n - 8 + 8) with n by lia.
    destruct (Z.ltb_spec n 16).
    + rewrite Z.mod_pow2_bits_low by lia. now rewrite andb_true_r.
    + rewrite Z.mod_pow2_bits_high by lia. now rewrite andb_false_r.
  - rewrite andb_false_r. symmetry. apply Z.testbit_neg_r. lia.
Qed.

(** The page test of [_branch] is a test on pages. *)
Lemma page_test (t p : Z) :
  (Z.land t 0xFF00 =? Z.land p 0xFF00) = (page t =? page p).
Proof.
  rewrite !land_0xFF00_page.
  destruct (Z.eqb_spec (page t) (page p)) as [->|H].
  - apply Z.eqb_refl.
  - apply Z.eqb_neq. lia.
Qed.

(** The eight branch opcodes and their operations. *)
Definition branch_opcode (op : Z) : option Operation :=
  match op with
  | 0x10 => Some oBPL | 0x30 => Some oBMI | 0x50 => Some oBVC | 0x70 => Some oBVS
  | 0x90 => Some oBCC | 0xB0 => Some oBCS | 0xD0 => Some oBNE | 0xF0 => Some oBEQ
  | _ => None
  end.

(** The condition each branch tests, on the status register. *)
Definition branch_taken (o : Operation) (status : Z) : bool :=
  match o with
  | oBPL => negb (flag_of status FLAG_N) | oBMI => flag_of status FLAG_N
  | oBVC => negb (flag_of status FLAG_V) | oBVS => flag_of status FLAG_V
  | oBCC => negb (flag_of status FLAG_C) | oBCS => flag_of status FLAG_C
  | oBNE => negb (flag_of status FLAG_Z) | oBEQ => flag_of status FLAG_Z
  | _ => false
  end.

(** The offset byte of a branch, sign-extended as [REL] does. *)
Definition rel_offset (off : Z) : Z :=
  if truthy (Z.land off 0x80) then Z.lor off 0xFF00 else off.

Lemma branch_opcode_inv (op : Z) (o : Operation) :
  branch_opcode op = Some o ->
  (op = 0x10 /\ o = oBPL) \/ (op = 0x30 /\ o = oBMI) \/
  (op = 0x50 /\ o = oBVC) \/ (op = 0x70 /\ o = oBVS) \/
  (op = 0x90 /\ o = oBCC) \/ (op = 0xB0 /\ o = oBCS) \/
  (op = 0xD0 /\ o = oBNE) \/ (op = 0xF0 /\ o = oBEQ).
Proof.
  unfold branch_opcode. intros H.
  destruct op as [|p|p]; try discriminate.
  repeat (match goal with q : positive |- _ => destruct q end; try discriminate);
    inversion H; subst; intuition congruence.
Qed.

Lemma lift_bind {A B} (r : Result A) (a : A) (k : A -> Py B) (m : Bus.state) :
  r = Ok a -> bind (lift r) k m = k a m.
Proof. now intros ->. Qed.

(** What [_branch] does, in one equation. *)
Lemma branch_spec (cond : bool) (m : Bus.state) :
  _branch cond m
  = Ok (0,
        if cond then
          let c := Bus.cpu m in
          let target := Cpu.pc c + Cpu.addr_rel c in
          Bus.set_cpu
            (Cpu.set_pc target
               (Cpu.set_cycles
                  (Cpu.cycles c + 1 + (if page target =? page (Cpu.pc c) then 0 else 1))
                  (Cpu.set_addr_abs target c))) m
        else m).
Proof.
  unfold _branch. destruct cond; [|reflexivity].
  cpu_steps. cpu_proj. rewrite page_test.
  destruct (page (Cpu.pc (Bus.cpu m) + Cpu.addr_rel (Bus.cpu m)) =? page (Cpu.pc (Bus.cpu m)));
    simpl negb; cbv iota; cpu_steps; cpu_proj.
  - rewrite Z.add_0_r. reflexivity.
  - reflexivity.
Qed.

Definition branch_operations : list Operation :=
  [oBPL; oBMI; oBVC; oBVS; oBCC; oBCS; oBNE; oBEQ].

(** Each branch operation is [_branch] on its condition. *)
Lemma run_branch (o : Operation) (s : Bus.state) :
  In o branch_operations ->
  run_operation o s = _branch (branch_taken o (Cpu.status (Bus.cpu s))) s.
Proof.
  intros H. repeat (destruct H as [<-|H]; [reflexivity|]). destruct H.
Qed.

Lemma branch_opcode_table (op : Z) (o : Operation) :
  branch_opcode op = Some o ->
  py_getitem lookup op = Ok (mREL, o, 2) /\ In o branch_operations.
Proof.
  intros H.
  destruct (branch_opcode_inv _ _ H)
    as [[-> ->]|[[-> ->]|[[-> ->]|[[-> ->]|[[-> ->]|[[-> ->]|[[-> ->]|[-> ->]]]]]]]];
    (split; [vm_compute; reflexivity|simpl; tauto]).
Qed.

(** A branch instruction of EMUNES5, fetched at PC with its offset byte
    behind it: the table gives it the relative mode and a base of 2
    cycles, and executing it leaves the cycle counter at 2 when the
    condition is false, at 3 when the branch is taken to the page of the
    incremented PC, and at 4 when it is taken to another page. *)
Theorem branch_instruction_cycles (m m1 m2 : Bus.state) (op off : Z) (o : Operation) :
  branch_opcode op = Some o ->
  read (Cpu.pc (Bus.cpu m)) m = Ok (op, m1) ->
  read (Z.land (Cpu.pc (Bus.cpu m) + 1) 0xFFFF) m1 = Ok (off, m2) ->
  let pc2 := Z.land (Cpu.pc (Bus.cpu m) + 1) 0xFFFF + 1 in
  let target := pc2 + rel_offset off in
  let taken := branch_taken o (Cpu.status (Bus.cpu m)) in
  py_getitem lookup op = Ok (mREL, o, 2) /\
  exists m',
    execute_instruction m = Ok (tt, m') /\
    Cpu.cycles (Bus.cpu m')
    = 2 + (if taken then if page target =? page pc2 then 1 else 2 else 0) /\
    Cpu.pc (Bus.cpu m') = (if taken then target else pc2).
Proof.
  intros Hop H1 H2 pc2 target taken.
  pose proof (read_cpu _ _ _ _ H1) as Hc1.
  destruct (branch_opcode_table _ _ Hop) as [Hl Hin].
  split; [exact Hl|].
  unfold execute_instruction. cpu_steps.
  rewrite (read_bind _ _ _ _ _ H1). cpu_steps.
  rewrite (lift_bind _ _ _ _ Hl). cbv beta iota. cpu_steps.
  cbn [run_addr_mode]. unfold REL, read_pc_inc, inc_pc. cpu_steps. cpu_proj.
  rewrite Hc1. rewrite (read_bind_set_cpu _ _ _ _ _ _ H2). cpu_steps. cpu_proj.
  erewrite bind_eq by (rewrite run_branch by exact Hin; apply branch_spec).
  cpu_steps. cpu_proj.
  fold (rel_offset off). fold pc2. fold target. fold taken.
  destruct taken.
  - cbv zeta. cpu_proj. fold (rel_offset off). fold pc2. fold target.
    eexists. split; [reflexivity|]. cpu_proj.
    split; [|reflexivity].
    destruct (page target =? page pc2); reflexivity.
  - eexists. split; [reflexivity|]. cpu_proj. split; reflexivity.
Qed.

(** [l] at the start of the 2 KB of CPU RAM. *)
Definition ram_with (l : list Z) : list Z :=
  l ++ repeat 0 (Z.to_nat 2048 - length l).

(** A freshly built machine with [BNE *] (D0 FE) at address 0 and the PC
    on it. *)
Definition loop_machine : Bus.state :=
  Bus.set_cpu_ram (ram_with [0xD0; 0xFE]) Bus_init.

Lemma branch_instruction_cycles_witness :
  branch_opcode 0xD0 = Some oBNE /\
  read (Cpu.pc (Bus.cpu loop_machine)) loop_machine = Ok (0xD0, loop_machine) /\
  read (Z.land (Cpu.pc (Bus.cpu loop_machine) + 1) 0xFFFF) loop_machine
  = Ok (0xFE, loop_machine) /\
  py_getitem lookup 0xD0 = Ok (mREL, oBNE, 2) /\
  exists m',
    execute_instruction loop_machine = Ok (tt, m') /\
    Cpu.cycles (Bus.cpu m') = 3 /\
    Cpu.pc (Bus.cpu m') = 0x10000.
Proof.
  assert (H0 : branch_opcode 0xD0 = Some oBNE) by reflexivity.
  assert (H1 : read (Cpu.pc (Bus.cpu loop_machine)) loop_machine = Ok (0xD0, loop_machine))
    by reflexivity.
  assert (H2 : read (Z.land (Cpu.pc (Bus.cpu loop_machine) + 1) 0xFFFF) loop_machine
               = Ok (0xFE, loop_machine)) by reflexivity.
  split; [exact H0|]. split; [exact H1|]. split; [exact H2|].
  exact (branch_instruction_cycles loop_machine loop_machine loop_machine
           0xD0 0xFE oBNE H0 H1 H2).
Defined.

(** * The program counter beyond 16 bits (EMUNES5) *)

(** A 16 KB NROM image with CHR-RAM: NOPs, the reset vector 0x8000 at
    0xFFFC, and [LDA #$42] (A9 42) in the last two bytes of the PRG. *)
Definition nrom_image : list byte :=
  [x4e; x45; x53; x1a; x01; x00; x00; x00; x00; x00; x00; x00; x00; x00; x00; x00]
  ++ repeat xea (Z.to_nat 0x3FFC) ++ [x00; x80; xa9; x42].

Definition nrom_cart : option Cartridge :=
  match NESRom_init nrom_image with
  | Ok r => Some (Cartridge_init r)
  | Raise _ => None
  end.

(** The machine after [insert_cartridge]. *)
Definition cart_machine : Bus.state := Bus.set_cart nrom_cart Bus_init.

(** The same with the PC on the last-but-one byte of the address space. *)
Definition pc_FFFE_machine : Bus.state :=
  Bus.set_cpu (Cpu.set_pc 0xFFFE (Bus.cpu cart_machine)) cart_machine.

(** C8, the code at the failing inputs.  With the PC at 0xFFFE on
    [LDA #$42], one [clock] fetches the opcode (the PC wraps to 0xFFFF under
    the mask of [clock]) and runs [IMM], whose [self.pc += 1] has no mask:
    the PC register holds 0x10000.  The taken backward branch [BNE *] at
    address 0 leaves 0x10000 as well, by the unmasked sum of [_branch]. *)
Theorem pc_register_exceeds_0xFFFF :
  match cpu_clock pc_FFFE_machine with
  | Ok (_, m') =>
      Cpu.pc (Bus.cpu m') = 0x10000 /\ Cpu.a (Bus.cpu m') = 0x42 /\
      Cpu.opcode (Bus.cpu m') = 0xA9
  | Raise _ => False
  end /\
  match cpu_clock loop_machine with
  | Ok (_, m') => Cpu.pc (Bus.cpu m') = 0x10000 /\ Cpu.opcode (Bus.cpu m') = 0xD0
  | Raise _ => False
  end.
Proof. split; vm_compute; repeat split; reflexivity. Qed.

(** The bus masks every address, so the next fetch still reads the wrapped
    location. *)
Lemma bus_read_wraps (m : Bus.state) (addr : Z) :
  bus_cpu_read (addr + 0x10000) m = bus_cpu_read addr m.
Proof.
  unfold bus_cpu_read.
  replace (Z.land (addr + 0x10000) 0xFFFF) with (Z.land addr 0xFFFF); [reflexivity|].
  change 0xFFFF with (Z.ones 16). rewrite !Z.land_ones by lia.
  change 0x10000 with (1 * 2 ^ 16). now rewrite Z.mod_add by lia.
Qed.

End CpuFacts.

(** * The PPUADDR and PPUDATA ports (EMUNES5) *)

Module PpuPortFacts.
Import EMUNES5.

Lemma ppu_upd_bind {B} (g : Ppu.state -> Ppu.state) (k : unit -> Py B) (m : Bus.state) :
  bind (ppu_upd g) k m = k tt (Bus.set_ppu (g (Bus.ppu m)) m).
Proof. reflexivity. Qed.

Lemma ppu_get_bind {A B} (p : Ppu.state -> A) (k : A -> Py B) (m : Bus.state) :
  bind (ppu_get p) k m = k (p (Bus.ppu m)) m.
Proof. reflexivity. Qed.

Lemma ppu_set_ppu (p : Ppu.state) (m : Bus.state) : Bus.ppu (Bus.set_ppu p m) = p.
Proof. reflexivity. Qed.

Lemma set_ppu_set_ppu (p p' : Ppu.state) (m : Bus.state) :
  Bus.set_ppu p (Bus.set_ppu p' m) = Bus.set_ppu p m.
Proof. reflexivity. Qed.

Ltac ppu_steps :=
  repeat first
    [ rewrite ppu_upd_bind | rewrite ppu_get_bind | rewrite CpuFacts.ret_bind
    | rewrite CpuFacts.bind_bind | rewrite ppu_set_ppu | rewrite set_ppu_set_ppu ].










(** The reads the theorem speaks of do happen: on the machine with the
    NROM cartridge, a byte stored at PPU address 0 comes back from the
    second PPUDATA read, the first returning the stale buffer. *)
Example ppudata_one_read_late :
  eval (ppu_cpu_write 0x2006 0x00 ;; ppu_cpu_write 0x2006 0x00 ;;
        ppu_cpu_write 0x2007 0x5A ;;
        ppu_cpu_write 0x2006 0x00 ;; ppu_cpu_write 0x2006 0x00 ;;
        first <- ppu_cpu_read 0x2007 ;;
        second <- ppu_cpu_read 0x2007 ;;
        ret (first, second)) CpuFacts.cart_machine
  = Some (0x00, 0x5A).
Proof. vm_compute. reflexivity. Qed.

End PpuPortFacts.

(** * The MonikaNES variant *)

Module MonikaFacts.
Import MonikaNES.

(** ** Stepping through a method symbolically *)

Lemma mk_cpu_upd_bind {B} (g : Cpu.state -> Cpu.state) (k : unit -> Py B) (m : Bus.state) :
  bind (cpu_upd g) k m = k tt (Bus.set_cpu (g (Bus.cpu m)) m).
Proof. reflexivity. Qed.

Lemma mk_cpu_get_bind {A B} (p : Cpu.state -> A) (k : A -> Py B) (m : Bus.state) :
  bind (cpu_get p) k m = k (p (Bus.cpu m)) m.
Proof. reflexivity. Qed.

Lemma mk_ppu_upd_bind {B} (g : Ppu.state -> Ppu.state) (k : unit -> Py B) (m : Bus.state) :
  bind (ppu_upd g) k m = k tt (Bus.set_ppu (g (Bus.ppu m)) m).
Proof. reflexivity. Qed.

Lemma mk_ppu_get_bind {A B} (p : Ppu.state -> A) (k : A -> Py B) (m : Bus.state) :
  bind (ppu_get p) k m = k (p (Bus.ppu m)) m.
Proof. reflexivity. Qed.

Lemma mk_ret_bind {A B} (a : A) (k : A -> Py B) (m : Bus.state) :
  bind (ret a) k m = k a m.
Proof. reflexivity. Qed.

Lemma mk_bind_bind {A B C} (c : Py A) (k1 : A -> Py B) (k2 : B -> Py C) (m : Bus.state) :
  bind (bind c k1) k2 m = bind c (fun a => bind (k1 a) k2) m.
Proof. unfold bind. now destruct (c m) as [[a s]|e]. Qed.

Lemma mk_set_cpu_cpu (m : Bus.state) : Bus.set_cpu (Bus.cpu m) m = m.
Proof. now destruct m. Qed.

Ltac mk_steps :=
  repeat first
    [ rewrite mk_cpu_upd_bind | rewrite mk_cpu_get_bind
    | rewrite mk_ppu_upd_bind | rewrite mk_ppu_get_bind
    | rewrite mk_ret_bind | rewrite mk_bind_bind ].

Ltac mk_proj :=
  cbn [Bus.cpu Bus.ppu Bus.cart Bus.cpu_ram Bus.set_cpu Bus.set_ppu
       Cpu.a Cpu.x Cpu.y Cpu.stkp Cpu.pc Cpu.status Cpu.fetched Cpu.addr_abs
       Cpu.addr_rel Cpu.opcode Cpu.cycles Cpu.set_a Cpu.set_x Cpu.set_y Cpu.set_stkp
       Cpu.set_pc Cpu.set_status Cpu.set_fetched Cpu.set_addr_abs Cpu.set_addr_rel
       Cpu.set_opcode Cpu.set_cycles Cpu.set_illegal_opcodes
       Ppu.vram_addr Ppu.temp_vram_addr Ppu.address_latch Ppu.buffer_data Ppu.PPUCTRL
       Ppu.set_vram_addr Ppu.set_temp_vram_addr Ppu.set_address_latch
       Ppu.set_buffer_data].

(** ** Reads from 0x4000 up *)

(** What the bus returns there: the cartridge's byte, or 0 without a
    cartridge. *)
Definition cart_byte (m : Bus.state) (addr : Z) : Result Z :=
  match Bus.cart m with
  | None => Ok 0
  | Some c => cart_cpu_read c addr
  end.

Lemma mk_bus_cpu_read_high (m : Bus.state) (addr : Z) :
  0x4000 <= addr -> bus_cpu_read addr m = lift (cart_byte m addr) m.
Proof.
  intros H. unfold bus_cpu_read, cart_byte, bind, gets, lift.
  assert (E1 : between 0 addr 0x1FFF = false)
    by (apply PaletteMirrorFacts.between_false; lia).
  assert (E2 : between 0x2000 addr 0x3FFF = false)
    by (apply PaletteMirrorFacts.between_false; lia).
  destruct (Bus.cart m) as [c|].
  - destruct (cart_cpu_read c addr) as [d|e]; [|reflexivity].
    now rewrite E1, E2.
  - unfold ret at 1. now rewrite E1, E2.
Qed.

Lemma mk_read_high_set_cpu (m : Bus.state) (addr d : Z) (c : Cpu.state) :
  0x4000 <= addr ->
  eval (read addr) m = Some d ->
  read addr (Bus.set_cpu c m) = Ok (d, Bus.set_cpu c m).
Proof.
  intros Ha H. unfold eval, read in *.
  rewrite mk_bus_cpu_read_high in * by assumption.
  unfold lift, cart_byte in *. cbn [Bus.cart Bus.set_cpu].
  destruct (Bus.cart m) as [k|].
  - destruct (cart_cpu_read k addr); [|discriminate]. now inversion H.
  - now inversion H.
Qed.

Lemma mk_read_bind {B} (addr d : Z) (k : Z -> Py B) (m m' : Bus.state) :
  read addr m = Ok (d, m') -> bind (read addr) k m = k d m'.
Proof. intros H. unfold bind. now rewrite H. Qed.

(** ** Reset *)

(** [reset] of this variant: the vector, SP = 0xFD, I set, and 8 cycles
    ("Reset takes 8 cycles"). *)
Lemma monika_reset_spec (m : Bus.state) (lo hi : Z) :
  eval (read 0xFFFC) m = Some lo ->
  eval (read 0xFFFD) m = Some hi ->
  exists m',
    reset m = Ok (tt, m') /\
    Cpu.pc (Bus.cpu m') = Z.lor (Z.shiftl hi 8) lo /\
    Cpu.stkp (Bus.cpu m') = 0xFD /\
    eval (get_flag FLAG_I) m' = Some 1 /\
    Cpu.cycles (Bus.cpu m') = 8.
Proof.
  intros Hlo Hhi. unfold reset. mk_steps. mk_proj.
  rewrite (mk_read_bind _ _ _ _ _ (mk_read_high_set_cpu m 0xFFFC lo _ ltac:(lia) Hlo)).
  mk_steps. mk_proj. change (0xFFFC + 1) with 0xFFFD.
  rewrite (mk_read_bind _ _ _ _ _ (mk_read_high_set_cpu m 0xFFFD hi _ ltac:(lia) Hhi)).
  mk_steps.
  eexists. split; [reflexivity|].
  repeat split; reflexivity.
Qed.

(** ** ADC *)

Lemma mk_bus_cpu_read_keeps_cpu (c : Cpu.state) (addr : Z) :
  preserves (fun m => Bus.cpu m = c) (bus_cpu_read addr).
Proof. unfold bus_cpu_read. CpuFacts.keep_deep. Qed.

Lemma mk_read_cpu (addr d : Z) (m m' : Bus.state) :
  read addr m = Ok (d, m') -> Bus.cpu m' = Bus.cpu m.
Proof.
  intros H. exact (mk_bus_cpu_read_keeps_cpu (Bus.cpu m) addr m d m' eq_refl H).
Qed.

Lemma mk_read_keeps (I : Cpu.state -> Prop) (addr : Z) :
  preserves (fun m => I (Bus.cpu m)) (read addr).
Proof.
  intros s d s' H E. now rewrite (mk_read_cpu _ _ _ _ E).
Qed.

(** [fetch] returns [fetched], which it has read from [addr_abs] unless the
    mode of [self.opcode] is implied or accumulator; the accumulator and
    the status register are untouched. *)
Lemma mk_fetch_spec (m m1 : Bus.state) (d : Z) :
  fetch m = Ok (d, m1) ->
  Cpu.fetched (Bus.cpu m1) = d /\
  Cpu.a (Bus.cpu m1) = Cpu.a (Bus.cpu m) /\
  Cpu.status (Bus.cpu m1) = Cpu.status (Bus.cpu m).
Proof.
  intros H. split.
  - unfold fetch in H. apply bind_ok in H. destruct H as (op & s0 & _ & H).
    apply bind_ok in H. destruct H as (e & s1 & _ & H).
    apply bind_ok in H. destruct H as (u & s2 & _ & H).
    unfold cpu_get, gets in H. now inversion H.
  - assert (P : preserves
                  (fun s => Cpu.a (Bus.cpu s) = Cpu.a (Bus.cpu m) /\
                            Cpu.status (Bus.cpu s) = Cpu.status (Bus.cpu m)) fetch).
    { unfold fetch.
      repeat first
        [ apply (mk_read_keeps (fun c => Cpu.a c = Cpu.a (Bus.cpu m) /\
                                         Cpu.status c = Cpu.status (Bus.cpu m)))
        | preserves_step fail CpuFacts.keep_leaf ]. }
    exact (P m d m1 (conj eq_refl eq_refl) H).
Qed.

Lemma mk_flag_testbit (st k : Z) :
  0 <= k -> (Z.land st (Z.shiftl 1 k) >? 0) = Z.testbit st k.
Proof.
  intros Hk. rewrite Z.shiftl_1_l, CpuFacts.land_pow2 by assumption.
  pose proof (Z.pow_pos_nonneg 2 k ltac:(lia) Hk).
  destruct (Z.testbit st k).
  - apply Z.gtb_lt. lia.
  - reflexivity.
Qed.

Lemma mk_testbit_with_flag (st i j : Z) (v : bool) :
  0 <= i -> 0 <= j ->
  Z.testbit (with_flag st (Z.shiftl 1 i) v) j = if i =? j then v else Z.testbit st j.
Proof.
  intros Hi Hj. unfold with_flag. rewrite Z.shiftl_1_l. destruct v.
  - rewrite Z.lor_spec, Z.pow2_bits_eqb by assumption.
    destruct (Z.eqb_spec i j); [apply orb_true_r|apply orb_false_r].
  - rewrite Z.land_spec, Z.lnot_spec, Z.pow2_bits_eqb by assumption.
    destruct (Z.eqb_spec i j); [apply andb_false_r|apply andb_true_r].
Qed.

(** The value [get_flag] returns, 1 or 0. *)
Definition flag_value (m : Bus.state) (flag : Z) : Z :=
  if Z.land (Cpu.status (Bus.cpu m)) flag >? 0 then 1 else 0.

Lemma get_flag_value (m : Bus.state) (flag : Z) :
  get_flag flag m = Ok (flag_value m flag, m).
Proof. reflexivity. Qed.

Lemma monika_ADC_0x50_0x50 (m m1 : Bus.state) :
  Cpu.a (Bus.cpu m) = 0x50 ->
  flag_value m FLAG_C = 0 ->
  fetch m = Ok (0x50, m1) ->
  exists m',
    ADC m = Ok (1, m') /\
    Cpu.a (Bus.cpu m') = 0xA0 /\
    flag_value m' FLAG_V = 1 /\
    flag_value m' FLAG_C = 0 /\
    flag_value m' FLAG_N = 1 /\
    flag_value m' FLAG_Z = 0.
Proof.
  intros Ha Hc Hf.
  destruct (mk_fetch_spec _ _ _ Hf) as (Hf1 & Ha1 & Hs1).
  rewrite Ha in Ha1.
  assert (Hc1 : flag_value m1 FLAG_C = 0) by (unfold flag_value in *; now rewrite Hs1).
  unfold ADC. rewrite (bind_eq _ _ _ _ _ Hf).
  mk_steps. unfold bind at 1. rewrite get_flag_value, Hc1, Ha1, Hf1.
  unfold set_flag. mk_steps.
  eexists. split; [reflexivity|].
  unfold flag_value. mk_proj.
  unfold FLAG_C, FLAG_Z, FLAG_V, FLAG_N.
  rewrite !mk_flag_testbit, !mk_testbit_with_flag by lia.
  repeat split; reflexivity.
Qed.

(** ** One frame of PPU clocks *)

(** The registers as [PPU2C02.__init__] leaves them, as far as [clock]
    looks at them: rendering and NMI off, a 32-byte palette RAM and a
    240 x 256 pixel buffer. *)
Definition pixel_dims (buf : list (list string)) : Prop :=
  length buf = 240%nat /\ Forall (fun row => length row = 256%nat) buf.

Record idle (m : Bus.state) : Prop := mk_idle {
  idle_mask : Ppu.PPUMASK (Bus.ppu m) = 0;
  idle_ctrl : Ppu.PPUCTRL (Bus.ppu m) = 0;
  idle_palette : length (Ppu.palette_ram (Bus.ppu m)) = 32%nat;
  idle_pixels : pixel_dims (Ppu.pixel_buffer (Bus.ppu m))
}.

(** The position in the frame: 341 dots on each of 262 scanlines. *)
Definition dot (m : Bus.state) : Z :=
  Ppu.scanline (Bus.ppu m) * 341 + Ppu.cycle (Bus.ppu m).

Definition on_grid (m : Bus.state) : Prop :=
  0 <= Ppu.scanline (Bus.ppu m) <= 261 /\ 0 <= Ppu.cycle (Bus.ppu m) <= 340.

(** What the rendering half of [clock] leaves alone. *)
Record same_timing (m m' : Bus.state) : Prop := mk_same_timing {
  same_scanline : Ppu.scanline (Bus.ppu m') = Ppu.scanline (Bus.ppu m);
  same_cycle : Ppu.cycle (Bus.ppu m') = Ppu.cycle (Bus.ppu m);
  same_frame_complete : Ppu.frame_complete (Bus.ppu m') = Ppu.frame_complete (Bus.ppu m)
}.

Lemma same_timing_refl (m : Bus.state) : same_timing m m.
Proof. now split. Qed.

Lemma idle_init (m : Bus.state) : Bus.ppu m = PPU2C02_init -> idle m.
Proof.
  intros H. split; rewrite H; try reflexivity. split.
  - unfold PPU2C02_init, Ppu.pixel_buffer. now rewrite repeat_length.
  - unfold PPU2C02_init, Ppu.pixel_buffer. apply Forall_forall.
    intros row Hr. apply repeat_spec in Hr. subst row. now rewrite repeat_length.
Qed.

Lemma mk_gets_bind {A B} (f : Bus.state -> A) (k : A -> Py B) (m : Bus.state) :
  bind (gets f) k m = k (f m) m.
Proof. reflexivity. Qed.

Lemma mk_lift_bind {A B} (r : Result A) (a : A) (k : A -> Py B) (m : Bus.state) :
  r = Ok a -> bind (lift r) k m = k a m.
Proof. now intros ->. Qed.

(** A read of a palette address succeeds and changes nothing. *)
Lemma mk_bus_ppu_read_palette (m : Bus.state) (addr : Z) :
  length (Ppu.palette_ram (Bus.ppu m)) = 32%nat ->
  0x3F00 <= addr <= 0x3FFF ->
  exists d, bus_ppu_read addr m = Ok (d, m).
Proof.
  intros Hlen Ha. unfold bus_ppu_read.
  assert (E1 : between 0x2000 addr 0x3EFF = false)
    by (apply PaletteMirrorFacts.between_false; lia).
  assert (E2 : between 0x3F00 addr 0x3FFF = true)
    by (apply PaletteMirrorFacts.between_true; lia).
  assert (E0 : between 0 addr 0x1FFF = false)
    by (apply PaletteMirrorFacts.between_false; lia).
  assert (Hi : 0 <= palette_index addr < 32).
  { unfold palette_index.
    pose proof (land_ones_bound addr 5 ltac:(lia)) as Hb.
    change (Z.ones 5) with 0x1F in Hb. change (2 ^ 5) with 32 in Hb.
    destruct (_ || _); lia. }
  destruct (py_getitem_inrange (Ppu.palette_ram (Bus.ppu m)) (palette_index addr))
    as (v & Hv & _); [rewrite Hlen; lia|].
  exists (Z.land v 0x3F).
  rewrite mk_gets_bind. rewrite E1, E2.
  destruct (Bus.cart m) as [c|].
  - unfold cart_ppu_read. rewrite E0.
    unfold bind at 1. unfold lift at 1.
    rewrite mk_ppu_get_bind. now rewrite (mk_lift_bind _ _ _ _ Hv).
  - rewrite mk_ret_bind, mk_ppu_get_bind. now rewrite (mk_lift_bind _ _ _ _ Hv).
Qed.

Lemma get_color_total (i : Z) : exists c, get_color_from_palette_ram i = Ok c.
Proof.
  unfold get_color_from_palette_ram.
  destruct (py_getitem_inrange palette (i mod 64)) as (c & Hc & _).
  - change (Z.of_nat (length palette)) with 64. apply Z.mod_pos_bound. lia.
  - now exists c.
Qed.

Lemma put_pixel_inside (colour : string) (m : Bus.state) :
  pixel_dims (Ppu.pixel_buffer (Bus.ppu m)) ->
  0 <= Ppu.scanline (Bus.ppu m) <= 239 ->
  1 <= Ppu.cycle (Bus.ppu m) <= 256 ->
  exists buf',
    put_pixel colour m = Ok (tt, Bus.set_ppu (Ppu.set_pixel_buffer buf' (Bus.ppu m)) m) /\
    pixel_dims buf'.
Proof.
  intros [Hlen Hrows] Hs Hc. unfold put_pixel. mk_steps.
  destruct (py_getitem_inrange (Ppu.pixel_buffer (Bus.ppu m)) (Ppu.scanline (Bus.ppu m)))
    as (row & Hrow & Hnth); [rewrite Hlen; lia|].
  rewrite (mk_lift_bind _ _ _ _ Hrow).
  assert (Hr : length row = 256%nat).
  { apply nth_error_In in Hnth. rewrite Forall_forall in Hrows. now apply Hrows. }
  rewrite (mk_lift_bind _ _ _ _
             (py_setitem_inrange row (Ppu.cycle (Bus.ppu m) - 1) colour
                ltac:(rewrite Hr; lia))).
  rewrite (mk_lift_bind _ _ _ _
             (py_setitem_inrange (Ppu.pixel_buffer (Bus.ppu m)) (Ppu.scanline (Bus.ppu m)) _
                ltac:(rewrite Hlen; lia))).
  eexists. split; [reflexivity|]. split.
  - now rewrite length_list_update.
  - apply Forall_list_update; [assumption|]. now rewrite length_list_update.
Qed.

(** With background rendering off, [clock] paints the backdrop colour of
    palette entry 0. *)
Lemma render_background_idle (m : Bus.state) :
  idle m ->
  0 <= Ppu.scanline (Bus.ppu m) <= 239 ->
  1 <= Ppu.cycle (Bus.ppu m) <= 256 ->
  exists buf',
    render_background m
    = Ok (tt, Bus.set_ppu (Ppu.set_pixel_buffer buf' (Bus.ppu m)) m) /\
    pixel_dims buf'.
Proof.
  intros [Hm Hc Hp Hd] Hs Hcy. unfold render_background.
  rewrite mk_gets_bind. rewrite Hm.
  change (bit_set 0 3) with false. cbv iota. rewrite mk_ret_bind. cbv iota beta.
  change (0 =? 0) with true. cbv iota.
  destruct (mk_bus_ppu_read_palette m 0x3F00 Hp ltac:(lia)) as (d & Hrd).
  rewrite (bind_eq _ _ _ _ _ Hrd).
  destruct (get_color_total d) as (c & Hcol).
  rewrite (mk_lift_bind _ _ _ _ Hcol).
  now apply put_pixel_inside.
Qed.


Ltac ppu_proj :=
  cbn [Bus.ppu Bus.set_ppu Ppu.PPUMASK Ppu.PPUCTRL Ppu.PPUSTATUS Ppu.palette_ram
       Ppu.pixel_buffer Ppu.scanline Ppu.cycle Ppu.frame_complete Ppu.nmi_triggered
       Ppu.set_pixel_buffer Ppu.set_PPUSTATUS Ppu.set_nmi_triggered Ppu.set_scanline
       Ppu.set_cycle Ppu.set_frame_complete].

Lemma rendering_enabled_idle (m : Bus.state) :
  Ppu.PPUMASK (Bus.ppu m) = 0 -> rendering_enabled m = Ok (false, m).
Proof.
  intros H. unfold rendering_enabled. rewrite mk_ppu_get_bind, H. reflexivity.
Qed.

(** The tail of [visible_scanline] and of [prerender_scanline] with
    rendering off: no scroll register moves. *)
Lemma visible_tail_idle (m : Bus.state) (cycle : Z) :
  Ppu.PPUMASK (Bus.ppu m) = 0 ->
  (mask <- ppu_get Ppu.PPUMASK ;;
   (if bit_set mask 4 then for_each sprite_indices render_sprite else ret tt) ;;
   en <- rendering_enabled ;;
   if cycle =? 256 then (if en then increment_h else ret tt)
   else if cycle =? 257 then (if en then transfer_x else ret tt)
   else ret tt) m = Ok (tt, m).
Proof.
  intros H. rewrite mk_ppu_get_bind, H. change (bit_set 0 4) with false. cbv iota.
  rewrite mk_ret_bind. rewrite (bind_eq _ _ _ _ _ (rendering_enabled_idle m H)).
  destruct (cycle =? 256); [reflexivity|]. destruct (cycle =? 257); reflexivity.
Qed.

Lemma visible_scanline_idle (m : Bus.state) :
  idle m ->
  0 <= Ppu.scanline (Bus.ppu m) <= 239 ->
  0 <= Ppu.cycle (Bus.ppu m) <= 340 ->
  exists m', visible_scanline m = Ok (tt, m') /\ idle m' /\ same_timing m m'.
Proof.
  intros Hi Hs Hc. unfold visible_scanline. rewrite mk_ppu_get_bind.
  destruct ((Ppu.cycle (Bus.ppu m) >=? 1) && (Ppu.cycle (Bus.ppu m) <=? 256)) eqn:E.
  - apply andb_true_iff in E. destruct E as [E1 E2].
    apply Z.geb_le in E1. apply Z.leb_le in E2.
    destruct (render_background_idle m Hi Hs ltac:(lia)) as (buf' & Hr & Hd).
    rewrite (bind_eq _ _ _ _ _ Hr).
    destruct Hi as [Hm Hct Hp Hpx].
    rewrite visible_tail_idle by exact Hm.
    eexists. split; [reflexivity|]. split; split; ppu_proj; auto.
  - rewrite mk_ret_bind. rewrite visible_tail_idle by apply Hi.
    exists m. split; [reflexivity|]. split; [assumption|apply same_timing_refl].
Qed.

(** The start of vertical blank with NMI generation off: only PPUSTATUS
    changes. *)
Lemma vblank_start_idle (m : Bus.state) :
  idle m ->
  exists m', vblank_start m = Ok (tt, m') /\ idle m' /\ same_timing m m'.
Proof.
  intros [Hm Hct Hp Hpx]. unfold vblank_start. mk_steps. ppu_proj.
  rewrite Hct. change (bit_set 0 7) with false. cbv iota.
  eexists. split; [reflexivity|]. split; split; ppu_proj; auto.
Qed.

Lemma prerender_scanline_idle (m : Bus.state) :
  idle m ->
  exists m', prerender_scanline m = Ok (tt, m') /\ idle m' /\ same_timing m m'.
Proof.
  intros [Hm Hct Hp Hpx]. unfold prerender_scanline. rewrite mk_ppu_get_bind.
  assert (Hstep : exists m1,
             (if Ppu.cycle (Bus.ppu m) =? 1 then
                st <- ppu_get Ppu.PPUSTATUS ;;
                ppu_upd (Ppu.set_PPUSTATUS
                           (Z.land (Z.land (Z.land st (Z.lnot 0x80)) (Z.lnot 0x40))
                                   (Z.lnot 0x20))) ;;
                ppu_upd (Ppu.set_nmi_triggered false)
              else ret tt) m = Ok (tt, m1) /\ idle m1 /\ same_timing m m1).
  { destruct (Ppu.cycle (Bus.ppu m) =? 1).
    - eexists. split; [reflexivity|]. split; split; ppu_proj; auto.
    - exists m. split; [reflexivity|]. split; [now split|apply same_timing_refl]. }
  destruct Hstep as (m1 & H1 & Hi1 & Ht1).
  cbv zeta. rewrite (bind_eq _ _ _ _ _ H1).
  rewrite (bind_eq _ _ _ _ _ (rendering_enabled_idle m1 (idle_mask _ Hi1))).
  exists m1. split; [|now split].
  destruct (Ppu.cycle (Bus.ppu m) =? 257);
    [|destruct ((Ppu.cycle (Bus.ppu m) >=? 280) && (Ppu.cycle (Bus.ppu m) <=? 304))];
    rewrite mk_ret_bind; destruct (Ppu.cycle (Bus.ppu m) =? 256); reflexivity.
Qed.

(** [# Update cycle and scanline]: the dot advances by one, from the last
    dot of scanline 261 back to the first of scanline 0, where
    [frame_complete] is raised. *)
Lemma advance_counters_spec (m : Bus.state) :
  idle m -> on_grid m ->
  exists m',
    advance_counters m = Ok (tt, m') /\ idle m' /\ on_grid m' /\
    dot m' = (dot m + 1) mod 89342 /\
    Ppu.frame_complete (Bus.ppu m')
    = (Ppu.frame_complete (Bus.ppu m) || (dot m =? 89341)).
Proof.
  intros [Hm Hct Hp Hpx] [Hs Hc]. unfold advance_counters. mk_steps. ppu_proj.
  unfold dot, on_grid.
  destruct (Z.gtb_spec (Ppu.cycle (Bus.ppu m) + 1) 340) as [G|G].
  - mk_steps. ppu_proj.
    destruct (Z.gtb_spec (Ppu.scanline (Bus.ppu m) + 1) 261) as [G'|G'].
    + mk_steps. eexists. split; [reflexivity|]. ppu_proj.
      split; [now split|]. split; [lia|].
      assert (Ed : Ppu.scanline (Bus.ppu m) * 341 + Ppu.cycle (Bus.ppu m) = 89341) by lia.
      rewrite Ed. split; reflexivity || now rewrite orb_true_r.
    + eexists. split; [reflexivity|]. ppu_proj.
      split; [now split|]. split; [lia|]. split.
      * rewrite Z.mod_small by lia. lia.
      * destruct (Z.eqb_spec (Ppu.scanline (Bus.ppu m) * 341 + Ppu.cycle (Bus.ppu m)) 89341);
          [lia|now rewrite orb_false_r].
  - eexists. split; [reflexivity|]. ppu_proj.
    split; [now split|]. split; [lia|]. split.
    + rewrite Z.mod_small by lia. lia.
    + destruct (Z.eqb_spec (Ppu.scanline (Bus.ppu m) * 341 + Ppu.cycle (Bus.ppu m)) 89341);
        [lia|now rewrite orb_false_r].
Qed.

(** One call of [clock]. *)
Lemma ppu_clock_idle (m : Bus.state) :
  idle m -> on_grid m ->
  exists m',
    ppu_clock m = Ok (tt, m') /\ idle m' /\ on_grid m' /\
    dot m' = (dot m + 1) mod 89342 /\
    Ppu.frame_complete (Bus.ppu m')
    = (Ppu.frame_complete (Bus.ppu m) || (dot m =? 89341)).
Proof.
  intros Hi Hg. unfold ppu_clock. rewrite !mk_ppu_get_bind.
  assert (Hphase : exists m1,
            (if (Ppu.scanline (Bus.ppu m) >=? 0) && (Ppu.scanline (Bus.ppu m) <=? 239)
             then visible_scanline
             else if (Ppu.scanline (Bus.ppu m) =? 241) && (Ppu.cycle (Bus.ppu m) =? 1)
                  then vblank_start
                  else if Ppu.scanline (Bus.ppu m) =? 261 then prerender_scanline
                       else ret tt) m = Ok (tt, m1) /\ idle m1 /\ same_timing m m1).
  { destruct ((Ppu.scanline (Bus.ppu m) >=? 0) && (Ppu.scanline (Bus.ppu m) <=? 239)) eqn:E.
    - apply andb_true_iff in E. destruct E as [E1 E2].
      apply Z.geb_le in E1. apply Z.leb_le in E2.
      apply visible_scanline_idle; [assumption|lia|apply Hg].
    - destruct ((Ppu.scanline (Bus.ppu m) =? 241) && (Ppu.cycle (Bus.ppu m) =? 1)).
      + now apply vblank_start_idle.
      + destruct (Ppu.scanline (Bus.ppu m) =? 261).
        * now apply prerender_scanline_idle.
        * exists m. split; [reflexivity|]. split; [assumption|apply same_timing_refl]. }
  destruct Hphase as (m1 & H1 & Hi1 & [Hs1 Hc1 Hf1]).
  rewrite (bind_eq _ _ _ _ _ H1).
  assert (Hg1 : on_grid m1) by (unfold on_grid in *; now rewrite Hs1, Hc1).
  destruct (advance_counters_spec m1 Hi1 Hg1) as (m' & Ha & Hi' & Hg' & Hd & Hfc).
  exists m'. split; [exact Ha|]. split; [assumption|]. split; [assumption|].
  unfold dot in *. rewrite Hs1, Hc1, Hf1 in *. now split.
Qed.


Lemma on_grid_dot (m : Bus.state) : on_grid m -> 0 <= dot m < 89342.
Proof. unfold on_grid, dot. lia. Qed.

(** [k] calls of [clock] in a row. *)
Lemma ppu_clocks_idle (k : nat) : forall m : Bus.state,
  idle m -> on_grid m ->
  exists m',
    repeat_m k ppu_clock m = Ok (tt, m') /\ idle m' /\ on_grid m' /\
    dot m' = (dot m + Z.of_nat k) mod 89342 /\
    Ppu.frame_complete (Bus.ppu m')
    = (Ppu.frame_complete (Bus.ppu m) || (89342 <=? dot m + Z.of_nat k)).
Proof.
  induction k as [|k IH]; intros m Hi Hg; pose proof (on_grid_dot m Hg) as Hd.
  - exists m. split; [reflexivity|]. split; [assumption|]. split; [assumption|].
    rewrite Z.add_0_r. split.
    + now rewrite Z.mod_small.
    + destruct (Z.leb_spec 89342 (dot m)); [lia|now rewrite orb_false_r].
  - destruct (ppu_clock_idle m Hi Hg) as (m1 & H1 & Hi1 & Hg1 & Hd1 & Hf1).
    destruct (IH m1 Hi1 Hg1) as (m' & H' & Hi' & Hg' & Hd' & Hf').
    exists m'. split.
    { change (repeat_m (S k) ppu_clock) with (ppu_clock ;; repeat_m k ppu_clock).
      now rewrite (bind_eq _ _ _ _ _ H1). }
    split; [assumption|]. split; [assumption|].
    rewrite Nat2Z.inj_succ. split.
    + rewrite Hd', Hd1, Z.add_mod_idemp_l by lia. f_equal. lia.
    + rewrite Hf', Hf1, Hd1.
      destruct (Z.eqb_spec (dot m) 89341) as [E|E].
      * rewrite orb_true_r. simpl.
        destruct (Z.leb_spec 89342 (dot m + Z.succ (Z.of_nat k))); [|lia].
        now rewrite orb_true_r.
      * rewrite orb_false_r. rewrite Z.mod_small by lia. f_equal. f_equal. lia.
Qed.

(** The MonikaNES frame.  From a freshly built PPU (scanline 0, cycle 0),
    whatever the rest of the machine, 262 x 341 = 89342 calls of [clock]
    all return; [frame_complete] is still clear after each of the first
    89341, it is set by the last one, and the scanline and cycle counters
    are back at their initial pair (0, 0). *)
Theorem one_frame_of_ppu_clocks (m : Bus.state) :
  Bus.ppu m = PPU2C02_init ->
  (forall k : nat, Z.of_nat k < 262 * 341 ->
     exists mk,
       repeat_m k ppu_clock m = Ok (tt, mk) /\
       Ppu.frame_complete (Bus.ppu mk) = false) /\
  exists m',
    repeat_m (Z.to_nat (262 * 341)) ppu_clock m = Ok (tt, m') /\
    Ppu.frame_complete (Bus.ppu m') = true /\
    Ppu.scanline (Bus.ppu m') = Ppu.scanline (Bus.ppu m) /\
    Ppu.cycle (Bus.ppu m') = Ppu.cycle (Bus.ppu m) /\
    Ppu.scanline (Bus.ppu m) = 0 /\ Ppu.cycle (Bus.ppu m) = 0.
Proof.
  intros Hinit. pose proof (idle_init m Hinit) as Hi.
  assert (Hs : Ppu.scanline (Bus.ppu m) = 0) by now rewrite Hinit.
  assert (Hc : Ppu.cycle (Bus.ppu m) = 0) by now rewrite Hinit.
  assert (Hf : Ppu.frame_complete (Bus.ppu m) = false) by now rewrite Hinit.
  assert (Hg : on_grid m) by (unfold on_grid; lia).
  assert (Hd : dot m = 0) by (unfold dot; lia).
  change (262 * 341) with 89342. split.
  - intros k Hk.
    destruct (ppu_clocks_idle k m Hi Hg) as (mk & Hr & _ & _ & _ & Hfc).
    exists mk. split; [exact Hr|]. rewrite Hfc, Hf, Hd.
    destruct (Z.leb_spec 89342 (0 + Z.of_nat k)); [lia|reflexivity].
  - destruct (ppu_clocks_idle (Z.to_nat 89342) m Hi Hg)
      as (m' & Hr & _ & Hg' & Hd' & Hfc).
    rewrite Z2Nat.id in Hd', Hfc by lia.
    exists m'. split; [exact Hr|]. rewrite Hd in Hd', Hfc.
    change ((0 + 89342) mod 89342) with 0 in Hd'.
    change (89342 <=? 0 + 89342) with true in Hfc.
    rewrite orb_true_r in Hfc. split; [exact Hfc|].
    unfold dot, on_grid in *. rewrite Hs, Hc. repeat split; lia.
Qed.

Lemma one_frame_of_ppu_clocks_witness :
  Bus.ppu Bus_init = PPU2C02_init /\
  (forall k : nat, Z.of_nat k < 262 * 341 ->
     exists mk,
       repeat_m k ppu_clock Bus_init = Ok (tt, mk) /\
       Ppu.frame_complete (Bus.ppu mk) = false) /\
  exists m',
    repeat_m (Z.to_nat (262 * 341)) ppu_clock Bus_init = Ok (tt, m') /\
    Ppu.frame_complete (Bus.ppu m') = true /\
    Ppu.scanline (Bus.ppu m') = Ppu.scanline (Bus.ppu Bus_init) /\
    Ppu.cycle (Bus.ppu m') = Ppu.cycle (Bus.ppu Bus_init) /\
    Ppu.scanline (Bus.ppu Bus_init) = 0 /\ Ppu.cycle (Bus.ppu Bus_init) = 0.
Proof.
  assert (H0 : Bus.ppu Bus_init = PPU2C02_init) by reflexivity.
  split; [exact H0|].
  exact (one_frame_of_ppu_clocks Bus_init H0).
Defined.

End MonikaFacts.

(** * Reset (EMUNES5): the vector, the stack pointer, the I flag, the cycles *)

Module ResetFacts.
Import EMUNES5.

(** C3 as stated fails on the cycle count.  On the machine with the NROM
    cartridge whose bytes at 0xFFFC/0xFFFD are 0x00, 0x80, [reset] leaves
    PC = 0x8000, SP = 0xFD and I set, and loads the cycle counter with 8,
    not 7. *)
Lemma reset_loads_8_cycles_not_7 :
  match reset CpuFacts.cart_machine with
  | Ok (_, m') =>
      Cpu.pc (Bus.cpu m') = 0x8000 /\ Cpu.stkp (Bus.cpu m') = 0xFD /\
      flag_of (Cpu.status (Bus.cpu m')) FLAG_I = true /\
      Cpu.cycles (Bus.cpu m') = 8 /\ Cpu.cycles (Bus.cpu m') <> 7
  | Raise _ => False
  end.
Proof. vm_compute. repeat split; try reflexivity. discriminate. Qed.

(** C3, amended.  Whenever the bus returns [lo] at 0xFFFC and [hi] at
    0xFFFD, [reset] succeeds and leaves PC = (hi << 8) | lo, SP = 0xFD, the
    interrupt-disable flag set, and the cycle counter loaded with 8. *)
Theorem reset_loads_vector_sp_flag_and_8_cycles (m : Bus.state) (lo hi : Z) :
  eval (read 0xFFFC) m = Some lo ->
  eval (read 0xFFFD) m = Some hi ->
  exists m',
    reset m = Ok (tt, m') /\
    Cpu.pc (Bus.cpu m') = Z.lor (Z.shiftl hi 8) lo /\
    Cpu.stkp (Bus.cpu m') = 0xFD /\
    flag_of (Cpu.status (Bus.cpu m')) FLAG_I = true /\
    Cpu.cycles (Bus.cpu m') = 8.
Proof.
  intros Hlo Hhi.
  apply CpuFacts.read_high_pure in Hlo; [|lia]. apply CpuFacts.read_high_pure in Hhi; [|lia].
  unfold reset. CpuFacts.cpu_steps.
  rewrite (CpuFacts.read_bind_set_cpu _ _ _ _ _ _ Hlo).
  rewrite (CpuFacts.read_bind_set_cpu _ _ _ _ _ _ Hhi).
  CpuFacts.cpu_steps.
  eexists. split; [reflexivity|].
  cbn. repeat split; reflexivity.
Qed.

Lemma reset_loads_vector_sp_flag_and_8_cycles_witness :
  eval (read 0xFFFC) CpuFacts.cart_machine = Some 0x00 /\
  eval (read 0xFFFD) CpuFacts.cart_machine = Some 0x80 /\
  exists m',
    reset CpuFacts.cart_machine = Ok (tt, m') /\
    Cpu.pc (Bus.cpu m') = Z.lor (Z.shiftl 0x80 8) 0x00 /\
    Cpu.stkp (Bus.cpu m') = 0xFD /\
    flag_of (Cpu.status (Bus.cpu m')) FLAG_I = true /\
    Cpu.cycles (Bus.cpu m') = 8.
Proof.
  assert (H0 : eval (read 0xFFFC) CpuFacts.cart_machine = Some 0x00)
    by (vm_compute; reflexivity).
  assert (H1 : eval (read 0xFFFD) CpuFacts.cart_machine = Some 0x80)
    by (vm_compute; reflexivity).
  split; [exact H0|]. split; [exact H1|].
  exact (reset_loads_vector_sp_flag_and_8_cycles CpuFacts.cart_machine 0x00 0x80 H0 H1).
Defined.

End ResetFacts.

(** * ADC (EMUNES5): 0x50 + 0x50 *)

Module AdcFacts.
Import EMUNES5.

(** C9.  With A = 0x50, the carry clear and the operand 0x50 coming out of
    [fetch], [ADC] leaves A = 0xA0, V set, C clear, N set and Z clear. *)
Theorem adc_0x50_plus_0x50 (m m1 : Bus.state) :
  Cpu.a (Bus.cpu m) = 0x50 ->
  flag_of (Cpu.status (Bus.cpu m)) FLAG_C = false ->
  fetch m = Ok (0x50, m1) ->
  exists m',
    ADC m = Ok (1, m') /\
    Cpu.a (Bus.cpu m') = 0xA0 /\
    flag_of (Cpu.status (Bus.cpu m')) FLAG_V = true /\
    flag_of (Cpu.status (Bus.cpu m')) FLAG_C = false /\
    flag_of (Cpu.status (Bus.cpu m')) FLAG_N = true /\
    flag_of (Cpu.status (Bus.cpu m')) FLAG_Z = false.
Proof.
  intros Ha Hc Hf.
  destruct (CpuFacts.fetch_spec _ _ _ Hf) as (Hf1 & Ha1 & Hs1).
  rewrite Ha in Ha1. rewrite <- Hs1 in Hc.
  unfold ADC. rewrite (bind_eq _ _ _ _ _ Hf).
  unfold carry_in, set_flag, get_flag. CpuFacts.cpu_steps.
  rewrite Ha1, Hf1, Hc.
  eexists. split; [reflexivity|].
  cbn [Bus.cpu Bus.set_cpu Cpu.a Cpu.status Cpu.set_a Cpu.set_status].
  CpuFacts.flag_bits. rewrite !CpuFacts.flag_of_with_flag by lia.
  repeat split; reflexivity.
Qed.

(** A freshly built machine with A = 0x50, the opcode of [ADC #imm] and
    the operand 0x50 at [addr_abs] = 0. *)
Definition adc_machine : Bus.state :=
  let m0 := Bus.set_cpu_ram (CpuFacts.ram_with [0x50]) Bus_init in
  Bus.set_cpu (Cpu.set_opcode 0x69 (Cpu.set_a 0x50 (Bus.cpu m0))) m0.

Lemma adc_0x50_plus_0x50_witness :
  Cpu.a (Bus.cpu adc_machine) = 0x50 /\
  flag_of (Cpu.status (Bus.cpu adc_machine)) FLAG_C = false /\
  fetch adc_machine
  = Ok (0x50, Bus.set_cpu (Cpu.set_fetched 0x50 (Bus.cpu adc_machine)) adc_machine) /\
  exists m',
    ADC adc_machine = Ok (1, m') /\
    Cpu.a (Bus.cpu m') = 0xA0 /\
    flag_of (Cpu.status (Bus.cpu m')) FLAG_V = true /\
    flag_of (Cpu.status (Bus.cpu m')) FLAG_C = false /\
    flag_of (Cpu.status (Bus.cpu m')) FLAG_N = true /\
    flag_of (Cpu.status (Bus.cpu m')) FLAG_Z = false.
Proof.
  assert (H0 : Cpu.a (Bus.cpu adc_machine) = 0x50) by reflexivity.
  assert (H1 : flag_of (Cpu.status (Bus.cpu adc_machine)) FLAG_C = false) by reflexivity.
  assert (H2 : fetch adc_machine
               = Ok (0x50, Bus.set_cpu (Cpu.set_fetched 0x50 (Bus.cpu adc_machine))
                                       adc_machine)) by reflexivity.
  split; [exact H0|]. split; [exact H1|]. split; [exact H2|].
  exact (adc_0x50_plus_0x50 adc_machine _ H0 H1 H2).
Defined.

(** The whole instruction [ADC #$50] (69 50) at address 0, through
    [clock]'s fetch, decode and execute. *)
Example adc_immediate_instruction :
  let m := Bus.set_cpu (Cpu.set_a 0x50 (Bus.cpu Bus_init))
             (Bus.set_cpu_ram (CpuFacts.ram_with [0x69; 0x50]) Bus_init) in
  match execute_instruction m with
  | Ok (_, m') =>
      Cpu.a (Bus.cpu m') = 0xA0 /\ Cpu.pc (Bus.cpu m') = 2 /\
      flag_of (Cpu.status (Bus.cpu m')) FLAG_V = true /\
      flag_of (Cpu.status (Bus.cpu m')) FLAG_C = false /\
      flag_of (Cpu.status (Bus.cpu m')) FLAG_N = true /\
      flag_of (Cpu.status (Bus.cpu m')) FLAG_Z = false
  | Raise _ => False
  end.
Proof. vm_compute. repeat split; reflexivity. Qed.

End AdcFacts.

(** * Arithmetic instructions (EMUNES5): what ADC, SBC and the compares compute *)

Module ArithmeticFacts.
Import EMUNES5.

(** A byte read as a two's complement number. *)
Definition signed8 (v : Z) : Z := if v <? 128 then v else v - 256.

Definition fits_signed8 (v : Z) : bool := (-128 <=? v) && (v <=? 127).

(** The flag expressions of [ADC], as the source writes them. *)
Definition adc_overflow (a fetched temp : Z) : bool :=
  negb (Z.land (Z.land (Z.lnot (Z.lxor a fetched)) (Z.lxor a temp)) 0x80 =? 0).

(** The flag expressions of [SBC], as the source writes them. *)
Definition sbc_overflow (a value temp : Z) : bool :=
  negb (Z.land (Z.land (Z.lxor temp a) (Z.lxor temp value)) 0x80 =? 0).

Definition adc_check (a d : Z) : bool :=
  forallb (fun c =>
    let temp := a + d + c in
    (Z.land temp 0xFF =? temp mod 256)
    && Bool.eqb (temp >? 255) (256 <=? temp)
    && Bool.eqb (Z.land temp 0xFF =? 0) (temp mod 256 =? 0)
    && Bool.eqb (truthy (Z.land temp 0x80)) (128 <=? temp mod 256)
    && Bool.eqb (adc_overflow a d temp)
                (negb (fits_signed8 (signed8 a + signed8 d + c)))) [0; 1].

Definition sbc_check (a d : Z) : bool :=
  forallb (fun c =>
    let value := Z.lxor d 0xFF in
    let temp := a + value + c in
    let diff := a - d - (1 - c) in
    (Z.land temp 0xFF =? diff mod 256)
    && Bool.eqb (temp >? 255) (0 <=? diff)
    && Bool.eqb (Z.land temp 0xFF =? 0) (diff mod 256 =? 0)
    && Bool.eqb (truthy (Z.land temp 0x80)) (128 <=? diff mod 256)
    && Bool.eqb (sbc_overflow a value temp)
                (negb (fits_signed8 (signed8 a - signed8 d - (1 - c))))) [0; 1].

Definition cmp_check (r d : Z) : bool :=
  let temp := r - d in
  Bool.eqb (Z.land temp 0xFF =? 0) (r =? d)
  && Bool.eqb (truthy (Z.land temp 0x80)) (128 <=? (r - d) mod 256).

Definition all_bytes (P : Z -> bool) : bool :=
  forallb (fun i => P (Z.of_nat i)) (seq 0 256).

Lemma all_bytes_spec (P : Z -> bool) :
  all_bytes P = true -> forall v, 0 <= v < 256 -> P v = true.
Proof.
  unfold all_bytes. rewrite forallb_forall. intros H v Hv.
  rewrite <- (Z2Nat.id v) by lia. apply H. apply in_seq. lia.
Qed.

Lemma adc_check_all : all_bytes (fun a => all_bytes (adc_check a)) = true.
Proof. vm_compute. reflexivity. Qed.

Lemma sbc_check_all : all_bytes (fun a => all_bytes (sbc_check a)) = true.
Proof. vm_compute. reflexivity. Qed.

Lemma cmp_check_all : all_bytes (fun a => all_bytes (cmp_check a)) = true.
Proof. vm_compute. reflexivity. Qed.

Lemma check_bytes (P : Z -> Z -> bool) (a d : Z) :
  all_bytes (fun a => all_bytes (P a)) = true ->
  0 <= a < 256 -> 0 <= d < 256 -> P a d = true.
Proof.
  intros H Ha Hd.
  apply (all_bytes_spec (P a)); [|assumption].
  now apply (all_bytes_spec (fun a => all_bytes (P a))).
Qed.


(** The status register after the four [set_flag] calls of [ADC] and
    [SBC]. *)
Lemma flags_after_czvn (st : Z) (c z v n : bool) :
  let st' := with_flag (with_flag (with_flag (with_flag st FLAG_C c) FLAG_Z z) FLAG_V v)
                       FLAG_N n in
  flag_of st' FLAG_C = c /\ flag_of st' FLAG_Z = z /\
  flag_of st' FLAG_V = v /\ flag_of st' FLAG_N = n.
Proof.
  cbv zeta. CpuFacts.flag_bits. rewrite !CpuFacts.flag_of_with_flag by lia.
  repeat split; reflexivity.
Qed.

(** The status register after the three [set_flag] calls of a compare. *)
Lemma flags_after_czn (st : Z) (c z n : bool) :
  let st' := with_flag (with_flag (with_flag st FLAG_C c) FLAG_Z z) FLAG_N n in
  flag_of st' FLAG_C = c /\ flag_of st' FLAG_Z = z /\ flag_of st' FLAG_N = n /\
  flag_of st' FLAG_V = flag_of st FLAG_V /\ flag_of st' FLAG_I = flag_of st FLAG_I.
Proof.
  cbv zeta. CpuFacts.flag_bits. rewrite !CpuFacts.flag_of_with_flag by lia.
  repeat split; reflexivity.
Qed.

(** The carry flag as the number that [ADC] and [SBC] add. *)
Definition carry_of (m : Bus.state) : Z :=
  if flag_of (Cpu.status (Bus.cpu m)) FLAG_C then 1 else 0.

Lemma carry_of_bit (m : Bus.state) : carry_of m = 0 \/ carry_of m = 1.
Proof. unfold carry_of. destruct (flag_of _ _); auto. Qed.

Lemma check_carry (P : Z -> bool) (c : Z) :
  forallb P [0; 1] = true -> c = 0 \/ c = 1 -> P c = true.
Proof.
  simpl. rewrite andb_true_r. intros H [-> | ->];
    apply andb_true_iff in H; tauto.
Qed.

Ltac split_checks H :=
  repeat match type of H with
         | (_ && _) = true =>
             let H' := fresh "Hk" in
             apply andb_true_iff in H; destruct H as [H H']
         end;
  repeat match goal with
         | K : Bool.eqb _ _ = true |- _ => apply Bool.eqb_prop in K
         | K : (_ =? _) = true |- _ => apply Z.eqb_eq in K
         end.

(** [ADC] is 8-bit addition with carry: A receives the low byte of
    A + operand + C, C the carry out of bit 7, Z and N describe the new A,
    and V tells whether the sum of the operands read as signed bytes leaves
    the range -128..127. *)
Theorem adc_adds_with_carry (m m1 : Bus.state) (d : Z) :
  0 <= Cpu.a (Bus.cpu m) < 256 ->
  0 <= d < 256 ->
  fetch m = Ok (d, m1) ->
  let a := Cpu.a (Bus.cpu m) in
  let sum := a + d + carry_of m in
  exists m',
    ADC m = Ok (1, m') /\
    Cpu.a (Bus.cpu m') = sum mod 256 /\
    flag_of (Cpu.status (Bus.cpu m')) FLAG_C = (256 <=? sum) /\
    flag_of (Cpu.status (Bus.cpu m')) FLAG_Z = (sum mod 256 =? 0) /\
    flag_of (Cpu.status (Bus.cpu m')) FLAG_N = (128 <=? sum mod 256) /\
    flag_of (Cpu.status (Bus.cpu m')) FLAG_V
    = negb (fits_signed8 (signed8 a + signed8 d + carry_of m)).
Proof.
  intros Ha Hd Hf a sum.
  destruct (CpuFacts.fetch_spec _ _ _ Hf) as (Hf1 & Ha1 & Hs1).
  pose proof (check_carry _ (carry_of m)
                (check_bytes adc_check a d adc_check_all Ha Hd) (carry_of_bit m)) as Hk.
  cbv beta zeta in Hk. fold sum in Hk. split_checks Hk.
  unfold ADC. rewrite (bind_eq _ _ _ _ _ Hf).
  unfold carry_in, set_flag, get_flag. CpuFacts.cpu_steps.
  rewrite Ha1, Hf1, Hs1. fold a. fold (carry_of m). fold sum.
  eexists. split; [reflexivity|].
  cbn [Bus.cpu Bus.set_cpu Cpu.a Cpu.status Cpu.set_a Cpu.set_status].
  destruct (flags_after_czvn (Cpu.status (Bus.cpu m)) (sum >? 255)
              (Z.land sum 0xFF =? 0) (adc_overflow a d sum)
              (truthy (Z.land sum 0x80))) as (Fc & Fz & Fv & Fn).
  unfold adc_overflow in *.
  rewrite Fc, Fz, Fv, Fn. repeat split; assumption.
Qed.


(** A freshly built machine with the accumulator [a], the opcode [op] and
    the operand [d] in RAM at [addr_abs] = 0. *)
Definition operand_machine (op a d : Z) : Bus.state :=
  let m0 := Bus.set_cpu_ram (CpuFacts.ram_with [d]) Bus_init in
  Bus.set_cpu (Cpu.set_opcode op (Cpu.set_a a (Bus.cpu m0))) m0.

Definition fetched_machine (op a d : Z) : Bus.state :=
  Bus.set_cpu (Cpu.set_fetched d (Bus.cpu (operand_machine op a d)))
              (operand_machine op a d).

Lemma adc_adds_with_carry_witness :
  0 <= Cpu.a (Bus.cpu (operand_machine 0x69 0xF0 0x20)) < 256 /\
  0 <= 0x20 < 256 /\
  fetch (operand_machine 0x69 0xF0 0x20) = Ok (0x20, fetched_machine 0x69 0xF0 0x20) /\
  exists m',
    ADC (operand_machine 0x69 0xF0 0x20) = Ok (1, m') /\
    Cpu.a (Bus.cpu m') = (0xF0 + 0x20 + 0) mod 256 /\
    flag_of (Cpu.status (Bus.cpu m')) FLAG_C = (256 <=? 0xF0 + 0x20 + 0) /\
    flag_of (Cpu.status (Bus.cpu m')) FLAG_Z = ((0xF0 + 0x20 + 0) mod 256 =? 0) /\
    flag_of (Cpu.status (Bus.cpu m')) FLAG_N = (128 <=? (0xF0 + 0x20 + 0) mod 256) /\
    flag_of (Cpu.status (Bus.cpu m')) FLAG_V
    = negb (fits_signed8 (signed8 0xF0 + signed8 0x20 + 0)).
Proof.
  assert (H0 : 0 <= Cpu.a (Bus.cpu (operand_machine 0x69 0xF0 0x20)) < 256)
    by (change (Cpu.a (Bus.cpu (operand_machine 0x69 0xF0 0x20))) with 0xF0; lia).
  assert (H1 : 0 <= 0x20 < 256) by lia.
  assert (H2 : fetch (operand_machine 0x69 0xF0 0x20)
               = Ok (0x20, fetched_machine 0x69 0xF0 0x20)) by reflexivity.
  split; [exact H0|]. split; [exact H1|]. split; [exact H2|].
  exact (adc_adds_with_carry (operand_machine 0x69 0xF0 0x20) _ 0x20 H0 H1 H2).
Defined.

(** [SBC] is 8-bit subtraction with borrow: A receives the low byte of
    A - operand - (1 - C), C is set when no borrow was needed, Z and N
    describe the new A, and V tells whether the difference of the
    operands read as signed bytes leaves the range -128..127. *)
Theorem sbc_subtracts_with_borrow (m m1 : Bus.state) (d : Z) :
  0 <= Cpu.a (Bus.cpu m) < 256 ->
  0 <= d < 256 ->
  fetch m = Ok (d, m1) ->
  let a := Cpu.a (Bus.cpu m) in
  let diff := a - d - (1 - carry_of m) in
  exists m',
    SBC m = Ok (1, m') /\
    Cpu.a (Bus.cpu m') = diff mod 256 /\
    flag_of (Cpu.status (Bus.cpu m')) FLAG_C = (0 <=? diff) /\
    flag_of (Cpu.status (Bus.cpu m')) FLAG_Z = (diff mod 256 =? 0) /\
    flag_of (Cpu.status (Bus.cpu m')) FLAG_N = (128 <=? diff mod 256) /\
    flag_of (Cpu.status (Bus.cpu m')) FLAG_V
    = negb (fits_signed8 (signed8 a - signed8 d - (1 - carry_of m))).
Proof.
  intros Ha Hd Hf a diff.
  destruct (CpuFacts.fetch_spec _ _ _ Hf) as (Hf1 & Ha1 & Hs1).
  pose proof (check_carry _ (carry_of m)
                (check_bytes sbc_check a d sbc_check_all Ha Hd) (carry_of_bit m)) as Hk.
  cbv beta zeta in Hk. fold diff in Hk. split_checks Hk.
  unfold SBC. rewrite (bind_eq _ _ _ _ _ Hf).
  unfold carry_in, set_flag, get_flag. CpuFacts.cpu_steps.
  rewrite Ha1, Hf1, Hs1. fold a. fold (carry_of m).
  eexists. split; [reflexivity|].
  cbn [Bus.cpu Bus.set_cpu Cpu.a Cpu.status Cpu.set_a Cpu.set_status].
  set (temp := a + Z.lxor d 0xFF + carry_of m) in *.
  destruct (flags_after_czvn (Cpu.status (Bus.cpu m)) (temp >? 255)
              (Z.land temp 0xFF =? 0) (sbc_overflow a (Z.lxor d 0xFF) temp)
              (truthy (Z.land temp 0x80))) as (Fc & Fz & Fv & Fn).
  unfold sbc_overflow in *.
  rewrite Fc, Fz, Fv, Fn. repeat split; assumption.
Qed.

Lemma sbc_subtracts_with_borrow_witness :
  0 <= Cpu.a (Bus.cpu (operand_machine 0xE9 0x10 0x20)) < 256 /\
  0 <= 0x20 < 256 /\
  fetch (operand_machine 0xE9 0x10 0x20) = Ok (0x20, fetched_machine 0xE9 0x10 0x20) /\
  exists m',
    SBC (operand_machine 0xE9 0x10 0x20) = Ok (1, m') /\
    Cpu.a (Bus.cpu m') = (0x10 - 0x20 - (1 - 0)) mod 256 /\
    flag_of (Cpu.status (Bus.cpu m')) FLAG_C = (0 <=? 0x10 - 0x20 - (1 - 0)) /\
    flag_of (Cpu.status (Bus.cpu m')) FLAG_Z = ((0x10 - 0x20 - (1 - 0)) mod 256 =? 0) /\
    flag_of (Cpu.status (Bus.cpu m')) FLAG_N = (128 <=? (0x10 - 0x20 - (1 - 0)) mod 256) /\
    flag_of (Cpu.status (Bus.cpu m')) FLAG_V
    = negb (fits_signed8 (signed8 0x10 - signed8 0x20 - (1 - 0))).
Proof.
  assert (H0 : 0 <= Cpu.a (Bus.cpu (operand_machine 0xE9 0x10 0x20)) < 256)
    by (change (Cpu.a (Bus.cpu (operand_machine 0xE9 0x10 0x20))) with 0x10; lia).
  assert (H1 : 0 <= 0x20 < 256) by lia.
  assert (H2 : fetch (operand_machine 0xE9 0x10 0x20)
               = Ok (0x20, fetched_machine 0xE9 0x10 0x20)) by reflexivity.
  split; [exact H0|]. split; [exact H1|]. split; [exact H2|].
  exact (sbc_subtracts_with_borrow (operand_machine 0xE9 0x10 0x20) _ 0x20 H0 H1 H2).
Defined.

(** The shared body of [CMP], [CPX] and [CPY] on a register value [r]. *)
Lemma compare_spec (m : Bus.state) (r : Z) :
  0 <= r < 256 ->
  0 <= Cpu.fetched (Bus.cpu m) < 256 ->
  let d := Cpu.fetched (Bus.cpu m) in
  exists m',
    compare r m = Ok (tt, m') /\
    flag_of (Cpu.status (Bus.cpu m')) FLAG_C = (d <=? r) /\
    flag_of (Cpu.status (Bus.cpu m')) FLAG_Z = (r =? d) /\
    flag_of (Cpu.status (Bus.cpu m')) FLAG_N = (128 <=? (r - d) mod 256) /\
    flag_of (Cpu.status (Bus.cpu m')) FLAG_V = flag_of (Cpu.status (Bus.cpu m)) FLAG_V /\
    Cpu.a (Bus.cpu m') = Cpu.a (Bus.cpu m) /\
    Cpu.x (Bus.cpu m') = Cpu.x (Bus.cpu m) /\
    Cpu.y (Bus.cpu m') = Cpu.y (Bus.cpu m).
Proof.
  intros Hr Hd d.
  pose proof (check_bytes cmp_check r d cmp_check_all Hr Hd) as Hk.
  unfold cmp_check in Hk. cbv zeta in Hk. split_checks Hk.
  unfold compare, set_flag. CpuFacts.cpu_steps. fold d.
  eexists. split; [reflexivity|].
  cbn [Bus.cpu Bus.set_cpu Cpu.a Cpu.x Cpu.y Cpu.status Cpu.set_status].
  destruct (flags_after_czn (Cpu.status (Bus.cpu m)) (r >=? d)
              (Z.land (r - d) 0xFF =? 0) (truthy (Z.land (r - d) 0x80)))
    as (Fc & Fz & Fn & Fv & _).
  rewrite Fc, Fz, Fn, Fv. repeat split; try assumption.
  now rewrite Z.geb_leb.
Qed.

(** [CMP] compares without storing: C is set exactly when A >= operand,
    Z exactly when they are equal, N is bit 7 of the difference, and A, X,
    Y and the overflow flag keep their values. *)
Theorem cmp_orders_accumulator_and_operand (m m1 : Bus.state) (d : Z) :
  0 <= Cpu.a (Bus.cpu m) < 256 ->
  0 <= d < 256 ->
  fetch m = Ok (d, m1) ->
  let a := Cpu.a (Bus.cpu m) in
  exists m',
    CMP m = Ok (1, m') /\
    flag_of (Cpu.status (Bus.cpu m')) FLAG_C = (d <=? a) /\
    flag_of (Cpu.status (Bus.cpu m')) FLAG_Z = (a =? d) /\
    flag_of (Cpu.status (Bus.cpu m')) FLAG_N = (128 <=? (a - d) mod 256) /\
    flag_of (Cpu.status (Bus.cpu m')) FLAG_V = flag_of (Cpu.status (Bus.cpu m)) FLAG_V /\
    Cpu.a (Bus.cpu m') = a.
Proof.
  intros Ha Hd Hf a.
  destruct (CpuFacts.fetch_spec _ _ _ Hf) as (Hf1 & Ha1 & Hs1).
  destruct (compare_spec m1 a ltac:(assumption) ltac:(rewrite Hf1; assumption))
    as (m' & Hc & Fc & Fz & Fn & Fv & Ka & _).
  cbv zeta in *. rewrite Hf1 in *.
  exists m'. split.
  - unfold CMP. rewrite (bind_eq _ _ _ _ _ Hf). CpuFacts.cpu_steps.
    rewrite Ha1. fold a. now rewrite (bind_eq _ _ _ _ _ Hc).
  - rewrite Fc, Fz, Fn, Fv, Ka, Hs1, Ha1. repeat split; reflexivity.
Qed.

Lemma cmp_orders_accumulator_and_operand_witness :
  0 <= Cpu.a (Bus.cpu (operand_machine 0xC9 0x10 0x20)) < 256 /\
  0 <= 0x20 < 256 /\
  fetch (operand_machine 0xC9 0x10 0x20) = Ok (0x20, fetched_machine 0xC9 0x10 0x20) /\
  exists m',
    CMP (operand_machine 0xC9 0x10 0x20) = Ok (1, m') /\
    flag_of (Cpu.status (Bus.cpu m')) FLAG_C = (0x20 <=? 0x10) /\
    flag_of (Cpu.status (Bus.cpu m')) FLAG_Z = (0x10 =? 0x20) /\
    flag_of (Cpu.status (Bus.cpu m')) FLAG_N = (128 <=? (0x10 - 0x20) mod 256) /\
    flag_of (Cpu.status (Bus.cpu m')) FLAG_V
    = flag_of (Cpu.status (Bus.cpu (operand_machine 0xC9 0x10 0x20))) FLAG_V /\
    Cpu.a (Bus.cpu m') = 0x10.
Proof.
  assert (H0 : 0 <= Cpu.a (Bus.cpu (operand_machine 0xC9 0x10 0x20)) < 256)
    by (change (Cpu.a (Bus.cpu (operand_machine 0xC9 0x10 0x20))) with 0x10; lia).
  assert (H1 : 0 <= 0x20 < 256) by lia.
  assert (H2 : fetch (operand_machine 0xC9 0x10 0x20)
               = Ok (0x20, fetched_machine 0xC9 0x10 0x20)) by reflexivity.
  split; [exact H0|]. split; [exact H1|]. split; [exact H2|].
  exact (cmp_orders_accumulator_and_operand (operand_machine 0xC9 0x10 0x20) _ 0x20 H0 H1 H2).
Defined.

End ArithmeticFacts.

(** * CPU RAM and the stack (EMUNES5) *)

Module MemoryFacts.
Import EMUNES5.
Import PaletteMirrorFacts (between_true, between_false, set_cart_same).

(** A cartridge decodes CPU addresses from 0x8000 up only. *)
Lemma cart_handles_cpu_write_low (m : Bus.state) (addr data : Z) :
  addr < 0x8000 -> cart_handles_cpu_write addr data m = Ok (false, m).
Proof.
  intros H. unfold cart_handles_cpu_write, bind, gets.
  destruct (Bus.cart m) as [c|] eqn:Ec; [|reflexivity].
  unfold cart_cpu_write. rewrite between_false by lia.
  cbn. rewrite <- Ec. now rewrite set_cart_same.
Qed.

Lemma cart_cpu_read_low (c : Cartridge) (addr : Z) :
  addr < 0x8000 -> cart_cpu_read c addr = Ok None.
Proof. intros H. unfold cart_cpu_read. now rewrite between_false by lia. Qed.

Lemma land_07FF_bound (a : Z) : 0 <= Z.land a 0x07FF < 2048.
Proof. change 0x07FF with (Z.ones 11). apply (land_ones_bound a 11). lia. Qed.

(** The state after a store to the 2 KB of RAM. *)
Definition ram_stored (m : Bus.state) (k v : Z) : Bus.state :=
  Bus.set_cpu_ram (list_update (Bus.cpu_ram m) (Z.to_nat k) v) m.

Lemma bus_cpu_write_ram (m : Bus.state) (addr d : Z) :
  0 <= addr <= 0x1FFF ->
  0 <= d <= 255 ->
  length (Bus.cpu_ram m) = 2048%nat ->
  bus_cpu_write addr d m = Ok (tt, ram_stored m (Z.land addr 0x07FF) d).
Proof.
  intros Ha Hd Hlen. unfold bus_cpu_write.
  rewrite CpuFacts.land_FFFF_small by lia.
  rewrite (bind_eq _ _ _ _ _ (cart_handles_cpu_write_low m addr d ltac:(lia))).
  cbv iota. rewrite between_true by lia.
  unfold bind, gets, lift, modify.
  pose proof (land_07FF_bound addr).
  rewrite bytearray_setitem_ok by (rewrite ?Hlen; lia).
  reflexivity.
Qed.

Lemma bus_cpu_read_ram (m : Bus.state) (addr : Z) :
  0 <= addr <= 0x1FFF ->
  length (Bus.cpu_ram m) = 2048%nat ->
  exists e,
    nth_error (Bus.cpu_ram m) (Z.to_nat (Z.land addr 0x07FF)) = Some e /\
    bus_cpu_read addr m = Ok (e, m).
Proof.
  intros Ha Hlen. unfold bus_cpu_read.
  rewrite CpuFacts.land_FFFF_small by lia.
  pose proof (land_07FF_bound addr) as Hb.
  destruct (py_getitem_inrange (Bus.cpu_ram m) (Z.land addr 0x07FF))
    as [e [Eg En]]; [rewrite Hlen; lia|].
  exists e. split; [exact En|].
  unfold bind, gets.
  destruct (Bus.cart m) as [c|].
  - unfold lift at 1. rewrite cart_cpu_read_low by lia.
    rewrite between_true by lia. unfold lift. now rewrite Eg.
  - unfold ret at 1. rewrite between_true by lia. unfold lift. now rewrite Eg.
Qed.

(** The 2 KB of work RAM answer at 0x0000-0x1FFF, four times over: a byte
    written through one address is read back through every address with
    the same low 11 bits, and a read through any other address returns
    what it returned before. *)
Theorem ram_is_mirrored_every_2KB (m : Bus.state) (addr addr' d : Z) :
  length (Bus.cpu_ram m) = 2048%nat ->
  0 <= addr <= 0x1FFF -> 0 <= addr' <= 0x1FFF ->
  0 <= d <= 255 ->
  exists m' before,
    bus_cpu_read addr' m = Ok (before, m) /\
    bus_cpu_write addr d m = Ok (tt, m') /\
    length (Bus.cpu_ram m') = 2048%nat /\
    bus_cpu_read addr' m'
    = Ok (if addr mod 2048 =? addr' mod 2048 then d else before, m').
Proof.
  intros Hlen Ha Ha' Hd.
  destruct (bus_cpu_read_ram m addr' Ha' Hlen) as [e [En Er]].
  exists (ram_stored m (Z.land addr 0x07FF) d), e.
  split; [exact Er|].
  split; [now apply bus_cpu_write_ram|].
  assert (Hlen' : length (Bus.cpu_ram (ram_stored m (Z.land addr 0x07FF) d)) = 2048%nat).
  { cbn. now rewrite length_list_update. }
  split; [exact Hlen'|].
  destruct (bus_cpu_read_ram _ addr' Ha' Hlen') as [e' [En' Er']].
  rewrite Er'. f_equal. f_equal.
  unfold ram_stored in En'. cbn [Bus.cpu_ram Bus.set_cpu_ram] in En'.
  pose proof (land_07FF_bound addr) as Bi.
  pose proof (land_07FF_bound addr') as Bj.
  assert (Hm : forall a, Z.land a 0x07FF = a mod 2048).
  { intros a. change 0x07FF with (Z.ones 11). now rewrite Z.land_ones by lia. }
  rewrite <- !Hm.
  destruct (Z.eqb_spec (Z.land addr 0x07FF) (Z.land addr' 0x07FF)) as [E|E].
  - rewrite E in En'. rewrite nth_error_list_update_eq in En' by (rewrite Hlen; lia).
    now inversion En'.
  - rewrite nth_error_list_update_neq in En' by lia. congruence.
Qed.

Lemma ram_is_mirrored_every_2KB_witness :
  length (Bus.cpu_ram Bus_init) = 2048%nat /\
  0 <= 0x0042 <= 0x1FFF /\ 0 <= 0x1842 <= 0x1FFF /\ 0 <= 0x99 <= 255 /\
  exists m' before,
    bus_cpu_read 0x1842 Bus_init = Ok (before, Bus_init) /\
    bus_cpu_write 0x0042 0x99 Bus_init = Ok (tt, m') /\
    length (Bus.cpu_ram m') = 2048%nat /\
    bus_cpu_read 0x1842 m'
    = Ok (if 0x0042 mod 2048 =? 0x1842 mod 2048 then 0x99 else before, m').
Proof.
  assert (H0 : length (Bus.cpu_ram Bus_init) = 2048%nat) by reflexivity.
  assert (H1 : 0 <= 0x0042 <= 0x1FFF) by lia.
  assert (H2 : 0 <= 0x1842 <= 0x1FFF) by lia.
  assert (H3 : 0 <= 0x99 <= 255) by lia.
  split; [exact H0|]. split; [exact H1|]. split; [exact H2|]. split; [exact H3|].
  exact (ram_is_mirrored_every_2KB Bus_init 0x0042 0x1842 0x99 H0 H1 H2 H3).
Defined.


(** ** The stack *)

Ltac mem_proj :=
  cbn [Bus.cpu Bus.ppu Bus.cart Bus.cpu_ram Bus.set_cpu Bus.set_cpu_ram
       Cpu.a Cpu.x Cpu.y Cpu.stkp Cpu.pc Cpu.status Cpu.addr_abs
       Cpu.set_stkp Cpu.set_pc Cpu.set_a Cpu.set_status ram_stored] in *.

(** The stack pointer one below and one above, inside page 1. *)
Definition sp_down (sp : Z) : Z := Z.land (sp - 1) 0xFF.
Definition sp_up (sp : Z) : Z := Z.land (sp + 1) 0xFF.

Lemma sp_bound (v : Z) : 0 <= Z.land v 0xFF <= 255.
Proof.
  pose proof (land_ones_bound v 8 ltac:(lia)) as H.
  change (Z.ones 8) with 0xFF in H. change (2 ^ 8) with 256 in H. lia.
Qed.

Lemma sp_up_down (sp : Z) : 0 <= sp <= 255 -> sp_up (sp_down sp) = sp.
Proof.
  intros H. unfold sp_up, sp_down. change 0xFF with (Z.ones 8).
  rewrite !Z.land_ones by lia.
  rewrite Z.add_mod_idemp_l by lia.
  replace (sp - 1 + 1) with sp by lia. apply Z.mod_small. lia.
Qed.

Lemma sp_down_neq (sp : Z) : 0 <= sp <= 255 -> sp_down sp <> sp.
Proof.
  intros H. unfold sp_down. change 0xFF with (Z.ones 8).
  rewrite Z.land_ones by lia.
  destruct (Z.eq_dec sp 0) as [->|Hn]; [discriminate|].
  rewrite Z.mod_small by lia. lia.
Qed.

Lemma stack_cell (sp : Z) :
  0 <= sp <= 255 -> Z.land (0x0100 + sp) 0x07FF = 0x0100 + sp.
Proof.
  intros H. change 0x07FF with (Z.ones 11). rewrite Z.land_ones by lia.
  apply Z.mod_small. lia.
Qed.

(** [push]: the byte goes to 0x0100 + SP, then SP moves down. *)
Lemma push_spec (m : Bus.state) (d : Z) :
  length (Bus.cpu_ram m) = 2048%nat ->
  0 <= Cpu.stkp (Bus.cpu m) <= 255 ->
  0 <= d <= 255 ->
  push d m
  = Ok (tt, Bus.set_cpu (Cpu.set_stkp (sp_down (Cpu.stkp (Bus.cpu m))) (Bus.cpu m))
                        (ram_stored m (0x0100 + Cpu.stkp (Bus.cpu m)) d)).
Proof.
  intros Hlen Hsp Hd. unfold push, write. CpuFacts.cpu_steps.
  rewrite (bind_eq _ _ _ _ _
             (bus_cpu_write_ram m (0x0100 + Cpu.stkp (Bus.cpu m)) d
                ltac:(lia) Hd Hlen)).
  rewrite stack_cell by assumption. reflexivity.
Qed.

(** [pop]: SP moves up, then the byte at 0x0100 + SP is read. *)
Lemma pop_spec (m : Bus.state) :
  length (Bus.cpu_ram m) = 2048%nat ->
  exists e,
    nth_error (Bus.cpu_ram m) (Z.to_nat (0x0100 + sp_up (Cpu.stkp (Bus.cpu m)))) = Some e /\
    pop m
    = Ok (e, Bus.set_cpu (Cpu.set_stkp (sp_up (Cpu.stkp (Bus.cpu m))) (Bus.cpu m)) m).
Proof.
  intros Hlen. unfold pop, read. cbv zeta. CpuFacts.cpu_steps.
  fold (sp_up (Cpu.stkp (Bus.cpu m))).
  pose proof (sp_bound (Cpu.stkp (Bus.cpu m) + 1)) as Hb.
  fold (sp_up (Cpu.stkp (Bus.cpu m))) in Hb.
  destruct (bus_cpu_read_ram
              (Bus.set_cpu (Cpu.set_stkp (sp_up (Cpu.stkp (Bus.cpu m))) (Bus.cpu m)) m)
              (0x0100 + sp_up (Cpu.stkp (Bus.cpu m))) ltac:(lia) Hlen)
    as [e [En Er]].
  rewrite stack_cell in En by assumption.
  exists e. split; [exact En|exact Er].
Qed.

(** What is pushed is what is popped, and the stack pointer is back where
    it was, also across the wrap from 0x00 to 0xFF. *)
Theorem push_then_pop (m : Bus.state) (d : Z) :
  length (Bus.cpu_ram m) = 2048%nat ->
  0 <= Cpu.stkp (Bus.cpu m) <= 255 ->
  0 <= d <= 255 ->
  exists m',
    (push d ;; pop) m = Ok (d, m') /\
    Cpu.stkp (Bus.cpu m') = Cpu.stkp (Bus.cpu m) /\
    Cpu.a (Bus.cpu m') = Cpu.a (Bus.cpu m) /\
    Cpu.pc (Bus.cpu m') = Cpu.pc (Bus.cpu m) /\
    Cpu.status (Bus.cpu m') = Cpu.status (Bus.cpu m).
Proof.
  intros Hlen Hsp Hd.
  rewrite (bind_eq _ _ _ _ _ (push_spec m d Hlen Hsp Hd)).
  match goal with |- context [pop ?s] => set (m1 := s) end.
  assert (Hlen1 : length (Bus.cpu_ram m1) = 2048%nat).
  { subst m1. mem_proj. now rewrite length_list_update. }
  destruct (pop_spec m1 Hlen1) as [e [En Er]].
  assert (Hs1 : sp_up (Cpu.stkp (Bus.cpu m1)) = Cpu.stkp (Bus.cpu m)).
  { subst m1. mem_proj. now apply sp_up_down. }
  rewrite Hs1 in *.
  assert (He : e = d).
  { subst m1. mem_proj.
    rewrite nth_error_list_update_eq in En by (rewrite Hlen; lia). now inversion En. }
  subst e. eexists. split; [exact Er|].
  subst m1. mem_proj. repeat split; reflexivity.
Qed.

Lemma push_then_pop_witness :
  length (Bus.cpu_ram Bus_init) = 2048%nat /\
  0 <= Cpu.stkp (Bus.cpu Bus_init) <= 255 /\
  0 <= 0xAB <= 255 /\
  exists m',
    (push 0xAB ;; pop) Bus_init = Ok (0xAB, m') /\
    Cpu.stkp (Bus.cpu m') = Cpu.stkp (Bus.cpu Bus_init) /\
    Cpu.a (Bus.cpu m') = Cpu.a (Bus.cpu Bus_init) /\
    Cpu.pc (Bus.cpu m') = Cpu.pc (Bus.cpu Bus_init) /\
    Cpu.status (Bus.cpu m') = Cpu.status (Bus.cpu Bus_init).
Proof.
  assert (H0 : length (Bus.cpu_ram Bus_init) = 2048%nat) by reflexivity.
  assert (H1 : 0 <= Cpu.stkp (Bus.cpu Bus_init) <= 255)
    by (change (Cpu.stkp (Bus.cpu Bus_init)) with 0xFD; lia).
  assert (H2 : 0 <= 0xAB <= 255) by lia.
  split; [exact H0|]. split; [exact H1|]. split; [exact H2|].
  exact (push_then_pop Bus_init 0xAB H0 H1 H2).
Defined.


(** A 16-bit word is its high byte and its low byte. *)
Lemma word_of_bytes (w : Z) :
  0 <= w < 0x10000 ->
  Z.lor (Z.shiftl (Z.land (Z.shiftr w 8) 0xFF) 8) (Z.land w 0xFF) = w.
Proof.
  intros Hw. apply Z.bits_inj'. intros n Hn.
  rewrite Z.lor_spec. change 0xFF with (Z.ones 8).
  destruct (Z.ltb_spec n 8).
  - rewrite Z.shiftl_spec_low by lia. rewrite Z.land_spec, Z.ones_spec_low by lia.
    simpl. now rewrite andb_true_r.
  - rewrite Z.shiftl_spec by lia. rewrite !Z.land_spec. rewrite Z.shiftr_spec by lia.
    rewrite (Z.ones_spec_high 8 n) by lia. rewrite andb_false_r, orb_false_r.
    replace (n - 8 + 8) with n by lia.
    destruct (Z.ltb_spec (n - 8) 8).
    + rewrite Z.ones_spec_low by lia. apply andb_true_r.
    + rewrite Z.ones_spec_high by lia. rewrite andb_false_r. symmetry.
      destruct (Z.eq_dec w 0) as [->|Hne]; [apply Z.bits_0|].
      apply Z.bits_above_log2; [lia|].
      apply Z.log2_lt_pow2; [lia|].
      apply Z.lt_le_trans with (2 ^ 16); [lia|].
      apply Z.pow_le_mono_r; lia.
Qed.

Lemma ram_stored_length (m : Bus.state) (k v : Z) :
  length (Bus.cpu_ram m) = 2048%nat ->
  length (Bus.cpu_ram (ram_stored m k v)) = 2048%nat.
Proof. intros H. cbn. now rewrite length_list_update. Qed.

(** [JSR] followed by [RTS] comes back: the PC that [JSR] saw (the address
    after its operand) is the PC again, and the stack pointer is where it
    was. *)
Theorem jsr_then_rts_returns (m : Bus.state) :
  length (Bus.cpu_ram m) = 2048%nat ->
  0 <= Cpu.stkp (Bus.cpu m) <= 255 ->
  1 <= Cpu.pc (Bus.cpu m) <= 0x10000 ->
  exists m',
    (JSR ;; RTS) m = Ok (0, m') /\
    Cpu.pc (Bus.cpu m') = Cpu.pc (Bus.cpu m) /\
    Cpu.stkp (Bus.cpu m') = Cpu.stkp (Bus.cpu m) /\
    Cpu.a (Bus.cpu m') = Cpu.a (Bus.cpu m) /\
    Cpu.status (Bus.cpu m') = Cpu.status (Bus.cpu m).
Proof.
  intros Hlen Hsp Hpc.
  set (sp := Cpu.stkp (Bus.cpu m)) in *.
  set (w := Cpu.pc (Bus.cpu m) - 1).
  pose proof (sp_bound (sp - 1)) as Hsp1. fold (sp_down sp) in Hsp1.
  pose proof (sp_bound (Z.shiftr w 8)) as Hhi.
  pose proof (sp_bound w) as Hlo.
  unfold JSR, RTS, push_word, pop_word. CpuFacts.cpu_steps. fold w.
  (* the two pushes *)
  rewrite (bind_eq _ _ _ _ _ (push_spec m _ Hlen Hsp Hhi)). fold sp.
  match goal with |- context [bind (push _) _ ?s] => set (m1 := s) end.
  assert (Hlen1 : length (Bus.cpu_ram m1) = 2048%nat)
    by (subst m1; mem_proj; now rewrite length_list_update).
  assert (Hs1 : Cpu.stkp (Bus.cpu m1) = sp_down sp) by reflexivity.
  rewrite (bind_eq _ _ _ _ _
             (push_spec m1 _ Hlen1 ltac:(rewrite Hs1; exact Hsp1) Hlo)).
  rewrite Hs1. CpuFacts.cpu_steps.
  (* the two pops *)
  match goal with |- context [bind pop _ ?s] => set (m2 := s) end.
  assert (Hlen2 : length (Bus.cpu_ram m2) = 2048%nat)
    by (subst m2 m1; mem_proj; now rewrite !length_list_update).
  assert (Hs2 : Cpu.stkp (Bus.cpu m2) = sp_down (sp_down sp)) by reflexivity.
  destruct (pop_spec m2 Hlen2) as [lo [Enlo Erlo]].
  rewrite Hs2, (sp_up_down _ Hsp1) in Enlo, Erlo.
  rewrite (bind_eq _ _ _ _ _ Erlo). CpuFacts.cpu_steps.
  match goal with |- context [bind pop _ ?s] => set (m3 := s) end.
  assert (Hlen3 : length (Bus.cpu_ram m3) = 2048%nat) by exact Hlen2.
  assert (Hs3 : Cpu.stkp (Bus.cpu m3) = sp_down sp) by reflexivity.
  destruct (pop_spec m3 Hlen3) as [hi [Enhi Erhi]].
  rewrite Hs3, (sp_up_down _ Hsp) in Enhi, Erhi.
  rewrite (bind_eq _ _ _ _ _ Erhi). CpuFacts.cpu_steps.
  (* what the two cells hold *)
  assert (Elo : lo = Z.land w 0xFF).
  { subst m2 m1. mem_proj.
    rewrite nth_error_list_update_eq in Enlo
      by (rewrite length_list_update, Hlen; lia).
    now inversion Enlo. }
  assert (Ehi : hi = Z.land (Z.shiftr w 8) 0xFF).
  { subst m3 m2 m1. mem_proj.
    pose proof (sp_down_neq sp Hsp).
    rewrite nth_error_list_update_neq in Enhi by lia.
    rewrite nth_error_list_update_eq in Enhi by (rewrite Hlen; lia).
    now inversion Enhi. }
  subst lo hi. rewrite word_of_bytes by (unfold w; lia).
  eexists. split; [reflexivity|].
  subst m3 m2 m1. mem_proj. unfold w. repeat split; try reflexivity. lia.
Qed.

Lemma jsr_then_rts_returns_witness :
  length (Bus.cpu_ram CpuFacts.pc_FFFE_machine) = 2048%nat /\
  0 <= Cpu.stkp (Bus.cpu CpuFacts.pc_FFFE_machine) <= 255 /\
  1 <= Cpu.pc (Bus.cpu CpuFacts.pc_FFFE_machine) <= 0x10000 /\
  exists m',
    (JSR ;; RTS) CpuFacts.pc_FFFE_machine = Ok (0, m') /\
    Cpu.pc (Bus.cpu m') = Cpu.pc (Bus.cpu CpuFacts.pc_FFFE_machine) /\
    Cpu.stkp (Bus.cpu m') = Cpu.stkp (Bus.cpu CpuFacts.pc_FFFE_machine) /\
    Cpu.a (Bus.cpu m') = Cpu.a (Bus.cpu CpuFacts.pc_FFFE_machine) /\
    Cpu.status (Bus.cpu m') = Cpu.status (Bus.cpu CpuFacts.pc_FFFE_machine).
Proof.
  assert (H0 : length (Bus.cpu_ram CpuFacts.pc_FFFE_machine) = 2048%nat) by reflexivity.
  assert (H1 : 0 <= Cpu.stkp (Bus.cpu CpuFacts.pc_FFFE_machine) <= 255)
    by (change (Cpu.stkp (Bus.cpu CpuFacts.pc_FFFE_machine)) with 0xFD; lia).
  assert (H2 : 1 <= Cpu.pc (Bus.cpu CpuFacts.pc_FFFE_machine) <= 0x10000)
    by (change (Cpu.pc (Bus.cpu CpuFacts.pc_FFFE_machine)) with 0xFFFE; lia).
  split; [exact H0|]. split; [exact H1|]. split; [exact H2|].
  exact (jsr_then_rts_returns CpuFacts.pc_FFFE_machine H0 H1 H2).
Defined.

End MemoryFacts.

(** * What the loaders accept (CATNES5, GIGA) *)

Module LoaderEdgeFacts.

Lemma py_getitem_past_end {A} (l : list A) (i : Z) :
  Z.of_nat (length l) <= i -> py_getitem l i = Raise IndexError.
Proof.
  intros H. unfold py_getitem, norm_index.
  destruct (Z.ltb_spec i 0); [lia|].
  destruct (Z.leb_spec 0 i); [|lia].
  destruct (Z.ltb_spec i (Z.of_nat (length l))); [lia|reflexivity].
Qed.

Lemma bytes_eqb_eq (x y : list byte) : bytes_eqb x y = true <-> x = y.
Proof.
  unfold bytes_eqb.
  destruct (list_eq_dec Byte.byte_eq_dec x y) as [E|E]; split; intros H;
    try assumption; try reflexivity; try discriminate; contradiction.
Qed.

Lemma header_length (f : list byte) :
  Z.of_nat (length (py_slice f 0 16)) = Z.min 16 (Z.of_nat (length f)).
Proof. rewrite py_slice_length by lia. lia. Qed.

Lemma header_magic (f : list byte) :
  py_slice (py_slice f 0 16) 0 4 = py_slice f 0 4.
Proof. apply py_slice_prefix_prefix. lia. Qed.

Lemma catnes_hdr_ok (h : list byte) (i : Z) :
  0 <= i < Z.of_nat (length h) -> exists v, CATNES5.hdr h i = Ok v.
Proof.
  intros H. unfold CATNES5.hdr.
  destruct (py_getitem_inrange h i H) as [b [-> _]]. now eexists.
Qed.

Lemma catnes_hdr_past_end (h : list byte) (i : Z) :
  Z.of_nat (length h) <= i -> CATNES5.hdr h i = Raise IndexError.
Proof. intros H. unfold CATNES5.hdr. now rewrite py_getitem_past_end. Qed.

(** What makes [NESRom] valid: the file exists, starts with the magic and
    has the header bytes 4 to 7 that the constructor reads. *)
Definition catnes_acceptable (file : option (list byte)) : Prop :=
  exists f, file = Some f /\ py_slice f 0 4 = NES_MAGIC /\ 8 <= Z.of_nat (length f).

Lemma catnes_valid_iff (path : string) (file : option (list byte)) :
  CATNES5.valid (CATNES5.NESRom_init path file) = true <-> catnes_acceptable file.
Proof.
  unfold CATNES5.NESRom_init, catnes_acceptable.
  destruct file as [f|]; cbn [CATNES5.valid CATNES5.set_error CATNES5.NESRom_blank].
  2:{ split; [discriminate|]. intros (f & H & _). discriminate. }
  rewrite header_magic.
  destruct (bytes_eqb (py_slice f 0 4) NES_MAGIC) eqn:Em; simpl negb; cbv iota.
  2:{ cbn [CATNES5.valid CATNES5.set_error CATNES5.NESRom_blank].
      split; [discriminate|]. intros (f' & H & Hm & _). inversion H; subst f'.
      apply (proj2 (bytes_eqb_eq _ _)) in Hm. rewrite Hm in Em. discriminate. }
  apply bytes_eqb_eq in Em.
  pose proof (header_length f) as Hl.
  destruct (Z_lt_le_dec (Z.of_nat (length f)) 8) as [Hs|Hs].
  - assert (E7 : CATNES5.hdr (py_slice f 0 16) 7 = Raise IndexError)
      by (apply catnes_hdr_past_end; lia).
    rewrite E7.
    split.
    + destruct (CATNES5.hdr (py_slice f 0 16) 4), (CATNES5.hdr (py_slice f 0 16) 5),
        (CATNES5.hdr (py_slice f 0 16) 6); cbn; discriminate.
    + intros (f' & H & _ & Hlen). inversion H; subst f'. lia.
  - destruct (catnes_hdr_ok (py_slice f 0 16) 4 ltac:(lia)) as [h4 ->].
    destruct (catnes_hdr_ok (py_slice f 0 16) 5 ltac:(lia)) as [h5 ->].
    destruct (catnes_hdr_ok (py_slice f 0 16) 6 ltac:(lia)) as [h6 ->].
    destruct (catnes_hdr_ok (py_slice f 0 16) 7 ltac:(lia)) as [h7 ->].
    cbn. split; [|reflexivity]. intros _. exists f. auto.
Qed.

(** [load_rom_action] hands a cartridge to the bus exactly for an existing
    file that starts with the magic and is at least 8 bytes long; every
    other file ends in the [ValueError] of its error dialog.  Nothing else
    is checked: neither the declared sizes nor the mapper. *)
Theorem catnes_load_accepts_exactly (path : string) (file : option (list byte)) :
  (catnes_acceptable file ->
   exists out cart,
     CATNES5.load_rom_action path file = Ok (out, cart) /\
     CATNES5.valid (CATNES5.rom cart) = true /\
     Z.of_nat (length (CATNES5.prg_ram cart)) = 8192) /\
  (~ catnes_acceptable file -> CATNES5.load_rom_action path file = Raise ValueError).
Proof.
  unfold CATNES5.load_rom_action. split; intros H.
  - apply (catnes_valid_iff path) in H. rewrite H. simpl negb. cbv iota.
    unfold CATNES5.Cartridge_init. eexists. eexists. split; [reflexivity|].
    split; [exact H|reflexivity].
  - destruct (CATNES5.valid (CATNES5.NESRom_init path file)) eqn:E; [|reflexivity].
    apply catnes_valid_iff in E. contradiction.
Qed.


(** ** The GIGA header parser, loader and bus *)

Lemma giga_hdr_byte_ok (h : list byte) (i : Z) :
  0 <= i < Z.of_nat (length h) ->
  exists v, GIGA.hdr_byte h i = Ok v /\ 0 <= v < 256.
Proof.
  intros H. unfold GIGA.hdr_byte.
  destruct (py_getitem_inrange h i H) as [b [-> _]].
  exists (byte_val b). split; [reflexivity|].
  unfold byte_val. pose proof (Byte.to_N_bounded b). lia.
Qed.

(** [INESHeader] accepts exactly the headers of at least 16 bytes that start
    with the magic, and refuses every other one with [ValueError]; the
    sizes it derives are whole pages. *)
Theorem giga_header_accepts_exactly (hdr : list byte) :
  (16 <= Z.of_nat (length hdr) /\ py_slice hdr 0 4 = NES_MAGIC ->
   exists h,
     GIGA.INESHeader_init hdr = Ok h /\
     0 <= GIGA.prg_pages h < 256 /\ 0 <= GIGA.chr_pages h < 256 /\
     GIGA.prg_size h = GIGA.prg_pages h * 16384 /\
     GIGA.chr_size h = GIGA.chr_pages h * 8192) /\
  (~ (16 <= Z.of_nat (length hdr) /\ py_slice hdr 0 4 = NES_MAGIC) ->
   GIGA.INESHeader_init hdr = Raise ValueError).
Proof.
  unfold GIGA.INESHeader_init, GIGA.INES_HEADER_SIZE. split.
  - intros [Hlen Hm].
    destruct (Z.ltb_spec (Z.of_nat (length hdr)) 16); [lia|].
    apply bytes_eqb_eq in Hm. rewrite Hm. simpl.
    destruct (giga_hdr_byte_ok hdr 4 ltac:(lia)) as [h4 [-> B4]].
    destruct (giga_hdr_byte_ok hdr 5 ltac:(lia)) as [h5 [-> B5]].
    destruct (giga_hdr_byte_ok hdr 6 ltac:(lia)) as [h6 [-> B6]].
    eexists. split; [reflexivity|]. cbn. repeat split; lia.
  - intros Hn.
    destruct (Z.ltb_spec (Z.of_nat (length hdr)) 16); [reflexivity|].
    destruct (bytes_eqb (py_slice hdr 0 4) NES_MAGIC) eqn:Em; [|reflexivity].
    apply bytes_eqb_eq in Em. exfalso. apply Hn. split; [lia|assumption].
Qed.

(** Reads of the PRG window with no PRG byte at all divide by zero. *)
Lemma giga_bus_read_empty_prg (b : GIGA.Bus) (addr : Z) :
  GIGA.prg b = [] -> 0x8000 <= addr <= 0xFFFF ->
  GIGA.bus_read b addr = Raise ZeroDivisionError.
Proof.
  intros Hp Ha. unfold GIGA.bus_read. rewrite CpuFacts.land_FFFF_small by lia.
  destruct (Z.ltb_spec addr 0x2000); [lia|].
  destruct (Z.geb_spec addr 0x8000); [|lia].
  now rewrite Hp.
Qed.

(** An image whose header is fine but which brings no PRG byte (it declares
    no page, or the file ends right after the header): [_load_rom] reports
    [ZeroDivisionError], raised by the reset vector read, and by then it has
    already replaced the session's bus and CPU; the new CPU never got its
    reset and has PC = 0. *)
Theorem giga_load_without_prg_leaves_half_built_session
        (data : list byte) (s : GIGA.Session) (h : GIGA.INESHeader) :
  GIGA.INESHeader_init (py_slice data 0 16) = Ok h ->
  (let offset := 16 + (if GIGA.trainer h then 512 else 0) in
   py_slice data offset (offset + GIGA.prg_size h) = []) ->
  exists b,
    GIGA._load_rom data s = (GIGA.mkSession (Some b) (Some GIGA.CPU6502_init),
                             Some ZeroDivisionError) /\
    GIGA.prg b = [] /\ GIGA.pc GIGA.CPU6502_init = 0.
Proof.
  intros Hh Hp. cbv zeta in Hp.
  unfold GIGA._load_rom, GIGA.INES_HEADER_SIZE, GIGA.TRAINER_SIZE. rewrite Hh.
  cbv zeta. rewrite Hp.
  unfold GIGA.reset.
  rewrite giga_bus_read_empty_prg by (reflexivity || lia).
  eexists. split; [reflexivity|]. split; reflexivity.
Qed.

(** A header alone: the magic and zero pages. *)
Definition header_only : list byte :=
  [x4e; x45; x53; x1a; x00; x00; x00; x00; x00; x00; x00; x00; x00; x00; x00; x00].

Lemma giga_load_without_prg_witness :
  GIGA.INESHeader_init (py_slice header_only 0 16)
  = Ok (GIGA.mkINESHeader 0 0 false 0 0) /\
  (let offset := 16 + (if GIGA.trainer (GIGA.mkINESHeader 0 0 false 0 0) then 512 else 0) in
   py_slice header_only offset (offset + GIGA.prg_size (GIGA.mkINESHeader 0 0 false 0 0))
   = []) /\
  exists b,
    GIGA._load_rom header_only (GIGA.mkSession None None)
    = (GIGA.mkSession (Some b) (Some GIGA.CPU6502_init), Some ZeroDivisionError) /\
    GIGA.prg b = [] /\ GIGA.pc GIGA.CPU6502_init = 0.
Proof.
  assert (H0 : GIGA.INESHeader_init (py_slice header_only 0 16)
               = Ok (GIGA.mkINESHeader 0 0 false 0 0)) by reflexivity.
  assert (H1 : let offset := 16 + (if GIGA.trainer (GIGA.mkINESHeader 0 0 false 0 0)
                                   then 512 else 0) in
               py_slice header_only offset
                 (offset + GIGA.prg_size (GIGA.mkINESHeader 0 0 false 0 0)) = [])
    by reflexivity.
  split; [exact H0|]. split; [exact H1|].
  exact (giga_load_without_prg_leaves_half_built_session
           header_only (GIGA.mkSession None None) _ H0 H1).
Defined.

(** With at least one PRG byte and its 2 KB of RAM, the bus answers every
    read, whatever integer is passed as the address, and the PRG window
    repeats with the period of the PRG length. *)
Theorem giga_bus_read_total_and_periodic (b : GIGA.Bus) :
  GIGA.prg b <> [] ->
  length (GIGA.ram b) = 2048%nat ->
  (forall addr, exists v, GIGA.bus_read b addr = Ok v) /\
  (forall addr,
     let n := Z.of_nat (length (GIGA.prg b)) in
     0x8000 <= addr -> addr + n <= 0xFFFF ->
     GIGA.bus_read b (addr + n) = GIGA.bus_read b addr).
Proof.
  intros Hp Hlen.
  assert (Hn : 0 < Z.of_nat (length (GIGA.prg b))).
  { destruct (GIGA.prg b); [contradiction|simpl; lia]. }
  split.
  - intros addr. unfold GIGA.bus_read.
    pose proof (land_ones_bound addr 16 ltac:(lia)) as Ha.
    change (Z.ones 16) with 0xFFFF in Ha.
    set (a := Z.land addr 0xFFFF) in *.
    destruct (Z.ltb_spec a 0x2000).
    + pose proof (MemoryFacts.land_07FF_bound a).
      destruct (py_getitem_inrange (GIGA.ram b) (Z.land a 0x07FF))
        as [v [-> _]]; [rewrite Hlen; lia|]. now exists v.
    + destruct (Z.geb_spec a 0x8000); [|now exists 0].
      unfold GIGA.py_mod.
      destruct (Z.eqb_spec (Z.of_nat (length (GIGA.prg b))) 0); [lia|].
      pose proof (Z.mod_pos_bound (a - 0x8000) _ Hn).
      destruct (py_getitem_inrange (GIGA.prg b)
                  ((a - 0x8000) mod Z.of_nat (length (GIGA.prg b))))
        as [v [-> _]]; [lia|]. now eexists.
  - intros addr n Ha Hb. unfold GIGA.bus_read. fold n.
    rewrite !CpuFacts.land_FFFF_small by lia.
    destruct (Z.ltb_spec (addr + n) 0x2000); [lia|].
    destruct (Z.ltb_spec addr 0x2000); [lia|].
    destruct (Z.geb_spec (addr + n) 0x8000); [|lia].
    destruct (Z.geb_spec addr 0x8000); [|lia].
    unfold GIGA.py_mod. destruct (Z.eqb_spec n 0); [lia|].
    replace (addr + n - 0x8000) with (addr - 0x8000 + 1 * n) by lia.
    now rewrite Z.mod_add by lia.
Qed.

Lemma giga_bus_read_total_and_periodic_witness :
  GIGA.prg (GIGA.Bus_init [xa9; x42] []) <> [] /\
  length (GIGA.ram (GIGA.Bus_init [xa9; x42] [])) = 2048%nat /\
  (forall addr, exists v, GIGA.bus_read (GIGA.Bus_init [xa9; x42] []) addr = Ok v) /\
  (forall addr,
     let n := Z.of_nat (length (GIGA.prg (GIGA.Bus_init [xa9; x42] []))) in
     0x8000 <= addr -> addr + n <= 0xFFFF ->
     GIGA.bus_read (GIGA.Bus_init [xa9; x42] []) (addr + n)
     = GIGA.bus_read (GIGA.Bus_init [xa9; x42] []) addr).
Proof.
  assert (H0 : GIGA.prg (GIGA.Bus_init [xa9; x42] []) <> []) by discriminate.
  assert (H1 : length (GIGA.ram (GIGA.Bus_init [xa9; x42] [])) = 2048%nat) by reflexivity.
  split; [exact H0|]. split; [exact H1|].
  exact (giga_bus_read_total_and_periodic (GIGA.Bus_init [xa9; x42] []) H0 H1).
Defined.


(** ** The MonikaNES ROM constructor *)

Lemma monika_rom_byte_ok (h : list byte) (i : Z) :
  0 <= i < Z.of_nat (length h) -> exists v, MonikaNES.rom_byte h i = Ok v.
Proof.
  intros H. unfold MonikaNES.rom_byte.
  destruct (py_getitem_inrange h i H) as [b [-> _]]. now eexists.
Qed.

Lemma monika_rom_byte_past_end (h : list byte) (i : Z) :
  Z.of_nat (length h) <= i -> MonikaNES.rom_byte h i = Raise IndexError.
Proof. intros H. unfold MonikaNES.rom_byte. now rewrite py_getitem_past_end. Qed.

Lemma monika_rom_byte_cases (h : list byte) (i : Z) :
  0 <= i -> (exists v, MonikaNES.rom_byte h i = Ok v) \/
            MonikaNES.rom_byte h i = Raise IndexError.
Proof.
  intros Hi. destruct (Z_lt_le_dec i (Z.of_nat (length h))).
  - left. apply monika_rom_byte_ok. lia.
  - right. now apply monika_rom_byte_past_end.
Qed.

(** [NESRom] of this variant never looks at the magic: any buffer of at
    least 8 bytes becomes a ROM object, and a shorter one fails on a header
    byte with [IndexError].  The object has CHR-RAM exactly when it holds no
    CHR-ROM byte. *)
Theorem monika_rom_is_built_from_any_8_bytes (data : list byte) :
  (8 <= Z.of_nat (length data) ->
   exists r,
     MonikaNES.NESRom_init data = Ok r /\
     (MonikaNES.chr_ram r <> None <-> MonikaNES.chr_rom r = [])) /\
  (Z.of_nat (length data) < 8 -> MonikaNES.NESRom_init data = Raise IndexError).
Proof.
  pose proof (header_length data) as Hl.
  unfold MonikaNES.NESRom_init. split; intros H.
  - destruct (monika_rom_byte_ok (py_slice data 0 16) 4 ltac:(lia)) as [h4 ->].
    destruct (monika_rom_byte_ok (py_slice data 0 16) 5 ltac:(lia)) as [h5 ->].
    destruct (monika_rom_byte_ok (py_slice data 0 16) 7 ltac:(lia)) as [h7 ->].
    destruct (monika_rom_byte_ok (py_slice data 0 16) 6 ltac:(lia)) as [h6 ->].
    eexists. split; [reflexivity|].
    cbn [MonikaNES.chr_ram MonikaNES.chr_rom].
    match goal with
    | |- context [match ?l with [] => _ | _ :: _ => _ end] => destruct l
    end; split; congruence.
  - rewrite (monika_rom_byte_past_end (py_slice data 0 16) 7) by lia.
    destruct (monika_rom_byte_cases (py_slice data 0 16) 4 ltac:(lia)) as [[h4 ->]| ->];
      [|reflexivity].
    destruct (monika_rom_byte_cases (py_slice data 0 16) 5 ltac:(lia)) as [[h5 ->]| ->];
      reflexivity.
Qed.

End LoaderEdgeFacts.

(** * Checking a range of integers by evaluation *)

Module RangeFacts.

(** [P] on the [n] integers from [start] on, counted up in binary. *)
Fixpoint forall_from (P : Z -> bool) (start : Z) (n : nat) : bool :=
  match n with
  | O => true
  | S n' => P start && forall_from P (start + 1) n'
  end.

Lemma forall_from_spec (P : Z -> bool) (n : nat) :
  forall start,
    forall_from P start n = true ->
    forall i, start <= i < start + Z.of_nat n -> P i = true.
Proof.
  induction n as [|n IH]; intros start H i Hi.
  - lia.
  - cbn [forall_from] in H. apply andb_true_iff in H. destruct H as [H0 H1].
    destruct (Z.eq_dec i start) as [->|Hne]; [exact H0|].
    apply (IH (start + 1) H1). lia.
Qed.

End RangeFacts.

(** * ADC (MonikaNES), for all operands *)

Module MonikaArithmeticFacts.
Import MonikaNES.
Import MonikaFacts.


(** The flag expressions of this variant's [ADC], as the source writes
    them, against 8-bit addition; checked for every pair of bytes and both
    carries. *)
Definition monika_adc_check (a d : Z) : bool :=
  forallb (fun c =>
    let temp := a + d + c in
    (Z.land temp 0x00FF =? temp mod 256)
    && Bool.eqb (temp >? 255) (256 <=? temp)
    && Bool.eqb (Z.land temp 0x00FF =? 0x00) (temp mod 256 =? 0)
    && Bool.eqb (Z.land temp 0x80 >? 0) (128 <=? temp mod 256)
    && Bool.eqb (negb (Z.land (Z.land (Z.lxor a temp) (Z.lxor d temp)) 0x80 =? 0))
                (negb (ArithmeticFacts.fits_signed8
                         (ArithmeticFacts.signed8 a + ArithmeticFacts.signed8 d + c))))
    [0; 1].

Lemma monika_adc_check_all :
  ArithmeticFacts.all_bytes (fun a => ArithmeticFacts.all_bytes (monika_adc_check a)) = true.
Proof. vm_compute. reflexivity. Qed.

Lemma flag_value_bit (m : Bus.state) (flag : Z) :
  flag_value m flag = 0 \/ flag_value m flag = 1.
Proof. unfold flag_value. destruct (_ >? _); auto. Qed.

(** The flag values after the four [set_flag] calls of [ADC]. *)
Lemma monika_flags_after_czvn (st : Z) (c z v n : bool) :
  let st' := with_flag (with_flag (with_flag (with_flag st FLAG_C c) FLAG_Z z) FLAG_V v)
                       FLAG_N n in
  (Z.land st' FLAG_C >? 0) = c /\ (Z.land st' FLAG_Z >? 0) = z /\
  (Z.land st' FLAG_V >? 0) = v /\ (Z.land st' FLAG_N >? 0) = n.
Proof.
  cbv zeta. unfold FLAG_C, FLAG_Z, FLAG_V, FLAG_N.
  rewrite !mk_flag_testbit, !mk_testbit_with_flag by lia.
  repeat split; reflexivity.
Qed.

(** [ADC] of this variant is 8-bit addition with carry as well: A receives
    the low byte of A + operand + C, [get_flag] then returns 1 for C exactly
    on a carry out of bit 7, for Z and N as the new A says, and for V
    exactly when the signed sum leaves -128..127. *)
Theorem monika_adc_adds_with_carry (m m1 : Bus.state) (d : Z) :
  0 <= Cpu.a (Bus.cpu m) < 256 ->
  0 <= d < 256 ->
  fetch m = Ok (d, m1) ->
  let a := Cpu.a (Bus.cpu m) in
  let sum := a + d + flag_value m FLAG_C in
  exists m',
    ADC m = Ok (1, m') /\
    Cpu.a (Bus.cpu m') = sum mod 256 /\
    flag_value m' FLAG_C = (if 256 <=? sum then 1 else 0) /\
    flag_value m' FLAG_Z = (if sum mod 256 =? 0 then 1 else 0) /\
    flag_value m' FLAG_N = (if 128 <=? sum mod 256 then 1 else 0) /\
    flag_value m' FLAG_V
    = (if ArithmeticFacts.fits_signed8
            (ArithmeticFacts.signed8 a + ArithmeticFacts.signed8 d + flag_value m FLAG_C)
       then 0 else 1).
Proof.
  intros Ha Hd Hf a sum.
  destruct (mk_fetch_spec _ _ _ Hf) as (Hf1 & Ha1 & Hs1).
  assert (Hc1 : flag_value m1 FLAG_C = flag_value m FLAG_C)
    by (unfold flag_value; now rewrite Hs1).
  pose proof (ArithmeticFacts.check_carry _ (flag_value m FLAG_C)
                (ArithmeticFacts.check_bytes monika_adc_check a d monika_adc_check_all Ha Hd)
                (flag_value_bit m FLAG_C)) as Hk.
  cbv beta zeta in Hk. fold sum in Hk. ArithmeticFacts.split_checks Hk.
  unfold ADC. rewrite (bind_eq _ _ _ _ _ Hf).
  MonikaFacts.mk_steps. unfold bind at 1. rewrite get_flag_value, Hc1, Ha1, Hf1.
  fold a. fold sum.
  unfold set_flag. MonikaFacts.mk_steps.
  eexists. split; [reflexivity|].
  unfold flag_value. MonikaFacts.mk_proj. rewrite Hs1.
  destruct (monika_flags_after_czvn (Cpu.status (Bus.cpu m)) (sum >? 255)
              (Z.land sum 0x00FF =? 0x00)
              (negb (Z.land (Z.land (Z.lxor a sum) (Z.lxor d sum)) 0x80 =? 0))
              (Z.land sum 0x80 >? 0)) as (Fc & Fz & Fv & Fn).
  cbv zeta in Fc, Fz, Fv, Fn.
  rewrite Fc, Fz, Fv, Fn.
  repeat split; try assumption;
    repeat match goal with K : _ = _ :> bool |- _ => rewrite K; clear K end;
    try reflexivity.
  now destruct (ArithmeticFacts.fits_signed8 _).
Qed.

(** The machine of this variant with A = [a], the opcode [op] and the
    operand [d] in RAM at [addr_abs] = 0. *)
Definition monika_operand_machine (op a d : Z) : Bus.state :=
  Bus.set_cpu (Cpu.set_opcode op (Cpu.set_a a CPU6502_init))
              (Bus.set_cpu_ram (d :: repeat 0 (Z.to_nat 2047)) Bus_init).

Lemma monika_adc_adds_with_carry_witness :
  0 <= Cpu.a (Bus.cpu (monika_operand_machine 0x69 0xF0 0x20)) < 256 /\
  0 <= 0x20 < 256 /\
  (exists m1, fetch (monika_operand_machine 0x69 0xF0 0x20) = Ok (0x20, m1)) /\
  exists m',
    ADC (monika_operand_machine 0x69 0xF0 0x20) = Ok (1, m') /\
    Cpu.a (Bus.cpu m') = (0xF0 + 0x20 + 0) mod 256 /\
    flag_value m' FLAG_C = (if 256 <=? 0xF0 + 0x20 + 0 then 1 else 0) /\
    flag_value m' FLAG_Z = (if (0xF0 + 0x20 + 0) mod 256 =? 0 then 1 else 0) /\
    flag_value m' FLAG_N = (if 128 <=? (0xF0 + 0x20 + 0) mod 256 then 1 else 0) /\
    flag_value m' FLAG_V
    = (if ArithmeticFacts.fits_signed8
            (ArithmeticFacts.signed8 0xF0 + ArithmeticFacts.signed8 0x20 + 0)
       then 0 else 1).
Proof.
  assert (H0 : 0 <= Cpu.a (Bus.cpu (monika_operand_machine 0x69 0xF0 0x20)) < 256)
    by (change (Cpu.a (Bus.cpu (monika_operand_machine 0x69 0xF0 0x20))) with 0xF0; lia).
  assert (H1 : 0 <= 0x20 < 256) by lia.
  assert (H2 : fetch (monika_operand_machine 0x69 0xF0 0x20)
               = Ok (0x20, Bus.set_cpu
                             (Cpu.set_fetched 0x20
                                (Bus.cpu (monika_operand_machine 0x69 0xF0 0x20)))
                             (monika_operand_machine 0x69 0xF0 0x20))) by reflexivity.
  split; [exact H0|]. split; [exact H1|]. split; [eexists; exact H2|].
  exact (monika_adc_adds_with_carry (monika_operand_machine 0x69 0xF0 0x20) _ 0x20 H0 H1 H2).
Defined.

End MonikaArithmeticFacts.

(** * Palette, branches and the PPU ports (MonikaNES) *)

Module MonikaPpuFacts.
Import MonikaNES.
Import MonikaFacts.
Import PaletteMirrorFacts (between_true, between_false, forall_below).

(** The entry behind palette entry [k] in this variant: every fourth entry
    is entry 0. *)
Definition folded (k : Z) : Z := if k mod 4 =? 0 then 0 else k.

Lemma palette_index_folded (i : Z) :
  0 <= i < 32 -> palette_index (0x3F00 + i) = folded i.
Proof.
  intros Hi.
  pose (P := fun i => palette_index (0x3F00 + i) =? folded i).
  assert (HP : P i = true) by (apply (forall_below P 32); [vm_compute; reflexivity|exact Hi]).
  now apply Z.eqb_eq in HP.
Qed.

Lemma folded_bound (i : Z) : 0 <= i < 32 -> 0 <= folded i < 32.
Proof. intros H. unfold folded. destruct (_ =? _); lia. Qed.

Lemma mk_set_cart_same (m : Bus.state) : Bus.set_cart (Bus.cart m) m = m.
Proof. now destruct m. Qed.

(** The cartridge only takes PPU writes below 0x2000. *)
Lemma mk_cart_pass_ppu_write {B} (m : Bus.state) (addr data : Z) (k : unit -> Py B) :
  0x2000 <= addr ->
  bind (match Bus.cart m with
        | None => ret tt
        | Some c =>
            c' <- lift (cart_ppu_write c addr data) ;; modify (Bus.set_cart (Some c'))
        end) k m = k tt m.
Proof.
  intros H. destruct (Bus.cart m) as [c|] eqn:Ec; [|reflexivity].
  unfold cart_ppu_write. rewrite between_false by lia.
  unfold bind, lift, modify. rewrite <- Ec. now rewrite mk_set_cart_same.
Qed.

Definition mk_palette_stored (m : Bus.state) (k v : Z) : Bus.state :=
  Bus.set_ppu
    (Ppu.set_palette_ram
       (list_update (Ppu.palette_ram (Bus.ppu m)) (Z.to_nat k) v) (Bus.ppu m)) m.

Lemma mk_bus_ppu_write_palette (m : Bus.state) (i data : Z) :
  0 <= i < 32 ->
  length (Ppu.palette_ram (Bus.ppu m)) = 32%nat ->
  bus_ppu_write (0x3F00 + i) data m
  = Ok (tt, mk_palette_stored m (folded i) (Z.land data 0x3F)).
Proof.
  intros Hi Hlen. unfold bus_ppu_write.
  rewrite mk_gets_bind. rewrite mk_cart_pass_ppu_write by lia.
  rewrite between_false by lia. rewrite between_true by lia.
  rewrite palette_index_folded by assumption.
  pose proof (folded_bound i Hi). pose proof (land_0x3F_bound data).
  rewrite mk_ppu_get_bind.
  rewrite (mk_lift_bind _ _ _ _
             (bytearray_setitem_ok _ (folded i) (Z.land data 0x3F)
                ltac:(lia) ltac:(rewrite Hlen; lia))).
  reflexivity.
Qed.

Lemma mk_bus_ppu_read_palette_entry (m : Bus.state) (j : Z) :
  0 <= j < 32 ->
  length (Ppu.palette_ram (Bus.ppu m)) = 32%nat ->
  exists e,
    nth_error (Ppu.palette_ram (Bus.ppu m)) (Z.to_nat (folded j)) = Some e /\
    bus_ppu_read (0x3F00 + j) m = Ok (Z.land e 0x3F, m).
Proof.
  intros Hj Hlen. unfold bus_ppu_read.
  pose proof (folded_bound j Hj) as Hb.
  destruct (py_getitem_inrange (Ppu.palette_ram (Bus.ppu m)) (folded j))
    as [e [Eg En]]; [rewrite Hlen; lia|].
  exists e. split; [exact En|].
  rewrite mk_gets_bind. rewrite between_false by lia. rewrite between_true by lia.
  rewrite palette_index_folded by assumption.
  destruct (Bus.cart m) as [c|].
  - unfold cart_ppu_read. rewrite between_false by lia.
    unfold bind at 1. unfold lift at 1.
    rewrite mk_ppu_get_bind. now rewrite (mk_lift_bind _ _ _ _ Eg).
  - rewrite mk_ret_bind, mk_ppu_get_bind. now rewrite (mk_lift_bind _ _ _ _ Eg).
Qed.

(** In this variant palette entries 0x04, 0x08, ..., 0x1C are all folded
    onto entry 0x00: a write through entry [i] is read back (as its low six
    bits) through entry [j] exactly when both fold to the same entry, so a
    write to any entry that is a multiple of four replaces the backdrop
    colour, and every other read returns what it returned before. *)
Theorem monika_palette_folds_every_fourth_entry (m : Bus.state) (i j d : Z) :
  length (Ppu.palette_ram (Bus.ppu m)) = 32%nat ->
  0 <= i < 32 -> 0 <= j < 32 ->
  exists m' before,
    bus_ppu_read (0x3F00 + j) m = Ok (before, m) /\
    bus_ppu_write (0x3F00 + i) d m = Ok (tt, m') /\
    length (Ppu.palette_ram (Bus.ppu m')) = 32%nat /\
    bus_ppu_read (0x3F00 + j) m'
    = Ok (if folded i =? folded j then Z.land d 0x3F else before, m').
Proof.
  intros Hlen Hi Hj.
  destruct (mk_bus_ppu_read_palette_entry m j Hj Hlen) as [e [En Er]].
  exists (mk_palette_stored m (folded i) (Z.land d 0x3F)), (Z.land e 0x3F).
  split; [exact Er|].
  split; [now apply mk_bus_ppu_write_palette|].
  assert (Hlen' : length (Ppu.palette_ram
                            (Bus.ppu (mk_palette_stored m (folded i) (Z.land d 0x3F))))
                  = 32%nat).
  { cbn. now rewrite length_list_update. }
  split; [exact Hlen'|].
  destruct (mk_bus_ppu_read_palette_entry _ j Hj Hlen') as [e' [En' Er']].
  rewrite Er'. f_equal. f_equal.
  unfold mk_palette_stored in En'.
  cbn [Bus.ppu Bus.set_ppu Ppu.palette_ram Ppu.set_palette_ram] in En'.
  pose proof (folded_bound i Hi) as Bi. pose proof (folded_bound j Hj) as Bj.
  destruct (Z.eqb_spec (folded i) (folded j)) as [E|E].
  - rewrite E in En'. rewrite nth_error_list_update_eq in En' by (rewrite Hlen; lia).
    inversion En'. rewrite <- Z.land_assoc. now rewrite Z.land_diag.
  - rewrite nth_error_list_update_neq in En' by lia. congruence.
Qed.

Lemma monika_palette_folds_witness :
  length (Ppu.palette_ram (Bus.ppu Bus_init)) = 32%nat /\
  0 <= 0x08 < 32 /\ 0 <= 0x00 < 32 /\
  exists m' before,
    bus_ppu_read (0x3F00 + 0x00) Bus_init = Ok (before, Bus_init) /\
    bus_ppu_write (0x3F00 + 0x08) 0x2A Bus_init = Ok (tt, m') /\
    length (Ppu.palette_ram (Bus.ppu m')) = 32%nat /\
    bus_ppu_read (0x3F00 + 0x00) m'
    = Ok (if folded 0x08 =? folded 0x00 then Z.land 0x2A 0x3F else before, m').
Proof.
  assert (H0 : length (Ppu.palette_ram (Bus.ppu Bus_init)) = 32%nat) by reflexivity.
  assert (H1 : 0 <= 0x08 < 32) by lia.
  assert (H2 : 0 <= 0x00 < 32) by lia.
  split; [exact H0|]. split; [exact H1|]. split; [exact H2|].
  exact (monika_palette_folds_every_fourth_entry Bus_init 0x08 0x00 0x2A H0 H1 H2).
Defined.


(** ** Branches *)

(** Whether this variant's branch operation [o] is taken under [m]'s
    flags; [None] for the other operations. *)
Definition monika_branch_taken (o : Operation) (m : Bus.state) : option bool :=
  match o with
  | oBPL => Some (flag_value m FLAG_N =? 0) | oBMI => Some (flag_value m FLAG_N =? 1)
  | oBVC => Some (flag_value m FLAG_V =? 0) | oBVS => Some (flag_value m FLAG_V =? 1)
  | oBCC => Some (flag_value m FLAG_C =? 0) | oBCS => Some (flag_value m FLAG_C =? 1)
  | oBNE => Some (flag_value m FLAG_Z =? 0) | oBEQ => Some (flag_value m FLAG_Z =? 1)
  | _ => None
  end.

Definition monika_branch_op (o : Operation) : Py Z :=
  match o with
  | oBPL => BPL | oBMI => BMI | oBVC => BVC | oBVS => BVS
  | oBCC => BCC | oBCS => BCS | oBNE => BNE | oBEQ => BEQ
  | _ => ret 0
  end.

Lemma monika_branch_spec (cond : bool) (m : Bus.state) :
  let pc := Cpu.pc (Bus.cpu m) in
  let target := pc + Cpu.addr_rel (Bus.cpu m) in
  exists m',
    branch cond m = Ok (0, m') /\
    Cpu.pc (Bus.cpu m') = (if cond then target else pc) /\
    Cpu.cycles (Bus.cpu m')
    = Cpu.cycles (Bus.cpu m)
      + (if cond then if Z.land target 0xFF00 =? Z.land pc 0xFF00 then 1 else 3 else 0).
Proof.
  cbv zeta. unfold branch. destruct cond.
  - mk_steps. mk_proj.
    destruct (Z.land (Cpu.pc (Bus.cpu m) + Cpu.addr_rel (Bus.cpu m)) 0xFF00
              =? Z.land (Cpu.pc (Bus.cpu m)) 0xFF00);
      simpl negb; cbv iota; mk_steps; eexists; (split; [reflexivity|]); mk_proj;
      split; try reflexivity; lia.
  - mk_steps. eexists. split; [reflexivity|]. split; [reflexivity|lia].
Qed.

(** The eight branch operations of this variant: the branch is taken on
    its flag condition; a branch not taken adds nothing to the cycle
    counter, a taken one adds 1, and a taken one whose target lies on
    another page than the incremented PC adds 3 (1 and then 2 more), not the
    2 of the 6502. *)
Theorem monika_branch_adds_1_or_3_cycles (o : Operation) (taken : bool) (m : Bus.state) :
  monika_branch_taken o m = Some taken ->
  let pc := Cpu.pc (Bus.cpu m) in
  let target := pc + Cpu.addr_rel (Bus.cpu m) in
  exists m',
    monika_branch_op o m = Ok (0, m') /\
    Cpu.pc (Bus.cpu m') = (if taken then target else pc) /\
    Cpu.cycles (Bus.cpu m')
    = Cpu.cycles (Bus.cpu m)
      + (if taken then if Z.land target 0xFF00 =? Z.land pc 0xFF00 then 1 else 3 else 0).
Proof.
  intros Ht.
  destruct o; try discriminate; cbn [monika_branch_taken] in Ht; inversion Ht; subst taken;
    cbn [monika_branch_op];
    unfold BPL, BMI, BVC, BVS, BCC, BCS, BNE, BEQ;
    unfold bind at 1; rewrite get_flag_value; apply monika_branch_spec.
Qed.

(** [BNE] with Z clear, the PC at 0x00F0 and a forward offset of 0x20. *)
Definition monika_branch_machine : Bus.state :=
  Bus.set_cpu (Cpu.set_addr_rel 0x20 (Cpu.set_pc 0x00F0 CPU6502_init)) Bus_init.

Lemma monika_branch_adds_1_or_3_cycles_witness :
  monika_branch_taken oBNE monika_branch_machine = Some true /\
  exists m',
    monika_branch_op oBNE monika_branch_machine = Ok (0, m') /\
    Cpu.pc (Bus.cpu m') = 0x00F0 + 0x20 /\
    Cpu.cycles (Bus.cpu m') = 0 + 3.
Proof.
  assert (H0 : monika_branch_taken oBNE monika_branch_machine = Some true) by reflexivity.
  split; [exact H0|].
  exact (monika_branch_adds_1_or_3_cycles oBNE true monika_branch_machine H0).
Defined.

(** ** Reset, on a machine with a cartridge *)

Definition monika_cart_machine : Bus.state :=
  match NESRom_init CpuFacts.nrom_image with
  | Ok r => Bus.set_cart (Some (mkCartridge r)) Bus_init
  | Raise _ => Bus_init
  end.

Lemma monika_reset_witness :
  eval (read 0xFFFC) monika_cart_machine = Some 0x00 /\
  eval (read 0xFFFD) monika_cart_machine = Some 0x80 /\
  exists m',
    reset monika_cart_machine = Ok (tt, m') /\
    Cpu.pc (Bus.cpu m') = Z.lor (Z.shiftl 0x80 8) 0x00 /\
    Cpu.stkp (Bus.cpu m') = 0xFD /\
    eval (get_flag FLAG_I) m' = Some 1 /\
    Cpu.cycles (Bus.cpu m') = 8.
Proof.
  assert (H0 : eval (read 0xFFFC) monika_cart_machine = Some 0x00)
    by (vm_compute; reflexivity).
  assert (H1 : eval (read 0xFFFD) monika_cart_machine = Some 0x80)
    by (vm_compute; reflexivity).
  split; [exact H0|]. split; [exact H1|].
  exact (monika_reset_spec monika_cart_machine 0x00 0x80 H0 H1).
Defined.


(** ** The PPUADDR and PPUDATA ports *)

Lemma mk_bus_ppu_read_pure (addr d : Z) (m m' : Bus.state) :
  bus_ppu_read addr m = Ok (d, m') -> m' = m.
Proof.
  intros H.
  assert (P : preserves (fun s => s = m) (bus_ppu_read addr)).
  { unfold bus_ppu_read, ppu_get. repeat preserves_step fail fail. }
  exact (P m d m' eq_refl H).
Qed.

(** The palette test of [cpu_read], on a 14-bit address. *)
Lemma mk_palette_test (v : Z) :
  0 <= v < 0x4000 -> (Z.land v 0x3F00 =? 0x3F00) = between 0x3F00 v 0x3FFF.
Proof.
  intros Hv.
  pose (P := fun v => Bool.eqb (Z.land v 0x3F00 =? 0x3F00) (between 0x3F00 v 0x3FFF)).
  assert (HP : P v = true).
  { apply (RangeFacts.forall_from_spec P (Z.to_nat 0x4000) 0);
      [vm_compute; reflexivity|lia]. }
  now apply Bool.eqb_prop in HP.
Qed.

Ltac port_proj :=
  cbn [Bus.ppu Bus.set_ppu Ppu.vram_addr Ppu.temp_vram_addr Ppu.address_latch
       Ppu.buffer_data Ppu.PPUCTRL Ppu.set_vram_addr Ppu.set_temp_vram_addr
       Ppu.set_address_latch Ppu.set_buffer_data].

(** Two writes of 0x00 to PPUADDR, the address latch being clear. *)
Lemma mk_ppuaddr_zero_twice (m : Bus.state) :
  Ppu.address_latch (Bus.ppu m) = 0 ->
  exists m0,
    (ppu_cpu_write 0x2006 0x00 ;; ppu_cpu_write 0x2006 0x00) m = Ok (tt, m0) /\
    Ppu.vram_addr (Bus.ppu m0) = 0x0000 /\
    Ppu.address_latch (Bus.ppu m0) = 0.
Proof.
  intros Hw. unfold ppu_cpu_write.
  change (0x2006 =? 0x2000) with false. change (0x2006 =? 0x2001) with false.
  change (0x2006 =? 0x2003) with false. change (0x2006 =? 0x2004) with false.
  change (0x2006 =? 0x2005) with false. change (0x2006 =? 0x2006) with true.
  cbv iota. mk_steps. rewrite Hw. change (0 =? 0) with true. cbv iota.
  mk_steps. port_proj. change (1 =? 0) with false. cbv iota zeta. mk_steps.
  eexists. split; [reflexivity|]. port_proj. split; [|reflexivity].
  change (Z.land 0 63) with 0. change (Z.shiftl 0 8) with 0.
  rewrite !Z.lor_0_r. rewrite <- Z.land_assoc. apply Z.land_0_r.
Qed.

Lemma mk_increment_vram_addr_spec (m : Bus.state) :
  exists v',
    increment_vram_addr m = Ok (tt, Bus.set_ppu (Ppu.set_vram_addr v' (Bus.ppu m)) m) /\
    0 <= v' < 0x4000.
Proof.
  unfold increment_vram_addr. mk_steps.
  destruct (truthy _); eexists; (split; [reflexivity|]);
    change 0x3FFF with (Z.ones 14); apply (land_ones_bound _ 14); lia.
Qed.

(** One read of PPUDATA. *)
Lemma mk_ppudata_read_spec (m : Bus.state) (d b : Z) :
  0 <= Ppu.vram_addr (Bus.ppu m) < 0x4000 ->
  eval (bus_ppu_read (Ppu.vram_addr (Bus.ppu m))) m = Some d ->
  (between 0x3F00 (Ppu.vram_addr (Bus.ppu m)) 0x3FFF = true ->
   eval (bus_ppu_read (Ppu.vram_addr (Bus.ppu m) - 0x1000)) m = Some b) ->
  exists m',
    ppu_cpu_read 0x2007 m
    = Ok (if between 0x3F00 (Ppu.vram_addr (Bus.ppu m)) 0x3FFF then d
          else Ppu.buffer_data (Bus.ppu m), m') /\
    Ppu.buffer_data (Bus.ppu m')
    = (if between 0x3F00 (Ppu.vram_addr (Bus.ppu m)) 0x3FFF then b else d) /\
    0 <= Ppu.vram_addr (Bus.ppu m') < 0x4000.
Proof.
  intros Hv Hd Hb. unfold eval in Hd.
  destruct (bus_ppu_read (Ppu.vram_addr (Bus.ppu m)) m) as [[d' m1]|e] eqn:Er; [|discriminate].
  inversion Hd; subst d'. pose proof (mk_bus_ppu_read_pure _ _ _ _ Er). subst m1.
  unfold ppu_cpu_read.
  change (0x2007 =? 0x2002) with false. change (0x2007 =? 0x2004) with false.
  change (0x2007 =? 0x2007) with true. cbv iota. rewrite mk_ppu_get_bind.
  rewrite mk_palette_test by assumption.
  destruct (between 0x3F00 (Ppu.vram_addr (Bus.ppu m)) 0x3FFF) eqn:Ep.
  - specialize (Hb eq_refl). unfold eval in Hb.
    destruct (bus_ppu_read (Ppu.vram_addr (Bus.ppu m) - 0x1000) m)
      as [[b' m1]|e] eqn:Eb; [|discriminate].
    inversion Hb; subst b'. pose proof (mk_bus_ppu_read_pure _ _ _ _ Eb). subst m1.
    assert (Hge : (Ppu.vram_addr (Bus.ppu m) >=? 0x3000) = true).
    { unfold between in Ep. apply andb_true_iff in Ep. destruct Ep as [E1 _].
      apply Z.leb_le in E1. apply Z.geb_le. lia. }
    rewrite Hge. cbv iota. mk_steps.
    rewrite (bind_eq _ _ _ _ _ Er). mk_steps.
    rewrite (bind_eq _ _ _ _ _ Eb). mk_steps.
    destruct (mk_increment_vram_addr_spec
                (Bus.set_ppu (Ppu.set_buffer_data b (Bus.ppu m)) m)) as (v' & Ei & Hv').
    rewrite (bind_eq _ _ _ _ _ Ei).
    eexists. split; [reflexivity|]. port_proj. split; [reflexivity|exact Hv'].
  - mk_steps. rewrite (bind_eq _ _ _ _ _ Er). mk_steps.
    destruct (mk_increment_vram_addr_spec
                (Bus.set_ppu (Ppu.set_buffer_data d (Bus.ppu m)) m)) as (v' & Ei & Hv').
    rewrite (bind_eq _ _ _ _ _ Ei).
    eexists. split; [reflexivity|]. port_proj. split; [reflexivity|exact Hv'].
Qed.

(** [n] reads of PPUDATA in a row. *)
Definition mk_ppudata_reads (n : nat) : Py unit :=
  repeat_m n (ppu_cpu_read 0x2007 ;; ret tt).

Lemma mk_ppudata_read_keeps_v_14bit :
  preserves (fun s => 0 <= Ppu.vram_addr (Bus.ppu s) < 0x4000)
            (ppu_cpu_read 0x2007 ;; ret tt).
Proof.
  intros s a s' Hv E. apply bind_ok in E. destruct E as (d & s1 & E & Er).
  inversion Er; subst s'. clear Er.
  unfold ppu_cpu_read in E.
  change (0x2007 =? 0x2002) with false in E. change (0x2007 =? 0x2004) with false in E.
  change (0x2007 =? 0x2007) with true in E. cbv iota in E.
  apply bind_ok in E. destruct E as (v & s2 & _ & E).
  apply bind_ok in E. destruct E as (x & s3 & _ & E).
  apply bind_ok in E. destruct E as (u & s4 & Ei & E).
  unfold ret in E. inversion E; subst.
  destruct (mk_increment_vram_addr_spec s3) as (v' & Ei' & Hv').
  rewrite Ei' in Ei. inversion Ei; subst. port_proj. exact Hv'.
Qed.

(** The PPU ports of this variant behave as those of EMUNES5 do.  With the
    address latch clear, two writes of 0x00 to PPUADDR leave the VRAM
    address 0x0000.  After any number of PPUDATA reads, the next read
    returns the value buffered before it and refills the buffer from the
    VRAM address; from 0x3F00 up it returns the palette byte at once and
    refills the buffer from the nametable address 0x1000 below. *)
Theorem monika_ppuaddr_then_ppudata (m : Bus.state) :
  Ppu.address_latch (Bus.ppu m) = 0 ->
  exists m0,
    (ppu_cpu_write 0x2006 0x00 ;; ppu_cpu_write 0x2006 0x00) m = Ok (tt, m0) /\
    Ppu.vram_addr (Bus.ppu m0) = 0x0000 /\
    forall (n : nat) (m1 : Bus.state) (d b : Z),
      exec (mk_ppudata_reads n) m0 = Some m1 ->
      let v := Ppu.vram_addr (Bus.ppu m1) in
      eval (bus_ppu_read v) m1 = Some d ->
      (between 0x3F00 v 0x3FFF = true -> eval (bus_ppu_read (v - 0x1000)) m1 = Some b) ->
      exists m2,
        ppu_cpu_read 0x2007 m1
        = Ok (if between 0x3F00 v 0x3FFF then d else Ppu.buffer_data (Bus.ppu m1), m2) /\
        Ppu.buffer_data (Bus.ppu m2) = (if between 0x3F00 v 0x3FFF then b else d).
Proof.
  intros Hw.
  destruct (mk_ppuaddr_zero_twice m Hw) as (m0 & E0 & Hv0 & _).
  exists m0. split; [exact E0|]. split; [exact Hv0|].
  intros n m1 d b En v Ed Eb.
  assert (Hv1 : 0 <= Ppu.vram_addr (Bus.ppu m1) < 0x4000).
  { unfold exec in En.
    destruct (mk_ppudata_reads n m0) as [[u s]|e] eqn:Es; [|discriminate].
    inversion En; subst s.
    refine (preserves_repeat_m _ n _ mk_ppudata_read_keeps_v_14bit m0 u m1 _ Es).
    rewrite Hv0. lia. }
  destruct (mk_ppudata_read_spec m1 d b Hv1 Ed Eb) as (m2 & E2 & Hb & _).
  now exists m2.
Qed.

Lemma monika_ppuaddr_then_ppudata_witness :
  Ppu.address_latch (Bus.ppu monika_cart_machine) = 0 /\
  exists m0,
    (ppu_cpu_write 0x2006 0x00 ;; ppu_cpu_write 0x2006 0x00) monika_cart_machine
    = Ok (tt, m0) /\
    Ppu.vram_addr (Bus.ppu m0) = 0x0000 /\
    forall (n : nat) (m1 : Bus.state) (d b : Z),
      exec (mk_ppudata_reads n) m0 = Some m1 ->
      let v := Ppu.vram_addr (Bus.ppu m1) in
      eval (bus_ppu_read v) m1 = Some d ->
      (between 0x3F00 v 0x3FFF = true -> eval (bus_ppu_read (v - 0x1000)) m1 = Some b) ->
      exists m2,
        ppu_cpu_read 0x2007 m1
        = Ok (if between 0x3F00 v 0x3FFF then d else Ppu.buffer_data (Bus.ppu m1), m2) /\
        Ppu.buffer_data (Bus.ppu m2) = (if between 0x3F00 v 0x3FFF then b else d).
Proof.
  assert (H0 : Ppu.address_latch (Bus.ppu monika_cart_machine) = 0) by reflexivity.
  split; [exact H0|].
  exact (monika_ppuaddr_then_ppudata monika_cart_machine H0).
Defined.

(** The reads do happen: a byte stored at PPU address 0 (CHR-RAM) comes
    back from the second PPUDATA read. *)
Example monika_ppudata_one_read_late :
  eval (ppu_cpu_write 0x2006 0x00 ;; ppu_cpu_write 0x2006 0x00 ;;
        ppu_cpu_write 0x2007 0x5A ;;
        ppu_cpu_write 0x2006 0x00 ;; ppu_cpu_write 0x2006 0x00 ;;
        first <- ppu_cpu_read 0x2007 ;;
        second <- ppu_cpu_read 0x2007 ;;
        ret (first, second)) monika_cart_machine
  = Some (0x00, 0x5A).
Proof. vm_compute. reflexivity. Qed.

End MonikaPpuFacts.

(** * Nametables, pattern tables and OAM behind the PPU bus (EMUNES5) *)

Module PpuBusFacts.
Import EMUNES5.
Import PaletteMirrorFacts (between_true, between_false, forall_below, land_3FFF_small,
                           cart_handles_ppu_write_high, cart_ppu_read_high).

(** The logical nametable (0 to 3) a PPU address in 0x2000-0x3EFF falls in,
    and the physical one of the two in VRAM that holds it: with horizontal
    mirroring (mode 0) tables 0 and 1 share one and tables 2 and 3 the
    other; with vertical mirroring tables 0 and 2 share one, 1 and 3 the
    other. *)
Definition nametable_of (addr : Z) : Z := ((addr - 0x2000) / 0x400) mod 4.

Definition physical_table (mode nt : Z) : Z :=
  if mode =? 0 then nt / 2 else nt mod 2.

(** The index [Bus.ppu_read] and [Bus.ppu_write] compute. *)
Definition nametable_index (mode addr : Z) : Z :=
  if mode =? 0 then Z.lor (Z.shiftr (Z.land addr 0x0800) 1) (Z.land addr 0x03FF)
  else Z.land addr 0x07FF.

Definition nametable_check (addr : Z) : bool :=
  negb (between 0x2000 addr 0x3EFF)
  || ((nametable_index 0 addr =? physical_table 0 (nametable_of addr) * 0x400 + addr mod 0x400)
      && (nametable_index 1 addr
          =? physical_table 1 (nametable_of addr) * 0x400 + addr mod 0x400)).

Lemma nametable_check_all :
  RangeFacts.forall_from nametable_check 0 (Z.to_nat 0x4000) = true.
Proof. vm_compute. reflexivity. Qed.

(** The bit arithmetic of the bus is the mirroring arrangement. *)
Lemma nametable_index_meaning (mode addr : Z) :
  0x2000 <= addr <= 0x3EFF ->
  nametable_index mode addr
  = physical_table mode (nametable_of addr) * 0x400 + addr mod 0x400.
Proof.
  intros Ha.
  pose proof (RangeFacts.forall_from_spec nametable_check _ 0 nametable_check_all addr
                ltac:(lia)) as H.
  unfold nametable_check in H. rewrite between_true in H by lia. simpl negb in H.
  rewrite orb_false_l in H. apply andb_true_iff in H. destruct H as [H0 H1].
  apply Z.eqb_eq in H0. apply Z.eqb_eq in H1.
  unfold nametable_index, physical_table in *.
  destruct (Z.eqb_spec mode 0) as [->|Hm]; [exact H0|exact H1].
Qed.

Lemma nametable_index_bound (mode addr : Z) :
  0x2000 <= addr <= 0x3EFF -> 0 <= nametable_index mode addr < 2048.
Proof.
  intros Ha. rewrite nametable_index_meaning by assumption.
  pose proof (Z.mod_pos_bound addr 0x400 ltac:(lia)).
  pose proof (Z.mod_pos_bound ((addr - 0x2000) / 0x400) 4 ltac:(lia)) as Hn.
  fold (nametable_of addr) in Hn.
  unfold physical_table. destruct (mode =? 0).
  - assert (0 <= nametable_of addr / 2 <= 1).
    { split; [apply Z.div_pos; lia|]. apply Z.lt_succ_r. apply Z.div_lt_upper_bound; lia. }
    lia.
  - pose proof (Z.mod_pos_bound (nametable_of addr) 2 ltac:(lia)). lia.
Qed.

Lemma mirror_addr_spec (m : Bus.state) (c : Cartridge) (addr : Z) :
  Bus.cart m = Some c ->
  mirror_addr addr m = Ok (nametable_index (mirror_mode (rom c)) addr, m).
Proof.
  intros Hc. unfold mirror_addr, nametable_index, bind, gets. rewrite Hc.
  now destruct (mirror_mode (rom c) =? 0).
Qed.

Definition vram_stored (m : Bus.state) (k v : Z) : Bus.state :=
  Bus.set_ppu
    (Ppu.set_vram (list_update (Ppu.vram (Bus.ppu m)) (Z.to_nat k) v) (Bus.ppu m)) m.

Lemma bus_ppu_write_nametable (m : Bus.state) (c : Cartridge) (addr d : Z) :
  Bus.cart m = Some c ->
  length (Ppu.vram (Bus.ppu m)) = 2048%nat ->
  0x2000 <= addr <= 0x3EFF ->
  0 <= d <= 255 ->
  bus_ppu_write addr d m
  = Ok (tt, vram_stored m (nametable_index (mirror_mode (rom c)) addr) d).
Proof.
  intros Hc Hlen Ha Hd. unfold bus_ppu_write.
  rewrite land_3FFF_small by lia.
  rewrite (bind_eq _ _ _ _ _ (cart_handles_ppu_write_high m addr d ltac:(lia))).
  cbv iota. rewrite between_true by lia.
  rewrite (bind_eq _ _ _ _ _ (mirror_addr_spec m c addr Hc)).
  pose proof (nametable_index_bound (mirror_mode (rom c)) addr Ha).
  unfold ppu_get, ppu_upd, bind, gets, lift, modify.
  rewrite bytearray_setitem_ok by (rewrite ?Hlen; lia).
  reflexivity.
Qed.

Lemma bus_ppu_read_nametable (m : Bus.state) (c : Cartridge) (addr : Z) :
  Bus.cart m = Some c ->
  length (Ppu.vram (Bus.ppu m)) = 2048%nat ->
  0x2000 <= addr <= 0x3EFF ->
  exists e,
    nth_error (Ppu.vram (Bus.ppu m))
              (Z.to_nat (nametable_index (mirror_mode (rom c)) addr)) = Some e /\
    bus_ppu_read addr m = Ok (e, m).
Proof.
  intros Hc Hlen Ha. unfold bus_ppu_read.
  rewrite land_3FFF_small by lia.
  pose proof (nametable_index_bound (mirror_mode (rom c)) addr Ha) as Hb.
  destruct (py_getitem_inrange (Ppu.vram (Bus.ppu m))
              (nametable_index (mirror_mode (rom c)) addr))
    as [e [Eg En]]; [rewrite Hlen; lia|].
  exists e. split; [exact En|].
  unfold bind at 1. unfold gets at 1. rewrite Hc.
  unfold bind at 1. unfold lift at 1. rewrite cart_ppu_read_high by lia.
  rewrite between_true by lia.
  rewrite (bind_eq _ _ _ _ _ (mirror_addr_spec m c addr Hc)).
  unfold ppu_get, bind, gets, lift. now rewrite Eg.
Qed.

(** Nametable mirroring.  With a cartridge inserted, a byte written through
    a nametable address is read back through another nametable address
    exactly when both have the same offset in their 1 KB table and their
    tables share a physical table under the cartridge's mirroring mode
    (horizontal: 0 with 1 and 2 with 3; vertical: 0 with 2 and 1 with 3);
    any other nametable read returns what it returned before. *)
Theorem nametable_mirroring (m : Bus.state) (c : Cartridge) (addr addr' d : Z) :
  Bus.cart m = Some c ->
  length (Ppu.vram (Bus.ppu m)) = 2048%nat ->
  0x2000 <= addr <= 0x3EFF -> 0x2000 <= addr' <= 0x3EFF ->
  0 <= d <= 255 ->
  let mode := mirror_mode (rom c) in
  let shared :=
    (addr mod 0x400 =? addr' mod 0x400)
    && (physical_table mode (nametable_of addr)
        =? physical_table mode (nametable_of addr')) in
  exists m' before,
    bus_ppu_read addr' m = Ok (before, m) /\
    bus_ppu_write addr d m = Ok (tt, m') /\
    length (Ppu.vram (Bus.ppu m')) = 2048%nat /\
    bus_ppu_read addr' m' = Ok (if shared then d else before, m').
Proof.
  intros Hc Hlen Ha Ha' Hd mode shared.
  destruct (bus_ppu_read_nametable m c addr' Hc Hlen Ha') as [e [En Er]].
  exists (vram_stored m (nametable_index mode addr) d), e.
  split; [exact Er|].
  split; [now apply bus_ppu_write_nametable|].
  assert (Hc' : Bus.cart (vram_stored m (nametable_index mode addr) d) = Some c)
    by exact Hc.
  assert (Hlen' : length (Ppu.vram (Bus.ppu (vram_stored m (nametable_index mode addr) d)))
                  = 2048%nat).
  { cbn. now rewrite length_list_update. }
  split; [exact Hlen'|].
  destruct (bus_ppu_read_nametable _ c addr' Hc' Hlen' Ha') as [e' [En' Er']].
  rewrite Er'. f_equal. f_equal.
  unfold vram_stored in En'. cbn [Bus.ppu Bus.set_ppu Ppu.vram Ppu.set_vram] in En'.
  fold mode in En, En'.
  pose proof (nametable_index_bound mode addr Ha) as Bi.
  pose proof (nametable_index_bound mode addr' Ha') as Bj.
  assert (Hs : shared = (nametable_index mode addr =? nametable_index mode addr')).
  { unfold shared. rewrite !nametable_index_meaning by assumption.
    pose proof (Z.mod_pos_bound addr 0x400 ltac:(lia)).
    pose proof (Z.mod_pos_bound addr' 0x400 ltac:(lia)).
    destruct (Z.eqb_spec (addr mod 0x400) (addr' mod 0x400)) as [E1|E1];
      destruct (Z.eqb_spec (physical_table mode (nametable_of addr))
                           (physical_table mode (nametable_of addr'))) as [E2|E2];
      simpl; symmetry; [apply Z.eqb_eq|apply Z.eqb_neq..]; nia. }
  rewrite Hs.
  destruct (Z.eqb_spec (nametable_index mode addr) (nametable_index mode addr')) as [E|E].
  - rewrite E in En'. rewrite nth_error_list_update_eq in En' by (rewrite Hlen; lia).
    now inversion En'.
  - rewrite nth_error_list_update_neq in En' by lia. congruence.
Qed.

(** The cartridge of an image that is a header and nothing else (no PRG,
    CHR-RAM, horizontal mirroring), and the machine with it inserted. *)
Definition blank_cart : Cartridge :=
  mkCartridge
    (mkNESRom LoaderEdgeFacts.header_only (py_slice LoaderEdgeFacts.header_only 0 16)
              0 0 0 0 false false 16 [] 16 [] (Some (bytearray 8192))).

Example blank_cart_is_loaded :
  NESRom_init LoaderEdgeFacts.header_only = Ok (rom blank_cart).
Proof. reflexivity. Qed.

Definition blank_machine : Bus.state := Bus.set_cart (Some blank_cart) Bus_init.

Lemma nametable_mirroring_witness :
  Bus.cart blank_machine = Some blank_cart /\
  length (Ppu.vram (Bus.ppu blank_machine)) = 2048%nat /\
  0x2000 <= 0x2005 <= 0x3EFF /\ 0x2000 <= 0x2405 <= 0x3EFF /\ 0 <= 0x7E <= 255 /\
  exists m' before,
    bus_ppu_read 0x2405 blank_machine = Ok (before, blank_machine) /\
    bus_ppu_write 0x2005 0x7E blank_machine = Ok (tt, m') /\
    length (Ppu.vram (Bus.ppu m')) = 2048%nat /\
    bus_ppu_read 0x2405 m'
    = Ok (if (0x2005 mod 0x400 =? 0x2405 mod 0x400)
             && (physical_table (mirror_mode (rom blank_cart)) (nametable_of 0x2005)
                 =? physical_table (mirror_mode (rom blank_cart)) (nametable_of 0x2405))
          then 0x7E else before, m').
Proof.
  assert (H0 : Bus.cart blank_machine = Some blank_cart) by reflexivity.
  assert (H1 : length (Ppu.vram (Bus.ppu blank_machine)) = 2048%nat) by reflexivity.
  assert (H2 : 0x2000 <= 0x2005 <= 0x3EFF) by lia.
  assert (H3 : 0x2000 <= 0x2405 <= 0x3EFF) by lia.
  assert (H4 : 0 <= 0x7E <= 255) by lia.
  split; [exact H0|]. split; [exact H1|]. split; [exact H2|]. split; [exact H3|].
  split; [exact H4|].
  exact (nametable_mirroring blank_machine blank_cart 0x2005 0x2405 0x7E H0 H1 H2 H3 H4).
Defined.


(** ** Pattern tables: CHR-RAM and CHR-ROM *)

Lemma land_1FFF_small (a : Z) : 0 <= a <= 0x1FFF -> Z.land a 0x1FFF = a.
Proof.
  intros H. change 0x1FFF with (Z.ones 13). rewrite Z.land_ones by lia.
  apply Z.mod_small. lia.
Qed.

(** The cartridge after a store to its CHR-RAM. *)
Definition chr_stored (c : Cartridge) (ram : list Z) (k v : Z) : Cartridge :=
  mkCartridge (set_chr_ram (Some (list_update ram (Z.to_nat k) v)) (rom c)).

Lemma bus_ppu_write_chr_ram (m : Bus.state) (c : Cartridge) (ram : list Z) (addr d : Z) :
  Bus.cart m = Some c ->
  chr_ram (rom c) = Some ram ->
  Z.of_nat (length ram) = 8192 ->
  0 <= addr <= 0x1FFF ->
  0 <= d <= 255 ->
  bus_ppu_write addr d m = Ok (tt, Bus.set_cart (Some (chr_stored c ram addr d)) m).
Proof.
  intros Hc Hr Hlen Ha Hd. unfold bus_ppu_write.
  rewrite land_3FFF_small by lia.
  unfold cart_handles_ppu_write, bind, gets. rewrite Hc.
  unfold cart_ppu_write, write_chr. rewrite between_true by lia. rewrite Hr.
  rewrite land_1FFF_small by lia.
  rewrite bytearray_setitem_ok by lia.
  reflexivity.
Qed.

Lemma bus_ppu_read_chr_ram (m : Bus.state) (c : Cartridge) (ram : list Z) (addr : Z) :
  Bus.cart m = Some c ->
  chr_rom_size (rom c) = 0 ->
  chr_ram (rom c) = Some ram ->
  Z.of_nat (length ram) = 8192 ->
  0 <= addr <= 0x1FFF ->
  exists e,
    nth_error ram (Z.to_nat addr) = Some e /\ bus_ppu_read addr m = Ok (e, m).
Proof.
  intros Hc Hs Hr Hlen Ha. unfold bus_ppu_read.
  rewrite land_3FFF_small by lia.
  destruct (py_getitem_inrange ram addr) as [e [Eg En]]; [lia|].
  exists e. split; [exact En|].
  unfold bind, gets. rewrite Hc. unfold lift at 1.
  unfold cart_ppu_read, read_chr. rewrite between_true by lia.
  rewrite Hs, Hr. change (0 >? 0) with false. cbv iota.
  rewrite land_1FFF_small by lia. now rewrite Eg.
Qed.

(** A cartridge without CHR-ROM keeps what is written to the pattern
    tables: a byte written at a PPU address below 0x2000 is read back at
    that address, every other pattern address reads as before, and the
    CHR-RAM stays 8 KB. *)
Theorem chr_ram_keeps_pattern_writes (m : Bus.state) (c : Cartridge) (ram : list Z)
        (addr addr' d : Z) :
  Bus.cart m = Some c ->
  chr_rom_size (rom c) = 0 ->
  chr_ram (rom c) = Some ram ->
  Z.of_nat (length ram) = 8192 ->
  0 <= addr <= 0x1FFF -> 0 <= addr' <= 0x1FFF ->
  0 <= d <= 255 ->
  exists m' c' ram' before,
    bus_ppu_read addr' m = Ok (before, m) /\
    bus_ppu_write addr d m = Ok (tt, m') /\
    Bus.cart m' = Some c' /\ chr_ram (rom c') = Some ram' /\
    Z.of_nat (length ram') = 8192 /\
    bus_ppu_read addr' m' = Ok (if addr =? addr' then d else before, m').
Proof.
  intros Hc Hs Hr Hlen Ha Ha' Hd.
  destruct (bus_ppu_read_chr_ram m c ram addr' Hc Hs Hr Hlen Ha') as [e [En Er]].
  exists (Bus.set_cart (Some (chr_stored c ram addr d)) m), (chr_stored c ram addr d),
         (list_update ram (Z.to_nat addr) d), e.
  split; [exact Er|].
  split; [now apply (bus_ppu_write_chr_ram m c ram)|].
  split; [reflexivity|]. split; [reflexivity|].
  assert (Hlen' : Z.of_nat (length (list_update ram (Z.to_nat addr) d)) = 8192)
    by now rewrite length_list_update.
  split; [exact Hlen'|].
  destruct (bus_ppu_read_chr_ram (Bus.set_cart (Some (chr_stored c ram addr d)) m)
              (chr_stored c ram addr d) (list_update ram (Z.to_nat addr) d) addr'
              eq_refl Hs eq_refl Hlen' Ha') as [e' [En' Er']].
  rewrite Er'. f_equal. f_equal.
  destruct (Z.eqb_spec addr addr') as [E|E].
  - subst addr'. rewrite nth_error_list_update_eq in En' by lia. now inversion En'.
  - rewrite nth_error_list_update_neq in En' by lia. congruence.
Qed.

Lemma chr_ram_keeps_pattern_writes_witness :
  Bus.cart blank_machine = Some blank_cart /\
  chr_rom_size (rom blank_cart) = 0 /\
  chr_ram (rom blank_cart) = Some (bytearray 8192) /\
  Z.of_nat (length (bytearray 8192)) = 8192 /\
  0 <= 0x0010 <= 0x1FFF /\ 0 <= 0x0010 <= 0x1FFF /\ 0 <= 0x3C <= 255 /\
  exists m' c' ram' before,
    bus_ppu_read 0x0010 blank_machine = Ok (before, blank_machine) /\
    bus_ppu_write 0x0010 0x3C blank_machine = Ok (tt, m') /\
    Bus.cart m' = Some c' /\ chr_ram (rom c') = Some ram' /\
    Z.of_nat (length ram') = 8192 /\
    bus_ppu_read 0x0010 m' = Ok (if 0x0010 =? 0x0010 then 0x3C else before, m').
Proof.
  assert (H0 : Bus.cart blank_machine = Some blank_cart) by reflexivity.
  assert (H1 : chr_rom_size (rom blank_cart) = 0) by reflexivity.
  assert (H2 : chr_ram (rom blank_cart) = Some (bytearray 8192)) by reflexivity.
  assert (H3 : Z.of_nat (length (bytearray 8192)) = 8192)
    by (rewrite length_bytearray; lia).
  assert (H4 : 0 <= 0x0010 <= 0x1FFF) by lia.
  assert (H5 : 0 <= 0x3C <= 255) by lia.
  split; [exact H0|]. split; [exact H1|]. split; [exact H2|]. split; [exact H3|].
  split; [exact H4|]. split; [exact H4|]. split; [exact H5|].
  exact (chr_ram_keeps_pattern_writes blank_machine blank_cart (bytearray 8192)
           0x0010 0x0010 0x3C H0 H1 H2 H3 H4 H4 H5).
Defined.

(** A cartridge with CHR-ROM (no CHR-RAM) ignores writes to the pattern
    tables: the write returns and the machine is exactly as before,
    whatever value is written. *)
Theorem chr_rom_is_read_only (m : Bus.state) (c : Cartridge) (addr d : Z) :
  Bus.cart m = Some c ->
  chr_ram (rom c) = None ->
  0 <= addr <= 0x1FFF ->
  bus_ppu_write addr d m = Ok (tt, m).
Proof.
  intros Hc Hr Ha. unfold bus_ppu_write.
  rewrite land_3FFF_small by lia.
  unfold cart_handles_ppu_write, bind, gets. rewrite Hc.
  unfold cart_ppu_write, write_chr. rewrite between_true by lia. rewrite Hr.
  unfold lift, modify, ret. cbn [fst snd].
  replace (mkCartridge (rom c)) with c by now destruct c.
  rewrite <- Hc. now rewrite PaletteMirrorFacts.set_cart_same.
Qed.

(** A cartridge with one 8 KB CHR-ROM page of zeros. *)
Definition chr_rom_cart : Cartridge :=
  mkCartridge
    (mkNESRom [] [] 0 8192 0 0 false false 16 [] 16 (repeat x00 (Z.to_nat 8192)) None).

Lemma chr_rom_is_read_only_witness :
  Bus.cart (Bus.set_cart (Some chr_rom_cart) Bus_init) = Some chr_rom_cart /\
  chr_ram (rom chr_rom_cart) = None /\
  0 <= 0x0010 <= 0x1FFF /\
  bus_ppu_write 0x0010 0x3C (Bus.set_cart (Some chr_rom_cart) Bus_init)
  = Ok (tt, Bus.set_cart (Some chr_rom_cart) Bus_init).
Proof.
  assert (H0 : Bus.cart (Bus.set_cart (Some chr_rom_cart) Bus_init) = Some chr_rom_cart)
    by reflexivity.
  assert (H1 : chr_ram (rom chr_rom_cart) = None) by reflexivity.
  assert (H2 : 0 <= 0x0010 <= 0x1FFF) by lia.
  split; [exact H0|]. split; [exact H1|]. split; [exact H2|].
  exact (chr_rom_is_read_only (Bus.set_cart (Some chr_rom_cart) Bus_init) chr_rom_cart
           0x0010 0x3C H0 H1 H2).
Defined.

(** ** The OAM ports *)

Ltac reg_proj :=
  cbn [Bus.ppu Bus.set_ppu Ppu.oam Ppu.oamaddr Ppu.set_oam Ppu.set_oamaddr].

Definition oam_stored (m : Bus.state) (k d : Z) : Bus.state :=
  Bus.set_ppu
    (Ppu.set_oamaddr (Z.land (k + 1) 0xFF)
       (Ppu.set_oam (list_update (Ppu.oam (Bus.ppu m)) (Z.to_nat k) d)
          (Ppu.set_oamaddr k (Bus.ppu m)))) m.

Lemma oamdata_write_spec (m : Bus.state) (k d : Z) :
  0 <= k < Z.of_nat (length (Ppu.oam (Bus.ppu m))) ->
  0 <= d <= 255 ->
  (ppu_cpu_write 0x2003 k ;; ppu_cpu_write 0x2004 d) m = Ok (tt, oam_stored m k d).
Proof.
  intros Hk Hd.
  unfold ppu_cpu_write.
  change (0x2003 =? 0x2000) with false. change (0x2003 =? 0x2001) with false.
  change (0x2003 =? 0x2003) with true.
  change (0x2004 =? 0x2000) with false. change (0x2004 =? 0x2001) with false.
  change (0x2004 =? 0x2003) with false. change (0x2004 =? 0x2004) with true.
  cbv iota. PpuPortFacts.ppu_steps. reg_proj.
  rewrite (CpuFacts.lift_bind _ _ _ _
             (bytearray_setitem_ok (Ppu.oam (Bus.ppu m)) k d Hd Hk)).
  PpuPortFacts.ppu_steps. reg_proj.
  reflexivity.
Qed.

Lemma oamdata_read_spec (m : Bus.state) (k e : Z) :
  0 <= k ->
  nth_error (Ppu.oam (Bus.ppu m)) (Z.to_nat k) = Some e ->
  (ppu_cpu_write 0x2003 k ;; ppu_cpu_read 0x2004) m
  = Ok (e, Bus.set_ppu (Ppu.set_oamaddr k (Bus.ppu m)) m).
Proof.
  intros Hk He.
  assert (Hl : (Z.to_nat k < length (Ppu.oam (Bus.ppu m)))%nat)
    by (apply nth_error_Some; congruence).
  unfold ppu_cpu_write, ppu_cpu_read.
  change (0x2003 =? 0x2000) with false. change (0x2003 =? 0x2001) with false.
  change (0x2003 =? 0x2003) with true.
  change (0x2004 =? 0x2002) with false. change (0x2004 =? 0x2004) with true.
  cbv iota. PpuPortFacts.ppu_steps. reg_proj.
  unfold lift, py_getitem.
  rewrite norm_index_inrange by lia.
  now rewrite He.
Qed.

(** The OAM ports.  With OAMADDR set to [k], a write to OAMDATA stores the
    byte at entry [k] and moves OAMADDR to the next entry, from 255 back
    to 0; the byte is read back through OAMDATA once OAMADDR is set to [k]
    again, every other entry reads as before, and a read of OAMDATA does
    not move OAMADDR. *)
Theorem oam_ports_round_trip (m : Bus.state) (k j d : Z) :
  length (Ppu.oam (Bus.ppu m)) = 256%nat ->
  0 <= k <= 255 -> 0 <= j <= 255 -> 0 <= d <= 255 ->
  exists m0 m1 m2 before,
    (ppu_cpu_write 0x2003 j ;; ppu_cpu_read 0x2004) m = Ok (before, m0) /\
    (ppu_cpu_write 0x2003 k ;; ppu_cpu_write 0x2004 d) m = Ok (tt, m1) /\
    Ppu.oamaddr (Bus.ppu m1) = (k + 1) mod 256 /\
    (ppu_cpu_write 0x2003 j ;; ppu_cpu_read 0x2004) m1
    = Ok (if j =? k then d else before, m2) /\
    Ppu.oamaddr (Bus.ppu m2) = j /\
    length (Ppu.oam (Bus.ppu m2)) = 256%nat.
Proof.
  intros Hlen Hk Hj Hd.
  destruct (nth_error (Ppu.oam (Bus.ppu m)) (Z.to_nat j)) as [e|] eqn:Ee.
  2:{ apply nth_error_None in Ee. lia. }
  exists (Bus.set_ppu (Ppu.set_oamaddr j (Bus.ppu m)) m).
  exists (oam_stored m k d).
  exists (Bus.set_ppu (Ppu.set_oamaddr j (Bus.ppu (oam_stored m k d))) (oam_stored m k d)).
  exists e.
  split; [apply oamdata_read_spec; [lia|exact Ee]|].
  split; [apply oamdata_write_spec; [rewrite Hlen|]; lia|].
  split.
  { unfold oam_stored. reg_proj.
    change 0xFF with (Z.ones 8). rewrite Z.land_ones by lia. reflexivity. }
  split.
  - apply oamdata_read_spec; [lia|].
    unfold oam_stored. reg_proj.
    destruct (Z.eqb_spec j k) as [E|E].
    + subst j. apply nth_error_list_update_eq. rewrite Hlen. lia.
    + rewrite nth_error_list_update_neq by lia. exact Ee.
  - split; [reflexivity|].
    unfold oam_stored. reg_proj. now rewrite length_list_update.
Qed.

Lemma oam_ports_round_trip_witness :
  length (Ppu.oam (Bus.ppu Bus_init)) = 256%nat /\
  0 <= 0xFF <= 255 /\ 0 <= 0xFF <= 255 /\ 0 <= 0x77 <= 255 /\
  exists m0 m1 m2 before,
    (ppu_cpu_write 0x2003 0xFF ;; ppu_cpu_read 0x2004) Bus_init = Ok (before, m0) /\
    (ppu_cpu_write 0x2003 0xFF ;; ppu_cpu_write 0x2004 0x77) Bus_init = Ok (tt, m1) /\
    Ppu.oamaddr (Bus.ppu m1) = (0xFF + 1) mod 256 /\
    (ppu_cpu_write 0x2003 0xFF ;; ppu_cpu_read 0x2004) m1
    = Ok (if 0xFF =? 0xFF then 0x77 else before, m2) /\
    Ppu.oamaddr (Bus.ppu m2) = 0xFF /\
    length (Ppu.oam (Bus.ppu m2)) = 256%nat.
Proof.
  assert (H0 : length (Ppu.oam (Bus.ppu Bus_init)) = 256%nat) by (vm_compute; reflexivity).
  assert (H1 : 0 <= 0xFF <= 255) by lia.
  assert (H2 : 0 <= 0x77 <= 255) by lia.
  split; [exact H0|]. split; [exact H1|]. split; [exact H1|]. split; [exact H2|].
  exact (oam_ports_round_trip Bus_init 0xFF 0xFF 0x77 H0 H1 H1 H2).
Defined.

End PpuBusFacts.

(** * OAM DMA (EMUNES5) *)

Module DmaFacts.
Import EMUNES5.

(** An OAM DMA is under way and its byte counter is not negative. *)
Definition dma_on (m : Bus.state) : Prop :=
  Cpu.dma_transfer (Bus.cpu m) = true /\ 0 <= Cpu.dma_addr (Bus.cpu m).

Create HintDb dma discriminated.

Ltac dma_leaf := let s := fresh "s" in let H := fresh "H" in intros s H; exact H.
Ltac dma_known := solve [auto with dma].
Ltac dma_deep := repeat first [preserves_step dma_known dma_leaf | unfold_call].

Lemma bus_ppu_read_dma addr : preserves dma_on (bus_ppu_read addr).
Proof. unfold bus_ppu_read. dma_deep. Qed.
#[local] Hint Resolve bus_ppu_read_dma : dma.

Lemma bus_ppu_write_dma addr data : preserves dma_on (bus_ppu_write addr data).
Proof. unfold bus_ppu_write. dma_deep. Qed.
#[local] Hint Resolve bus_ppu_write_dma : dma.

Lemma ppu_cpu_read_dma addr : preserves dma_on (ppu_cpu_read addr).
Proof. unfold ppu_cpu_read. dma_deep. Qed.

Lemma ppu_cpu_write_dma addr data : preserves dma_on (ppu_cpu_write addr data).
Proof. unfold ppu_cpu_write. dma_deep. Qed.
#[local] Hint Resolve ppu_cpu_read_dma ppu_cpu_write_dma : dma.

Lemma bus_cpu_read_dma addr : preserves dma_on (bus_cpu_read addr).
Proof. unfold bus_cpu_read. dma_deep. Qed.
#[local] Hint Resolve bus_cpu_read_dma : dma.

(** The write to 0x4014 starts a transfer at byte 0; no other CPU write
    touches the transfer flag or the byte counter. *)
Lemma bus_cpu_write_dma addr data : preserves dma_on (bus_cpu_write addr data).
Proof.
  unfold bus_cpu_write, cart_handles_cpu_write.
  repeat first [preserves_step dma_known dma_leaf | unfold_call];
    intros s u s' [Ht Ha] E; inversion E; subst s'; split;
    first [reflexivity | exact Ht | exact Ha | cbn; lia].
Qed.
#[local] Hint Resolve bus_cpu_write_dma : dma.

Lemma set_flag_dma flag value : preserves dma_on (set_flag flag value).
Proof. unfold set_flag. dma_deep. Qed.
#[local] Hint Resolve set_flag_dma : dma.

Lemma push_dma data : preserves dma_on (push data).
Proof. unfold push, write. dma_deep. Qed.
#[local] Hint Resolve push_dma : dma.

Lemma load_vector_dma v : preserves dma_on (load_vector v).
Proof. unfold load_vector, read. dma_deep. Qed.
#[local] Hint Resolve load_vector_dma : dma.

Lemma non_maskable_interrupt_dma : preserves dma_on non_maskable_interrupt.
Proof. unfold non_maskable_interrupt. dma_deep. Qed.
#[local] Hint Resolve non_maskable_interrupt_dma : dma.

Lemma ppu_clock_dma : preserves dma_on ppu_clock.
Proof. unfold ppu_clock. dma_deep. Qed.
#[local] Hint Resolve ppu_clock_dma : dma.

(** One step of the transfer.  The byte counter only goes up, so the test
    [dma_addr == 0] that would end the transfer never holds. *)
Lemma dma_step_dma : preserves dma_on dma_step.
Proof.
  unfold dma_step.
  apply preserves_bind; [apply preserves_gets|intros counter].
  intros s u s' [Ht Ha] E.
  rewrite CpuFacts.cpu_get_bind in E.
  destruct (Cpu.dma_dummy (Bus.cpu s)).
  - destruct (counter mod 2 =? 1); inversion E; subst s'; split; assumption.
  - destruct (counter mod 2 =? 0).
    + revert E. CpuFacts.cpu_steps. intros E.
      apply bind_ok in E. destruct E as (d & s1 & E1 & E).
      inversion E; subst s'.
      pose proof (bus_cpu_read_dma _ s d s1 (conj Ht Ha) E1) as [Ht1 Ha1].
      split; assumption.
    + revert E. unfold ppu_get at 1. unfold bind at 1, gets at 1.
      CpuFacts.cpu_steps. intros E.
      apply bind_ok in E. destruct E as (oam' & s1 & E1 & E).
      unfold lift in E1.
      destruct (bytearray_setitem _ _ _); [|discriminate].
      inversion E1; subst s1 oam'. clear E1.
      revert E. unfold ppu_upd at 1, bind at 1, modify at 1.
      CpuFacts.cpu_steps. CpuFacts.cpu_proj.
      destruct (Z.eqb_spec (Cpu.dma_addr (Bus.cpu s) + 1) 0) as [E0|E0]; [lia|].
      intros E. inversion E; subst s'. split; CpuFacts.cpu_proj; [exact Ht|lia].
Qed.
#[local] Hint Resolve dma_step_dma : dma.

(** While a transfer is under way the bus clock runs the PPU and the
    transfer, never the CPU. *)
Lemma bus_clock_dma : preserves dma_on bus_clock.
Proof.
  unfold bus_clock.
  apply preserves_bind; [apply ppu_clock_dma|intros _].
  apply preserves_bind; [apply preserves_gets|intros counter].
  apply preserves_bind; [|intros _; apply preserves_modify; dma_leaf].
  destruct (counter mod 3 =? 0); [|apply preserves_ret].
  intros s u s' H E. rewrite CpuFacts.cpu_get_bind in E.
  rewrite (proj1 H) in E. exact (dma_step_dma s u s' H E).
Qed.

Lemma bus_cpu_write_4014_start (m : Bus.state) (pg : Z) :
  exists m',
    bus_cpu_write 0x4014 pg m = Ok (tt, m') /\
    Cpu.dma_transfer (Bus.cpu m') = true /\ Cpu.dma_addr (Bus.cpu m') = 0.
Proof.
  unfold bus_cpu_write. cbv zeta. change (Z.land 0x4014 0xFFFF) with 0x4014.
  rewrite (bind_eq _ _ _ _ _
             (MemoryFacts.cart_handles_cpu_write_low m 0x4014 pg ltac:(lia))).
  cbv iota. change (between 0x0000 0x4014 0x1FFF) with false.
  change (between 0x2000 0x4014 0x3FFF) with false.
  change (0x4014 =? 0x4014) with true. cbv iota.
  CpuFacts.cpu_steps.
  eexists. split; [reflexivity|]. split; reflexivity.
Qed.

(** An OAM DMA never finishes.  The write to 0x4014 starts a transfer,
    and however many bus clocks follow, the transfer flag is still set:
    the byte counter is only ever incremented, so it is never 0 when it is
    tested. *)
Theorem oam_dma_never_finishes (m0 m m' : Bus.state) (pg : Z) (n : nat) :
  exec (bus_cpu_write 0x4014 pg) m0 = Some m ->
  exec (repeat_m n bus_clock) m = Some m' ->
  Cpu.dma_transfer (Bus.cpu m) = true /\
  Cpu.dma_addr (Bus.cpu m) = 0 /\
  Cpu.dma_transfer (Bus.cpu m') = true /\
  0 <= Cpu.dma_addr (Bus.cpu m').
Proof.
  intros E0 En.
  destruct (bus_cpu_write_4014_start m0 pg) as (m1 & E1 & Ht & Ha).
  unfold exec in E0. rewrite E1 in E0. inversion E0; subst m1.
  split; [exact Ht|]. split; [exact Ha|].
  unfold exec in En.
  destruct (repeat_m n bus_clock m) as [[u s]|e] eqn:Es; [|discriminate].
  inversion En; subst s.
  apply (preserves_repeat_m _ n _ bus_clock_dma m u m'); [|exact Es].
  split; [exact Ht|lia].
Qed.

(** A machine with an empty cartridge on which 0x4014 has been written,
    and the same machine six bus clocks later. *)
Definition dma_started : Bus.state :=
  match exec (bus_cpu_write 0x4014 0x02) PpuBusFacts.blank_machine with
  | Some m => m
  | None => Bus_init
  end.

Definition dma_clocked : Bus.state :=
  match exec (repeat_m 6 bus_clock) dma_started with
  | Some m => m
  | None => Bus_init
  end.

Lemma oam_dma_never_finishes_witness :
  exec (bus_cpu_write 0x4014 0x02) PpuBusFacts.blank_machine = Some dma_started /\
  exec (repeat_m 6 bus_clock) dma_started = Some dma_clocked /\
  Cpu.dma_transfer (Bus.cpu dma_started) = true /\
  Cpu.dma_addr (Bus.cpu dma_started) = 0 /\
  Cpu.dma_transfer (Bus.cpu dma_clocked) = true /\
  0 <= Cpu.dma_addr (Bus.cpu dma_clocked).
Proof.
  assert (H0 : exec (bus_cpu_write 0x4014 0x02) PpuBusFacts.blank_machine
               = Some dma_started) by (vm_compute; reflexivity).
  assert (H1 : exec (repeat_m 6 bus_clock) dma_started = Some dma_clocked)
    by (vm_compute; reflexivity).
  split; [exact H0|]. split; [exact H1|].
  exact (oam_dma_never_finishes PpuBusFacts.blank_machine dma_started dma_clocked
           0x02 6 H0 H1).
Defined.

(** The store of a transfer step (no dummy cycle pending, odd clock
    count, 256 bytes of OAM): while the byte counter is below 256 the
    byte goes to that OAM entry and the counter goes up by one, without a
    wrap; at 256 the store is out of range and raises IndexError. *)
Theorem oam_dma_store_runs_off_the_end (m : Bus.state) :
  Cpu.dma_dummy (Bus.cpu m) = false ->
  Bus.system_clock_counter m mod 2 = 1 ->
  length (Ppu.oam (Bus.ppu m)) = 256%nat ->
  0 <= Cpu.dma_data (Bus.cpu m) <= 255 ->
  0 <= Cpu.dma_addr (Bus.cpu m) ->
  let i := Cpu.dma_addr (Bus.cpu m) in
  (i < 256 ->
   exists m',
     dma_step m = Ok (tt, m') /\
     Ppu.oam (Bus.ppu m')
     = list_update (Ppu.oam (Bus.ppu m)) (Z.to_nat i) (Cpu.dma_data (Bus.cpu m)) /\
     Cpu.dma_addr (Bus.cpu m') = i + 1 /\
     Cpu.dma_transfer (Bus.cpu m') = Cpu.dma_transfer (Bus.cpu m)) /\
  (256 <= i -> dma_step m = Raise IndexError).
Proof.
  intros Hd Hc Hlen Hdata Ha i. subst i.
  assert (Hstep : dma_step m
                  = (oam' <- lift (bytearray_setitem (Ppu.oam (Bus.ppu m))
                                     (Cpu.dma_addr (Bus.cpu m))
                                     (Cpu.dma_data (Bus.cpu m))) ;;
                     ppu_upd (Ppu.set_oam oam') ;;
                     cpu_upd (Cpu.set_dma_addr (Cpu.dma_addr (Bus.cpu m) + 1)) ;;
                     if Cpu.dma_addr (Bus.cpu m) + 1 =? 0 then
                       cpu_upd (Cpu.set_dma_transfer false) ;;
                       cpu_upd (Cpu.set_dma_dummy true)
                     else ret tt) m).
  { unfold dma_step.
    unfold bind at 1, gets at 1. rewrite CpuFacts.cpu_get_bind, Hd, Hc.
    change (1 =? 0) with false. cbv iota.
    unfold ppu_get at 1. unfold bind at 1, gets at 1.
    now rewrite !CpuFacts.cpu_get_bind. }
  rewrite Hstep. clear Hstep.
  split.
  - intros Hi.
    rewrite (CpuFacts.lift_bind _ _ _ _
               (bytearray_setitem_ok (Ppu.oam (Bus.ppu m)) (Cpu.dma_addr (Bus.cpu m))
                  (Cpu.dma_data (Bus.cpu m)) Hdata ltac:(rewrite Hlen; lia))).
    unfold ppu_upd at 1, bind at 1, modify at 1. CpuFacts.cpu_steps. CpuFacts.cpu_proj.
    destruct (Z.eqb_spec (Cpu.dma_addr (Bus.cpu m) + 1) 0) as [E0|E0]; [lia|].
    eexists. split; [reflexivity|]. repeat split; reflexivity.
  - intros Hi. unfold bind at 1. unfold lift, bytearray_setitem, py_setitem, norm_index.
    rewrite PaletteMirrorFacts.between_true by lia. rewrite Hlen.
    destruct (Z.ltb_spec (Cpu.dma_addr (Bus.cpu m)) 0); [lia|].
    destruct (Z.leb_spec 0 (Cpu.dma_addr (Bus.cpu m))); [|lia].
    destruct (Z.ltb_spec (Cpu.dma_addr (Bus.cpu m)) (Z.of_nat 256)); [lia|].
    reflexivity.
Qed.

(** The step after the 256th byte of a transfer. *)
Definition dma_past_end : Bus.state :=
  Bus.set_system_clock_counter 1
    (Bus.set_cpu (Cpu.set_dma_addr 256 (Cpu.set_dma_dummy false
                                         (Cpu.set_dma_transfer true CPU6502_init)))
                 Bus_init).

Lemma oam_dma_store_runs_off_the_end_witness :
  Cpu.dma_dummy (Bus.cpu dma_past_end) = false /\
  Bus.system_clock_counter dma_past_end mod 2 = 1 /\
  length (Ppu.oam (Bus.ppu dma_past_end)) = 256%nat /\
  0 <= Cpu.dma_data (Bus.cpu dma_past_end) <= 255 /\
  0 <= Cpu.dma_addr (Bus.cpu dma_past_end) /\
  256 <= Cpu.dma_addr (Bus.cpu dma_past_end) /\
  dma_step dma_past_end = Raise IndexError.
Proof.
  assert (H0 : Cpu.dma_dummy (Bus.cpu dma_past_end) = false) by reflexivity.
  assert (H1 : Bus.system_clock_counter dma_past_end mod 2 = 1) by reflexivity.
  assert (H2 : length (Ppu.oam (Bus.ppu dma_past_end)) = 256%nat)
    by (vm_compute; reflexivity).
  assert (H3 : 0 <= Cpu.dma_data (Bus.cpu dma_past_end) <= 255)
    by (vm_compute; split; discriminate).
  assert (H4 : 0 <= Cpu.dma_addr (Bus.cpu dma_past_end))
    by (vm_compute; discriminate).
  assert (H5 : 256 <= Cpu.dma_addr (Bus.cpu dma_past_end))
    by (vm_compute; discriminate).
  split; [exact H0|]. split; [exact H1|]. split; [exact H2|].
  split; [exact H3|]. split; [exact H4|]. split; [exact H5|].
  exact (proj2 (oam_dma_store_runs_off_the_end dma_past_end H0 H1 H2 H3 H4) H5).
Defined.

End DmaFacts.

(** * The controller port (EMUNES5) *)

Module ControllerFacts.
Import EMUNES5.

(** ** The controller port *)

Lemma bus_cpu_write_4016 (m : Bus.state) (d : Z) :
  bus_cpu_write 0x4016 d m
  = Ok (tt, if truthy (Z.land d 0x01)
            then Bus.set_controller1_shift (Bus.controller1_state m) m else m).
Proof.
  unfold bus_cpu_write. cbv zeta. change (Z.land 0x4016 0xFFFF) with 0x4016.
  rewrite (bind_eq _ _ _ _ _
             (MemoryFacts.cart_handles_cpu_write_low m 0x4016 d ltac:(lia))).
  cbv iota. change (between 0x0000 0x4016 0x1FFF) with false.
  change (between 0x2000 0x4016 0x3FFF) with false.
  change (0x4016 =? 0x4014) with false. change (0x4016 =? 0x4016) with true.
  cbv iota. now destruct (truthy (Z.land d 0x01)).
Qed.

Lemma bus_cpu_read_4016 (m : Bus.state) :
  bus_cpu_read 0x4016 m
  = Ok (0x40 + Z.b2z (Z.testbit (Bus.controller1_shift m) 0),
        Bus.set_controller1_shift (Z.shiftr (Bus.controller1_shift m) 1) m).
Proof.
  unfold bus_cpu_read. cbv zeta. change (Z.land 0x4016 0xFFFF) with 0x4016.
  unfold bind at 1, gets at 1.
  assert (Hc : (match Bus.cart m with
                | None => ret None
                | Some c => lift (cart_cpu_read c 0x4016)
                end) m = Ok (None, m)).
  { destruct (Bus.cart m) as [c|]; [|reflexivity].
    unfold lift. now rewrite MemoryFacts.cart_cpu_read_low by lia. }
  rewrite (bind_eq _ _ _ _ _ Hc).
  change (between 0x0000 0x4016 0x1FFF) with false.
  change (between 0x2000 0x4016 0x3FFF) with false.
  change (0x4016 =? 0x4016) with true. cbv iota.
  unfold bind, gets, modify, ret. f_equal. f_equal.
  change 0x01 with (Z.ones 1). rewrite Z.land_ones by lia.
  rewrite <- Z.bit0_mod.
  destruct (Z.testbit (Bus.controller1_shift m) 0); reflexivity.
Qed.

(** [k] reads of the port, results dropped. *)
Definition controller_reads (k : nat) : Py unit :=
  repeat_m k (bus_cpu_read 0x4016 ;; ret tt).

Lemma controller_reads_spec (k : nat) (m : Bus.state) :
  controller_reads k m
  = Ok (tt, if Nat.eqb k 0 then m
            else Bus.set_controller1_shift
                   (Z.shiftr (Bus.controller1_shift m) (Z.of_nat k)) m).
Proof.
  unfold controller_reads. revert m. induction k as [|k IH]; intros m.
  - reflexivity.
  - cbn [repeat_m]. rewrite CpuFacts.bind_bind.
    rewrite (bind_eq _ _ _ _ _ (bus_cpu_read_4016 m)).
    rewrite CpuFacts.ret_bind. rewrite IH.
    cbn [Nat.eqb]. destruct k as [|k].
    + reflexivity.
    + cbn [Nat.eqb Bus.controller1_shift Bus.set_controller1_shift].
      rewrite Z.shiftr_shiftr by lia.
      replace (1 + Z.of_nat (S k)) with (Z.of_nat (S (S k))) by lia. reflexivity.
Qed.

(** The controller port.  A write to 0x4016 with bit 0 set copies the
    button state into the shift register; each read of 0x4016 then returns
    0x40 plus the lowest bit of the register and shifts it right by one, so
    the read after [k] earlier ones returns bit [k] of the button state
    (for a button byte, 0x40 from the ninth read on); the button state
    itself is not changed. *)
Theorem controller_reads_buttons_bit_by_bit (m : Bus.state) (d : Z) (k : nat) :
  Z.odd d = true ->
  exists m1 m2 m3,
    bus_cpu_write 0x4016 d m = Ok (tt, m1) /\
    controller_reads k m1 = Ok (tt, m2) /\
    bus_cpu_read 0x4016 m2
    = Ok (0x40 + Z.b2z (Z.testbit (Bus.controller1_state m) (Z.of_nat k)), m3) /\
    Bus.controller1_state m3 = Bus.controller1_state m.
Proof.
  intros Hd.
  assert (Ht : truthy (Z.land d 0x01) = true).
  { change 0x01 with (Z.ones 1). rewrite Z.land_ones by lia.
    rewrite <- Z.bit0_mod, Z.bit0_odd, Hd. reflexivity. }
  set (st := Bus.controller1_state m).
  assert (Hbit : forall s, Bus.controller1_shift s = Z.shiftr st (Z.of_nat k) ->
                 Z.testbit (Bus.controller1_shift s) 0 = Z.testbit st (Z.of_nat k)).
  { intros s ->. rewrite Z.shiftr_spec by lia. f_equal. }
  eexists. eexists. eexists.
  split; [rewrite bus_cpu_write_4016, Ht; reflexivity|].
  split; [apply controller_reads_spec|].
  assert (Hr : forall s, Bus.controller1_shift s = Z.shiftr st (Z.of_nat k) ->
               bus_cpu_read 0x4016 s
               = Ok (0x40 + Z.b2z (Z.testbit st (Z.of_nat k)),
                     Bus.set_controller1_shift (Z.shiftr (Bus.controller1_shift s) 1) s)).
  { intros s Hs. rewrite bus_cpu_read_4016. now rewrite (Hbit s Hs). }
  split.
  - rewrite Hr; [reflexivity|].
    destruct k; [reflexivity|]. cbn [Nat.eqb]. reflexivity.
  - destruct k; reflexivity.
Qed.

Lemma controller_reads_buttons_witness :
  Z.odd 1 = true /\
  exists m1 m2 m3,
    bus_cpu_write 0x4016 1 (Bus.set_controller1_state 0x81 Bus_init) = Ok (tt, m1) /\
    controller_reads 7 m1 = Ok (tt, m2) /\
    bus_cpu_read 0x4016 m2
    = Ok (0x40 + Z.b2z (Z.testbit
                          (Bus.controller1_state (Bus.set_controller1_state 0x81 Bus_init))
                          (Z.of_nat 7)), m3) /\
    Bus.controller1_state m3
    = Bus.controller1_state (Bus.set_controller1_state 0x81 Bus_init).
Proof.
  assert (H0 : Z.odd 1 = true) by reflexivity.
  split; [exact H0|].
  exact (controller_reads_buttons_bit_by_bit
           (Bus.set_controller1_state 0x81 Bus_init) 1 7 H0).
Defined.

End ControllerFacts.

(** * The first frame of the PPU (EMUNES5) *)

Module EmuFrameFacts.
Import EMUNES5.
Import PaletteMirrorFacts (between_true, between_false).

(** The picture is 240 rows of 256 pixels. *)
Definition screen_dims (scr : list (list Z)) : Prop :=
  length scr = 240%nat /\ Forall (fun row => length row = 256%nat) scr.

(** The PPU as the constructor leaves it, as far as [clock] looks at it:
    rendering and NMI off, the scroll address and the nametables zero, and
    a cartridge inserted whose pattern bytes 0x0000 and 0x0008 (the two
    planes of tile 0) can be read. *)
Record quiet (m : Bus.state) : Prop := mk_quiet {
  quiet_mask : Ppu.ppumask (Bus.ppu m) = 0;
  quiet_ctrl : Ppu.ppuctrl (Bus.ppu m) = 0;
  quiet_v : Ppu.v (Bus.ppu m) = 0;
  quiet_tile : Ppu.bg_next_tile_id (Bus.ppu m) = 0;
  quiet_vram : Ppu.vram (Bus.ppu m) = bytearray 2048;
  quiet_pal : length (Ppu.palette_ram (Bus.ppu m)) = 32%nat;
  quiet_screen : screen_dims (Ppu.screen (Bus.ppu m));
  quiet_chr : exists c d0 d8,
      Bus.cart m = Some c /\
      cart_ppu_read c 0x0000 = Ok (Some d0) /\
      cart_ppu_read c 0x0008 = Ok (Some d8)
}.

(** Two states at the same dot of the same frame. *)
Record same_timing (m m' : Bus.state) : Prop := mk_same_timing {
  same_scanline : Ppu.scanline (Bus.ppu m') = Ppu.scanline (Bus.ppu m);
  same_cycle : Ppu.cycle (Bus.ppu m') = Ppu.cycle (Bus.ppu m);
  same_frame_complete : Ppu.frame_complete (Bus.ppu m') = Ppu.frame_complete (Bus.ppu m);
  same_f : Ppu.f (Bus.ppu m') = Ppu.f (Bus.ppu m)
}.

Lemma emu_same_timing_refl (m : Bus.state) : same_timing m m.
Proof. now split. Qed.

Lemma same_timing_trans (m1 m2 m3 : Bus.state) :
  same_timing m1 m2 -> same_timing m2 m3 -> same_timing m1 m3.
Proof. intros [A B C D] [A' B' C' D']. split; congruence. Qed.

(** A step that keeps the PPU quiet and does not move the counters. *)
Definition calm (c : Py unit) : Prop :=
  forall m, quiet m -> exists m', c m = Ok (tt, m') /\ quiet m' /\ same_timing m m'.

Lemma calm_ret : calm (ret tt).
Proof. intros m H. exists m. split; [reflexivity|]. split; [exact H|apply emu_same_timing_refl]. Qed.

Lemma calm_bind (c1 c2 : Py unit) : calm c1 -> calm c2 -> calm (c1 ;; c2).
Proof.
  intros H1 H2 m Hq.
  destruct (H1 m Hq) as (m1 & E1 & Hq1 & Ht1).
  destruct (H2 m1 Hq1) as (m2 & E2 & Hq2 & Ht2).
  exists m2. split; [now rewrite (bind_eq _ _ _ _ _ E1)|].
  split; [exact Hq2|]. now apply same_timing_trans with m1.
Qed.

Lemma calm_if (b : bool) (c1 c2 : Py unit) :
  calm c1 -> calm c2 -> calm (if b then c1 else c2).
Proof. now destruct b. Qed.

Ltac emu_proj :=
  cbn [Bus.ppu Bus.set_ppu Bus.cart
       Ppu.ppuctrl Ppu.ppumask Ppu.ppustatus Ppu.v Ppu.f Ppu.vram Ppu.palette_ram
       Ppu.scanline Ppu.cycle Ppu.frame_complete Ppu.bg_next_tile_id
       Ppu.bg_next_tile_attrib Ppu.bg_next_tile_lsb Ppu.bg_next_tile_msb
       Ppu.bg_shifter_pattern_lo Ppu.bg_shifter_pattern_hi Ppu.bg_shifter_attrib_lo
       Ppu.bg_shifter_attrib_hi Ppu.screen
       Ppu.set_ppustatus Ppu.set_f Ppu.set_scanline Ppu.set_cycle Ppu.set_frame_complete
       Ppu.set_bg_next_tile_id Ppu.set_bg_next_tile_attrib Ppu.set_bg_next_tile_lsb
       Ppu.set_bg_next_tile_msb Ppu.set_bg_shifter_pattern_lo
       Ppu.set_bg_shifter_pattern_hi Ppu.set_bg_shifter_attrib_lo
       Ppu.set_bg_shifter_attrib_hi Ppu.set_screen].

Lemma rendering_enabled_quiet (m : Bus.state) :
  quiet m -> rendering_enabled m = Ok (false, m).
Proof.
  intros H. unfold rendering_enabled. rewrite PpuPortFacts.ppu_get_bind.
  now rewrite (quiet_mask m H).
Qed.

Lemma update_shifters_calm : calm update_shifters.
Proof.
  intros m H. unfold update_shifters. rewrite PpuPortFacts.ppu_get_bind.
  rewrite (quiet_mask m H). change (truthy (Z.land 0 0x08)) with false. cbv iota.
  now apply calm_ret.
Qed.

Lemma increment_scroll_x_calm : calm increment_scroll_x.
Proof.
  intros m H. unfold increment_scroll_x.
  rewrite (bind_eq _ _ _ _ _ (rendering_enabled_quiet m H)). now apply calm_ret.
Qed.

Lemma increment_scroll_y_calm : calm increment_scroll_y.
Proof.
  intros m H. unfold increment_scroll_y.
  rewrite (bind_eq _ _ _ _ _ (rendering_enabled_quiet m H)). now apply calm_ret.
Qed.

Lemma transfer_address_x_calm : calm transfer_address_x.
Proof.
  intros m H. unfold transfer_address_x.
  rewrite (bind_eq _ _ _ _ _ (rendering_enabled_quiet m H)). now apply calm_ret.
Qed.

Lemma transfer_address_y_calm : calm transfer_address_y.
Proof.
  intros m H. unfold transfer_address_y.
  rewrite (bind_eq _ _ _ _ _ (rendering_enabled_quiet m H)). now apply calm_ret.
Qed.

Lemma load_background_shifters_calm : calm load_background_shifters.
Proof.
  unfold load_background_shifters. intros m H.
  unfold bind at 1, gets at 1. PpuPortFacts.ppu_steps.
  eexists. split; [reflexivity|].
  split; [destruct H; split; emu_proj; assumption|split; reflexivity].
Qed.

(** ** The reads of [clock] *)

Lemma bus_ppu_read_pattern (m : Bus.state) (c : Cartridge) (addr d : Z) :
  Bus.cart m = Some c ->
  0 <= addr < 0x4000 ->
  cart_ppu_read c addr = Ok (Some d) ->
  bus_ppu_read addr m = Ok (d, m).
Proof.
  intros Hc Ha Hr. unfold bus_ppu_read. cbv zeta.
  rewrite PaletteMirrorFacts.land_3FFF_small by lia.
  unfold bind at 1, gets at 1. rewrite Hc.
  unfold bind, lift. now rewrite Hr.
Qed.

Lemma nth_error_bytearray (n : Z) (i : nat) (e : Z) :
  nth_error (bytearray n) i = Some e -> e = 0.
Proof.
  intros H. apply nth_error_In in H. unfold bytearray in H.
  now apply repeat_spec in H.
Qed.

(** A nametable or attribute read finds a zero. *)
Lemma bus_ppu_read_blank_nametable (m : Bus.state) (addr : Z) :
  quiet m -> 0x2000 <= addr <= 0x3EFF -> bus_ppu_read addr m = Ok (0, m).
Proof.
  intros H Ha. destruct (quiet_chr m H) as (c & d0 & d8 & Hc & _).
  destruct (PpuBusFacts.bus_ppu_read_nametable m c addr Hc
              ltac:(rewrite (quiet_vram m H); reflexivity) Ha) as (e & En & Er).
  rewrite (quiet_vram m H) in En. apply nth_error_bytearray in En. now subst e.
Qed.

Lemma fetch_nametable_calm :
  calm (v <- ppu_get Ppu.v ;;
        d <- bus_ppu_read (Z.lor 0x2000 (Z.land v 0x0FFF)) ;;
        ppu_upd (Ppu.set_bg_next_tile_id d)).
Proof.
  intros m H. rewrite PpuPortFacts.ppu_get_bind. rewrite (quiet_v m H).
  change (Z.lor 0x2000 (Z.land 0 0x0FFF)) with 0x2000.
  rewrite (bind_eq _ _ _ _ _ (bus_ppu_read_blank_nametable m 0x2000 H ltac:(lia))).
  eexists. split; [reflexivity|].
  split; [destruct H; split; emu_proj; auto|split; reflexivity].
Qed.

Lemma fetch_background_calm : calm fetch_background.
Proof.
  unfold fetch_background. apply calm_bind; [apply update_shifters_calm|].
  intros m H. rewrite PpuPortFacts.ppu_get_bind. cbv zeta.
  destruct ((Ppu.cycle (Bus.ppu m) - 1) mod 8 =? 0).
  { revert m H. apply calm_bind;
      [apply load_background_shifters_calm|apply fetch_nametable_calm]. }
  destruct ((Ppu.cycle (Bus.ppu m) - 1) mod 8 =? 2).
  { rewrite PpuPortFacts.ppu_get_bind. rewrite (quiet_v m H).
    change (Z.lor (Z.lor (Z.lor 0x23C0 (Z.land 0 0x0C00)) (Z.land (Z.shiftr 0 4) 0x38))
                  (Z.land (Z.shiftr 0 2) 0x07)) with 0x23C0.
    rewrite (bind_eq _ _ _ _ _ (bus_ppu_read_blank_nametable m 0x23C0 H ltac:(lia))).
    rewrite PpuPortFacts.ppu_get_bind.
    eexists. split; [reflexivity|].
    split; [destruct H; split; emu_proj; auto|split; reflexivity]. }
  destruct (quiet_chr m H) as (c & d0 & d8 & Hc & H0 & H8).
  destruct ((Ppu.cycle (Bus.ppu m) - 1) mod 8 =? 4).
  { unfold bind at 1, gets at 1.
    rewrite (quiet_ctrl m H), (quiet_tile m H), (quiet_v m H).
    change (bg_pattern_addr 0 0 0 0) with 0x0000.
    rewrite (bind_eq _ _ _ _ _ (bus_ppu_read_pattern m c 0x0000 d0 Hc ltac:(lia) H0)).
    eexists. split; [reflexivity|].
    split; [destruct H; split; emu_proj; auto|split; reflexivity]. }
  destruct ((Ppu.cycle (Bus.ppu m) - 1) mod 8 =? 6).
  { unfold bind at 1, gets at 1.
    rewrite (quiet_ctrl m H), (quiet_tile m H), (quiet_v m H).
    change (bg_pattern_addr 0 0 0 8) with 0x0008.
    rewrite (bind_eq _ _ _ _ _ (bus_ppu_read_pattern m c 0x0008 d8 Hc ltac:(lia) H8)).
    eexists. split; [reflexivity|].
    split; [destruct H; split; emu_proj; auto|split; reflexivity]. }
  destruct ((Ppu.cycle (Bus.ppu m) - 1) mod 8 =? 7).
  - now apply increment_scroll_x_calm.
  - now apply calm_ret.
Qed.

(** ** The pixel *)

Lemma palette_colour_total (d : Z) :
  exists rgb, py_getitem palette (Z.land d 0x3F) = Ok rgb.
Proof.
  destruct (py_getitem_inrange palette (Z.land d 0x3F)) as (rgb & Hrgb & _).
  - change (Z.of_nat (length palette)) with 64. apply land_0x3F_bound.
  - now exists rgb.
Qed.

(** With background rendering off the pixel of the dot is painted in the
    backdrop colour. *)
Lemma render_pixel_quiet (m : Bus.state) :
  quiet m ->
  0 <= Ppu.scanline (Bus.ppu m) <= 239 ->
  1 <= Ppu.cycle (Bus.ppu m) <= 256 ->
  exists m', render_pixel m = Ok (tt, m') /\ quiet m' /\ same_timing m m'.
Proof.
  intros H Hs Hc. unfold render_pixel.
  unfold bind at 1, gets at 1. rewrite (quiet_mask m H).
  change (truthy (Z.land 0 0x08)) with false. cbv iota.
  rewrite CpuFacts.ret_bind. cbv beta iota zeta.
  change (0x3F00 + Z.shiftl 0x00 2 + 0x00) with 0x3F00.
  destruct (PaletteMirrorFacts.bus_ppu_read_palette m 0x3F00 ltac:(lia) (quiet_pal m H))
    as (e & _ & Hr).
  rewrite (bind_eq _ _ _ _ _ Hr).
  destruct (palette_colour_total (Z.land e 0x3F)) as (rgb & Hrgb).
  rewrite (CpuFacts.lift_bind _ _ _ _ Hrgb).
  rewrite !PpuPortFacts.ppu_get_bind.
  destruct (quiet_screen m H) as [Hlen Hrows].
  destruct (py_getitem_inrange (Ppu.screen (Bus.ppu m)) (Ppu.scanline (Bus.ppu m)))
    as (row & Hrow & Hnth); [rewrite Hlen; lia|].
  rewrite (CpuFacts.lift_bind _ _ _ _ Hrow).
  assert (Hr256 : length row = 256%nat).
  { apply nth_error_In in Hnth. rewrite Forall_forall in Hrows. now apply Hrows. }
  rewrite (CpuFacts.lift_bind _ _ _ _
             (py_setitem_inrange row (Ppu.cycle (Bus.ppu m) - 1) rgb
                ltac:(rewrite Hr256; lia))).
  rewrite (CpuFacts.lift_bind _ _ _ _
             (py_setitem_inrange (Ppu.screen (Bus.ppu m)) (Ppu.scanline (Bus.ppu m)) _
                ltac:(rewrite Hlen; lia))).
  eexists. split; [reflexivity|].
  split; [|split; reflexivity].
  destruct H. split; emu_proj; auto. split.
  - now rewrite length_list_update.
  - apply Forall_list_update; [assumption|]. now rewrite length_list_update.
Qed.

(** ** The scanlines *)

(** [clock] on a visible scanline, after the skip of cycle 0. *)
Definition visible_rest (cycle : Z) : Py unit :=
  (if between 2 cycle 257 || between 321 cycle 336 then fetch_background else ret tt) ;;
  (if cycle =? 256 then increment_scroll_y else ret tt) ;;
  (if cycle =? 257 then load_background_shifters ;; transfer_address_x else ret tt) ;;
  (if (cycle =? 338) || (cycle =? 340) then
     v <- ppu_get Ppu.v ;;
     d <- bus_ppu_read (Z.lor 0x2000 (Z.land v 0x0FFF)) ;;
     ppu_upd (Ppu.set_bg_next_tile_id d)
   else ret tt) ;;
  (if between 1 cycle 256 then render_pixel else ret tt).

Lemma visible_rest_quiet (m : Bus.state) :
  quiet m ->
  0 <= Ppu.scanline (Bus.ppu m) <= 239 ->
  exists m',
    visible_rest (Ppu.cycle (Bus.ppu m)) m = Ok (tt, m') /\ quiet m' /\ same_timing m m'.
Proof.
  intros H Hs. unfold visible_rest.
  set (cycle := Ppu.cycle (Bus.ppu m)).
  assert (Hpre : calm
            ((if between 2 cycle 257 || between 321 cycle 336
              then fetch_background else ret tt) ;;
             (if cycle =? 256 then increment_scroll_y else ret tt) ;;
             (if cycle =? 257 then load_background_shifters ;; transfer_address_x
              else ret tt) ;;
             (if (cycle =? 338) || (cycle =? 340) then
                v <- ppu_get Ppu.v ;;
                d <- bus_ppu_read (Z.lor 0x2000 (Z.land v 0x0FFF)) ;;
                ppu_upd (Ppu.set_bg_next_tile_id d)
              else ret tt))).
  { apply calm_bind; [apply calm_if; [apply fetch_background_calm|apply calm_ret]|].
    apply calm_bind; [apply calm_if; [apply increment_scroll_y_calm|apply calm_ret]|].
    apply calm_bind.
    - apply calm_if; [|apply calm_ret].
      apply calm_bind; [apply load_background_shifters_calm|apply transfer_address_x_calm].
    - apply calm_if; [apply fetch_nametable_calm|apply calm_ret]. }
  destruct (Hpre m H) as (m1 & E1 & Hq1 & Ht1).
  rewrite <- !CpuFacts.bind_bind in E1.
  rewrite <- !CpuFacts.bind_bind.
  rewrite (bind_eq _ _ _ _ _ E1).
  destruct (between 1 cycle 256) eqn:Eb.
  - unfold between in Eb. apply andb_true_iff in Eb. destruct Eb as [Eb1 Eb2].
    apply Z.leb_le in Eb1. apply Z.leb_le in Eb2.
    destruct (render_pixel_quiet m1 Hq1) as (m2 & E2 & Hq2 & Ht2).
    + rewrite (same_scanline _ _ Ht1). exact Hs.
    + rewrite (same_cycle _ _ Ht1). fold cycle. lia.
    + exists m2. split; [exact E2|]. split; [exact Hq2|].
      now apply same_timing_trans with m1.
  - exists m1. split; [reflexivity|]. now split.
Qed.

(** The dot a call of [clock] works on: cycle 0 of scanline 0 is skipped. *)
Definition worked_cycle (m : Bus.state) : Z :=
  if (Ppu.scanline (Bus.ppu m) =? 0) && (Ppu.cycle (Bus.ppu m) =? 0) then 1
  else Ppu.cycle (Bus.ppu m).

(** What a part of [clock] before [# Advance counters] leaves behind. *)
Record worked (m m' : Bus.state) : Prop := mk_worked {
  worked_quiet : quiet m';
  worked_scanline : Ppu.scanline (Bus.ppu m') = Ppu.scanline (Bus.ppu m);
  worked_at : Ppu.cycle (Bus.ppu m') = worked_cycle m;
  worked_frame_complete : Ppu.frame_complete (Bus.ppu m') = Ppu.frame_complete (Bus.ppu m);
  worked_f : Ppu.f (Bus.ppu m') = Ppu.f (Bus.ppu m)
}.

Lemma calm_worked (m m' : Bus.state) :
  0 < Ppu.scanline (Bus.ppu m) \/ 0 < Ppu.cycle (Bus.ppu m) ->
  quiet m' -> same_timing m m' -> worked m m'.
Proof.
  intros Hpos Hq [Hs Hc Hfc Hf]. split; try assumption.
  rewrite Hc. unfold worked_cycle.
  destruct (Z.eqb_spec (Ppu.scanline (Bus.ppu m)) 0);
    destruct (Z.eqb_spec (Ppu.cycle (Bus.ppu m)) 0); simpl; lia || reflexivity.
Qed.

Lemma visible_scanline_quiet (m : Bus.state) :
  quiet m ->
  0 <= Ppu.scanline (Bus.ppu m) <= 239 ->
  exists m', visible_scanline m = Ok (tt, m') /\ worked m m'.
Proof.
  intros H Hs. unfold visible_scanline. rewrite !PpuPortFacts.ppu_get_bind.
  fold (worked_cycle m).
  destruct ((Ppu.scanline (Bus.ppu m) =? 0) && (Ppu.cycle (Bus.ppu m) =? 0)) eqn:E.
  - rewrite PpuPortFacts.ppu_upd_bind, PpuPortFacts.ppu_get_bind.
    set (m0 := Bus.set_ppu (Ppu.set_cycle 1 (Bus.ppu m)) m).
    assert (Hq0 : quiet m0) by (destruct H; split; subst m0; emu_proj; assumption).
    destruct (visible_rest_quiet m0 Hq0 Hs) as (m' & E' & Hq' & [Ts Tc Tfc Tf]).
    exists m'. split; [exact E'|].
    split; try assumption.
    rewrite Tc. unfold worked_cycle. now rewrite E.
  - rewrite CpuFacts.ret_bind, PpuPortFacts.ppu_get_bind.
    destruct (visible_rest_quiet m H Hs) as (m' & E' & Hq' & [Ts Tc Tfc Tf]).
    exists m'. split; [exact E'|].
    split; try assumption.
    rewrite Tc. unfold worked_cycle. now rewrite E.
Qed.

(** The start of vertical blank with NMI generation off. *)
Lemma vblank_scanlines_calm : calm vblank_scanlines.
Proof.
  intros m H. unfold vblank_scanlines. rewrite !PpuPortFacts.ppu_get_bind.
  destruct ((Ppu.scanline (Bus.ppu m) =? 241) && (Ppu.cycle (Bus.ppu m) =? 1)).
  - PpuPortFacts.ppu_steps. emu_proj. rewrite (quiet_ctrl m H).
    change (truthy (Z.land 0 0x80)) with false. cbv iota.
    eexists. split; [reflexivity|].
    split; [destruct H; split; emu_proj; assumption|split; reflexivity].
  - now apply calm_ret.
Qed.

(** The pre-render scanline of an even frame: no cycle is skipped. *)
Lemma prerender_scanline_quiet (m : Bus.state) :
  quiet m -> Ppu.f (Bus.ppu m) = 0 ->
  exists m', prerender_scanline m = Ok (tt, m') /\ quiet m' /\ same_timing m m'.
Proof.
  intros H Hf. unfold prerender_scanline. rewrite PpuPortFacts.ppu_get_bind.
  assert (Hst : calm
            (if Ppu.cycle (Bus.ppu m) =? 1 then
               st <- ppu_get Ppu.ppustatus ;;
               ppu_upd (Ppu.set_ppustatus (Z.land st (Z.lnot 0xE0)))
             else ret tt)).
  { apply calm_if; [|apply calm_ret].
    intros s Hs. rewrite PpuPortFacts.ppu_get_bind.
    eexists. split; [reflexivity|].
    split; [destruct Hs; split; emu_proj; assumption|split; reflexivity]. }
  destruct (Hst m H) as (m1 & E1 & Hq1 & Ht1).
  rewrite (bind_eq _ _ _ _ _ E1).
  assert (Hty : calm (if between 280 (Ppu.cycle (Bus.ppu m)) 304
                      then transfer_address_y else ret tt))
    by (apply calm_if; [apply transfer_address_y_calm|apply calm_ret]).
  destruct (Hty m1 Hq1) as (m2 & E2 & Hq2 & Ht2).
  rewrite (bind_eq _ _ _ _ _ E2).
  rewrite PpuPortFacts.ppu_get_bind.
  assert (Hf2 : Ppu.f (Bus.ppu m2) = 0).
  { rewrite (same_f _ _ Ht2), (same_f _ _ Ht1). exact Hf. }
  rewrite Hf2. change (truthy 0) with false. rewrite andb_false_r.
  exists m2. split; [reflexivity|]. split; [exact Hq2|].
  now apply same_timing_trans with m1.
Qed.

Lemma sprite_zero_hit_calm : calm sprite_zero_hit.
Proof.
  intros m H. unfold sprite_zero_hit. rewrite !PpuPortFacts.ppu_get_bind.
  rewrite (quiet_mask m H). change (truthy (Z.land 0 0x18)) with false.
  cbv iota. simpl andb. cbv iota. now apply calm_ret.
Qed.

(** ** The counters *)

Definition on_grid (m : Bus.state) : Prop :=
  0 <= Ppu.scanline (Bus.ppu m) <= 261 /\ 0 <= Ppu.cycle (Bus.ppu m) <= 340.

(** The dot the counters stand at, counted from the start of scanline 0,
    and the dot the next call of [clock] works on. *)
Definition dot (m : Bus.state) : Z :=
  Ppu.scanline (Bus.ppu m) * 341 + Ppu.cycle (Bus.ppu m).

Definition worked_dot (m : Bus.state) : Z :=
  Ppu.scanline (Bus.ppu m) * 341 + worked_cycle m.

Lemma worked_dot_spec (m : Bus.state) :
  on_grid m -> worked_dot m = (if dot m =? 0 then 1 else dot m).
Proof.
  intros [Hs Hc]. unfold worked_dot, worked_cycle, dot.
  destruct (Z.eqb_spec (Ppu.scanline (Bus.ppu m)) 0) as [E|E];
    destruct (Z.eqb_spec (Ppu.cycle (Bus.ppu m)) 0) as [E'|E']; simpl.
  - rewrite E, E'. reflexivity.
  - destruct (Z.eqb_spec (Ppu.scanline (Bus.ppu m) * 341 + Ppu.cycle (Bus.ppu m)) 0); lia.
  - destruct (Z.eqb_spec (Ppu.scanline (Bus.ppu m) * 341 + Ppu.cycle (Bus.ppu m)) 0); lia.
  - destruct (Z.eqb_spec (Ppu.scanline (Bus.ppu m) * 341 + Ppu.cycle (Bus.ppu m)) 0); lia.
Qed.

(** [# Advance counters]: one dot on, from the last dot of scanline 261
    back to cycle 0 of scanline 0, where [frame_complete] is raised and the
    frame parity flips. *)
Lemma emu_advance_counters_spec (m : Bus.state) :
  quiet m -> on_grid m ->
  exists m',
    advance_counters m = Ok (tt, m') /\ quiet m' /\ on_grid m' /\
    dot m' = (dot m + 1) mod 89342 /\
    Ppu.frame_complete (Bus.ppu m')
    = (Ppu.frame_complete (Bus.ppu m) || (dot m =? 89341)) /\
    Ppu.f (Bus.ppu m')
    = (if dot m =? 89341 then Z.lxor (Ppu.f (Bus.ppu m)) 1 else Ppu.f (Bus.ppu m)).
Proof.
  intros H [Hs Hc]. unfold advance_counters. PpuPortFacts.ppu_steps. emu_proj.
  unfold dot, on_grid.
  destruct (Z.gtb_spec (Ppu.cycle (Bus.ppu m) + 1) 340) as [G|G].
  - PpuPortFacts.ppu_steps. emu_proj.
    destruct (Z.gtb_spec (Ppu.scanline (Bus.ppu m) + 1) 261) as [G'|G'].
    + PpuPortFacts.ppu_steps. emu_proj.
      eexists. split; [reflexivity|]. emu_proj.
      split; [destruct H; split; emu_proj; assumption|]. split; [lia|].
      assert (Ed : Ppu.scanline (Bus.ppu m) * 341 + Ppu.cycle (Bus.ppu m) = 89341) by lia.
      rewrite Ed. split; [reflexivity|]. split; [now rewrite orb_true_r|reflexivity].
    + eexists. split; [reflexivity|]. emu_proj.
      split; [destruct H; split; emu_proj; assumption|]. split; [lia|].
      destruct (Z.eqb_spec (Ppu.scanline (Bus.ppu m) * 341 + Ppu.cycle (Bus.ppu m)) 89341);
        [lia|].
      split; [rewrite Z.mod_small by lia; lia|].
      split; [now rewrite orb_false_r|reflexivity].
  - eexists. split; [reflexivity|]. emu_proj.
    split; [destruct H; split; emu_proj; assumption|]. split; [lia|].
    destruct (Z.eqb_spec (Ppu.scanline (Bus.ppu m) * 341 + Ppu.cycle (Bus.ppu m)) 89341);
      [lia|].
    split; [rewrite Z.mod_small by lia; lia|].
    split; [now rewrite orb_false_r|reflexivity].
Qed.

(** One call of [clock], on an even frame or before the pre-render scanline. *)
Lemma ppu_clock_quiet (m : Bus.state) :
  quiet m -> on_grid m ->
  (Ppu.scanline (Bus.ppu m) = 261 -> Ppu.f (Bus.ppu m) = 0) ->
  exists m',
    ppu_clock m = Ok (tt, m') /\ quiet m' /\ on_grid m' /\
    dot m' = (worked_dot m + 1) mod 89342 /\
    Ppu.frame_complete (Bus.ppu m')
    = (Ppu.frame_complete (Bus.ppu m) || (worked_dot m =? 89341)) /\
    Ppu.f (Bus.ppu m')
    = (if worked_dot m =? 89341 then Z.lxor (Ppu.f (Bus.ppu m)) 1 else Ppu.f (Bus.ppu m)).
Proof.
  intros H Hg Hf. pose proof Hg as [Hs Hc].
  unfold ppu_clock. rewrite PpuPortFacts.ppu_get_bind.
  assert (Hphase : exists m1,
            (if between 0 (Ppu.scanline (Bus.ppu m)) 239 then visible_scanline
             else if Ppu.scanline (Bus.ppu m) =? 240 then ret tt
             else if between 241 (Ppu.scanline (Bus.ppu m)) 260 then vblank_scanlines
             else if Ppu.scanline (Bus.ppu m) =? 261 then prerender_scanline
             else ret tt) m = Ok (tt, m1) /\ worked m m1).
  { destruct (between 0 (Ppu.scanline (Bus.ppu m)) 239) eqn:E.
    - unfold between in E. apply andb_true_iff in E. destruct E as [E1 E2].
      apply Z.leb_le in E1. apply Z.leb_le in E2.
      now apply visible_scanline_quiet.
    - assert (Hpos : 0 < Ppu.scanline (Bus.ppu m) \/ 0 < Ppu.cycle (Bus.ppu m)).
      { left. unfold between in E. apply andb_false_iff in E.
        destruct E as [E|E]; apply Z.leb_gt in E; lia. }
      assert (Hcalm : forall c, calm c ->
                exists m1, c m = Ok (tt, m1) /\ worked m m1).
      { intros c Hcm. destruct (Hcm m H) as (m1 & E1 & Hq1 & Ht1).
        exists m1. split; [exact E1|]. now apply calm_worked. }
      destruct (Z.eqb_spec (Ppu.scanline (Bus.ppu m)) 240); [apply Hcalm, calm_ret|].
      destruct (between 241 (Ppu.scanline (Bus.ppu m)) 260);
        [apply Hcalm, vblank_scanlines_calm|].
      destruct (Z.eqb_spec (Ppu.scanline (Bus.ppu m)) 261) as [E261|E261];
        [|apply Hcalm, calm_ret].
      destruct (prerender_scanline_quiet m H (Hf E261)) as (m1 & E1 & Hq1 & Ht1).
      exists m1. split; [exact E1|]. now apply calm_worked. }
  destruct Hphase as (m1 & E1 & [Hq1 Ws Wc Wfc Wf]).
  rewrite (bind_eq _ _ _ _ _ E1).
  destruct (sprite_zero_hit_calm m1 Hq1) as (m2 & E2 & Hq2 & [Ts Tc Tfc Tf]).
  rewrite (bind_eq _ _ _ _ _ E2).
  assert (Hw : 0 <= worked_cycle m <= 340).
  { unfold worked_cycle.
    destruct ((Ppu.scanline (Bus.ppu m) =? 0) && (Ppu.cycle (Bus.ppu m) =? 0)); lia. }
  assert (Hg2 : on_grid m2).
  { unfold on_grid. rewrite Ts, Tc, Ws, Wc. split; assumption. }
  destruct (emu_advance_counters_spec m2 Hq2 Hg2) as (m' & Ea & Hq' & Hg' & Hd & Hfc & Hff).
  assert (Hd2 : dot m2 = worked_dot m).
  { unfold dot, worked_dot. now rewrite Ts, Tc, Ws, Wc. }
  rewrite Hd2 in Hd, Hfc, Hff. rewrite Tfc, Wfc in Hfc. rewrite Tf, Wf in Hff.
  exists m'. split; [exact Ea|]. split; [exact Hq'|]. split; [exact Hg'|].
  split; [exact Hd|]. split; [exact Hfc|exact Hff].
Qed.

Lemma emu_on_grid_dot (m : Bus.state) : on_grid m -> 0 <= dot m < 89342.
Proof. unfold on_grid, dot. lia. Qed.

(** [k] calls of [clock] in a row that stay within the first frame. *)
Lemma ppu_clocks_quiet (k : nat) : forall m : Bus.state,
  quiet m -> on_grid m -> Ppu.f (Bus.ppu m) = 0 ->
  1 <= dot m -> dot m + Z.of_nat k <= 89342 ->
  exists m',
    repeat_m k ppu_clock m = Ok (tt, m') /\ quiet m' /\ on_grid m' /\
    dot m' = (dot m + Z.of_nat k) mod 89342 /\
    Ppu.frame_complete (Bus.ppu m')
    = (Ppu.frame_complete (Bus.ppu m) || (89342 <=? dot m + Z.of_nat k)) /\
    (dot m + Z.of_nat k < 89342 -> Ppu.f (Bus.ppu m') = 0).
Proof.
  induction k as [|k IH]; intros m Hq Hg Hf Hd1 Hk; pose proof (emu_on_grid_dot m Hg) as Hd.
  - exists m. split; [reflexivity|]. split; [assumption|]. split; [assumption|].
    rewrite Z.add_0_r. split; [now rewrite Z.mod_small|].
    split; [|intros _; exact Hf].
    destruct (Z.leb_spec 89342 (dot m)); [lia|now rewrite orb_false_r].
  - rewrite Nat2Z.inj_succ in *.
    destruct (ppu_clock_quiet m Hq Hg (fun _ => Hf)) as (m1 & E1 & Hq1 & Hg1 & D1 & F1 & P1).
    rewrite (worked_dot_spec m Hg) in D1, F1, P1.
    destruct (Z.eqb_spec (dot m) 0) as [E0|_]; [lia|].
    change (repeat_m (S k) ppu_clock) with (ppu_clock ;; repeat_m k ppu_clock).
    rewrite (bind_eq _ _ _ _ _ E1).
    destruct (Z.eqb_spec (dot m) 89341) as [Elast|Enot].
    + (* the call that ends the frame: no call follows *)
      assert (Hk0 : k = O) by lia. subst k.
      exists m1. split; [reflexivity|]. split; [assumption|]. split; [assumption|].
      split; [rewrite D1; f_equal; lia|].
      split; [|lia].
      rewrite F1. destruct (Z.leb_spec 89342 (dot m + Z.succ (Z.of_nat 0))); [|lia].
      reflexivity.
    + rewrite Z.mod_small in D1 by lia.
      destruct (IH m1 Hq1 Hg1 ltac:(rewrite P1; exact Hf) ltac:(lia) ltac:(lia))
        as (m' & E' & Hq' & Hg' & D' & F' & P').
      exists m'. split; [exact E'|]. split; [assumption|]. split; [assumption|].
      split; [rewrite D', D1; f_equal; lia|].
      split.
      * rewrite F', F1, D1, orb_false_r. f_equal. f_equal. lia.
      * intros Hlt. apply P'. lia.
Qed.

(** The first call of [clock] on a fresh PPU works on cycle 1 and leaves
    the counters at cycle 2 of scanline 0. *)
Lemma ppu_clock_from_origin (m : Bus.state) :
  quiet m -> dot m = 0 -> on_grid m ->
  exists m',
    ppu_clock m = Ok (tt, m') /\ quiet m' /\ on_grid m' /\ dot m' = 2 /\
    Ppu.frame_complete (Bus.ppu m') = Ppu.frame_complete (Bus.ppu m) /\
    Ppu.f (Bus.ppu m') = Ppu.f (Bus.ppu m).
Proof.
  intros Hq Hd Hg.
  assert (Hs : Ppu.scanline (Bus.ppu m) <> 261) by (unfold dot, on_grid in *; lia).
  destruct (ppu_clock_quiet m Hq Hg ltac:(intros E; contradiction))
    as (m1 & E1 & Hq1 & Hg1 & D1 & F1 & P1).
  rewrite (worked_dot_spec m Hg), Hd in D1, F1, P1.
  exists m1. split; [exact E1|]. split; [assumption|]. split; [assumption|].
  split; [exact D1|]. split; [now rewrite F1, orb_false_r|exact P1].
Qed.

Lemma repeat_m_add (a b : nat) (c : Py unit) : forall m : Bus.state,
  repeat_m (a + b) c m = (repeat_m a c ;; repeat_m b c) m.
Proof.
  induction a as [|a IH]; intros m.
  - reflexivity.
  - cbn [repeat_m Nat.add]. rewrite CpuFacts.bind_bind.
    change ((c ;; repeat_m (a + b) c) m
            = (c ;; (repeat_m a c ;; repeat_m b c)) m).
    unfold bind at 1 2.
    destruct (c m) as [[u s]|e]; [apply IH|reflexivity].
Qed.

Lemma screen_dims_init : screen_dims (Ppu.screen PPU2C02_init).
Proof.
  split.
  - cbn [Ppu.screen PPU2C02_init]. now rewrite repeat_length.
  - cbn [Ppu.screen PPU2C02_init]. apply Forall_forall. intros row Hrow.
    apply repeat_spec in Hrow. subst row. now rewrite repeat_length.
Qed.

Lemma quiet_init (m : Bus.state) (c : Cartridge) (d0 d8 : Z) :
  Bus.ppu m = PPU2C02_init ->
  Bus.cart m = Some c ->
  cart_ppu_read c 0x0000 = Ok (Some d0) ->
  cart_ppu_read c 0x0008 = Ok (Some d8) ->
  quiet m.
Proof.
  intros Hp Hc H0 H8. split; rewrite ?Hp; try reflexivity.
  - apply screen_dims_init.
  - now exists c, d0, d8.
Qed.

(** The first frame of the EMUNES5 PPU.  From a freshly built PPU with a
    cartridge whose tile 0 can be read, 89341 calls of [clock] all return;
    [frame_complete] is clear after each of the first 89340 and set by the
    last, which brings the counters back to (0, 0); one call more works
    on cycle 1 and leaves them at (0, 2). *)
Lemma emunes5_first_frame (m : Bus.state) (c : Cartridge) (d0 d8 : Z) :
  Bus.ppu m = PPU2C02_init ->
  Bus.cart m = Some c ->
  cart_ppu_read c 0x0000 = Ok (Some d0) ->
  cart_ppu_read c 0x0008 = Ok (Some d8) ->
  (forall k : nat, Z.of_nat k < 89341 ->
     exists mk,
       repeat_m k ppu_clock m = Ok (tt, mk) /\
       Ppu.frame_complete (Bus.ppu mk) = false) /\
  exists m' m'',
    repeat_m (Z.to_nat 89341) ppu_clock m = Ok (tt, m') /\
    Ppu.frame_complete (Bus.ppu m') = true /\
    Ppu.scanline (Bus.ppu m') = 0 /\ Ppu.cycle (Bus.ppu m') = 0 /\
    repeat_m (Z.to_nat 89342) ppu_clock m = Ok (tt, m'') /\
    Ppu.frame_complete (Bus.ppu m'') = true /\
    Ppu.scanline (Bus.ppu m'') = 0 /\ Ppu.cycle (Bus.ppu m'') = 2.
Proof.
  intros Hp Hc H0 H8.
  pose proof (quiet_init m c d0 d8 Hp Hc H0 H8) as Hq.
  assert (Hs : Ppu.scanline (Bus.ppu m) = 0) by now rewrite Hp.
  assert (Hcy : Ppu.cycle (Bus.ppu m) = 0) by now rewrite Hp.
  assert (Hfc : Ppu.frame_complete (Bus.ppu m) = false) by now rewrite Hp.
  assert (Hf : Ppu.f (Bus.ppu m) = 0) by now rewrite Hp.
  assert (Hg : on_grid m) by (unfold on_grid; lia).
  assert (Hd : dot m = 0) by (unfold dot; lia).
  destruct (ppu_clock_from_origin m Hq Hd Hg) as (m1 & E1 & Hq1 & Hg1 & D1 & F1 & P1).
  rewrite Hfc in F1. rewrite Hf in P1.
  assert (Hrun : forall k : nat, Z.of_nat k <= 89340 ->
            exists mk,
              repeat_m (S k) ppu_clock m = Ok (tt, mk) /\ quiet mk /\ on_grid mk /\
              dot mk = (2 + Z.of_nat k) mod 89342 /\
              Ppu.frame_complete (Bus.ppu mk) = (89342 <=? 2 + Z.of_nat k)).
  { intros k Hk.
    destruct (ppu_clocks_quiet k m1 Hq1 Hg1 P1 ltac:(lia) ltac:(lia))
      as (mk & Ek & Hqk & Hgk & Dk & Fk & _).
    exists mk. split.
    { change (repeat_m (S k) ppu_clock) with (ppu_clock ;; repeat_m k ppu_clock).
      now rewrite (bind_eq _ _ _ _ _ E1). }
    split; [assumption|]. split; [assumption|].
    rewrite D1 in Dk, Fk. rewrite F1 in Fk. now split. }
  split.
  - intros [|k] Hk.
    + exists m. split; [reflexivity|exact Hfc].
    + destruct (Hrun k ltac:(lia)) as (mk & Ek & _ & _ & _ & Fk).
      exists mk. split; [exact Ek|]. rewrite Fk.
      destruct (Z.leb_spec 89342 (2 + Z.of_nat k)); [lia|reflexivity].
  - destruct (Hrun (Z.to_nat 89340) ltac:(lia)) as (m' & E' & Hq' & Hg' & D' & F').
    rewrite Z2Nat.id in D', F' by lia.
    change ((2 + 89340) mod 89342) with 0 in D'.
    change (89342 <=? 2 + 89340) with true in F'.
    replace (S (Z.to_nat 89340)) with (Z.to_nat 89341) in E' by lia.
    assert (Hs' : Ppu.scanline (Bus.ppu m') = 0) by (unfold dot, on_grid in *; lia).
    assert (Hc' : Ppu.cycle (Bus.ppu m') = 0) by (unfold dot, on_grid in *; lia).
    destruct (ppu_clock_from_origin m' Hq' D' Hg')
      as (m'' & E'' & Hq'' & Hg'' & D'' & F'' & _).
    exists m', m''. split; [exact E'|]. split; [exact F'|].
    split; [exact Hs'|]. split; [exact Hc'|].
    split.
    { replace (Z.to_nat 89342) with (Z.to_nat 89341 + 1)%nat by lia.
      rewrite repeat_m_add. rewrite (bind_eq _ _ _ _ _ E').
      cbn [repeat_m]. now rewrite (bind_eq _ _ _ _ _ E''). }
    split; [now rewrite F''|].
    unfold dot, on_grid in *. lia.
Qed.

End EmuFrameFacts.

(** * Where the variants differ: frame length, branch cycles, palette aliases *)

Module VariantFacts.
Import EMUNES5.

(** C4 as stated fails on the EMUNES5 PPU.  On a freshly built machine
    with the empty CHR-RAM cartridge, 262 x 341 = 89342 calls of [clock]
    leave the counters at cycle 2 of scanline 0, not at the initial pair
    (0, 0): the call on (0, 0) works on cycle 1 ("Skip cycle 0"), so the
    frame was over one call earlier. *)
Lemma emunes5_counters_after_89342_clocks :
  Bus.ppu PpuBusFacts.blank_machine = PPU2C02_init /\
  Ppu.scanline (Bus.ppu PpuBusFacts.blank_machine) = 0 /\
  Ppu.cycle (Bus.ppu PpuBusFacts.blank_machine) = 0 /\
  exists m',
    repeat_m (Z.to_nat (262 * 341)) ppu_clock PpuBusFacts.blank_machine = Ok (tt, m') /\
    Ppu.scanline (Bus.ppu m') = 0 /\
    Ppu.cycle (Bus.ppu m') = 2.
Proof.
  split; [reflexivity|]. split; [reflexivity|]. split; [reflexivity|].
  destruct (EmuFrameFacts.emunes5_first_frame PpuBusFacts.blank_machine
              PpuBusFacts.blank_cart 0 0 eq_refl eq_refl eq_refl eq_refl)
    as (_ & m' & m'' & _ & _ & _ & _ & E & _ & Hs & Hc).
  exists m''. change (262 * 341) with 89342.
  split; [exact E|]. split; [exact Hs|exact Hc].
Qed.

(** C4.  From a freshly built PPU (scanline 0, cycle 0) the calls of
    [clock] of one frame all return, [frame_complete] is clear until the
    last of them sets it, and that call brings the scanline and cycle
    counters back to (0, 0).  In MonikaNES the frame is 262 x 341 = 89342
    calls, whatever the rest of the machine.  In EMUNES5, with a cartridge
    whose pattern bytes 0x0000 and 0x0008 can be read, the call on (0, 0)
    skips cycle 0, and the frame is 89341 calls. *)
Theorem frame_length_in_both_variants
        (mk : MonikaNES.Bus.state) (m : Bus.state) (c : Cartridge) (d0 d8 : Z) :
  MonikaNES.Bus.ppu mk = MonikaNES.PPU2C02_init ->
  Bus.ppu m = PPU2C02_init ->
  Bus.cart m = Some c ->
  cart_ppu_read c 0x0000 = Ok (Some d0) ->
  cart_ppu_read c 0x0008 = Ok (Some d8) ->
  ((forall k : nat, Z.of_nat k < 262 * 341 ->
      exists s,
        repeat_m k MonikaNES.ppu_clock mk = Ok (tt, s) /\
        MonikaNES.Ppu.frame_complete (MonikaNES.Bus.ppu s) = false) /\
   exists mk',
     repeat_m (Z.to_nat (262 * 341)) MonikaNES.ppu_clock mk = Ok (tt, mk') /\
     MonikaNES.Ppu.frame_complete (MonikaNES.Bus.ppu mk') = true /\
     MonikaNES.Ppu.scanline (MonikaNES.Bus.ppu mk')
     = MonikaNES.Ppu.scanline (MonikaNES.Bus.ppu mk) /\
     MonikaNES.Ppu.cycle (MonikaNES.Bus.ppu mk')
     = MonikaNES.Ppu.cycle (MonikaNES.Bus.ppu mk) /\
     MonikaNES.Ppu.scanline (MonikaNES.Bus.ppu mk) = 0 /\
     MonikaNES.Ppu.cycle (MonikaNES.Bus.ppu mk) = 0) /\
  ((forall k : nat, Z.of_nat k < 262 * 341 - 1 ->
      exists s,
        repeat_m k ppu_clock m = Ok (tt, s) /\
        Ppu.frame_complete (Bus.ppu s) = false) /\
   exists m',
     repeat_m (Z.to_nat (262 * 341 - 1)) ppu_clock m = Ok (tt, m') /\
     Ppu.frame_complete (Bus.ppu m') = true /\
     Ppu.scanline (Bus.ppu m') = Ppu.scanline (Bus.ppu m) /\
     Ppu.cycle (Bus.ppu m') = Ppu.cycle (Bus.ppu m) /\
     Ppu.scanline (Bus.ppu m) = 0 /\
     Ppu.cycle (Bus.ppu m) = 0).
Proof.
  intros Hmk Hp Hc H0 H8.
  split; [exact (MonikaFacts.one_frame_of_ppu_clocks mk Hmk)|].
  destruct (EmuFrameFacts.emunes5_first_frame m c d0 d8 Hp Hc H0 H8)
    as (Hbefore & m' & _ & E & Hfc & Hs & Hcy & _).
  change (262 * 341 - 1) with 89341.
  split; [exact Hbefore|].
  exists m'. split; [exact E|]. split; [exact Hfc|].
  rewrite Hp. split; [exact Hs|]. split; [exact Hcy|]. split; reflexivity.
Qed.

Lemma frame_length_in_both_variants_witness :
  MonikaNES.Bus.ppu MonikaNES.Bus_init = MonikaNES.PPU2C02_init /\
  Bus.ppu PpuBusFacts.blank_machine = PPU2C02_init /\
  Bus.cart PpuBusFacts.blank_machine = Some PpuBusFacts.blank_cart /\
  cart_ppu_read PpuBusFacts.blank_cart 0x0000 = Ok (Some 0) /\
  cart_ppu_read PpuBusFacts.blank_cart 0x0008 = Ok (Some 0) /\
  exists m',
    repeat_m (Z.to_nat (262 * 341 - 1)) ppu_clock PpuBusFacts.blank_machine = Ok (tt, m') /\
    Ppu.frame_complete (Bus.ppu m') = true /\
    Ppu.scanline (Bus.ppu m') = 0 /\
    Ppu.cycle (Bus.ppu m') = 0.
Proof.
  assert (H0 : MonikaNES.Bus.ppu MonikaNES.Bus_init = MonikaNES.PPU2C02_init)
    by reflexivity.
  assert (H1 : Bus.ppu PpuBusFacts.blank_machine = PPU2C02_init) by reflexivity.
  assert (H2 : Bus.cart PpuBusFacts.blank_machine = Some PpuBusFacts.blank_cart)
    by reflexivity.
  assert (H3 : cart_ppu_read PpuBusFacts.blank_cart 0x0000 = Ok (Some 0))
    by reflexivity.
  assert (H4 : cart_ppu_read PpuBusFacts.blank_cart 0x0008 = Ok (Some 0))
    by reflexivity.
  split; [exact H0|]. split; [exact H1|]. split; [exact H2|].
  split; [exact H3|]. split; [exact H4|].
  destruct (frame_length_in_both_variants MonikaNES.Bus_init PpuBusFacts.blank_machine
              PpuBusFacts.blank_cart 0 0 H0 H1 H2 H3 H4)
    as (_ & _ & m' & E & Hfc & Hs & Hc & Hs0 & Hc0).
  exists m'. rewrite Hs0 in Hs. rewrite Hc0 in Hc.
  split; [exact E|]. split; [exact Hfc|]. split; [exact Hs|exact Hc].
Defined.

(** ** Branch cycles *)

(** The EMUNES5 machine with the registers of
    [MonikaPpuFacts.monika_branch_machine]: Z clear, the PC at 0x00F0 and
    a forward offset of 0x20, which leads to the next page. *)
Definition emunes5_branch_machine : Bus.state :=
  Bus.set_cpu (Cpu.set_addr_rel 0x20 (Cpu.set_pc 0x00F0 CPU6502_init)) Bus_init.

(** C6.  The same taken branch across a page boundary in the two
    variants: [BNE] at PC 0x00F0 with offset 0x20 goes to 0x0110 in both;
    EMUNES5's [_branch] adds 2 cycles to the counter (1 for the branch and
    1 for the page), MonikaNES's [branch] adds 3 (1 and then 2 under the
    comment "Add another cycle for page crossing"). *)
Theorem monika_branch_page_cross_adds_3_cycles :
  (exists m',
     BNE emunes5_branch_machine = Ok (0, m') /\
     Cpu.pc (Bus.cpu m') = 0x0110 /\
     Cpu.cycles (Bus.cpu m') = Cpu.cycles (Bus.cpu emunes5_branch_machine) + 2) /\
  (exists mk',
     MonikaNES.BNE MonikaPpuFacts.monika_branch_machine = Ok (0, mk') /\
     MonikaNES.Cpu.pc (MonikaNES.Bus.cpu mk') = 0x0110 /\
     MonikaNES.Cpu.cycles (MonikaNES.Bus.cpu mk')
     = MonikaNES.Cpu.cycles (MonikaNES.Bus.cpu MonikaPpuFacts.monika_branch_machine) + 3).
Proof.
  split.
  - eexists. split; [reflexivity|]. split; reflexivity.
  - eexists. split; [reflexivity|]. split; reflexivity.
Qed.

(** ** Palette aliases *)

(** C7 as stated fails on the MonikaNES bus: entries 0x04 and 0x00 are no
    alias pair of the claim, and yet on the freshly built machine a write
    of 0x2A through 0x3F04 changes what 0x3F00 reads, from 0x00 to 0x2A. *)
Lemma monika_write_to_0x3F04_changes_0x3F00 :
  PaletteMirrorFacts.same_entry 0x04 0x00 = false /\
  MonikaNES.bus_ppu_read 0x3F00 MonikaNES.Bus_init = Ok (0x00, MonikaNES.Bus_init) /\
  exists mk',
    MonikaNES.bus_ppu_write 0x3F04 0x2A MonikaNES.Bus_init = Ok (tt, mk') /\
    MonikaNES.bus_ppu_read 0x3F00 mk' = Ok (0x2A, mk').
Proof.
  split; [reflexivity|]. split; [reflexivity|].
  eexists. split; reflexivity.
Qed.

(** C7.  The palette RAM has 32 entries, and a write of [d] through
    palette address 0x3F00+i stores [d & 0x3F].  In EMUNES5 the write is
    seen by a read through 0x3F00+j exactly when [j] is [i] or the entry
    paired with [i] (0x10, 0x14, 0x18, 0x1C with 0x00, 0x04, 0x08, 0x0C).
    In MonikaNES it is seen exactly when [i] and [j] are the same entry
    once 0x04, 0x08, 0x0C, 0x10, 0x14, 0x18 and 0x1C are all folded onto
    0x00.  In both, a read through any other entry returns what it
    returned before the write. *)
Theorem palette_aliases_in_both_variants
        (m : Bus.state) (mk : MonikaNES.Bus.state) (i j d : Z) :
  length (Ppu.palette_ram (Bus.ppu m)) = 32%nat ->
  length (MonikaNES.Ppu.palette_ram (MonikaNES.Bus.ppu mk)) = 32%nat ->
  0 <= i < 32 -> 0 <= j < 32 ->
  (exists m' before,
     bus_ppu_read (0x3F00 + j) m = Ok (before, m) /\
     bus_ppu_write (0x3F00 + i) d m = Ok (tt, m') /\
     length (Ppu.palette_ram (Bus.ppu m')) = 32%nat /\
     bus_ppu_read (0x3F00 + j) m'
     = Ok (if PaletteMirrorFacts.same_entry i j then Z.land d 0x3F else before, m')) /\
  (exists mk' before,
     MonikaNES.bus_ppu_read (0x3F00 + j) mk = Ok (before, mk) /\
     MonikaNES.bus_ppu_write (0x3F00 + i) d mk = Ok (tt, mk') /\
     length (MonikaNES.Ppu.palette_ram (MonikaNES.Bus.ppu mk')) = 32%nat /\
     MonikaNES.bus_ppu_read (0x3F00 + j) mk'
     = Ok (if MonikaPpuFacts.folded i =? MonikaPpuFacts.folded j
           then Z.land d 0x3F else before, mk')).
Proof.
  intros Hlen Hlenk Hi Hj.
  split; [exact (PaletteMirrorFacts.palette_aliases m i j d Hlen Hi Hj)|].
  destruct (MonikaPpuFacts.mk_bus_ppu_read_palette_entry mk j Hj Hlenk) as [e [En Er]].
  set (mk' := MonikaPpuFacts.mk_palette_stored mk (MonikaPpuFacts.folded i) (Z.land d 0x3F)).
  exists mk', (Z.land e 0x3F).
  split; [exact Er|].
  split; [now apply MonikaPpuFacts.mk_bus_ppu_write_palette|].
  assert (Hlen' : length (MonikaNES.Ppu.palette_ram (MonikaNES.Bus.ppu mk')) = 32%nat).
  { subst mk'. unfold MonikaPpuFacts.mk_palette_stored.
    cbn [MonikaNES.Bus.ppu MonikaNES.Bus.set_ppu MonikaNES.Ppu.palette_ram
         MonikaNES.Ppu.set_palette_ram].
    rewrite length_list_update. exact Hlenk. }
  split; [exact Hlen'|].
  destruct (MonikaPpuFacts.mk_bus_ppu_read_palette_entry mk' j Hj Hlen') as [e' [En' Er']].
  rewrite Er'. f_equal. f_equal.
  subst mk'. unfold MonikaPpuFacts.mk_palette_stored in En'.
  cbn [MonikaNES.Bus.ppu MonikaNES.Bus.set_ppu MonikaNES.Ppu.palette_ram
       MonikaNES.Ppu.set_palette_ram] in En'.
  pose proof (MonikaPpuFacts.folded_bound i Hi) as Bi.
  pose proof (MonikaPpuFacts.folded_bound j Hj) as Bj.
  destruct (Z.eqb_spec (MonikaPpuFacts.folded i) (MonikaPpuFacts.folded j)) as [E|E].
  - rewrite E in En'. rewrite nth_error_list_update_eq in En' by (rewrite Hlenk; lia).
    inversion En'. rewrite <- Z.land_assoc. now rewrite Z.land_diag.
  - rewrite nth_error_list_update_neq in En' by lia. congruence.
Qed.

Lemma palette_aliases_in_both_variants_witness :
  length (Ppu.palette_ram (Bus.ppu Bus_init)) = 32%nat /\
  length (MonikaNES.Ppu.palette_ram (MonikaNES.Bus.ppu MonikaNES.Bus_init)) = 32%nat /\
  0 <= 0x14 < 32 /\ 0 <= 0x04 < 32 /\
  (exists m' before,
     bus_ppu_read (0x3F00 + 0x04) Bus_init = Ok (before, Bus_init) /\
     bus_ppu_write (0x3F00 + 0x14) 0x2A Bus_init = Ok (tt, m') /\
     length (Ppu.palette_ram (Bus.ppu m')) = 32%nat /\
     bus_ppu_read (0x3F00 + 0x04) m'
     = Ok (if PaletteMirrorFacts.same_entry 0x14 0x04
           then Z.land 0x2A 0x3F else before, m')) /\
  (exists mk' before,
     MonikaNES.bus_ppu_read (0x3F00 + 0x04) MonikaNES.Bus_init
     = Ok (before, MonikaNES.Bus_init) /\
     MonikaNES.bus_ppu_write (0x3F00 + 0x14) 0x2A MonikaNES.Bus_init = Ok (tt, mk') /\
     length (MonikaNES.Ppu.palette_ram (MonikaNES.Bus.ppu mk')) = 32%nat /\
     MonikaNES.bus_ppu_read (0x3F00 + 0x04) mk'
     = Ok (if MonikaPpuFacts.folded 0x14 =? MonikaPpuFacts.folded 0x04
           then Z.land 0x2A 0x3F else before, mk')).
Proof.
  assert (H0 : length (Ppu.palette_ram (Bus.ppu Bus_init)) = 32%nat) by reflexivity.
  assert (H1 : length (MonikaNES.Ppu.palette_ram (MonikaNES.Bus.ppu MonikaNES.Bus_init))
               = 32%nat) by reflexivity.
  assert (H2 : 0 <= 0x14 < 32) by lia.
  assert (H3 : 0 <= 0x04 < 32) by lia.
  split; [exact H0|]. split; [exact H1|]. split; [exact H2|]. split; [exact H3|].
  exact (palette_aliases_in_both_variants Bus_init MonikaNES.Bus_init 0x14 0x04 0x2A
           H0 H1 H2 H3).
Defined.

End VariantFacts.
